(** * pcs cluster commands: setup options, configuration builders,
      quorum checks, membership changes and start-up waiting

    A shallow embedding of [pcs/cluster.py].  Python dictionaries keyed by
    strings are stdpp [gmap]s, heterogeneous dictionaries with a fixed key
    set are records with optional fields, and the commands that talk to
    other nodes are written in a small trace-and-exit monad. *)

From Stdlib Require Import ZArith List Ascii String Bool Lia DecimalString.
From stdpp Require Import base option list gmap strings.
Import ListNotations.
Local Open Scope string_scope.
Local Open Scope list_scope.

(** ** Python helpers *)

Module Py.

(** [k in d] for a dictionary. *)
Definition has_key {V} (k : string) (d : gmap string V) : bool :=
  match d !! k with Some _ => true | None => false end.

(** [x in (a, b, ...)] for a tuple of strings. *)
Definition in_tuple (x : string) (t : list string) : bool :=
  existsb (String.eqb x) t.

(** ["{0}".format(n)] for a non-negative integer. *)
Definition str_of_nat (n : nat) : string :=
  NilZero.string_of_uint (Nat.to_uint n).

(** Truth value of a string: only the empty string is false. *)
Definition truthy_str (s : string) : bool :=
  match s with EmptyString => false | _ => true end.

(** [s.strip()]: without leading and trailing whitespace.  A character
    stands for a code point below 256; those of [str.isspace] are the
    space, tab to carriage return, the four separators 28 to 31, next
    line and the no-break space. *)
Definition is_space (c : ascii) : bool :=
  existsb (Ascii.eqb c)
    [" "; "009"; "010"; "011"; "012"; "013"; "028"; "029"; "030"; "031";
     "133"; "160"]%char.

Fixpoint lstrip (s : string) : string :=
  match s with
  | String c s' => if is_space c then lstrip s' else s
  | EmptyString => s
  end.

Fixpoint rstrip (s : string) : string :=
  match s with
  | String c s' =>
      match rstrip s' with
      | EmptyString => if is_space c then EmptyString else String c EmptyString
      | t => String c t
      end
  | EmptyString => s
  end.

Definition strip (s : string) : string := rstrip (lstrip s).

(** [enumerate(l, start)]. *)
Fixpoint enumerate {A} (start : nat) (l : list A) : list (nat * A) :=
  match l with
  | [] => []
  | x :: l' => (start, x) :: enumerate (S start) l'
  end.

End Py.

(** ** Library reports ([pcs.lib.reports]): only their constructors are
    used by this file; the arguments are the ones passed at the call. *)

(** [pcs.lib.errors.ReportItemSeverity] *)
Inductive ReportItemSeverity := ERROR | WARNING.

(** [pcs.common.report_codes], the one code used here. *)
Inductive report_code := FORCE_OPTIONS.

Inductive report_item :=
| invalid_option_value (option_name option_value : string)
    (allowed_values : list string)
    (severity : option ReportItemSeverity) (forceable : option report_code)
| rrp_addresses_transport_mismatch
| rrp_active_not_supported (warning : bool)
| cman_broadcast_all_rings
| cman_udpu_restart_required
| cman_ignored_option (option_name : string)
| common_info (text : string)
| common_error (text : string).

(** ** Parsed setup options *)

(** One entry of [transport_options["rings_options"]]; a missing key is
    [None]. *)
Record ring_options := {
  ring_addr : option string;
  ring_broadcast : option bool;
  ring_mcastaddr : option string;
  ring_mcastport : option string;
  ring_ttl : option string
}.

(** [parsed["transport_options"]]; ["rings_options"] is set by both
    parsers, so it is a plain list here. *)
Record transport_options := {
  rings_options : list ring_options;
  transport : option string;
  rrp_mode : option string;
  ip_version : option string;
  broadcast : option bool
}.

(** The dictionary [parsed]; the cman parser has no ["quorum_options"]. *)
Record parsed_options := {
  parsed_transport : transport_options;
  totem_options : gmap string string;
  quorum_options : option (gmap string string)
}.

(** [transport_options["rrp_mode"] = v] *)
Definition set_rrp_mode (v : string) (t : transport_options)
  : transport_options :=
  {| rings_options := rings_options t; transport := transport t;
     rrp_mode := Some v; ip_version := ip_version t;
     broadcast := broadcast t |}.

(** [for opt_name, parsed_name in names.items(): if opt_name in options:
    target[parsed_name] = options[opt_name]] *)
Definition copy_named (names : list (string * string))
    (options : gmap string string) : gmap string string :=
  fold_left
    (fun acc '(opt_name, parsed_name) =>
       match options !! opt_name with
       | Some v => <[parsed_name := v]> acc
       | None => acc
       end)
    names ∅.

(** ["--name{0}".format(interface)] *)
Definition ring_opt (base : string) (interface : nat) : string :=
  base +:+ Py.str_of_nat interface.

(** ["239.255.{0}.1".format(interface + 1)] *)
Definition default_mcastaddr (interface : nat) : string :=
  "239.255." +:+ Py.str_of_nat (interface + 1) +:+ ".1".

(** The part shared by both parsers (lines 456-473 and 578-595): the RRP
    mode and the reports about it. *)
Definition parse_rrpmode (options : gmap string string) (force : bool)
    (messages : list report_item) : option string * list report_item :=
  let severity := if force then WARNING else ERROR in
  let forceable := if force then None else Some FORCE_OPTIONS in
  if Py.has_key "--rrpmode" options || Py.has_key "--addr0" options then
    let rrpmode := default "passive" (options !! "--rrpmode") in
    let allowed_rrpmode := ["passive"; "active"] in
    let messages :=
      if negb (Py.in_tuple rrpmode allowed_rrpmode)
      then messages ++ [invalid_option_value "RRP mode" rrpmode
                          allowed_rrpmode (Some severity) forceable]
      else messages in
    let messages :=
      if String.eqb rrpmode "active"
      then messages ++ [rrp_active_not_supported force]
      else messages in
    (Some rrpmode, messages)
  else (None, messages).

(** [if rrpmode: parsed["transport_options"]["rrp_mode"] = rrpmode] *)
Definition rrp_mode_entry (rrpmode : option string) : option string :=
  match rrpmode with
  | Some m => if Py.truthy_str m then Some m else None
  | None => None
  end.

(** The dictionary [ring_options] of one pass of the loop of lines
    493-511.  An interface of [interface_ids] has its [--addr] option, so
    the subscript of line 495 finds it. *)
Definition corosync_ring_options (options : gmap string string)
    (interface : nat) : ring_options :=
  if Py.has_key (ring_opt "--broadcast" interface) options then
    {| ring_addr := options !! ring_opt "--addr" interface;
       ring_broadcast := Some true;
       ring_mcastaddr := None; ring_mcastport := None; ring_ttl := None |}
  else
    {| ring_addr := options !! ring_opt "--addr" interface;
       ring_broadcast := None;
       ring_mcastaddr :=
         Some (default (default_mcastaddr interface)
                       (options !! ring_opt "--mcast" interface));
       ring_mcastport :=
         Some (default "5405" (options !! ring_opt "--mcastport" interface));
       ring_ttl := options !! ring_opt "--ttl" interface |}.

(** [interface_ids] (lines 488-492), for the [udp] transport. *)
Definition corosync_interface_ids (options : gmap string string) : list nat :=
  if Py.has_key "--addr0" options
  then 0%nat :: (if Py.has_key "--addr1" options then [1%nat] else [])
  else [].

(** Lines 428-534.  The assignments to [messages] and [parsed] are
    threaded through; the two dictionaries of names are walked in the
    order they are written, which does not matter as their targets
    differ. *)
Definition cluster_setup_parse_options_corosync
    (options : gmap string string) (force : bool)
  : parsed_options * list report_item :=
  let messages := [] in
  let severity := if force then WARNING else ERROR in
  let forceable := if force then None else Some FORCE_OPTIONS in
  let allowed_transport := ["udp"; "udpu"] in
  let '(transport_v, messages) :=
    match options !! "--transport" with
    | Some t =>
        (t, if negb (Py.in_tuple t allowed_transport)
            then messages ++ [invalid_option_value "transport" t
                                allowed_transport (Some severity) forceable]
            else messages)
    | None => ("udpu", messages)
    end in
  let messages :=
    if String.eqb transport_v "udpu"
       && (Py.has_key "--addr0" options || Py.has_key "--addr1" options)
    then messages ++ [rrp_addresses_transport_mismatch]
    else messages in
  let '(rrpmode, messages) := parse_rrpmode options force messages in
  let totem :=
    copy_named [("--token", "token");
                ("--token_coefficient", "token_coefficient");
                ("--join", "join"); ("--consensus", "consensus");
                ("--miss_count_const", "miss_count_const");
                ("--fail_recv_const", "fail_recv_const")] options in
  let rings :=
    if String.eqb transport_v "udp"
    then map (corosync_ring_options options) (corosync_interface_ids options)
    else [] in
  let quorum :=
    copy_named [("--wait_for_all", "wait_for_all");
                ("--auto_tie_breaker", "auto_tie_breaker");
                ("--last_man_standing", "last_man_standing");
                ("--last_man_standing_window", "last_man_standing_window")]
      options in
  let messages :=
    fold_left
      (fun msgs opt_name =>
         match options !! opt_name with
         | Some v =>
             if negb (Py.in_tuple v ["0"; "1"])
             then msgs ++ [invalid_option_value opt_name v ["0"; "1"]
                             None None]
             else msgs
         | None => msgs
         end)
      ["--wait_for_all"; "--auto_tie_breaker"; "--last_man_standing"]
      messages in
  ({| parsed_transport :=
        {| rings_options := rings;
           transport := Some transport_v;
           rrp_mode := rrp_mode_entry rrpmode;
           ip_version :=
             if Py.has_key "--ipv6" options then Some "ipv6" else None;
           broadcast := None |};
      totem_options := totem;
      quorum_options := Some quorum |},
   messages).

(** The dictionary [ring_options] of one pass of the loop of lines
    609-624: no multicast port unless [--mcastport] is given. *)
Definition cman_ring_options (options : gmap string string)
    (interface : nat) : ring_options :=
  {| ring_addr := None;
     ring_broadcast := None;
     ring_mcastaddr :=
       Some (default (default_mcastaddr interface)
                     (options !! ring_opt "--mcast" interface));
     ring_mcastport := options !! ring_opt "--mcastport" interface;
     ring_ttl := options !! ring_opt "--ttl" interface |}.

(** The interfaces of [(0, 1)] that the loop of lines 609-611 does not
    skip. *)
Definition cman_interface_ids (options : gmap string string) : list nat :=
  List.filter (fun interface => Py.has_key (ring_opt "--addr" interface) options)
    [0%nat; 1%nat].

(** Lines 536-638. *)
Definition cluster_setup_parse_options_cman
    (options : gmap string string) (force : bool)
  : parsed_options * list report_item :=
  let messages := [] in
  let severity := if force then WARNING else ERROR in
  let forceable := if force then None else Some FORCE_OPTIONS in
  let allowed_transport := ["udp"; "udpu"] in
  let is_broadcast :=
    Py.has_key "--broadcast0" options || Py.has_key "--broadcast1" options in
  let '(transport_v, messages) :=
    if is_broadcast then
      let ring_missing_broadcast : option string := None in
      let ring_missing_broadcast :=
        if negb (Py.has_key "--broadcast0" options) then Some "0"
        else ring_missing_broadcast in
      let ring_missing_broadcast :=
        if negb (Py.has_key "--broadcast1" options) then Some "1"
        else ring_missing_broadcast in
      ("udpb",
       match ring_missing_broadcast with
       | Some _ => messages ++ [cman_broadcast_all_rings]
       | None => messages
       end)
    else
      match options !! "--transport" with
      | Some t =>
          (t, if negb (Py.in_tuple t allowed_transport)
              then messages ++ [invalid_option_value "transport" t
                                  allowed_transport (Some severity) forceable]
              else messages)
      | None => ("udp", messages)
      end in
  let messages :=
    if String.eqb transport_v "udpu"
    then messages ++ [cman_udpu_restart_required] else messages in
  let messages :=
    if String.eqb transport_v "udpu"
       && (Py.has_key "--addr0" options || Py.has_key "--addr1" options)
    then messages ++ [rrp_addresses_transport_mismatch]
    else messages in
  let '(rrpmode, messages) := parse_rrpmode options force messages in
  let totem :=
    copy_named [("--token", "token"); ("--join", "join");
                ("--consensus", "consensus");
                ("--miss_count_const", "miss_count_const");
                ("--fail_recv_const", "fail_recv_const")] options in
  let rings :=
    if is_broadcast then []
    else map (cman_ring_options options) (cman_interface_ids options) in
  let messages :=
    fold_left
      (fun msgs opt_name =>
         if Py.has_key opt_name options
         then msgs ++ [cman_ignored_option opt_name] else msgs)
      ["--wait_for_all"; "--auto_tie_breaker"; "--last_man_standing";
       "--last_man_standing_window"; "--token_coefficient"; "--ipv6"]
      messages in
  ({| parsed_transport :=
        {| rings_options := rings;
           transport := Some transport_v;
           rrp_mode := rrp_mode_entry rrpmode;
           ip_version := None;
           broadcast := if is_broadcast then Some true else None |};
      totem_options := totem;
      quorum_options := None |},
   messages).

(** ** The corosync.conf tree ([pcs.lib.corosync.config_parser.Section])

    The builder only calls [Section(name)], [add_attribute] and
    [add_section]; both append, so a section is its name, its attribute
    list and its sub-section list, each in insertion order. *)

(** An attribute value: a string or, for [ringnumber] and [nodeid], an
    integer. *)
Inductive attr_value := AStr (s : string) | AInt (n : nat).

#[warnings="-register-all"]
Inductive Section := mkSection {
  sec_name : string;
  sec_attrs : list (string * attr_value);
  sec_sections : list Section
}.

(** [str(value)], as the export formats it. *)
Definition str_of_value (v : attr_value) : string :=
  match v with AStr s => s | AInt n => Py.str_of_nat n end.

(** Modelled from the spec: the text export of [Section] lives in
    [pcs.lib.corosync.config_parser], which is not part of this file.  A
    section is [name {], its attribute lines [key: value], its nested
    section blocks, then [}]; the unnamed root shows its content only. *)
Definition attr_line (a : string * attr_value) : string :=
  fst a +:+ ": " +:+ str_of_value (snd a).

(** The block of a named section. *)
Fixpoint export_block (s : Section) : list string :=
  (sec_name s +:+ " {")
    :: map attr_line (sec_attrs s)
    ++ flat_map export_block (sec_sections s)
    ++ ["}"].

(** The lines of the whole file. *)
Definition export_lines (root : Section) : list string :=
  map attr_line (sec_attrs root) ++ flat_map export_block (sec_sections root).

(** [str(corosync_conf)]: the lines, each ended by a newline. *)
Definition export (root : Section) : string :=
  fold_right (fun line rest => line +:+ String "010"%char rest) EmptyString
    (export_lines root).

(** [if name in d: section.add_attribute(name, d[name])] for a record
    field and for each name of a tuple. *)
Definition opt_attr (name : string) (v : option string)
  : list (string * attr_value) :=
  match v with Some s => [(name, AStr s)] | None => [] end.

Definition named_attrs (names : list string) (d : gmap string string)
  : list (string * attr_value) :=
  flat_map (fun name => opt_attr name (d !! name)) names.

(** Lines 688-703: the [interface] section of a ring. *)
Definition interface_section (ring_number : nat) (ro : ring_options)
  : Section :=
  mkSection "interface"
    ([("ringnumber", AInt ring_number)]
       ++ opt_attr "bindnetaddr" (ring_addr ro)
       ++ match ring_broadcast ro with
          | Some true => [("broadcast", AStr "yes")]
          | _ => opt_attr "mcastaddr" (ring_mcastaddr ro)
                   ++ opt_attr "mcastport" (ring_mcastport ro)
                   ++ opt_attr "ttl" (ring_ttl ro)
          end)
    [].

(** Lines 706-711: the [node] section of a node. *)
Definition node_section (node_id : nat) (node_options : gmap string string)
  : Section :=
  mkSection "node"
    (named_attrs ["ring0_addr"; "ring1_addr"] node_options
       ++ [("nodeid", AInt node_id)])
    [].

(** Lines 723-727: [auto_tie_breaker]. *)
Definition auto_tie_breaker_on (quorum : gmap string string) : bool :=
  match quorum !! "auto_tie_breaker" with
  | Some v => String.eqb v "1"
  | None => false
  end.

(** Lines 655-703: the [totem] section. *)
Definition totem_section (cluster_name : string) (t : transport_options)
    (totem : gmap string string) : Section :=
  mkSection "totem"
    ([("version", AStr "2"); ("secauth", AStr "off");
      ("cluster_name", AStr cluster_name)]
       ++ (opt_attr "transport" (transport t)
             ++ opt_attr "rrp_mode" (rrp_mode t)
             ++ opt_attr "ip_version" (ip_version t))
       ++ named_attrs ["token"; "token_coefficient"; "join"; "consensus";
                       "miss_count_const"; "fail_recv_const"] totem)
    (match transport t with
     | Some tr =>
         if String.eqb tr "udp"
         then map (fun '(ring_number, ro) => interface_section ring_number ro)
                (Py.enumerate 0 (rings_options t))
         else []
     | None => []
     end).

(** Lines 705-711: the [nodelist] section. *)
Definition nodelist_section (node_list : list (gmap string string))
  : Section :=
  mkSection "nodelist" []
    (map (fun '(node_id, node_options) => node_section node_id node_options)
       (Py.enumerate 1 node_list)).

(** Lines 713-729: the [quorum] section. *)
Definition quorum_section (node_list : list (gmap string string))
    (quorum : gmap string string) : Section :=
  mkSection "quorum"
    ([("provider", AStr "corosync_votequorum")]
       ++ named_attrs ["wait_for_all"; "auto_tie_breaker";
                       "last_man_standing"; "last_man_standing_window"]
            quorum
       ++ (if (length node_list =? 2)%nat && negb (auto_tie_breaker_on quorum)
           then [("two_node", AStr "1")] else []))
    [].

(** Lines 731-733: the [logging] section. *)
Definition logging_section : Section :=
  mkSection "logging"
    [("to_logfile", AStr "yes");
     ("logfile", AStr "/var/log/cluster/corosync.log");
     ("to_syslog", AStr "yes")]
    [].

(** The tree [corosync_conf] at the end of
    [cluster_setup_create_corosync_conf]. *)
Definition corosync_conf_tree (cluster_name : string)
    (node_list : list (gmap string string)) (t : transport_options)
    (totem quorum : gmap string string) : Section :=
  mkSection EmptyString
    []
    [totem_section cluster_name t totem;
     nodelist_section node_list;
     quorum_section node_list quorum;
     logging_section].

(** Lines 640-735; [messages] stays empty. *)
Definition cluster_setup_create_corosync_conf (cluster_name : string)
    (node_list : list (gmap string string)) (t : transport_options)
    (totem quorum : gmap string string) : string * list report_item :=
  (export (corosync_conf_tree cluster_name node_list t totem quorum), []).

(** ** The cman path: a sequence of [ccs] invocations *)

(** One entry of [commands]: the arguments for [ccs] and the error text. *)
Record command := { cmd : list string; err : string }.

(** Lines 740-744: [broadcast]. *)
Definition broadcast_on (t : transport_options) : bool :=
  match broadcast t with Some b => b | None => false end.

(** The options of the [--setcman] command. *)
Definition cman_opts (node_list : list (gmap string string))
    (t : transport_options) : list string :=
  (match transport t with
   | Some tr => ["transport=" +:+ tr]
   | None => []
   end)
    ++ ["broadcast=" +:+ (if broadcast_on t then "yes" else "no")]
    ++ (if (length node_list =? 2)%nat
        then ["two_node=1"; "expected_votes=1"] else []).

(** Lines 768-795: the commands for one node. *)
Definition node_commands (node_options : gmap string string)
  : list command :=
  match node_options !! "ring0_addr" with
  | Some ring0_addr =>
      [{| cmd := ["--addnode"; ring0_addr];
          err := "error adding node: " +:+ ring0_addr |}]
        ++ (match node_options !! "ring1_addr" with
            | Some ring1_addr =>
                [{| cmd := ["--addalt"; ring0_addr; ring1_addr];
                    err := "error adding alternative address for node: "
                             +:+ ring0_addr |}]
            | None => []
            end)
        ++ [{| cmd := ["-i"; "--addmethod"; "pcmk-method"; ring0_addr];
               err := "error adding fence method: " +:+ ring0_addr |};
            {| cmd := ["-i"; "--addfenceinst"; "pcmk-redirect"; ring0_addr;
                       "pcmk-method"; "port=" +:+ ring0_addr];
               err := "error adding fence instance: " +:+ ring0_addr |}]
  | None => []
  end.

(** Lines 802-816: the multicast command of one ring. *)
Definition ring_command (ring_number : nat) (ro : ring_options) : command :=
  let mcast_options :=
    (match ring_mcastaddr ro with Some a => [a] | None => [] end)
      ++ (match ring_mcastport ro with
          | Some p => ["port=" +:+ p] | None => [] end)
      ++ (match ring_ttl ro with
          | Some v => ["ttl=" +:+ v] | None => [] end) in
  {| cmd := (if (ring_number =? 0)%nat
             then "--setmulticast" else "--setaltmulticast")
              :: mcast_options;
     err := "error adding ring" +:+ Py.str_of_nat ring_number
              +:+ " settings" |}.

(** Lines 818-834: [totem_cmd_options]. *)
Definition totem_cmd_options (t : transport_options)
    (totem : gmap string string) : list string :=
  flat_map
    (fun opt_name =>
       match totem !! opt_name with
       | Some v => [opt_name +:+ "=" +:+ v]
       | None => []
       end)
    ["token"; "join"; "consensus"; "miss_count_const"; "fail_recv_const"]
    ++ (match rrp_mode t with
        | Some m => ["rrp_mode=" +:+ m]
        | None => []
        end).

(** The list [commands] built by [cluster_setup_create_cluster_conf]. *)
Definition cluster_conf_commands (cluster_name : string)
    (node_list : list (gmap string string)) (t : transport_options)
    (totem : gmap string string) : list command :=
  [{| cmd := ["-i"; "--createcluster"; cluster_name];
      err := "error creating cluster: " +:+ cluster_name |};
   {| cmd := ["-i"; "--addfencedev"; "pcmk-redirect"; "agent=fence_pcmk"];
      err := "error creating fence dev: " +:+ cluster_name |};
   {| cmd := "--setcman" :: cman_opts node_list t;
      err := "error setting cman options" |}]
    ++ flat_map node_commands node_list
    ++ (if negb (broadcast_on t)
        then map (fun '(ring_number, ro) => ring_command ring_number ro)
               (Py.enumerate 0 (rings_options t))
        else [])
    ++ (match totem_cmd_options t totem with
        | [] => []
        | opts => [{| cmd := "--settotem" :: opts;
                      err := "error setting totem options" |}]
        end).

Section RunCommands.

(** [utils.run]: output and return value of an external command; the
    temporary file the commands write to, and what it holds at the end. *)
Variable run : list string -> string * Z.
Variable conf_path : string.
Variable conf_content : string.

(** The loop over [commands]: [None] when every command succeeded, the
    reports of the first failing one otherwise. *)
Fixpoint run_commands (commands : list command)
  : option (list report_item) :=
  match commands with
  | [] => None
  | cmd_item :: rest =>
      let '(output, retval) := run (["ccs"; "-f"; conf_path] ++ cmd cmd_item) in
      if negb (retval =? 0)%Z then
        Some ((if Py.truthy_str output then [common_info output] else [])
                ++ [common_error (err cmd_item)])
      else run_commands rest
  end.

(** Lines 737-856. *)
Definition cluster_setup_create_cluster_conf (cluster_name : string)
    (node_list : list (gmap string string)) (t : transport_options)
    (totem : gmap string string) : string * list report_item :=
  match run_commands (cluster_conf_commands cluster_name node_list t totem) with
  | Some messages => (EmptyString, messages)
  | None => (conf_content, [])
  end.

End RunCommands.

(** ** [cluster_setup]: from the command line to the configuration *)

(** [utils.parse_multiring_node(node)]: ring 0 address and, when the
    argument has a comma, ring 1 address. *)
Definition node_arg : Type := string * option string.

(** [if addr_list[1]:] *)
Definition ring1_given (a : node_arg) : bool :=
  match snd a with Some r1 => Py.truthy_str r1 | None => false end.

(** Lines 255-261: [node_options]. *)
Definition node_options_of (a : node_arg) : gmap string string :=
  if ring1_given a
  then <["ring1_addr" := default EmptyString (snd a)]> {["ring0_addr" := fst a]}
  else {["ring0_addr" := fst a]}.

(** Lines 246-266: [node_list] and [udpu_rrp]. *)
Definition setup_node_list (is_rhel6 : bool) (pcs_options : gmap string string)
    (nodes : list node_arg) : list (gmap string string) * bool :=
  let udpu_rrp := existsb ring1_given nodes in
  let node_list := map node_options_of nodes in
  match pcs_options !! "--addr1" with
  | Some addr1 =>
      if is_rhel6 && negb udpu_rrp
      then (map (fun node => <["ring1_addr" := addr1]> node) node_list, udpu_rrp)
      else (node_list, udpu_rrp)
  | None => (node_list, udpu_rrp)
  end.

(** Lines 246-260: [all_addr_list]. *)
Definition setup_all_addr_list (nodes : list node_arg) : list string :=
  flat_map (fun a => fst a :: (if ring1_given a then [default EmptyString (snd a)] else []))
    nodes.

(** The configuration made by [cluster_setup]: the corosync.conf tree, or
    the commands that make cluster.conf. *)
Inductive setup_config :=
| CorosyncConf (tree : Section)
| ClusterConf (commands : list command).

Record setup_plan := {
  plan_node_list : list (gmap string string);
  plan_options : parsed_options;
  plan_messages : list report_item;
  plan_config : setup_config
}.

(** Lines 238-318 of [cluster_setup], up to the configuration: the result
    is the message of the [utils.err] that ends the run, or the node list,
    the completed options, the reports handed to
    [process_library_reports] and the configuration.  [resolves] stands
    for [socket.getaddrinfo] succeeding. *)
Definition cluster_setup_prepare (is_rhel6 : bool) (resolves : string -> bool)
    (pcs_options : gmap string string) (cluster_name : string)
    (nodes : list node_arg) : string + setup_plan :=
  let '(node_list, udpu_rrp) := setup_node_list is_rhel6 pcs_options nodes in
  if udpu_rrp && negb (forallb (Py.has_key "ring1_addr") node_list) then
    inl ("if one node is configured for RRP, "
           +:+ "all nodes must be configured for RRP")
  else if negb (forallb resolves (setup_all_addr_list nodes))
          && negb (Py.has_key "--force" pcs_options) then
    inl "Unable to resolve all hostnames, use --force to override"
  else
    let force := Py.has_key "--force" pcs_options in
    let '(options, messages) :=
      if is_rhel6
      then cluster_setup_parse_options_cman pcs_options force
      else cluster_setup_parse_options_corosync pcs_options force in
    let t := parsed_transport options in
    let t :=
      match rrp_mode t with
      | None => if udpu_rrp then set_rrp_mode "passive" t else t
      | Some _ => t
      end in
    let options :=
      {| parsed_transport := t; totem_options := totem_options options;
         quorum_options := quorum_options options |} in
    inr {| plan_node_list := node_list;
           plan_options := options;
           plan_messages := messages;
           plan_config :=
             if is_rhel6
             then ClusterConf
                    (cluster_conf_commands cluster_name node_list t
                       (totem_options options))
             else CorosyncConf
                    (corosync_conf_tree cluster_name node_list t
                       (totem_options options)
                       (default ∅ (quorum_options options))) |}.

(** ** Waiting for nodes to start *)

(** Values decoded by [json.loads]; numbers are integers here. *)
#[warnings="-register-all"]
Inductive json :=
| JNull
| JBool (b : bool)
| JNum (z : Z)
| JStr (s : string)
| JList (l : list json)
| JDict (d : gmap string json).

(** The exceptions the waiters can meet. *)
Inductive pyexc := TypeError | KeyError | ValueError.

Module PyValue.

(** [bool(v)]. *)
Definition truthy (v : json) : bool :=
  match v with
  | JNull => false
  | JBool b => b
  | JNum z => negb (z =? 0)%Z
  | JStr s => Py.truthy_str s
  | JList l => match l with [] => false | _ => true end
  | JDict d => negb (bool_decide (d = ∅))
  end.

(** [sub in s] for two strings. *)
Fixpoint contains (sub s : string) : bool :=
  String.prefix sub s
  || match s with
     | EmptyString => false
     | String _ s' => contains sub s'
     end.

(** [key in v]: keys of a dictionary, elements of a list, substrings of
    a string; other values are not containers. *)
Definition py_in (key : string) (v : json) : pyexc + bool :=
  match v with
  | JDict d => inr (Py.has_key key d)
  | JList l =>
      inr (existsb (fun x => match x with
                             | JStr s => String.eqb s key
                             | _ => false
                             end) l)
  | JStr s => inr (contains key s)
  | _ => inl TypeError
  end.

(** [v[key]] for a string key. *)
Definition getitem (v : json) (key : string) : pyexc + json :=
  match v with
  | JDict d =>
      match d !! key with Some x => inr x | None => inl KeyError end
  | _ => inl TypeError
  end.

End PyValue.

(** [a and b and c and not d]: the first false operand, else the last. *)
Definition is_node_fully_started (node_status : json) : pyexc + json :=
  match PyValue.py_in "online" node_status with
  | inl e => inl e
  | inr false => inr (JBool false)
  | inr true =>
      match PyValue.py_in "pending" node_status with
      | inl e => inl e
      | inr false => inr (JBool false)
      | inr true =>
          match PyValue.getitem node_status "online" with
          | inl e => inl e
          | inr online =>
              if negb (PyValue.truthy online) then inr online
              else
                match PyValue.getitem node_status "pending" with
                | inl e => inl e
                | inr pending => inr (JBool (negb (PyValue.truthy pending)))
                end
          end
      end
  end.

(** What a waiter hands back: a [(code, message)] pair, or an exception
    that none of its handlers catches. *)
Inductive wait_result :=
| Returned (code : Z) (message : string)
| Raised (e : pyexc).

(** Reply of [utils.getPacemakerNodeStatus]: the text and what
    [json.loads] makes of it ([None]: it raises [ValueError]). *)
Record http_output := { text : string; json_loads : option json }.

(** One pass through the body of a waiter's loop, before the deadline
    test. *)
Inductive poll := Done (r : wait_result) | NotYet.

(** Lines 950-962: one pass of [wait_for_remote_node_started]. *)
Definition remote_poll (reply : Z * http_output) : poll :=
  let '(code, output) := reply in
  if existsb (Z.eqb code) [1; 3; 4]%Z then Done (Returned 1 (text output))
  else if (code =? 0)%Z then
    match json_loads output with
    | None => Done (Returned 1 "Unable to get node status")
    | Some status =>
        match is_node_fully_started status with
        | inr v => if PyValue.truthy v then Done (Returned 0 "Started")
                   else NotYet
        | inl TypeError => Done (Raised TypeError)
        | inl _ => Done (Returned 1 "Unable to get node status")
        end
    end
  else NotYet.

(** Reply of [lib_pacemaker.get_local_node_status]: the status, or the
    messages of the report items of a [LibraryError]. *)
Definition local_poll (reply : list string + json) : poll :=
  match reply with
  | inl messages =>
      Done (Returned 1 ("Unable to get node status: "
                          +:+ String.concat (String "010"%char EmptyString) messages))
  | inr node_status =>
      match is_node_fully_started node_status with
      | inr v => if PyValue.truthy v then Done (Returned 0 "Started")
                 else NotYet
      | inl e => Done (Raised e)
      end
  end.

(** The [while True] loop of both waiters.  The passes through the body
    are numbered from 0: [probe k] is what pass [k] makes of the answer
    to its status query, and [now k] is what [datetime.datetime.now()]
    reads in the deadline test of pass [k], after that query has been
    answered.  The clock counts microseconds, the resolution of
    [datetime].  [time.sleep(interval)] shows in the later readings of
    the clock only.  The result carries the number of the pass that
    returns; [None] means the loop is still running when the fuel is
    spent. *)
Fixpoint wait_loop (fuel : nat) (probe : nat -> poll) (now : nat -> Z)
    (stop_at : Z) (k : nat) : option (wait_result * nat) :=
  match fuel with
  | O => None
  | S fuel' =>
      match probe k with
      | Done r => Some (r, k)
      | NotYet =>
          if (now k >? stop_at)%Z then Some (Returned 1 "Waiting timeout", k)
          else wait_loop fuel' probe now stop_at (S k)
      end
  end.

(** The passes the loop is followed for: enough when the interval is
    positive and every reading of the clock is at least one interval
    later than the one before, as [time.sleep(interval)] between them
    makes it. *)
Definition wait_fuel (now : nat -> Z) (stop_at interval : Z) : nat :=
  S (S (Z.to_nat ((stop_at - now 0%nat) / interval))).

(** Lines 948-965. *)
Definition wait_for_remote_node_started
    (status : nat -> Z * http_output) (now : nat -> Z) (stop_at interval : Z)
  : option (wait_result * nat) :=
  wait_loop (wait_fuel now stop_at interval)
    (fun k => remote_poll (status k)) now stop_at 0.

(** Lines 932-946. *)
Definition wait_for_local_node_started
    (status : nat -> list string + json) (now : nat -> Z)
    (stop_at interval : Z) : option (wait_result * nat) :=
  wait_loop (wait_fuel now stop_at interval)
    (fun k => local_poll (status k)) now stop_at 0.

(** ** Commands that act on the cluster

    Calls into [pcs.utils] and the libraries are answered by a [world];
    each command returns the trace of what it did and [None] when it left
    through [sys.exit(1)]. *)

(** Result of [utils.parse_quorumtool_output] and
    [utils.parse_cman_quorum_info]; this file reads the key
    ["quorate"] only. *)
Record quorum_info := {
  quorate : bool;
  quorum : Z;
  node_list : list (string * Z)
}.

(** Second component of [utils.removeLocalNode]'s reply when its first is
    0: the decoded pair [[code, lines]]. *)
Record remove_output := { remove_code : Z; remove_lines : list string }.

(** Reply of [utils.run_pcsdcli("send_local_configs", ...)]: the keys
    ["status"] and ["data"] of [output]; ["data"] maps a node to the
    ["status"] of its response. *)
Record pcsd_output := {
  pcsd_status : string;
  pcsd_data : gmap string string
}.

(** The answers of everything outside this file. *)
Record world := {
  is_rhel6 : bool;
  is_systemctl : bool;
  is_cman_cluster : bool;
  need_to_handle_qdevice_service : bool;
  is_cman_with_udpu_transport : bool;
  getNodesFromCorosyncConf : list string;
  run : list string -> string * Z;
  get_remote_quorumtool_output : string -> Z * string;
  parse_cman_quorum_info : string -> option quorum_info;
  parse_quorumtool_output : string -> option quorum_info;
  is_node_stop_cause_quorum_loss :
    quorum_info -> bool -> list string -> bool;
  is_node_offline_by_quorumtool_output : string -> bool;
  stopPacemaker : string -> Z * string;
  stopCorosync : string -> Z * string;
  destroyCluster : string -> Z * string;
  enableCluster : string -> Z * string;
  startCluster : string -> Z * string;
  addLocalNode : string -> string -> option string -> Z * string;
  (** [inl output]: a non-zero first component and the text that came
      with it; [inr output]: first component 0 and the decoded reply *)
  removeLocalNode : string -> string -> string + remove_output;
  reloadCorosync : string * Z;
  send_local_configs : list string -> pcsd_output * Z;
  (** the reports of the [LibraryError] raised while setting up the
      qdevice certificates of a new node, if one is raised *)
  qdevice_net_setup : string -> string -> option (list report_item);
  (** whether [process_library_reports] leaves through [sys.exit] *)
  reports_exit : list report_item -> bool;
  (** the answers to the status queries of a wait, by the number of
      the pass that asks, from 0 *)
  getPacemakerNodeStatus : string -> nat -> Z * http_output;
  get_local_node_status : nat -> list string + json;
  (** [datetime.datetime.now()], in microseconds: when a wait begins,
      and in the deadline test of each pass of the waiter of a node and
      of the local waiter, after the status query of that pass *)
  clock : Z;
  remote_now : string -> nat -> Z;
  local_now : nat -> Z
}.

(** What a command does that can be seen from outside. *)
Inductive event :=
| Print (line : string)
| Err (message : string)
| Reports (items : list report_item)
| Run (command_line : list string)
| QuorumtoolOutput (node : string)
| StopPacemaker (nodes : list string)
| StopCorosync (nodes : list string)
| DestroyCluster (nodes : list string)
| AddLocalNode (my_node node0 : string) (node1 : option string)
| RemoveLocalNode (my_node node0 : string)
| ReloadCorosync
| SendLocalConfigs (nodes : list string)
| QdeviceNetSetup (node0 : string)
| SetCorosyncConfig (node config : string)
| EnableCluster (node : string)
| StartCluster (node : string)
| SyncCerts (nodes : list string)
| WaitLocal
| WaitRemote (nodes : list string)
| Uncaught (e : pyexc).

(** A command: its trace, and its result unless it exited. *)
Definition M (A : Type) : Type := list event * option A.

Definition ret {A} (a : A) : M A := ([], Some a).

Definition bind {A B} (m : M A) (k : A -> M B) : M B :=
  match m with
  | (tr, Some a) => let '(tr', r) := k a in (tr ++ tr', r)
  | (tr, None) => (tr, None)
  end.

Notation "x <- m ;; k" := (bind m (fun x => k))
  (at level 100, m at next level, right associativity).
Notation "m ;; k" := (bind m (fun _ => k))
  (at level 100, right associativity).

(** The trace of a command, and whether it exited. *)
Definition trace {A} (m : M A) : list event := fst m.
Definition exited {A} (m : M A) : bool :=
  match snd m with None => true | Some _ => false end.

(** An external call: it is recorded and answers with [a]. *)
Definition call {A} (e : event) (a : A) : M A := ([e], Some a).

(** [print(line)] *)
Definition print (line : string) : M unit := call (Print line) tt.

(** Modelled from the spec: [utils.err] lives in [pcs.utils].  A fatal
    error prints its message to the error stream and the program exits
    with a non-zero status. *)
Definition utils_err {A} (message : string) : M A := ([Err message], None).

(** An exception that nothing catches ends the program as well. *)
Definition uncaught {A} (e : pyexc) : M A := ([Uncaught e], None).

(** [utils.err(message, False)]: the message only, the run goes on. *)
Definition utils_err_continue (message : string) : M unit :=
  call (Err message) tt.

(** [process_library_reports(items)] shows the reports and may exit. *)
Definition process_library_reports (w : world) (items : list report_item)
  : M unit :=
  ([Reports items], if reports_exit w items then None else Some tt).

(** [if b: m] *)
Definition when (b : bool) (m : M unit) : M unit := if b then m else ret tt.

(** The newline. *)
Definition nl : string := String "010"%char EmptyString.

(** Modelled from the spec: [parallel_for_nodes] lives in [pcs.utils].  It
    runs [action] on every node and gives back the node-labelled messages
    of the nodes whose action failed, in the order of [nodes]. *)
Definition error_list_of (action : string -> Z * string)
    (nodes : list string) : list string :=
  flat_map
    (fun node =>
       let '(retval, output) := action node in
       if (retval =? 0)%Z then [] else [node +:+ ": " +:+ output])
    nodes.

Definition parallel_for_nodes (batch : list string -> event)
    (action : string -> Z * string) (nodes : list string)
  : M (list string) :=
  call (batch nodes) (error_list_of action nodes).

(** Truth value of a list. *)
Definition nonempty {A} (l : list A) : bool :=
  match l with [] => false | _ => true end.

(** Lines 1008-1011 and 1547-1550: the parser of the running stack. *)
Definition parse_quorum (w : world) (data : string) : option quorum_info :=
  if is_rhel6 w then parse_cman_quorum_info w data
  else parse_quorumtool_output w data.

(** What [parallel_for_nodes] sees of a remote waiter: its
    [(code, message)]; a waiter that raises counts as failed. *)
Definition wait_code (r : option (wait_result * nat)) : Z * string :=
  match r with
  | Some (Returned code message, _) => (code, message)
  | Some (Raised _, _) => (1%Z, "exception")
  | None => (1%Z, "still waiting")
  end.

(** [wait_for_nodes_started]: the local waiter for an empty list, one
    remote waiter per node otherwise.  An exception out of the local
    waiter ends the command.  The timeout, in seconds, and the interval
    of 2 seconds are counted in microseconds, as the clock is. *)
Definition wait_for_nodes_started (w : world) (node_list : list string)
    (timeout : option Z) : M unit :=
  let timeout := match timeout with None => (60 * 15)%Z | Some t => t end in
  let interval := (2 * 1000000)%Z in
  let stop_at := (clock w + timeout * 1000000)%Z in
  print "Waiting for node(s) to start..." ;;
  if negb (nonempty node_list) then
    r <- call WaitLocal
           (wait_for_local_node_started (get_local_node_status w)
              (local_now w) stop_at interval) ;;
    match r with
    | Some (Returned code output, _) =>
        if negb (code =? 0)%Z then utils_err output else print output
    | Some (Raised e, _) => uncaught e
    | None => ([], None)
    end
  else
    error_list <- parallel_for_nodes WaitRemote
      (fun node =>
         wait_code (wait_for_remote_node_started (getPacemakerNodeStatus w node)
                      (remote_now w node) stop_at interval))
      node_list ;;
    when (nonempty error_list)
      (utils_err "unable to verify all nodes have started").

(** The quorum check of [stop_cluster_nodes] (lines 999-1028): the
    [for] loop with its [continue], [break] and fatal error, handing back
    [error_list]. *)
Fixpoint stop_nodes_quorum_loop (w : world) (nodes : list string)
    (todo : list string) (error_list : list string) : M (list string) :=
  match todo with
  | [] => ret error_list
  | node :: rest =>
      r <- call (QuorumtoolOutput node) (get_remote_quorumtool_output w node) ;;
      let '(retval, data) := r in
      if negb (retval =? 0)%Z then
        stop_nodes_quorum_loop w nodes rest
          (error_list ++ [node +:+ ": " +:+ data])
      else
        match parse_quorum w data with
        | Some quorum_info =>
            if negb (quorate quorum_info) then
              stop_nodes_quorum_loop w nodes rest error_list
            else if is_node_stop_cause_quorum_loss w quorum_info false nodes
            then
              utils_err ("Stopping the node(s) will cause a loss of the quorum"
                           +:+ ", use --force to override")
            else ret []
        | None =>
            stop_nodes_quorum_loop w nodes rest
              (if negb (is_node_offline_by_quorumtool_output w data)
               then error_list ++ ["Unable to get quorum status"]
               else error_list)
        end
  end.

(** Lines 988-1042. *)
Definition stop_cluster_nodes (w : world) (pcs_options : gmap string string)
    (nodes : list string) : M unit :=
  let all_nodes := getNodesFromCorosyncConf w in
  let unknown_nodes : gset string :=
    list_to_set nodes ∖ list_to_set all_nodes in
  when (negb (bool_decide (unknown_nodes = ∅)))
    (utils_err ("nodes '" +:+ String.concat "', '" (elements unknown_nodes)
                  +:+ "' do not appear to exist in configuration")) ;;
  let stopping_all :=
    bool_decide ((list_to_set all_nodes : gset string) ⊆ list_to_set nodes) in
  when (negb (Py.has_key "--force" pcs_options) && negb stopping_all)
    (error_list <- stop_nodes_quorum_loop w nodes nodes [] ;;
     when (nonempty error_list)
       (utils_err ("Unable to determine whether stopping the nodes will cause "
                     +:+ "a loss of the quorum, use --force to override"
                     +:+ nl +:+ String.concat nl error_list))) ;;
  error_list <- parallel_for_nodes StopPacemaker (stopPacemaker w) nodes ;;
  when (nonempty error_list)
    (utils_err ("unable to stop all nodes" +:+ nl
                  +:+ String.concat nl error_list)) ;;
  error_list <- parallel_for_nodes StopCorosync (stopCorosync w) nodes ;;
  when (nonempty error_list)
    (utils_err ("unable to stop all nodes" +:+ nl
                  +:+ String.concat nl error_list)).

(** Lines 985-986. *)
Definition stop_cluster_all (w : world) (pcs_options : gmap string string)
  : M unit :=
  stop_cluster_nodes w pcs_options (getNodesFromCorosyncConf w).

(** [utils.run(command_line)] *)
Definition run_cmd (w : world) (command_line : list string)
  : M (string * Z) :=
  call (Run command_line) (run w command_line).

(** Lines 1143-1158. *)
Definition stop_cluster_pacemaker (w : world) : M unit :=
  print "Stopping Cluster (pacemaker)..." ;;
  let command :=
    ["service"; "pacemaker"; "stop"]
      ++ (if negb (is_systemctl w) && is_cman_cluster w
          then ["--skip-cman"] else []) in
  r <- run_cmd w command ;;
  let '(output, retval) := r in
  when (negb (retval =? 0)%Z)
    (print output ;; utils_err "unable to stop pacemaker").

(** Lines 1173-1177: the loop over [service_list]. *)
Fixpoint stop_services (w : world) (service_list : list string) : M unit :=
  match service_list with
  | [] => ret tt
  | service :: rest =>
      r <- run_cmd w ["service"; service; "stop"] ;;
      let '(output, retval) := r in
      when (negb (retval =? 0)%Z)
        (print output ;; utils_err ("unable to stop " +:+ service)) ;;
      stop_services w rest
  end.

(** Lines 1160-1177. *)
Definition stop_cluster_corosync (w : world) : M unit :=
  if is_rhel6 w then
    print "Stopping Cluster (cman)..." ;;
    r <- run_cmd w ["service"; "cman"; "stop"] ;;
    let '(output, retval) := r in
    when (negb (retval =? 0)%Z)
      (print output ;; utils_err "unable to stop cman")
  else
    print "Stopping Cluster (corosync)..." ;;
    stop_services w
      ((if need_to_handle_qdevice_service w then ["corosync-qdevice"] else [])
         ++ ["corosync"]).

(** Lines 1104-1119 of [stop_cluster]: the output of the local quorum
    tool and what the parser makes of it. *)
Definition local_quorum_status (w : world)
  : M (string * option quorum_info) :=
  if is_rhel6 w then
    s <- run_cmd w ["cman_tool"; "status"] ;;
    n <- run_cmd w ["cman_tool"; "nodes"; "-F"; "id,type,votes,name"] ;;
    let output_status := fst s in
    let output_nodes := fst n in
    let output :=
      if String.eqb output_status output_nodes then output_status
      else output_status +:+ nl +:+ "---Votes---" +:+ nl +:+ output_nodes in
    ret (output, parse_cman_quorum_info w output)
  else
    o <- run_cmd w ["corosync-quorumtool"; "-p"; "-s"] ;;
    ret (fst o, parse_quorumtool_output w (fst o)).

(** Lines 1098-1141. *)
Definition stop_cluster (w : world) (pcs_options : gmap string string)
    (argv : list string) : M unit :=
  if nonempty argv then stop_cluster_nodes w pcs_options argv
  else
    when (negb (Py.has_key "--force" pcs_options))
      (r <- local_quorum_status w ;;
       let '(output, quorum_info) := r in
       match quorum_info with
       | Some qi =>
           when (is_node_stop_cause_quorum_loss w qi true [])
             (utils_err ("Stopping the node will cause a loss of the quorum"
                           +:+ ", use --force to override"))
       | None =>
           when (negb (is_node_offline_by_quorumtool_output w output))
             (utils_err ("Unable to determine whether stopping the node will cause "
                           +:+ "a loss of the quorum, use --force to override"))
       end) ;;
    let stop_all :=
      negb (Py.has_key "--pacemaker" pcs_options)
      && negb (Py.has_key "--corosync" pcs_options) in
    when (stop_all || Py.has_key "--pacemaker" pcs_options)
      (stop_cluster_pacemaker w) ;;
    when (stop_all || Py.has_key "--corosync" pcs_options)
      (stop_cluster_corosync w).

(** Lines 1080-1096. *)
Definition destroy_cluster (w : world) (argv : list string)
    (keep_going : bool) : M unit :=
  when (nonempty argv)
    (let nodes := argv in
     _ <- parallel_for_nodes StopPacemaker (stopPacemaker w) nodes ;;
     error_list <- parallel_for_nodes DestroyCluster (destroyCluster w) nodes ;;
     when (nonempty error_list)
       (if keep_going then
          print ("Warning: unable to destroy cluster" +:+ nl
                   +:+ String.concat nl error_list)
        else
          utils_err ("unable to destroy cluster" +:+ nl
                       +:+ String.concat nl error_list))).

(** *** [cluster_node]: adding a node (lines 1456-1530) *)

(** The loop that asks every node of the cluster to add the new one; it
    hands back [corosync_conf]. *)
Fixpoint add_node_push (w : world) (node0 : string) (node1 : option string)
    (my_nodes : list string) (corosync_conf : option string)
  : M (option string) :=
  match my_nodes with
  | [] => ret corosync_conf
  | my_node :: rest =>
      r <- call (AddLocalNode my_node node0 node1)
             (addLocalNode w my_node node0 node1) ;;
      let '(retval, output) := r in
      if negb (retval =? 0)%Z then
        utils_err_continue
          ("unable to add " +:+ node0 +:+ " on " +:+ my_node +:+ " - "
             +:+ Py.strip output) ;;
        add_node_push w node0 node1 rest corosync_conf
      else
        print (my_node +:+ ": Corosync updated") ;;
        add_node_push w node0 node1 rest (Some output)
  end.

(** Lines 1469-1489: the pcsd configuration of the new node.  An
    [utils.err] inside the [try] leaves through [SystemExit], which the
    bare [except] catches and answers with its own [utils.err]. *)
Definition add_node_send_local_configs (w : world) (node0 : string)
  : M unit :=
  r <- call (SendLocalConfigs [node0]) (send_local_configs w [node0]) ;;
  let '(output, retval) := r in
  when (negb (retval =? 0)%Z) (utils_err "Unable to set pcsd configs") ;;
  when (String.eqb (pcsd_status output) "notauthorized")
    (utils_err ("Unable to authenticate to " +:+ node0
                  +:+ ", try running 'pcs cluster auth'")) ;;
  when (String.eqb (pcsd_status output) "ok"
        && negb (bool_decide (pcsd_data output = ∅)))
    (match pcsd_data output !! node0 with
     | Some node_status =>
         when (negb (Py.in_tuple node_status ["ok"; "not_supported"]))
           (utils_err_continue "Unable to set pcsd configs" ;;
            utils_err "Unable to communicate with pcsd")
     | None => utils_err "Unable to communicate with pcsd"
     end).

(** Lines 1469-1522: what is done for the new node once a member has
    handed back the new configuration.  [utils.setCorosyncConfig] and
    [pcsd.pcsd_sync_certs], whose results are dropped, are taken to
    return. *)
Definition add_node_new_node (w : world) (pcs_options : gmap string string)
    (node0 : string) (conf : string) : M unit :=
  add_node_send_local_configs w node0 ;;
  when (negb (is_rhel6 w))
    (r <- call (QdeviceNetSetup node0) (qdevice_net_setup w conf node0) ;;
     match r with
     | Some items => process_library_reports w items
     | None => ret tt
     end) ;;
  print "Setting up corosync..." ;;
  call (SetCorosyncConfig node0 conf) tt ;;
  when (Py.has_key "--enable" pcs_options)
    (r <- call (EnableCluster node0) (enableCluster w node0) ;;
     when (negb (fst r =? 0)%Z)
       (print ("Warning: enable cluster - " +:+ snd r))) ;;
  when (Py.has_key "--start" pcs_options || is_rhel6 w)
    (r <- call (StartCluster node0) (startCluster w node0) ;;
     when (negb (fst r =? 0)%Z)
       (print ("Warning: start cluster - " +:+ snd r))) ;;
  call (SyncCerts [node0]) tt.

(** Lines 1456-1530: the add branch of [cluster_node] from the push to the
    members on; [wait] and [wait_timeout] are set at lines 1379-1383. *)
Definition cluster_node_add (w : world) (pcs_options : gmap string string)
    (node0 : string) (node1 : option string) (wait : bool)
    (wait_timeout : option Z) : M unit :=
  corosync_conf <-
    add_node_push w node0 node1 (getNodesFromCorosyncConf w) None ;;
  _ <- call ReloadCorosync (reloadCorosync w) ;;
  match corosync_conf with
  | Some conf => add_node_new_node w pcs_options node0 conf
  | None => utils_err "Unable to update any nodes"
  end ;;
  when (is_cman_with_udpu_transport w)
    (print ("Warning: Using udpu transport on a CMAN cluster, "
              +:+ "cluster restart is required to apply node addition")) ;;
  when wait
    (print EmptyString ;; wait_for_nodes_started w [node0] wait_timeout).

(** *** [cluster_node]: removing a node (lines 1532-1595) *)

(** The loop that asks every other node to drop [node0]; it hands back
    [nodesRemoved]. *)
Fixpoint remove_node_push (w : world) (node0 : string)
    (c_nodes : list string) (nodesRemoved : bool) : M bool :=
  match c_nodes with
  | [] => ret nodesRemoved
  | my_node :: rest =>
      if String.eqb my_node node0 then
        remove_node_push w node0 rest nodesRemoved
      else
        r <- call (RemoveLocalNode my_node node0)
               (removeLocalNode w my_node node0) ;;
        match r with
        | inl output =>
            utils_err_continue
              ("unable to remove " +:+ node0 +:+ " on " +:+ my_node
                 +:+ " - " +:+ Py.strip output) ;;
            remove_node_push w node0 rest nodesRemoved
        | inr output =>
            if (remove_code output =? 0)%Z then
              print (my_node +:+ ": Corosync updated") ;;
              remove_node_push w node0 rest true
            else
              utils_err_continue
                (my_node +:+ ": Error executing command occured: "
                   +:+ String.concat EmptyString (remove_lines output)) ;;
              remove_node_push w node0 rest nodesRemoved
        end
  end.

(** The message of lines 1539-1543 and 1560-1564. *)
Definition unable_to_determine_removal (data : string) : string :=
  "Unable to determine whether removing the node will cause "
    +:+ "a loss of the quorum, use --force to override" +:+ nl +:+ data.

(** Lines 1532-1595: the remove branch of [cluster_node]. *)
Definition cluster_node_remove (w : world) (pcs_options : gmap string string)
    (node0 : string) : M unit :=
  when (negb (bool_decide (node0 ∈ getNodesFromCorosyncConf w)))
    (utils_err ("node '" +:+ node0
                  +:+ "' does not appear to exist in configuration")) ;;
  when (negb (Py.has_key "--force" pcs_options))
    (r <- call (QuorumtoolOutput node0) (get_remote_quorumtool_output w node0) ;;
     let '(retval, data) := r in
     when (negb (retval =? 0)%Z)
       (utils_err (unable_to_determine_removal data)) ;;
     match parse_quorum w data with
     | Some quorum_info =>
         when (is_node_stop_cause_quorum_loss w quorum_info false [node0])
           (utils_err ("Removing the node will cause a loss of the quorum"
                         +:+ ", use --force to override"))
     | None =>
         when (negb (is_node_offline_by_quorumtool_output w data))
           (utils_err (unable_to_determine_removal data))
     end) ;;
  let c_nodes := getNodesFromCorosyncConf w in
  destroy_cluster w [node0] (Py.has_key "--force" pcs_options) ;;
  nodesRemoved <- remove_node_push w node0 c_nodes false ;;
  when (negb nodesRemoved) (utils_err "Unable to update any nodes") ;;
  _ <- call ReloadCorosync (reloadCorosync w) ;;
  _ <- run_cmd w ["crm_node"; "--force"; "-R"; node0] ;;
  when (is_cman_with_udpu_transport w)
    (print ("Warning: Using udpu transport on a CMAN cluster, "
              +:+ "cluster restart is required to apply node removal")).

(** ** Vocabulary of the properties *)

Definition section_has_attr (name : string) (s : Section) : bool :=
  existsb (fun a => String.eqb (fst a) name) (sec_attrs s).

(** The two-node marker of a corosync.conf tree: an attribute [two_node]
    in a top-level [quorum] section. *)
Definition corosync_two_node (root : Section) : bool :=
  existsb
    (fun s => String.eqb (sec_name s) "quorum" && section_has_attr "two_node" s)
    (sec_sections root).

(** The two-node marker of a command sequence: [two_node=1] among the
    options of a [--setcman] command. *)
Definition cman_two_node (commands : list command) : bool :=
  existsb
    (fun c =>
       match cmd c with
       | head :: opts =>
           String.eqb head "--setcman" && Py.in_tuple "two_node=1" opts
       | [] => false
       end)
    commands.

Definition plan_two_node (p : setup_plan) : bool :=
  match plan_config p with
  | CorosyncConf tree => corosync_two_node tree
  | ClusterConf commands => cman_two_node commands
  end.

(** [--auto_tie_breaker=1] on the command line. *)
Definition tie_breaker_enabled (pcs_options : gmap string string) : bool :=
  match pcs_options !! "--auto_tie_breaker" with
  | Some v => String.eqb v "1"
  | None => false
  end.

(** The lines, each followed by a newline. *)
Definition unlines (lines : list string) : string :=
  fold_right (fun line text => line +:+ nl +:+ text) EmptyString lines.

(** The text of one [node] block of the node list. *)
Definition node_lines (node_id : nat) (node_options : gmap string string)
  : list string :=
  ["node {"]
    ++ match node_options !! "ring0_addr" with
       | Some a => ["ring0_addr: " +:+ a]
       | None => []
       end
    ++ match node_options !! "ring1_addr" with
       | Some a => ["ring1_addr: " +:+ a]
       | None => []
       end
    ++ ["nodeid: " +:+ Py.str_of_nat node_id; "}"].

(** A ring 1 address reaches [cluster_setup] as the second address of a
    node argument or as the option [--addr1]. *)
Definition ring1_address_given (pcs_options : gmap string string)
    (nodes : list node_arg) : bool :=
  Py.has_key "--addr1" pcs_options || existsb ring1_given nodes.

(** The interface numbers of the entries of ["rings_options"], in order. *)
Definition interface_ids (is_rhel6 : bool) (options : gmap string string)
  : list nat :=
  if is_rhel6 then cman_interface_ids options
  else corosync_interface_ids options.

Definition cluster_setup_parse_options (is_rhel6 : bool)
    (options : gmap string string) (force : bool)
  : parsed_options * list report_item :=
  if is_rhel6 then cluster_setup_parse_options_cman options force
  else cluster_setup_parse_options_corosync options force.

(** The node reports itself started: both keys are there, ["online"] is
    true and ["pending"] is false. *)
Definition reports_started (node_status : gmap string json) : bool :=
  match node_status !! "online", node_status !! "pending" with
  | Some online, Some pending =>
      PyValue.truthy online && negb (PyValue.truthy pending)
  | _, _ => false
  end.


(** A clock read a millisecond after each query, the queries two
    seconds apart. *)
Definition steady_now (k : nat) : Z := (Z.of_nat k * 2000000 + 1000)%Z.

(** What a wait hands back when it ends at a poll with result [p]. *)
Definition outcome (p : poll) : wait_result :=
  match p with
  | Done r => r
  | NotYet => Returned 1 "Waiting timeout"
  end.

(** Events of a trace. *)
Definition is_removal (e : event) : bool :=
  match e with RemoveLocalNode _ _ => true | _ => false end.

Definition is_stop (e : event) : bool :=
  match e with
  | StopPacemaker _ | StopCorosync _ | DestroyCluster _ => true
  | Run ("service" :: _) => true
  | _ => false
  end.

Definition is_quorum_query (e : event) : bool :=
  match e with QuorumtoolOutput _ => true | _ => false end.

Definition is_add (e : event) : bool :=
  match e with AddLocalNode _ _ _ => true | _ => false end.

Definition without (p : event -> bool) (tr : list event) : bool :=
  forallb (fun e => negb (p e)) tr.

(** A world in which every call succeeds: a corosync cluster of quorate
    nodes that keeps the quorum as long as at most [spare] of them leave. *)
Definition calm_cluster (members : list string) (spare : nat) : world :=
  {| is_rhel6 := false;
     is_systemctl := true;
     is_cman_cluster := false;
     need_to_handle_qdevice_service := false;
     is_cman_with_udpu_transport := false;
     getNodesFromCorosyncConf := members;
     run := fun _ => ("Quorate: Yes", 0%Z);
     get_remote_quorumtool_output := fun _ => (0%Z, "Quorate: Yes");
     parse_cman_quorum_info := fun _ => None;
     parse_quorumtool_output :=
       fun data =>
         if String.eqb data "Quorate: Yes"
         then Some {| quorate := true;
                      quorum := Z.of_nat (length members - spare);
                      node_list := map (fun n => (n, 1%Z)) members |}
         else None;
     is_node_stop_cause_quorum_loss :=
       fun _ _ nodes => (spare <? length nodes)%nat;
     is_node_offline_by_quorumtool_output := fun _ => false;
     stopPacemaker := fun _ => (0%Z, "stopped");
     stopCorosync := fun _ => (0%Z, "stopped");
     destroyCluster := fun _ => (0%Z, "destroyed");
     enableCluster := fun _ => (0%Z, "enabled");
     startCluster := fun _ => (0%Z, "started");
     addLocalNode := fun _ _ _ => (0%Z, "totem { }");
     removeLocalNode :=
       fun _ _ => inr {| remove_code := 0; remove_lines := [] |};
     reloadCorosync := ("reloaded", 0%Z);
     send_local_configs :=
       fun nodes =>
         ({| pcsd_status := "ok";
             pcsd_data := list_to_map (map (fun n => (n, "ok")) nodes) |},
          0%Z);
     qdevice_net_setup := fun _ _ => None;
     reports_exit := fun _ => false;
     getPacemakerNodeStatus :=
       fun _ _ =>
         (0%Z,
          {| text := "status";
             json_loads :=
               Some (JDict {[ "online" := JBool true;
                              "pending" := JBool false ]}) |});
     get_local_node_status :=
       fun _ => inr (JDict {[ "online" := JBool true;
                              "pending" := JBool false ]});
     clock := 0;
     remote_now := fun _ => steady_now;
     local_now := steady_now |}.

(** Three nodes, one of which may leave. *)
Definition calm_world : world := calm_cluster ["node1"; "node2"; "node3"] 1.

(** [w] with other answers of the remote quorum tool. *)
Definition with_quorumtool (v : string -> Z * string) (w : world) : world :=
  {| is_rhel6 := is_rhel6 w;
     is_systemctl := is_systemctl w;
     is_cman_cluster := is_cman_cluster w;
     need_to_handle_qdevice_service := need_to_handle_qdevice_service w;
     is_cman_with_udpu_transport := is_cman_with_udpu_transport w;
     getNodesFromCorosyncConf := getNodesFromCorosyncConf w;
     run := run w;
     get_remote_quorumtool_output := v;
     parse_cman_quorum_info := parse_cman_quorum_info w;
     parse_quorumtool_output := parse_quorumtool_output w;
     is_node_stop_cause_quorum_loss := is_node_stop_cause_quorum_loss w;
     is_node_offline_by_quorumtool_output := is_node_offline_by_quorumtool_output w;
     stopPacemaker := stopPacemaker w;
     stopCorosync := stopCorosync w;
     destroyCluster := destroyCluster w;
     enableCluster := enableCluster w;
     startCluster := startCluster w;
     addLocalNode := addLocalNode w;
     removeLocalNode := removeLocalNode w;
     reloadCorosync := reloadCorosync w;
     send_local_configs := send_local_configs w;
     qdevice_net_setup := qdevice_net_setup w;
     reports_exit := reports_exit w;
     getPacemakerNodeStatus := getPacemakerNodeStatus w;
     get_local_node_status := get_local_node_status w;
     clock := clock w;
     remote_now := remote_now w;
     local_now := local_now w |}.

(** [w] with another answer to the distribution of the pcsd configuration. *)
Definition with_send_local_configs (v : list string -> pcsd_output * Z) (w : world) : world :=
  {| is_rhel6 := is_rhel6 w;
     is_systemctl := is_systemctl w;
     is_cman_cluster := is_cman_cluster w;
     need_to_handle_qdevice_service := need_to_handle_qdevice_service w;
     is_cman_with_udpu_transport := is_cman_with_udpu_transport w;
     getNodesFromCorosyncConf := getNodesFromCorosyncConf w;
     run := run w;
     get_remote_quorumtool_output := get_remote_quorumtool_output w;
     parse_cman_quorum_info := parse_cman_quorum_info w;
     parse_quorumtool_output := parse_quorumtool_output w;
     is_node_stop_cause_quorum_loss := is_node_stop_cause_quorum_loss w;
     is_node_offline_by_quorumtool_output := is_node_offline_by_quorumtool_output w;
     stopPacemaker := stopPacemaker w;
     stopCorosync := stopCorosync w;
     destroyCluster := destroyCluster w;
     enableCluster := enableCluster w;
     startCluster := startCluster w;
     addLocalNode := addLocalNode w;
     removeLocalNode := removeLocalNode w;
     reloadCorosync := reloadCorosync w;
     send_local_configs := v;
     qdevice_net_setup := qdevice_net_setup w;
     reports_exit := reports_exit w;
     getPacemakerNodeStatus := getPacemakerNodeStatus w;
     get_local_node_status := get_local_node_status w;
     clock := clock w;
     remote_now := remote_now w;
     local_now := local_now w |}.

(** [w] with other answers of the members asked to add a node. *)
Definition with_addLocalNode (v : string -> string -> option string -> Z * string) (w : world) : world :=
  {| is_rhel6 := is_rhel6 w;
     is_systemctl := is_systemctl w;
     is_cman_cluster := is_cman_cluster w;
     need_to_handle_qdevice_service := need_to_handle_qdevice_service w;
     is_cman_with_udpu_transport := is_cman_with_udpu_transport w;
     getNodesFromCorosyncConf := getNodesFromCorosyncConf w;
     run := run w;
     get_remote_quorumtool_output := get_remote_quorumtool_output w;
     parse_cman_quorum_info := parse_cman_quorum_info w;
     parse_quorumtool_output := parse_quorumtool_output w;
     is_node_stop_cause_quorum_loss := is_node_stop_cause_quorum_loss w;
     is_node_offline_by_quorumtool_output := is_node_offline_by_quorumtool_output w;
     stopPacemaker := stopPacemaker w;
     stopCorosync := stopCorosync w;
     destroyCluster := destroyCluster w;
     enableCluster := enableCluster w;
     startCluster := startCluster w;
     addLocalNode := v;
     removeLocalNode := removeLocalNode w;
     reloadCorosync := reloadCorosync w;
     send_local_configs := send_local_configs w;
     qdevice_net_setup := qdevice_net_setup w;
     reports_exit := reports_exit w;
     getPacemakerNodeStatus := getPacemakerNodeStatus w;
     get_local_node_status := get_local_node_status w;
     clock := clock w;
     remote_now := remote_now w;
     local_now := local_now w |}.

(** [w] with other results of local commands. *)
Definition with_run (v : list string -> string * Z) (w : world) : world :=
  {| is_rhel6 := is_rhel6 w;
     is_systemctl := is_systemctl w;
     is_cman_cluster := is_cman_cluster w;
     need_to_handle_qdevice_service := need_to_handle_qdevice_service w;
     is_cman_with_udpu_transport := is_cman_with_udpu_transport w;
     getNodesFromCorosyncConf := getNodesFromCorosyncConf w;
     run := v;
     get_remote_quorumtool_output := get_remote_quorumtool_output w;
     parse_cman_quorum_info := parse_cman_quorum_info w;
     parse_quorumtool_output := parse_quorumtool_output w;
     is_node_stop_cause_quorum_loss := is_node_stop_cause_quorum_loss w;
     is_node_offline_by_quorumtool_output := is_node_offline_by_quorumtool_output w;
     stopPacemaker := stopPacemaker w;
     stopCorosync := stopCorosync w;
     destroyCluster := destroyCluster w;
     enableCluster := enableCluster w;
     startCluster := startCluster w;
     addLocalNode := addLocalNode w;
     removeLocalNode := removeLocalNode w;
     reloadCorosync := reloadCorosync w;
     send_local_configs := send_local_configs w;
     qdevice_net_setup := qdevice_net_setup w;
     reports_exit := reports_exit w;
     getPacemakerNodeStatus := getPacemakerNodeStatus w;
     get_local_node_status := get_local_node_status w;
     clock := clock w;
     remote_now := remote_now w;
     local_now := local_now w |}.

(** The member [my_node] takes the new node into its configuration. *)
Definition accepts (w : world) (node0 : string) (node1 : option string)
    (my_node : string) : bool :=
  (fst (addLocalNode w my_node node0 node1) =? 0)%Z.

Definition is_no_update_error (e : event) : bool :=
  match e with
  | Err message => String.eqb message "Unable to update any nodes"
  | _ => false
  end.

(** The message of the [utils.err] a command ended with, if it did. *)
Definition fatal_error {A} (m : M A) : option string :=
  if exited m then
    match last (trace m) with
    | Some (Err message) => Some message
    | _ => None
    end
  else None.

(** The pcsd configuration of the new node went through. *)
Definition pcsd_configs_sent (w : world) (node0 : string) : bool :=
  let '(output, retval) := send_local_configs w [node0] in
  (retval =? 0)%Z
  && String.eqb (pcsd_status output) "ok"
  && match pcsd_data output !! node0 with
     | Some node_status => Py.in_tuple node_status ["ok"; "not_supported"]
     | None => false
     end.

Definition add_or_no_update (e : event) : bool :=
  is_add e || is_no_update_error e.

(** The quorum snapshot a node gives to [stop_cluster_nodes] or to the
    removal, when its quorum tool answered, the answer was parsed and it
    says the node is quorate. *)
Definition quorate_snapshot (w : world) (node : string)
  : option quorum_info :=
  let '(retval, data) := get_remote_quorumtool_output w node in
  if (retval =? 0)%Z then
    match parse_quorum w data with
    | Some quorum_info =>
        if quorate quorum_info then Some quorum_info else None
    | None => None
    end
  else None.

Fixpoint first_quorate_snapshot (w : world) (nodes : list string)
  : option quorum_info :=
  match nodes with
  | [] => None
  | node :: rest =>
      match quorate_snapshot w node with
      | Some quorum_info => Some quorum_info
      | None => first_quorate_snapshot w rest
      end
  end.

(** The quorum tool of the node answered, the answer could not be parsed
    and does not say that the node is offline. *)
Definition undeterminable (w : world) (node : string) : bool :=
  let '(retval, data) := get_remote_quorumtool_output w node in
  (retval =? 0)%Z
  && match parse_quorum w data with Some _ => false | None => true end
  && negb (is_node_offline_by_quorumtool_output w data).

(** The quorum tool of the node could not be run. *)
Definition unreachable (w : world) (node : string) : bool :=
  negb (fst (get_remote_quorumtool_output w node) =? 0)%Z.

(** The messages of lines 1018-1021 and 1127-1130. *)
Definition undetermined_stop_error : string :=
  "Unable to determine whether stopping the node will cause a loss of the quorum, use --force to override".

Definition loss_error : string :=
  "Stopping the node(s) will cause a loss of the quorum, use --force to override".

Definition is_undetermined_error (e : event) : bool :=
  match e with
  | Err message =>
      String.prefix "Unable to determine whether " message
  | _ => false
  end.

(** ** Sample inputs *)

(** Two nodes with one address each. *)
Definition two_nodes : list node_arg := [("node1", None); ("node2", None)].

(** Two nodes with two addresses each. *)
Definition rrp_nodes : list node_arg :=
  [("node1", Some "node1-alt"); ("node2", Some "node2-alt")].

(** Options for two rings over multicast. *)
Definition udp_two_rings : gmap string string :=
  {[ "--transport" := "udp"; "--addr0" := "10.0.0.0"; "--addr1" := "10.0.1.0" ]}.

(** A node that is pending when it is first asked and started from the
    second query on. *)
Definition late_status (k : nat) : Z * http_output :=
  (0%Z,
   {| text := "status";
      json_loads :=
        Some (JDict {[ "online" := JBool true;
                       "pending" := JBool (k <? 1)%nat ]}) |}).

(** The local status cannot be read. *)
Definition failing_local_status (k : nat) : list string + json :=
  inl ["crm_mon failed"].

(** No member answers the request to add a node. *)
Definition deaf_world : world :=
  with_addLocalNode (fun _ _ _ => (1%Z, "Unable to connect")) calm_world.

(** Every member accepts, but pcsd cannot be reached to send the
    configuration files to the new node. *)
Definition no_pcsd_world : world :=
  with_send_local_configs
    (fun _ => ({| pcsd_status := "error"; pcsd_data := ∅ |}, 1%Z))
    calm_world.

(** Five nodes, two of which may leave; the quorum tool of [node1]
    answers with text that cannot be parsed. *)
Definition garbled_world : world :=
  with_quorumtool
    (fun node =>
       if String.eqb node "node1" then (0%Z, "garbage")
       else (0%Z, "Quorate: Yes"))
    (calm_cluster ["node1"; "node2"; "node3"; "node4"; "node5"] 2).

(** The local quorum tool answers with text that cannot be parsed. *)
Definition garbled_local_world : world :=
  with_run (fun _ => ("garbage", 1%Z)) calm_world.

(** ** Further vocabulary: setup *)

(** What [--force] makes of a report: a forceable error becomes a
    warning. *)
Definition forced (r : report_item) : report_item :=
  match r with
  | invalid_option_value name value allowed (Some ERROR) (Some FORCE_OPTIONS) =>
      invalid_option_value name value allowed (Some WARNING) None
  | rrp_active_not_supported false => rrp_active_not_supported true
  | r => r
  end.

(** The [ccs] commands that set the multicast of a ring. *)
Definition is_multicast_command (c : command) : bool :=
  match cmd c with
  | head :: _ =>
      String.eqb head "--setmulticast" || String.eqb head "--setaltmulticast"
  | [] => false
  end.

(** The [ccs] commands with a given first argument. *)
Definition has_head (head : string) (c : command) : bool :=
  match cmd c with
  | h :: _ => String.eqb h head
  | [] => false
  end.

(** Options with an address for ring 1 only, and both rings on
    broadcast. *)
Definition ring1_alone : gmap string string := {[ "--addr1" := "10.0.1.0" ]}.

Definition broadcast_rings : gmap string string :=
  {[ "--broadcast0" := "1"; "--broadcast1" := "1" ]}.

(** Options with a token timeout. *)
Definition token_option : gmap string string := {[ "--token" := "5000" ]}.

(** The return value of [ccs] for a command, and whether it is 0. *)
Definition ccs_succeeds (run : list string -> string * Z) (conf_path : string)
    (c : command) : bool :=
  (snd (run (["ccs"; "-f"; conf_path] ++ cmd c)) =? 0)%Z.

(** A [ccs] that refuses to add fence methods, and one that accepts
    everything. *)
Definition ccs_without_fencing (command_line : list string) : string * Z :=
  if existsb (String.eqb "--addmethod") command_line
  then ("method refused", 1%Z) else (EmptyString, 0%Z).

Definition ccs_fine (command_line : list string) : string * Z :=
  (EmptyString, 0%Z).

(** ** Further vocabulary: waiting *)

(** The status is one of the values that are no container. *)
Definition is_scalar (status : json) : bool :=
  match status with
  | JNull | JBool _ | JNum _ => true
  | _ => false
  end.

(** A reply of pcsd with a status that is a list of its keys instead of
    a dictionary. *)
Definition list_status (k : nat) : Z * http_output :=
  (0%Z,
   {| text := "status";
      json_loads := Some (JList [JStr "online"; JStr "pending"]) |}).

(** A reply of pcsd that reports the node started. *)
Definition started_status (k : nat) : Z * http_output :=
  (0%Z,
   {| text := "status";
      json_loads :=
        Some (JDict {[ "online" := JBool true; "pending" := JBool false ]}) |}).

(** ** Further vocabulary: stopping and destroying *)

Definition is_corosync_stop (e : event) : bool :=
  match e with StopCorosync _ => true | _ => false end.

(** The action fails on the node. *)
Definition fails (action : string -> Z * string) (node : string) : bool :=
  negb (fst (action node) =? 0)%Z.

(** The [service] commands of a trace, in order. *)
Definition service_commands (tr : list event) : list (list string) :=
  flat_map
    (fun e =>
       match e with
       | Run (head :: arguments) =>
           if String.eqb head "service" then [head :: arguments] else []
       | _ => []
       end)
    tr.

(** A [service] command or a message. *)
Definition is_service_step (e : event) : bool :=
  match e with
  | Run (head :: _) => String.eqb head "service"
  | Print _ | Err _ => true
  | _ => false
  end.

(** The local command succeeds. *)
Definition runs_fine (w : world) (command_line : list string) : bool :=
  (snd (run w command_line) =? 0)%Z.

(** Lines 1133-1177: the [service] commands a local stop is made of, in
    the order of the calls. *)
Definition local_stop_commands (w : world) (pcs_options : gmap string string)
  : list (list string) :=
  let stop_all :=
    negb (Py.has_key "--pacemaker" pcs_options)
    && negb (Py.has_key "--corosync" pcs_options) in
  (if stop_all || Py.has_key "--pacemaker" pcs_options
   then [["service"; "pacemaker"; "stop"]
           ++ (if negb (is_systemctl w) && is_cman_cluster w
               then ["--skip-cman"] else [])]
   else [])
    ++ (if stop_all || Py.has_key "--corosync" pcs_options
        then
          if is_rhel6 w then [["service"; "cman"; "stop"]]
          else
            map (fun service => ["service"; service; "stop"])
              ((if need_to_handle_qdevice_service w
                then ["corosync-qdevice"] else [])
                 ++ ["corosync"])
        else []).

(** The command runs a beginning of [plan], all of it when it comes
    back, and every command it ran but the last succeeded. *)
Definition follows (w : world) (m : M unit) (plan : list (list string))
  : Prop :=
  (exists rest, plan = service_commands (trace m) ++ rest)
  /\ (exited m = false ->
      service_commands (trace m) = plan
      /\ forallb (runs_fine w) plan = true)
  /\ (forall done last,
        service_commands (trace m) = done ++ [last] ->
        forallb (runs_fine w) done = true).

(** A machine on which corosync does not stop. *)
Definition busy_world : world :=
  with_run
    (fun command_line =>
       if existsb (String.eqb "corosync") command_line
       then ("corosync is busy", 1%Z) else ("Quorate: Yes", 0%Z))
    calm_world.

(** The node [node2] cannot be reached to stop pacemaker. *)
Definition stubborn_world : world :=
  {| is_rhel6 := false;
     is_systemctl := true;
     is_cman_cluster := false;
     need_to_handle_qdevice_service := false;
     is_cman_with_udpu_transport := false;
     getNodesFromCorosyncConf := ["node1"; "node2"; "node3"];
     run := fun _ => ("Quorate: Yes", 0%Z);
     get_remote_quorumtool_output := fun _ => (0%Z, "Quorate: Yes");
     parse_cman_quorum_info := fun _ => None;
     parse_quorumtool_output := parse_quorumtool_output calm_world;
     is_node_stop_cause_quorum_loss := fun _ _ _ => false;
     is_node_offline_by_quorumtool_output := fun _ => false;
     stopPacemaker :=
       fun node =>
         if String.eqb node "node2" then (1%Z, "Unable to connect")
         else (0%Z, "stopped");
     stopCorosync := fun _ => (0%Z, "stopped");
     destroyCluster :=
       fun node =>
         if String.eqb node "node2" then (1%Z, "Unable to connect")
         else (0%Z, "destroyed");
     enableCluster := fun _ => (0%Z, "enabled");
     startCluster := fun _ => (0%Z, "started");
     addLocalNode := fun _ _ _ => (0%Z, "totem { }");
     removeLocalNode :=
       fun _ _ => inr {| remove_code := 1; remove_lines := ["no"] |};
     reloadCorosync := ("reloaded", 0%Z);
     send_local_configs := send_local_configs calm_world;
     qdevice_net_setup := fun _ _ => None;
     reports_exit := fun _ => false;
     getPacemakerNodeStatus := getPacemakerNodeStatus calm_world;
     get_local_node_status := get_local_node_status calm_world;
     clock := 0;
     remote_now := fun _ => steady_now;
     local_now := steady_now |}.

(** ** Further vocabulary: members *)

(** The member [my_node] drops the node from its configuration. *)
Definition drops (w : world) (node0 my_node : string) : bool :=
  match removeLocalNode w my_node node0 with
  | inr output => (remove_code output =? 0)%Z
  | inl _ => false
  end.

(** The members but the node itself. *)
Definition others (node0 : string) (members : list string) : list string :=
  List.filter (fun my_node => negb (String.eqb my_node node0)) members.

(** The configuration handed back by the last member that accepted the
    new node. *)
Definition last_accepted (w : world) (node0 : string) (node1 : option string)
    (members : list string) : option string :=
  last (map (fun my_node => snd (addLocalNode w my_node node0 node1))
          (List.filter (accepts w node0 node1) members)).

Definition is_set_config (e : event) : bool :=
  match e with SetCorosyncConfig _ _ => true | _ => false end.

(** The members hand back different configurations; [node2] refuses. *)
Definition diverse_world : world :=
  with_addLocalNode
    (fun my_node _ _ =>
       if String.eqb my_node "node2" then (1%Z, "refused")
       else (0%Z, "configuration of " +:+ my_node))
    calm_world.

(** The command line option [--force]. *)
Definition force_option : gmap string string := {[ "--force" := "1" ]}.

(** What is done on the new node once the members have taken it in. *)
Definition is_new_node_step (e : event) : bool :=
  match e with
  | SetCorosyncConfig _ _ | EnableCluster _ | StartCluster _ | SyncCerts _ =>
      true
  | _ => false
  end.

(** A cman cluster whose new nodes cannot be started or enabled. *)
Definition cman_world : world :=
  {| is_rhel6 := true;
     is_systemctl := false;
     is_cman_cluster := true;
     need_to_handle_qdevice_service := false;
     is_cman_with_udpu_transport := false;
     getNodesFromCorosyncConf := ["node1"; "node2"; "node3"];
     run := fun _ => ("Quorate: Yes", 0%Z);
     get_remote_quorumtool_output := fun _ => (0%Z, "Quorate: Yes");
     parse_cman_quorum_info := fun _ => None;
     parse_quorumtool_output := fun _ => None;
     is_node_stop_cause_quorum_loss := fun _ _ _ => false;
     is_node_offline_by_quorumtool_output := fun _ => false;
     stopPacemaker := fun _ => (0%Z, "stopped");
     stopCorosync := fun _ => (0%Z, "stopped");
     destroyCluster := fun _ => (0%Z, "destroyed");
     enableCluster := fun _ => (1%Z, "not enabled");
     startCluster := fun _ => (1%Z, "not started");
     addLocalNode :=
       fun my_node _ _ =>
         if String.eqb my_node "node2" then (1%Z, "refused")
         else (0%Z, "configuration of " +:+ my_node);
     removeLocalNode :=
       fun _ _ => inr {| remove_code := 0; remove_lines := [] |};
     reloadCorosync := ("reloaded", 0%Z);
     send_local_configs := send_local_configs calm_world;
     qdevice_net_setup := fun _ _ => None;
     reports_exit := fun _ => false;
     getPacemakerNodeStatus := getPacemakerNodeStatus calm_world;
     get_local_node_status := get_local_node_status calm_world;
     clock := 0;
     remote_now := fun _ => steady_now;
     local_now := steady_now |}.

(** ** Further vocabulary: text *)

(** The character occurs in the string. *)
Fixpoint has_char (c : ascii) (s : string) : bool :=
  match s with
  | EmptyString => false
  | String c' s' => Ascii.eqb c' c || has_char c s'
  end.


(** ** Further commands of [pcs cluster]

    The commands below call more of the outside than [event] records:
    the usage texts, the file system, the environment, [os.system] and
    further functions of [pcs.utils] and of the libraries. *)

Module PyStr.

(** [s.split(sep)] for a separator of one character. *)
Fixpoint split (sep : ascii) (s : string) : list string :=
  match s with
  | EmptyString => [EmptyString]
  | String c s' =>
      if Ascii.eqb c sep then EmptyString :: split sep s'
      else
        match split sep s' with
        | head :: tail => String c head :: tail
        | [] => [String c EmptyString]
        end
  end.

(** [s.split(sep, 1)] when [sep in s]: what is before the first [sep] and
    what is after it; [None] when [sep] is not in [s], where [split]
    gives a list of one element and [s.find(sep)] gives [-1]. *)
Fixpoint split1 (sep : ascii) (s : string) : option (string * string) :=
  match s with
  | EmptyString => None
  | String c s' =>
      if Ascii.eqb c sep then Some (EmptyString, s')
      else
        match split1 sep s' with
        | Some (before, after) => Some (String c before, after)
        | None => None
        end
  end.

(** [s.startswith(prefix)] *)
Definition startswith (prefix s : string) : bool := String.prefix prefix s.

(** [sep.join(l)] *)
Definition join (sep : string) (l : list string) : string :=
  String.concat sep l.

(** [os.path.join(a, b)] for a relative [b]. *)
Definition path_join (a b : string) : string :=
  match a with
  | EmptyString => b
  | _ =>
      if String.eqb (String.substring (String.length a - 1) 1 a) "/"
      then a +:+ b else a +:+ "/" +:+ b
  end.

End PyStr.

(** What these commands do that can be seen from outside. *)
Inductive step :=
| Did (e : event)
| Usage (topic : list string)
| UsageOf (topic : string)
| Output (text : string)
| System (command : string)
| Call (name : string) (arguments : list string)
| Assign (usefile : bool) (filename : string)
| Raise (exception : string).

(** A command: its steps, and its result unless it left through
    [sys.exit] or an exception. *)
Definition Cmd (A : Type) : Type := list step * option A.

Definition cret {A} (a : A) : Cmd A := ([], Some a).

Definition cbind {A B} (m : Cmd A) (k : A -> Cmd B) : Cmd B :=
  match m with
  | (tr, Some a) => let '(tr', r) := k a in (tr ++ tr', r)
  | (tr, None) => (tr, None)
  end.

Declare Scope cmd_scope.
Delimit Scope cmd_scope with cmd.
Notation "x <- m ;; k" := (cbind m (fun x => k))
  (at level 100, m at next level, right associativity) : cmd_scope.
Notation "m ;; k" := (cbind m (fun _ => k))
  (at level 100, right associativity) : cmd_scope.

Definition steps {A} (m : Cmd A) : list step := fst m.

Definition quits {A} (m : Cmd A) : bool :=
  match snd m with None => true | Some _ => false end.

(** A command of the first part, run here. *)
Definition lift {A} (m : M A) : Cmd A := (map Did (fst m), snd m).

(** An external call: it is recorded and answers with [a]. *)
Definition ask {A} (s : step) (a : A) : Cmd A := ([s], Some a).

(** An external call that may end the program: [None] is its
    [sys.exit]. *)
Definition ask_or_exit {A} (s : step) (a : option A) : Cmd A := ([s], a).

(** [print(line)], [utils.err(message)] and [utils.run(command_line)] *)
Definition say (line : string) : Cmd unit := lift (print line).
Definition fail {A} (message : string) : Cmd A := lift (utils_err message).
Definition warn (message : string) : Cmd unit :=
  lift (utils_err_continue message).

(** [usage.cluster(topic)] followed by [sys.exit(1)] *)
Definition usage_exit {A} (topic : list string) : Cmd A :=
  ([Usage topic], None).

(** An exception that nothing catches. *)
Definition raise {A} (exception : string) : Cmd A :=
  ([Raise exception], None).

Definition cwhen (b : bool) (m : Cmd unit) : Cmd unit :=
  if b then m else cret tt.

(** The answers of the outside that [world] does not hold. *)
Record host := {
  (** [utils.usefile] and [utils.filename] when the command begins *)
  usefile : bool;
  filename : string;
  (** [settings] *)
  crm_report : string;
  crm_verify : string;
  cluster_conf_file : string;
  cib_dir : string;
  pacemaker_wait_timeout_status : Z;
  sbd_watchdog_default : string;
  (** [os.environ.get('EDITOR')] *)
  EDITOR : option string;
  (** [os.path.exists], [os.path.isfile] *)
  path_exists : string -> bool;
  path_isfile : string -> bool;
  (** [os.remove(path)]: the [strerror] of the [OSError] it raises, if it
      does *)
  os_remove : string -> option string;
  (** [open(path, 'w')] and [f.write(text)]: the [strerror] of the
      [IOError] raised, if one is *)
  open_for_writing : string -> option string;
  file_write : string -> string -> option string;
  (** the day before [datetime.datetime.now()], as ["%Y-%m-%d %H:%M"] *)
  yesterday : string;
  (** [utils.is_valid_cib_scope] *)
  is_valid_cib_scope : string -> bool;
  (** [utils.validate_wait_get_timeout(need_cib_support)]: the timeout
      in seconds or [None]; the outer [None] is its [utils.err] *)
  validate_wait_get_timeout : bool -> option (option nat);
  (** [xml.dom.minidom.parse(path)]: the text of the exception it raises,
      or whether the document has elements with a given tag name *)
  parse_cib : string -> string + (string -> bool);
  (** [utils.get_cib(scope)]; [None] is its [utils.err] *)
  get_cib_text : option string -> option string;
  (** the name of the temporary file, and what is in it when the editor
      is left; [None]: the editor cannot be run ([OSError]) *)
  temp_name : string;
  edit : string -> string -> option string;
  (** [os.listdir(settings.corosync_uidgid_dir)], [utils.read_uid_gid_file],
      [utils.remove_uid_gid_file] *)
  uidgid_files : list string;
  read_uid_gid_file : string -> gmap string string;
  remove_uid_gid_file : string -> string -> bool;
  (** [utils.getCorosyncConf()] *)
  getCorosyncConf : string;
  (** [utils.getCorosyncConfig(node)] *)
  getCorosyncConfig : string -> Z * string;
  (** [utils.readTokens()] *)
  readTokens : gmap string string;
  (** [set(nodes)]: its elements in the order in which the set is gone
      through, which is the same each time for one set *)
  iter_set : list string -> list string;
  (** [utils.checkAuthorization(node)] and [json.loads] *)
  checkAuthorization : string -> Z * string;
  loads : string -> option json;
  (** [utils.get_terminal_input], [utils.get_terminal_password] *)
  get_terminal_input : string;
  get_terminal_password : string;
  (** [utils.addNodeToCorosync], [utils.addNodeToClusterConf],
      [utils.removeNodeFromCorosync], [utils.removeNodeFromClusterConf] *)
  addNodeToCorosync : string -> bool;
  addNodeToClusterConf : string -> bool;
  removeNodeFromCorosync : string -> bool;
  removeNodeFromClusterConf : string -> bool;
  (** [utils.is_service_running(runner, service)] *)
  is_service_running : string -> bool;
  (** [utils.parse_multiring_node(node)]; [None] is its [utils.err] *)
  parse_multiring_node : string -> option node_arg;
  (** [utils.need_ring1_address(corosync_conf)] *)
  need_ring1_address : string -> bool;
  (** [utils.canAddNodeToCluster(node)] *)
  canAddNodeToCluster : string -> bool * string;
  (** [lib_sbd.is_sbd_enabled] *)
  is_sbd_enabled : bool;
  (** the reports of the [LibraryError] or of the communication
      exception raised while sbd and booth are set up on the new node
      with the given addresses and watchdog, if one is raised *)
  sbd_booth_setup :
    string -> option string -> option string -> option (list report_item);
  (** the return value of [getstatusoutput] for the test of
      [CMAN_QUORUM_TIMEOUT] *)
  cman_quorum_timeout_test : Z;
  (** whether [stonith.stonith_level_verify()] comes back *)
  stonith_level_verify : option unit
}.

Section Commands.

Variable w : world.
Variable h : host.
Variable pcs_options : gmap string string.

Local Open Scope cmd_scope.

(** [utils.run(command_line)] *)
Definition exec (command_line : list string) : Cmd (string * Z) :=
  lift (run_cmd w command_line).

(** *** [cluster_report] (lines 1855-1899) *)

(** Lines 1886-1895: the lines of the output of [crm_report] that are
    left out. *)
Definition report_noise (line : string) : bool :=
  PyStr.startswith "cat:" line
  || PyStr.startswith "grep" line
  || PyStr.startswith "grep" line
  || PyStr.startswith "tail" line
  || PyValue.contains "We will attempt to remove" line
  || PyValue.contains "-p option" line
  || PyValue.contains "However, doing" line
  || PyValue.contains "to diagnose" line.

(** Lines 1884-1896: the loop that builds [newoutput]. *)
Definition report_output (output : string) : string :=
  fold_left
    (fun newoutput line =>
       if report_noise line then newoutput else newoutput +:+ line +:+ nl)
    (PyStr.split "010" output) EmptyString.

(** Lines 1870-1882: [crm_report_opts]. *)
Definition crm_report_opts (outfile : string) : list string :=
  ["-f"]
    ++ match pcs_options !! "--from" with
       | Some from =>
           [from]
             ++ match pcs_options !! "--to" with
                | Some to => ["-t"; to]
                | None => []
                end
       | None => [yesterday h]
       end
    ++ [outfile].

Definition cluster_report (argv : list string) : Cmd unit :=
  match argv with
  | [outfile] =>
      let dest_outfile := outfile +:+ ".tar.bz2" in
      cwhen (path_exists h dest_outfile)
        (if negb (Py.has_key "--force" pcs_options) then
           fail (dest_outfile +:+ " already exists, use --force to overwrite")
         else
           r <- ask (Call "os.remove" [dest_outfile]) (os_remove h dest_outfile) ;;
           match r with
           | Some strerror =>
               fail ("Unable to remove " +:+ dest_outfile +:+ ": " +:+ strerror)
           | None => cret tt
           end) ;;
      r <- exec (crm_report h :: crm_report_opts outfile) ;;
      let '(output, retval) := r in
      let newoutput := report_output output in
      cwhen (negb (retval =? 0)%Z) (fail newoutput) ;;
      say newoutput
  | _ => usage_exit ["report"]
  end.

(** *** [cluster_uidgid] (lines 1651-1758) *)

(** Lines 1673-1686 and 1734-1747: the loop over the arguments, from
    the values of [uid] and [gid] so far, and the test that follows
    it. *)
Fixpoint uidgid_args (argv : list string) (uid gid : string)
  : Cmd (string * string) :=
  match argv with
  | [] =>
      cwhen (String.eqb uid EmptyString && String.eqb gid EmptyString)
        (fail "you must set either uid or gid") ;;
      cret (uid, gid)
  | arg :: rest =>
      match PyStr.split1 "=" arg with
      | None => fail "uidgid options must be of the form uid=<uid> gid=<gid>"
      | Some (k, v) =>
          cwhen (negb (String.eqb k "uid") && negb (String.eqb k "gid"))
            (fail (k +:+ " is not a valid key, you must use uid or gid")) ;;
          uidgid_args rest
            (if String.eqb k "uid" then v else uid)
            (if String.eqb k "gid" then v else gid)
      end
  end.

(** Lines 157-159. *)
Fixpoint sync_nodes (nodes : list string) (config : string) : Cmd unit :=
  match nodes with
  | [] => cret tt
  | node :: rest =>
      ask (Did (SetCorosyncConfig node config)) tt ;;
      sync_nodes rest config
  end.

(** Lines 1660-1666: the lines of [ccs --lsmisc] that are shown. *)
Fixpoint show_uidgid_lines (lines : list string) (found : bool) : Cmd bool :=
  match lines with
  | [] => cret found
  | line :: rest =>
      if PyStr.startswith "UID/GID: " line then
        say line ;; show_uidgid_lines rest true
      else show_uidgid_lines rest found
  end.

(** Lines 1651-1703.  The message of line 1653 has no conversion for
    the argument of [%], so that formatting it raises [TypeError]. *)
Definition cluster_uidgid_rhel6 (argv : list string) (silent_list : bool)
  : Cmd unit :=
  cwhen (negb (path_isfile h (cluster_conf_file h))) (raise "TypeError") ;;
  match argv with
  | [] =>
      r <- exec ["ccs"; "-f"; cluster_conf_file h; "--lsmisc"] ;;
      let '(output, retval) := r in
      cwhen (negb (retval =? 0)%Z) (fail ("error running ccs" +:+ nl +:+ output)) ;;
      found <- show_uidgid_lines (PyStr.split "010" output) false ;;
      cwhen (negb found && negb silent_list)
        (say "No uidgids configured in cluster.conf")
  | command :: argv =>
      if (String.eqb command "add" || String.eqb command "rm")
         && nonempty argv
      then
        r <- uidgid_args argv EmptyString EmptyString ;;
        let '(uid, gid) := r in
        (if String.eqb command "add" then
           r <- exec ["ccs"; "-f"; cluster_conf_file h; "--setuidgid";
                      "uid=" +:+ uid; "gid=" +:+ gid] ;;
           let '(output, retval) := r in
           cwhen (negb (retval =? 0)%Z)
             (fail ("unable to add uidgid" +:+ nl +:+ Py.rstrip output))
         else
           r <- exec ["ccs"; "-f"; cluster_conf_file h; "--rmuidgid";
                      "uid=" +:+ uid; "gid=" +:+ gid] ;;
           let '(output, retval) := r in
           cwhen (negb (retval =? 0)%Z)
             (fail ("unable to remove uidgid" +:+ nl +:+ Py.rstrip output))) ;;
        cwhen (negb (usefile h))
          (sync_nodes (getNodesFromCorosyncConf w) (getCorosyncConf h))
      else usage_exit ["uidgid"]
  end.

(** Lines 1713-1724: the files of the uidgid directory that are shown. *)
Fixpoint show_uidgid_files (files : list string) (found : bool) : Cmd bool :=
  match files with
  | [] => cret found
  | ug_file :: rest =>
      let uid_gid_dict := read_uid_gid_file h ug_file in
      if Py.has_key "uid" uid_gid_dict || Py.has_key "gid" uid_gid_dict then
        say ("UID/GID: uid="
               +:+ default EmptyString (uid_gid_dict !! "uid")
               +:+ " gid="
               +:+ default EmptyString (uid_gid_dict !! "gid")) ;;
        show_uidgid_files rest true
      else show_uidgid_files rest found
  end.

(** Lines 1705-1758. *)
Definition cluster_uidgid (argv : list string) (silent_list : bool)
  : Cmd unit :=
  if is_rhel6 w then cluster_uidgid_rhel6 argv silent_list
  else
    match argv with
    | [] =>
        found <- show_uidgid_files (uidgid_files h) false ;;
        cwhen (negb found && negb silent_list)
          (say "No uidgids configured in cluster.conf")
    | command :: argv =>
        if (String.eqb command "add" || String.eqb command "rm")
           && nonempty argv
        then
          r <- uidgid_args argv EmptyString EmptyString ;;
          let '(uid, gid) := r in
          if String.eqb command "add" then
            ask (Call "write_uid_gid_file" [uid; gid]) tt
          else
            retval <- ask (Call "remove_uid_gid_file" [uid; gid])
                        (remove_uid_gid_file h uid gid) ;;
            cwhen (negb retval)
              (fail ("no uidgid files with uid=" +:+ uid +:+ " and gid="
                       +:+ gid +:+ " found"))
        else usage_exit ["uidgid"]
    end.

(** *** [cluster_push], [get_cib] and [cluster_edit] (lines 1198-1341) *)

(** Lines 1208-1222 and 1314-1328: the loop over the arguments, from
    the values of [filename] and [scope] so far, and the override by
    [--config]. *)
Fixpoint cib_args (topic : string) (argv : list string)
    (filename scope : option string) : Cmd (option string * option string) :=
  match argv with
  | [] =>
      cret (filename,
            if Py.has_key "--config" pcs_options then Some "configuration"
            else scope)
  | arg :: rest =>
      match PyStr.split1 "=" arg with
      | None => cib_args topic rest (Some arg) scope
      | Some (arg_name, arg_value) =>
          if String.eqb arg_name "scope"
             && negb (Py.has_key "--config" pcs_options)
          then
            if negb (is_valid_cib_scope h arg_value) then
              fail ("invalid CIB scope '" +:+ arg_value +:+ "'")
            else cib_args topic rest filename (Some arg_value)
          else usage_exit [topic]
      end
  end.

(** Truth value of a string that may be [None]. *)
Definition truthy_opt (s : option string) : bool :=
  match s with Some s => Py.truthy_str s | None => false end.

(** Lines 1237-1239: the command that replaces the CIB. *)
Definition push_command (filename : string) (scope : option string)
  : list string :=
  ["cibadmin"; "--replace"; "--xml-file"; filename]
    ++ (if truthy_opt scope
        then ["--scope=" +:+ default EmptyString scope] else []).

(** Lines 1198-1256. *)
Definition cluster_push (argv : list string) : Cmd unit :=
  cwhen (2 <? length argv)%nat (usage_exit ["cib-push"]) ;;
  timeout <-
    (if Py.has_key "--wait" pcs_options then
       ask_or_exit (Call "validate_wait_get_timeout" [])
         (validate_wait_get_timeout h true)
     else cret None) ;;
  r <- cib_args "cib-push" argv None None ;;
  let '(filename, scope) := r in
  cwhen (negb (truthy_opt filename)) (usage_exit ["cib-push"]) ;;
  let filename := default EmptyString filename in
  new_cib_dom <- ask (Call "xml.dom.minidom.parse" [filename])
                   (parse_cib h filename) ;;
  match new_cib_dom with
  | inl e => fail ("unable to parse new cib: " +:+ e)
  | inr getElementsByTagName =>
      cwhen (truthy_opt scope
             && negb (getElementsByTagName (default EmptyString scope)))
        (fail ("unable to push cib, scope '" +:+ default EmptyString scope
                 +:+ "' not present in new cib"))
  end ;;
  r <- exec (push_command filename scope) ;;
  let '(output, retval) := r in
  cwhen (negb (retval =? 0)%Z) (fail ("unable to push cib" +:+ nl +:+ output)) ;;
  say "CIB updated" ;;
  cwhen (Py.has_key "--wait" pcs_options)
    (r <- exec (["crm_resource"; "--wait"]
                  ++ match timeout with
                     | Some (S n) => ["--timeout"; Py.str_of_nat (S n)]
                     | _ => []
                     end) ;;
     let '(output, retval) := r in
     cwhen (negb (retval =? 0)%Z)
       (let msg :=
          (if (retval =? pacemaker_wait_timeout_status h)%Z
           then ["waiting timeout"] else [])
            ++ (if Py.truthy_str output then [nl +:+ output] else []) in
        fail (Py.strip (PyStr.join nl msg)))).

(** Lines 1307-1341. *)
Definition get_cib (argv : list string) : Cmd unit :=
  cwhen (2 <? length argv)%nat (usage_exit ["cib"]) ;;
  r <- cib_args "cib" argv None None ;;
  let '(filename, scope) := r in
  if negb (truthy_opt filename) then
    cib <- ask_or_exit (Call "get_cib" (option_list scope)) (get_cib_text h scope) ;;
    ask (Output cib) tt
  else
    let filename := default EmptyString filename in
    opened <- ask (Call "open" [filename; "w"]) (open_for_writing h filename) ;;
    match opened with
    | Some strerror =>
        fail ("Unable to write to file '" +:+ filename +:+ "', " +:+ strerror)
    | None =>
        output <- ask_or_exit (Call "get_cib" (option_list scope))
                    (get_cib_text h scope) ;;
        if negb (String.eqb output EmptyString) then
          written <- ask (Call "write" [filename; output])
                       (file_write h filename output) ;;
          match written with
          | Some strerror =>
              fail ("Unable to write to file '" +:+ filename +:+ "', "
                      +:+ strerror)
          | None => cret tt
          end
        else fail "No data in the CIB"
    end.

(** Lines 1266-1285: the loop over the arguments of [cluster_edit], from
    the values of [scope] and [scope_arg] so far, and the override by
    [--config]. *)
Fixpoint edit_args (argv : list string) (scope : option string)
    (scope_arg : string) : Cmd (option string * string) :=
  match argv with
  | [] =>
      cret (if Py.has_key "--config" pcs_options
            then (Some "configuration", EmptyString)
            else (scope, scope_arg))
  | arg :: rest =>
      match PyStr.split1 "=" arg with
      | None => usage_exit ["edit"]
      | Some (arg_name, arg_value) =>
          if String.eqb arg_name "scope"
             && negb (Py.has_key "--config" pcs_options)
          then
            if negb (is_valid_cib_scope h arg_value) then
              fail ("invalid CIB scope '" +:+ arg_value +:+ "'")
            else edit_args rest (Some arg_value) arg
          else usage_exit ["edit"]
      end
  end.

(** Lines 1258-1305. *)
Definition cluster_edit (argv : list string) : Cmd unit :=
  match EDITOR h with
  | Some editor =>
      cwhen (1 <? length argv)%nat (usage_exit ["edit"]) ;;
      r <- edit_args argv None EmptyString ;;
      let '(scope, scope_arg) := r in
      cib <- ask_or_exit (Call "get_cib" (option_list scope))
               (get_cib_text h scope) ;;
      edited <- ask (Call "subprocess.call" [editor; temp_name h])
                  (edit h editor cib) ;;
      match edited with
      | None => fail ("unable to open file with $EDITOR: " +:+ editor)
      | Some newcib =>
          if String.eqb newcib cib then
            say "CIB not updated, no changes detected"
          else
            cluster_push
              (List.filter Py.truthy_str [temp_name h; scope_arg])
      end
  | None => fail "$EDITOR environment variable is not set"
  end.

(** *** [cluster_verify] (lines 1831-1853) *)

(** With more than one argument the usage text is shown, for the string
    ["verify"], and the command goes on. *)
Definition cluster_verify (argv : list string) : Cmd Z :=
  cwhen (1 <? length argv)%nat (ask (UsageOf "verify") tt) ;;
  let options :=
    (if Py.has_key "-V" pcs_options then ["-V"] else [])
      ++ match argv with
         | [filename] => ["--xml-file"; filename]
         | _ => ["--live-check"]
         end in
  r <- exec (crm_verify h :: options) ;;
  let '(output, retval) := r in
  cwhen (negb (String.eqb output EmptyString)) (say output) ;;
  ask_or_exit (Call "stonith.stonith_level_verify" []) (stonith_level_verify h) ;;
  cret retval.

(** *** [cluster_reload] (lines 1779-1787) *)

Definition cluster_reload (argv : list string) : Cmd unit :=
  match argv with
  | [what] =>
      if negb (String.eqb what "corosync") then usage_exit ["reload"]
      else
        r <- lift (call ReloadCorosync (reloadCorosync w)) ;;
        let '(output, retval) := r in
        cwhen (negb (retval =? 0)%Z || PyValue.contains "invalid option" output)
          (fail (Py.rstrip output)) ;;
        say "Corosync reloaded"
  | _ => usage_exit ["reload"]
  end.

(** *** [cluster_get_corosync_conf] (lines 1760-1777) *)

Definition cluster_get_corosync_conf (argv : list string) : Cmd unit :=
  cwhen (is_rhel6 w) (fail "corosync.conf is not supported on CMAN clusters") ;;
  match argv with
  | [] => ask (Output (getCorosyncConf h)) tt
  | [node] =>
      r <- ask (Call "getCorosyncConfig" [node]) (getCorosyncConfig h node) ;;
      let '(retval, output) := r in
      if negb (retval =? 0)%Z then fail output else ask (Output output) tt
  | _ => usage_exit []
  end.

(** *** [cluster_token] (lines 167-178) *)

Definition cluster_token (argv : list string) : Cmd unit :=
  match argv with
  | [] => fail "Must specify a node to get authorization token from"
  | [node] =>
      match readTokens h !! node with
      | Some token => say token
      | None => fail ("No authorization token for: " +:+ node)
      end
  | _ => fail "Must specify only one node"
  end.

(** *** [kill_cluster] (lines 1179-1192) *)

Definition kill_cluster (argv : list string) : Cmd unit :=
  let daemons :=
    ["crmd"; "pengine"; "attrd"; "lrmd"; "stonithd"; "cib"; "pacemakerd";
     "pacemaker_remoted"; "corosync-qdevice"; "corosync"] in
  _ <- exec (["killall"; "-9"] ++ daemons) ;;
  cret tt.

(** *** [cluster_destroy] (lines 1791-1829) *)

(** Lines 1820-1823. *)
Definition state_files : list string :=
  ["cib.xml*"; "cib-*"; "core.*"; "hostcache"; "cts.*"; "pe*.bz2"; "cib.*"].

Fixpoint remove_state_files (names : list string) : Cmd unit :=
  match names with
  | [] => cret tt
  | name :: rest =>
      ask (System ("find /var/lib -name '" +:+ name
                     +:+ "' -exec rm -f \{\} \;")) tt ;;
      remove_state_files rest
  end.

(** What [utils.disableServices], [disable_service] and
    [qdevice_net.client_destroy] raise is dropped by the bare [except]
    of each. *)
Definition cluster_destroy (argv : list string) : Cmd unit :=
  if Py.has_key "--all" pcs_options then
    lift (destroy_cluster w (getNodesFromCorosyncConf w) false)
  else
    say "Shutting down pacemaker/corosync services..." ;;
    ask (System "service pacemaker stop") tt ;;
    ask (System "service corosync-qdevice stop") tt ;;
    ask (System "service corosync stop") tt ;;
    say "Killing any remaining services..." ;;
    ask (System ("killall -q -9 corosync corosync-qdevice aisexec heartbeat "
                   +:+ "pacemakerd ccm stonithd ha_logd lrmd crmd pengine "
                   +:+ "attrd pingd mgmtd cib fenced dlm_controld gfs_controld"))
      tt ;;
    ask (Call "disableServices" []) tt ;;
    ask (Call "disable_service" ["sbd"]) tt ;;
    say "Removing all cluster configuration files..." ;;
    (if is_rhel6 w then ask (System "rm -f /etc/cluster/cluster.conf") tt
     else ask (System "rm -f /etc/corosync/corosync.conf") tt) ;;
    remove_state_files state_files ;;
    ask (Call "qdevice_net.client_destroy" []) tt.

(** *** [start_cluster] and its kin (lines 868-923) *)

(** Lines 871-873, 910-912 and 1381-1383: [wait] and [wait_timeout]. *)
Definition wait_option (wanted : bool) : Cmd (bool * option Z) :=
  if wanted then
    wait_timeout <- ask_or_exit (Call "validate_wait_get_timeout" ["False"])
                      (validate_wait_get_timeout h false) ;;
    cret (true, option_map Z.of_nat wait_timeout)
  else cret (false, None).

(** Lines 920-923. *)
Definition start_cluster_nodes (nodes : list string) : Cmd unit :=
  error_list <- ask (Call "startCluster" nodes)
                  (error_list_of (startCluster w) nodes) ;;
  cwhen (nonempty error_list)
    (fail ("unable to start all nodes" +:+ nl +:+ PyStr.join nl error_list)).

(** Lines 907-918. *)
Definition start_cluster_all : Cmd unit :=
  r <- wait_option (Py.has_key "--wait" pcs_options) ;;
  let '(wait, wait_timeout) := r in
  let all_nodes := getNodesFromCorosyncConf w in
  start_cluster_nodes all_nodes ;;
  cwhen wait (lift (wait_for_nodes_started w all_nodes wait_timeout)).

(** Lines 899-903: the loop over [service_list]. *)
Fixpoint start_services (service_list : list string) : Cmd unit :=
  match service_list with
  | [] => cret tt
  | service :: rest =>
      r <- exec ["service"; service; "start"] ;;
      let '(output, retval) := r in
      cwhen (negb (retval =? 0)%Z)
        (say output ;; fail ("unable to start " +:+ service)) ;;
      start_services rest
  end.

(** The quotation mark. *)
Definition dquote : string := String "034"%char EmptyString.

(** Lines 868-905.  On cman, [cman] is started by a command of its own
    before the loop. *)
Definition start_cluster (argv : list string) : Cmd unit :=
  r <- wait_option (Py.has_key "--wait" pcs_options) ;;
  let '(wait, wait_timeout) := r in
  if nonempty argv then
    start_cluster_nodes argv ;;
    cwhen wait (lift (wait_for_nodes_started w argv wait_timeout))
  else
    say "Starting Cluster..." ;;
    (if is_rhel6 w then
       retval <- ask (Call "getstatusoutput"
                        ["source /etc/sysconfig/cman ; [ -z " +:+ dquote
                           +:+ "$CMAN_QUORUM_TIMEOUT" +:+ dquote +:+ " ]"])
                   (cman_quorum_timeout_test h) ;;
       cwhen (retval =? 0)%Z
         (ask (Call "append"
                 ["/etc/sysconfig/cman";
                  nl +:+ "CMAN_QUORUM_TIMEOUT=0" +:+ nl]) tt) ;;
       r <- exec ["service"; "cman"; "start"] ;;
       let '(output, retval) := r in
       cwhen (negb (retval =? 0)%Z) (say output ;; fail "unable to start cman")
     else cret tt) ;;
    start_services
      ((if is_rhel6 w then []
        else ["corosync"]
               ++ (if need_to_handle_qdevice_service w
                   then ["corosync-qdevice"] else []))
         ++ ["pacemaker"]) ;;
    cwhen wait (lift (wait_for_nodes_started w [] wait_timeout)).

(** *** [cluster_localnode] (lines 1597-1649) *)

(** Lines 1624-1641: the removal of the node from a CIB file, when one
    is used or pacemaker is not running.  [utils.run] reads
    [utils.usefile] and [utils.filename], which are set for the
    command and set back after it. *)
Definition remove_from_cib_file (node : string) : Cmd unit :=
  cib_node_remove <-
    (if usefile h then cret (Some (filename h))
     else
       running <- ask (Call "is_service_running" ["pacemaker"])
                    (is_service_running h "pacemaker") ;;
       if negb running then cret (Some (PyStr.path_join (cib_dir h) "cib.xml"))
       else cret None) ;;
  match cib_node_remove with
  | Some (String c name) =>
      let original_usefile := usefile h in
      let original_filename := filename h in
      ask (Assign true (String c name)) tt ;;
      _ <- exec ["cibadmin"; "--delete-all"; "--force";
                 "--xpath=/cib/configuration/nodes/node[@uname='" +:+ node
                   +:+ "']"] ;;
      ask (Assign original_usefile original_filename) tt
  | _ => cret tt
  end.

Definition cluster_localnode (argv : list string) : Cmd unit :=
  match argv with
  | [command; node] =>
      if String.eqb command "add" then
        success <-
          (if negb (is_rhel6 w)
           then ask (Call "addNodeToCorosync" [node]) (addNodeToCorosync h node)
           else ask (Call "addNodeToClusterConf" [node])
                  (addNodeToClusterConf h node)) ;;
        if success then say (node +:+ ": successfully added!")
        else fail ("unable to add " +:+ node)
      else if Py.in_tuple command ["remove"; "delete"] then
        success <-
          (if negb (is_rhel6 w)
           then ask (Call "removeNodeFromCorosync" [node])
                  (removeNodeFromCorosync h node)
           else ask (Call "removeNodeFromClusterConf" [node])
                  (removeNodeFromClusterConf h node)) ;;
        remove_from_cib_file node ;;
        if success then say (node +:+ ": successfully removed!")
        else fail ("unable to remove " +:+ node)
      else usage_exit []
  | _ => usage_exit []
  end.

(** *** [auth_nodes] and [cluster_auth] (lines 161-227) *)

(** Whether a value can be an element of a set. *)
Definition hashable (v : json) : bool :=
  match v with
  | JList _ | JDict _ => false
  | _ => true
  end.

(** [set(v)]: the elements of a list, the characters of a string, the
    keys of a dictionary. *)
Definition py_set (v : json) : pyexc + list json :=
  match v with
  | JList l => if forallb hashable l then inr l else inl TypeError
  | JStr s =>
      inr (map (fun c => JStr (String c EmptyString)) (list_ascii_of_string s))
  | JDict d => inr (map (fun kv => JStr (fst kv)) (map_to_list d))
  | _ => inl TypeError
  end.

(** [set_nodes.issubset(members)] *)
Definition issubset (set_nodes : list string) (members : list json) : bool :=
  forallb
    (fun node =>
       existsb (fun x => match x with
                         | JStr s => String.eqb s node
                         | _ => false
                         end) members)
    set_nodes.

(** Lines 202-210: [mutually_authorized] for the status of one node;
    [ValueError] and [KeyError] are caught, [TypeError] is not. *)
Definition mutually_authorized (set_nodes : list string) (status : Z * string)
  : pyexc + bool :=
  if (fst status =? 0)%Z then
    match loads h (snd status) with
    | None => inr false
    | Some auth_status =>
        match PyValue.getitem auth_status "success" with
        | inl TypeError => inl TypeError
        | inl _ => inr false
        | inr success =>
            if PyValue.truthy success then
              match PyValue.getitem auth_status "node_list" with
              | inl TypeError => inl TypeError
              | inl _ => inr false
              | inr node_list =>
                  match py_set node_list with
                  | inl TypeError => inl TypeError
                  | inl _ => inr false
                  | inr members => inr (issubset set_nodes members)
                  end
              end
            else inr false
        end
    end
  else inr false.

(** Lines 197-213: the loop that looks for a node that is not
    authorized; it hands back [need_auth]. *)
Fixpoint check_nodes (set_nodes todo : list string) : Cmd bool :=
  match todo with
  | [] => cret false
  | node :: rest =>
      status <- ask (Call "checkAuthorization" [node])
                  (checkAuthorization h node) ;;
      if (fst status =? 3)%Z then cret true
      else
        match mutually_authorized set_nodes status with
        | inl _ => raise "TypeError"
        | inr true => check_nodes set_nodes rest
        | inr false => cret true
        end
  end.

(** Lines 226-227. *)
Fixpoint already_authorized (nodes : list string) : Cmd unit :=
  match nodes with
  | [] => cret tt
  | node :: rest =>
      say (node +:+ ": Already authorized") ;; already_authorized rest
  end.

(** Lines 183-227.  The set of the nodes is gone through in the order
    that [iter_set] gives. *)
Definition auth_nodes (nodes : list string) : Cmd unit :=
  let username := pcs_options !! "-u" in
  let password := pcs_options !! "-p" in
  let set_nodes := iter_set h nodes in
  need_auth <-
    (if Py.has_key "--force" pcs_options
        || truthy_opt username || truthy_opt password
     then cret true
     else check_nodes set_nodes set_nodes) ;;
  if need_auth then
    username <-
      match username with
      | Some username => cret username
      | None => ask (Call "get_terminal_input" ["Username: "])
                  (get_terminal_input h)
      end ;;
    password <-
      match password with
      | Some password => cret password
      | None => ask (Call "get_terminal_password" []) (get_terminal_password h)
      end ;;
    ask (Call "auth_nodes_do"
           (set_nodes
              ++ [username; password;
                  if Py.has_key "--force" pcs_options then "True" else "False";
                  if Py.has_key "--local" pcs_options then "True" else "False"]))
      tt
  else already_authorized set_nodes.

(** Lines 161-165. *)
Definition cluster_auth (argv : list string) : Cmd unit :=
  if nonempty argv then auth_nodes argv
  else auth_nodes (getNodesFromCorosyncConf w).

(** *** [cluster_node] (lines 1343-1595) *)

(** Lines 1363-1376: the message for a node that is not authorized. *)
Definition authorization_message (add_node : bool) (node0 : string)
    (status : Z) (output : string) : string :=
  let msg :=
    if (status =? 2)%Z then "pcsd is not running on " +:+ node0
    else if (status =? 3)%Z then
      node0 +:+ " is not yet authenticated " +:+ " (try pcs cluster auth "
        +:+ node0 +:+ ")"
    else output in
  if negb add_node then msg +:+ ", use --force to override" else msg.

(** Lines 1400-1454: sbd and booth on the new node.  The calls into the
    libraries are taken as one; what they raise is handed to
    [process_library_reports].  The watchdog is the first value of
    [--watchdog]. *)
Definition sbd_and_booth (node0 : string) (node1 : option string)
  : Cmd unit :=
  watchdog <-
    (if is_sbd_enabled h then
       match pcs_options !! "--watchdog" with
       | None =>
           say ("Warning: using default watchdog '" +:+ sbd_watchdog_default h
                  +:+ "'") ;;
           cret (Some (sbd_watchdog_default h))
       | Some watchdog => cret (Some watchdog)
       end
     else cret None) ;;
  raised <- ask (Call "sbd and booth" (node0 :: option_list node1))
              (sbd_booth_setup h node0 node1 watchdog) ;;
  match raised with
  | Some items => lift (process_library_reports w items)
  | None => cret tt
  end.

Definition cluster_node (argv : list string) : Cmd unit :=
  match argv with
  | [command; node] =>
      add_node <-
        (if String.eqb command "add" then cret true
         else if Py.in_tuple command ["remove"; "delete"] then cret false
         else usage_exit []) ;;
      r <- ask_or_exit (Call "parse_multiring_node" [node])
             (parse_multiring_node h node) ;;
      let '(node0, node1) := r in
      cwhen (negb (Py.truthy_str node0))
        (fail "missing ring 0 address of the node") ;;
      cwhen (add_node || negb (Py.has_key "--force" pcs_options))
        (r <- ask (Call "checkAuthorization" [node0])
                (checkAuthorization h node0) ;;
         let '(status, output) := r in
         cwhen (negb (status =? 0)%Z)
           (fail (authorization_message add_node node0 status output))) ;;
      if add_node then
        r <- wait_option (Py.has_key "--start" pcs_options
                          && Py.has_key "--wait" pcs_options) ;;
        let '(wait, wait_timeout) := r in
        let need_ring1_address := need_ring1_address h (getCorosyncConf h) in
        (if negb (truthy_opt node1) && need_ring1_address then
           fail ("cluster is configured for RRP, "
                   +:+ "you have to specify ring 1 address for the node")
         else if truthy_opt node1 && negb need_ring1_address then
           fail ("cluster is not configured for RRP, "
                   +:+ "you must not specify ring 1 address for the node")
         else cret tt) ;;
        r <- ask (Call "canAddNodeToCluster" [node0])
               (canAddNodeToCluster h node0) ;;
        let '(canAdd, error) := r in
        cwhen (negb canAdd)
          (fail ("Unable to add '" +:+ node0 +:+ "' to cluster: " +:+ error)) ;;
        sbd_and_booth node0 node1 ;;
        lift (cluster_node_add w pcs_options node0 node1 wait wait_timeout)
      else lift (cluster_node_remove w pcs_options node0)
  | _ => usage_exit []
  end.

(** *** [cluster_cmd] (lines 66-155)

    The commands that are not written out here, and those of other
    modules, are calls. *)
Definition cluster_cmd (argv : list string) : Cmd unit :=
  match argv with
  | [] => usage_exit []
  | sub_cmd :: argv =>
      let all := Py.has_key "--all" pcs_options in
      if String.eqb sub_cmd "help" then ask (Usage argv) tt
      else if String.eqb sub_cmd "setup" then
        match pcs_options !! "--name" with
        | Some name => ask (Call "cluster_setup" (name :: argv)) tt
        | None =>
            fail "A cluster name (--name <name>) is required to setup a cluster"
        end
      else if String.eqb sub_cmd "sync" then
        sync_nodes (getNodesFromCorosyncConf w) (getCorosyncConf h)
      else if String.eqb sub_cmd "status" then
        ask (Call "status.cluster_status" argv) tt
      else if String.eqb sub_cmd "pcsd-status" then
        ask (Call "status.cluster_pcsd_status" argv) tt
      else if String.eqb sub_cmd "certkey" then
        ask (Call "pcsd.pcsd_certkey" argv) tt
      else if String.eqb sub_cmd "auth" then cluster_auth argv
      else if String.eqb sub_cmd "token" then cluster_token argv
      else if String.eqb sub_cmd "token-nodes" then
        ask (Call "cluster_token_nodes" argv) tt
      else if String.eqb sub_cmd "start" then
        if all then start_cluster_all else start_cluster argv
      else if String.eqb sub_cmd "stop" then
        if all then lift (stop_cluster_all w pcs_options)
        else lift (stop_cluster w pcs_options argv)
      else if String.eqb sub_cmd "kill" then kill_cluster argv
      else if String.eqb sub_cmd "standby" then
        ask (Call "node.node_standby" argv) tt
      else if String.eqb sub_cmd "unstandby" then
        ask (Call "node.node_standby" (argv ++ ["False"])) tt
      else if String.eqb sub_cmd "enable" then
        if all then ask (Call "enable_cluster_all" []) tt
        else ask (Call "enable_cluster" argv) tt
      else if String.eqb sub_cmd "disable" then
        if all then ask (Call "disable_cluster_all" []) tt
        else ask (Call "disable_cluster" argv) tt
      else if String.eqb sub_cmd "remote-node" then
        ask (Call "cluster_remote_node" argv) tt
      else if String.eqb sub_cmd "cib" then get_cib argv
      else if String.eqb sub_cmd "cib-push" then cluster_push argv
      else if String.eqb sub_cmd "cib-upgrade" then
        ask (Call "utils.cluster_upgrade" []) tt
      else if String.eqb sub_cmd "edit" then cluster_edit argv
      else if String.eqb sub_cmd "node" then cluster_node argv
      else if String.eqb sub_cmd "localnode" then cluster_localnode argv
      else if String.eqb sub_cmd "uidgid" then cluster_uidgid argv false
      else if String.eqb sub_cmd "corosync" then cluster_get_corosync_conf argv
      else if String.eqb sub_cmd "reload" then cluster_reload argv
      else if String.eqb sub_cmd "destroy" then cluster_destroy argv
      else if String.eqb sub_cmd "verify" then
        _ <- cluster_verify argv ;; cret tt
      else if String.eqb sub_cmd "report" then cluster_report argv
      else if String.eqb sub_cmd "quorum" then
        match argv with
        | unblock :: rest =>
            if String.eqb unblock "unblock"
            then ask (Call "quorum.quorum_unblock_cmd" rest) tt
            else usage_exit []
        | [] => usage_exit []
        end
      else usage_exit []
  end.

End Commands.

(** ** Vocabulary of the further commands *)

(** The value of an argument [key=value] with the given key. *)
Definition value_of (key arg : string) : option string :=
  match PyStr.split1 "=" arg with
  | Some (k, v) => if String.eqb k key then Some v else None
  | None => None
  end.

(** The value of the last argument with the given key, the empty string
    when there is none. *)
Definition last_value (key : string) (argv : list string) : string :=
  default EmptyString (last (omap (value_of key) argv)).

(** An argument [uid=...] or [gid=...]. *)
Definition is_uidgid_arg (arg : string) : bool :=
  match PyStr.split1 "=" arg with
  | Some (k, _) => String.eqb k "uid" || String.eqb k "gid"
  | None => false
  end.

(** The last argument without a [=], if there is one. *)
Definition last_plain (argv : list string) : option string :=
  last (List.filter (fun arg => negb (has_char "=" arg)) argv).

(** An argument that [cluster_push] and [get_cib] take: one without a
    [=], or [scope=] with a valid scope when [--config] is not given. *)
Definition cib_arg_ok (h : host) (pcs_options : gmap string string)
    (arg : string) : bool :=
  match PyStr.split1 "=" arg with
  | None => true
  | Some (arg_name, arg_value) =>
      String.eqb arg_name "scope"
      && negb (Py.has_key "--config" pcs_options)
      && is_valid_cib_scope h arg_value
  end.

(** The scope that is used: [configuration] with [--config], the value
    of the last [scope=] argument otherwise. *)
Definition chosen_scope (pcs_options : gmap string string)
    (argv : list string) : option string :=
  if Py.has_key "--config" pcs_options then Some "configuration"
  else last (omap (value_of "scope") argv).

(** The replacement of the CIB by [cibadmin]. *)
Definition is_cib_replace (s : step) : bool :=
  match s with
  | Did (Run (head :: _)) => String.eqb head "cibadmin"
  | _ => false
  end.

(** A step that changes the cluster: a request to a member to take a
    node in or to drop it, the stop of pacemaker on a node or the
    destruction of its configuration. *)
Definition changes_cluster (s : step) : bool :=
  match s with
  | Did (AddLocalNode _ _ _) | Did (RemoveLocalNode _ _)
  | Did (StopPacemaker _) | Did (DestroyCluster _) => true
  | _ => false
  end.

(** [utils.usefile] and [utils.filename] after the steps, from their
    values [globals] before. *)
Definition globals_after (globals : bool * string) (tr : list step)
  : bool * string :=
  fold_left
    (fun globals s =>
       match s with Assign usefile filename => (usefile, filename) | _ => globals end)
    tr globals.

(** The commands run by the steps, each with the values of
    [utils.usefile] and [utils.filename] it is run under. *)
Fixpoint runs_under (globals : bool * string) (tr : list step)
  : list (bool * string * list string) :=
  match tr with
  | [] => []
  | Assign usefile filename :: rest => runs_under (usefile, filename) rest
  | Did (Run command_line) :: rest =>
      (globals, command_line) :: runs_under globals rest
  | _ :: rest => runs_under globals rest
  end.

(** The CIB file that [cluster_localnode] removes a node from: the file
    in use, or the CIB on disk when pacemaker is not running. *)
Definition cib_file_target (h : host) : option string :=
  if usefile h then
    if Py.truthy_str (filename h) then Some (filename h) else None
  else if is_service_running h "pacemaker" then None
  else Some (PyStr.path_join (cib_dir h) "cib.xml").

(** The answer to the removal of the node from the configuration. *)
Definition removed_locally (w : world) (h : host) (node : string) : bool :=
  if negb (is_rhel6 w) then removeNodeFromCorosync h node
  else removeNodeFromClusterConf h node.

(** The node answers that it is authorized against all the nodes. *)
Definition node_authorized (h : host) (set_nodes : list string)
    (node : string) : bool :=
  match mutually_authorized h set_nodes (checkAuthorization h node) with
  | inr authorized => authorized
  | inl _ => false
  end.

(** The answer of the node makes the check raise an exception. *)
Definition node_crashes (h : host) (set_nodes : list string)
    (node : string) : bool :=
  match mutually_authorized h set_nodes (checkAuthorization h node) with
  | inr _ => false
  | inl _ => true
  end.

(** Credentials or [--force] are given on the command line. *)
Definition credentials_given (pcs_options : gmap string string) : bool :=
  Py.has_key "--force" pcs_options
  || truthy_opt (pcs_options !! "-u") || truthy_opt (pcs_options !! "-p").

Definition is_authorization_check (s : step) : bool :=
  match s with
  | Call name _ => String.eqb name "checkAuthorization"
  | _ => false
  end.

(** The call that authenticates against the nodes. *)
Definition auth_nodes_do_call (h : host) (pcs_options : gmap string string)
    (set_nodes : list string) : step :=
  Call "auth_nodes_do"
    (set_nodes
       ++ [default (get_terminal_input h) (pcs_options !! "-u");
           default (get_terminal_password h) (pcs_options !! "-p");
           if Py.has_key "--force" pcs_options then "True" else "False";
           if Py.has_key "--local" pcs_options then "True" else "False"]).

(** What [auth_nodes] asks for at the terminal: the user name and the
    password that the command line does not give. *)
Definition terminal_prompts (pcs_options : gmap string string) : list step :=
  match pcs_options !! "-u" with
  | Some _ => []
  | None => [Call "get_terminal_input" ["Username: "]]
  end
    ++ match pcs_options !! "-p" with
       | Some _ => []
       | None => [Call "get_terminal_password" []]
       end.

(** The [service] commands among the steps, in order. *)
Definition service_runs (tr : list step) : list (list string) :=
  flat_map
    (fun s =>
       match s with
       | Did (Run (head :: arguments)) =>
           if String.eqb head "service" then [head :: arguments] else []
       | _ => []
       end)
    tr.

(** Lines 882-898: the services that a local start starts, in order. *)
Definition start_order (w : world) : list string :=
  if is_rhel6 w then ["cman"; "pacemaker"]
  else
    ["corosync"]
      ++ (if need_to_handle_qdevice_service w then ["corosync-qdevice"] else [])
      ++ ["pacemaker"].

(** The command runs a beginning of [plan], all of it when it comes
    back, and every command it ran but the last succeeded. *)
Definition starts (w : world) (m : Cmd unit) (plan : list (list string))
  : Prop :=
  (exists rest, plan = service_runs (steps m) ++ rest)
  /\ (quits m = false ->
      service_runs (steps m) = plan /\ forallb (runs_fine w) plan = true)
  /\ (forall done last,
        service_runs (steps m) = done ++ [last] ->
        forallb (runs_fine w) done = true).

(** The second word of a command line. *)
Definition service_name (command_line : list string) : string :=
  nth 1 command_line EmptyString.

(** A message, a shell command or a call: nothing that can fail. *)
Definition is_local_cleanup (s : step) : bool :=
  match s with
  | Did (Print _) | System _ | Call _ _ => true
  | _ => false
  end.

(** The removal of the configuration file of the cluster stack. *)
Definition remove_configuration (w : world) : step :=
  if is_rhel6 w then System "rm -f /etc/cluster/cluster.conf"
  else System "rm -f /etc/corosync/corosync.conf".

(** ** Sample machines *)

(** A machine on which everything works: no archive is in the way,
    cluster.conf is there, the CIB can be read, written and edited, pcsd
    answers as authorized on every node and any node can be added. *)
Definition calm_host : host :=
  {| usefile := false;
     filename := EmptyString;
     crm_report := "/usr/sbin/crm_report";
     crm_verify := "/usr/sbin/crm_verify";
     cluster_conf_file := "/etc/cluster/cluster.conf";
     cib_dir := "/var/lib/pacemaker/cib";
     pacemaker_wait_timeout_status := 62;
     sbd_watchdog_default := "/dev/watchdog";
     EDITOR := Some "vi";
     path_exists := fun _ => false;
     path_isfile := fun _ => true;
     os_remove := fun _ => None;
     open_for_writing := fun _ => None;
     file_write := fun _ _ => None;
     yesterday := "2016-05-31 12:00";
     is_valid_cib_scope :=
       fun scope => existsb (String.eqb scope) ["configuration"; "nodes"];
     validate_wait_get_timeout := fun _ => Some None;
     parse_cib := fun _ => inr (fun _ => true);
     get_cib_text := fun _ => Some "<cib/>";
     temp_name := "/tmp/tmpcib";
     edit := fun _ cib => Some (cib +:+ "<!-- edited -->");
     uidgid_files := [];
     read_uid_gid_file := fun _ => ∅;
     remove_uid_gid_file := fun _ _ => true;
     getCorosyncConf := "totem { }";
     getCorosyncConfig := fun _ => (0%Z, "totem { }");
     readTokens := ∅;
     iter_set := fun nodes => elements (list_to_set nodes : gset string);
     checkAuthorization := fun _ => (0%Z, "authorized");
     loads :=
       fun _ =>
         Some (JDict {[ "success" := JBool true;
                        "node_list" := JList [JStr "node1"; JStr "node2"] ]});
     get_terminal_input := "hacluster";
     get_terminal_password := "secret";
     addNodeToCorosync := fun _ => true;
     addNodeToClusterConf := fun _ => true;
     removeNodeFromCorosync := fun _ => true;
     removeNodeFromClusterConf := fun _ => true;
     is_service_running := fun _ => false;
     parse_multiring_node := fun node => Some (node, None);
     need_ring1_address := fun _ => false;
     canAddNodeToCluster := fun _ => (true, EmptyString);
     is_sbd_enabled := false;
     sbd_booth_setup := fun _ _ _ => None;
     cman_quorum_timeout_test := 1;
     stonith_level_verify := Some tt |}.

(** [h] with other answers about which paths exist and which are files. *)
Definition with_paths (exist isfile : string -> bool) (h : host) : host :=
  {| usefile := usefile h;
     filename := filename h;
     crm_report := crm_report h;
     crm_verify := crm_verify h;
     cluster_conf_file := cluster_conf_file h;
     cib_dir := cib_dir h;
     pacemaker_wait_timeout_status := pacemaker_wait_timeout_status h;
     sbd_watchdog_default := sbd_watchdog_default h;
     EDITOR := EDITOR h;
     path_exists := exist;
     path_isfile := isfile;
     os_remove := os_remove h;
     open_for_writing := open_for_writing h;
     file_write := file_write h;
     yesterday := yesterday h;
     is_valid_cib_scope := is_valid_cib_scope h;
     validate_wait_get_timeout := validate_wait_get_timeout h;
     parse_cib := parse_cib h;
     get_cib_text := get_cib_text h;
     temp_name := temp_name h;
     edit := edit h;
     uidgid_files := uidgid_files h;
     read_uid_gid_file := read_uid_gid_file h;
     remove_uid_gid_file := remove_uid_gid_file h;
     getCorosyncConf := getCorosyncConf h;
     getCorosyncConfig := getCorosyncConfig h;
     readTokens := readTokens h;
     iter_set := iter_set h;
     checkAuthorization := checkAuthorization h;
     loads := loads h;
     get_terminal_input := get_terminal_input h;
     get_terminal_password := get_terminal_password h;
     addNodeToCorosync := addNodeToCorosync h;
     addNodeToClusterConf := addNodeToClusterConf h;
     removeNodeFromCorosync := removeNodeFromCorosync h;
     removeNodeFromClusterConf := removeNodeFromClusterConf h;
     is_service_running := is_service_running h;
     parse_multiring_node := parse_multiring_node h;
     need_ring1_address := need_ring1_address h;
     canAddNodeToCluster := canAddNodeToCluster h;
     is_sbd_enabled := is_sbd_enabled h;
     sbd_booth_setup := sbd_booth_setup h;
     cman_quorum_timeout_test := cman_quorum_timeout_test h;
     stonith_level_verify := stonith_level_verify h |}.

(** [h] with another CIB. *)
Definition with_cib (text : option string -> option string) (h : host)
  : host :=
  {| usefile := usefile h;
     filename := filename h;
     crm_report := crm_report h;
     crm_verify := crm_verify h;
     cluster_conf_file := cluster_conf_file h;
     cib_dir := cib_dir h;
     pacemaker_wait_timeout_status := pacemaker_wait_timeout_status h;
     sbd_watchdog_default := sbd_watchdog_default h;
     EDITOR := EDITOR h;
     path_exists := path_exists h;
     path_isfile := path_isfile h;
     os_remove := os_remove h;
     open_for_writing := open_for_writing h;
     file_write := file_write h;
     yesterday := yesterday h;
     is_valid_cib_scope := is_valid_cib_scope h;
     validate_wait_get_timeout := validate_wait_get_timeout h;
     parse_cib := parse_cib h;
     get_cib_text := text;
     temp_name := temp_name h;
     edit := edit h;
     uidgid_files := uidgid_files h;
     read_uid_gid_file := read_uid_gid_file h;
     remove_uid_gid_file := remove_uid_gid_file h;
     getCorosyncConf := getCorosyncConf h;
     getCorosyncConfig := getCorosyncConfig h;
     readTokens := readTokens h;
     iter_set := iter_set h;
     checkAuthorization := checkAuthorization h;
     loads := loads h;
     get_terminal_input := get_terminal_input h;
     get_terminal_password := get_terminal_password h;
     addNodeToCorosync := addNodeToCorosync h;
     addNodeToClusterConf := addNodeToClusterConf h;
     removeNodeFromCorosync := removeNodeFromCorosync h;
     removeNodeFromClusterConf := removeNodeFromClusterConf h;
     is_service_running := is_service_running h;
     parse_multiring_node := parse_multiring_node h;
     need_ring1_address := need_ring1_address h;
     canAddNodeToCluster := canAddNodeToCluster h;
     is_sbd_enabled := is_sbd_enabled h;
     sbd_booth_setup := sbd_booth_setup h;
     cman_quorum_timeout_test := cman_quorum_timeout_test h;
     stonith_level_verify := stonith_level_verify h |}.

(** An archive of an earlier report is in the way. *)
Definition archive_host : host :=
  with_paths (fun _ => true) (fun _ => true) calm_host.

(** A machine without cluster.conf. *)
Definition bare_host : host :=
  with_paths (fun _ => false) (fun _ => false) calm_host.

(** A machine whose CIB is empty. *)
Definition empty_cib_host : host := with_cib (fun _ => Some EmptyString) calm_host.

(** Command line options. *)
Definition no_option : gmap string string := ∅.
Definition all_option : gmap string string := {[ "--all" := EmptyString ]}.
Definition login_options : gmap string string :=
  {[ "-u" := "hacluster"; "-p" := "secret" ]}.

(** ** [cluster_setup] as a command (lines 233-426) *)

(** What [cluster_setup] asks of the machine besides. *)
Record setup_host := {
  (** whether [socket.getaddrinfo(node_addr, None)] comes back *)
  getaddrinfo : string -> bool;
  (** [settings.corosync_conf_file] *)
  corosync_conf_file : string;
  (** the name of the temporary file that
      [cluster_setup_create_cluster_conf] hands to [ccs], and what is
      read from it at the end *)
  conf_temp_name : string;
  conf_temp_read : string;
  (** the reports of the [LibraryError] that [utils.enableServices]
      raises, if it does *)
  enableServices : option (list report_item)
}.

Module Setup.

Section Setup.

Variable w : world.
Variable h : host.
Variable e : setup_host.
Variable pcs_options : gmap string string.

Local Open Scope cmd_scope.

(** Lines 250-252: [utils.parse_multiring_node] for every node. *)
Fixpoint parse_nodes (nodes : list string) : Cmd (list node_arg) :=
  match nodes with
  | [] => cret []
  | node :: rest =>
      addr_list <- ask_or_exit (Call "parse_multiring_node" [node])
                     (parse_multiring_node h node) ;;
      parsed <- parse_nodes rest ;;
      cret (addr_list :: parsed)
  end.

(** Lines 276-282: the loop over [all_addr_list]; it hands back
    [nodes_unresolvable]. *)
Fixpoint resolve_addresses (all_addr_list : list string)
    (nodes_unresolvable : bool) : Cmd bool :=
  match all_addr_list with
  | [] => cret nodes_unresolvable
  | node_addr :: rest =>
      resolved <- ask (Call "socket.getaddrinfo" [node_addr])
                    (getaddrinfo e node_addr) ;;
      if resolved then resolve_addresses rest nodes_unresolvable
      else
        say ("Warning: Unable to resolve hostname: " +:+ node_addr) ;;
        resolve_addresses rest true
  end.

(** Lines 840-849: the loop over [commands], each run through [ccs] on
    the temporary file; [None] when every command succeeded, the
    reports of the first failing one otherwise. *)
Fixpoint run_commands (commands : list command)
  : Cmd (option (list report_item)) :=
  match commands with
  | [] => cret None
  | cmd_item :: rest =>
      r <- exec w (["ccs"; "-f"; conf_temp_name e] ++ cmd cmd_item) ;;
      let '(output, retval) := r in
      if negb (retval =? 0)%Z then
        cret (Some ((if Py.truthy_str output then [common_info output] else [])
                      ++ [common_error (err cmd_item)]))
      else run_commands rest
  end.

(** Lines 737-856, with the commands it runs. *)
Definition cluster_setup_create_cluster_conf (cluster_name : string)
    (node_list : list (gmap string string)) (t : transport_options)
    (totem : gmap string string) : Cmd (string * list report_item) :=
  failed <- run_commands (cluster_conf_commands cluster_name node_list t totem) ;;
  match failed with
  | Some messages => cret (EmptyString, messages)
  | None => cret (conf_temp_read e, [])
  end.

(** Lines 1070-1073. *)
Definition enable_cluster_nodes (nodes : list string) : Cmd unit :=
  error_list <- ask (Call "enableCluster" nodes)
                  (error_list_of (enableCluster w) nodes) ;;
  cwhen (nonempty error_list)
    (fail ("unable to enable all nodes" +:+ nl +:+ PyStr.join nl error_list)).

(** Lines 1044-1052. *)
Definition enable_cluster (argv : list string) : Cmd unit :=
  if nonempty argv then enable_cluster_nodes argv
  else
    raised <- ask (Call "enableServices" []) (enableServices e) ;;
    match raised with
    | Some items => lift (process_library_reports w items)
    | None => cret tt
    end.

(** Lines 357-362: the loop over [primary_addr_list]; it hands back
    [all_nodes_available]. *)
Fixpoint nodes_available (nodes : list string) (all_nodes_available : bool)
  : Cmd bool :=
  match nodes with
  | [] => cret all_nodes_available
  | node :: rest =>
      r <- ask (Call "canAddNodeToCluster" [node]) (canAddNodeToCluster h node) ;;
      let '(available, message) := r in
      if negb available then
        warn (node +:+ ": " +:+ message) ;;
        nodes_available rest false
      else nodes_available rest all_nodes_available
  end.

(** Lines 385-397: the messages for the answers of the nodes; a node
    without an answer ends the loop through the bare [except]. *)
Fixpoint pcsd_err_msgs (data : gmap string string) (nodes : list string)
  : list string :=
  match nodes with
  | [] => []
  | node :: rest =>
      match data !! node with
      | None => ["Unable to communicate with pcsd"]
      | Some status =>
          (if String.eqb status "notauthorized"
           then ["Unable to authenticate to " +:+ node
                   +:+ ", try running 'pcs cluster auth'"]
           else [])
            ++ (if negb (Py.in_tuple status ["ok"; "not_supported"])
                then ["Unable to set pcsd configs on " +:+ node] else [])
            ++ pcsd_err_msgs data rest
      end
  end.

(** Lines 400-401. *)
Fixpoint print_warnings (err_msgs : list string) : Cmd unit :=
  match err_msgs with
  | [] => cret tt
  | err_msg :: rest => say ("Warning: " +:+ err_msg) ;; print_warnings rest
  end.

(** The path of the configuration file of the stack. *)
Definition config_path : string :=
  if is_rhel6 w then cluster_conf_file h else corosync_conf_file e.

(** Lines 329-332. *)
Definition config_path_overriden : bool :=
  is_rhel6 w && Py.has_key "--cluster_conf" pcs_options
  || negb (is_rhel6 w) && Py.has_key "--corosync_conf" pcs_options.

(** Lines 322-351: the set-up on the local node. *)
Definition setup_local (config : string) (wait : bool)
    (wait_timeout : option Z) : Cmd unit :=
  let force := Py.has_key "--force" pcs_options in
  cwhen (negb force && path_exists h config_path)
    (fail (config_path +:+ " already exists, use --force to overwrite")) ;;
  cwhen (negb config_path_overriden)
    (let cib_path := PyStr.path_join (cib_dir h) "cib.xml" in
     cwhen (negb force && path_exists h cib_path)
       (fail (cib_path +:+ " already exists, use --force to overwrite")) ;;
     cluster_destroy w pcs_options []) ;;
  ask (Call "setCorosyncConf" [config]) tt ;;
  cwhen (Py.has_key "--start" pcs_options) (start_cluster w h pcs_options []) ;;
  cwhen (Py.has_key "--enable" pcs_options) (enable_cluster []) ;;
  cwhen wait (lift (wait_for_nodes_started w [] wait_timeout)).

(** Lines 353-426: the set-up on the nodes. *)
Definition setup_remote (primary_addr_list : list string) (config : string)
    (wait : bool) (wait_timeout : option Z) : Cmd unit :=
  cwhen (negb (Py.has_key "--force" pcs_options))
    (all_nodes_available <- nodes_available primary_addr_list true ;;
     cwhen (negb all_nodes_available)
       (fail ("nodes availability check failed, use --force to override. "
                +:+ "WARNING: This will destroy existing cluster on the nodes."))) ;;
  say ("Destroying cluster on nodes: " +:+ PyStr.join ", " primary_addr_list
         +:+ "...") ;;
  lift (destroy_cluster w primary_addr_list false) ;;
  say EmptyString ;;
  say "Sending cluster config files to the nodes..." ;;
  r <- lift (call (SendLocalConfigs primary_addr_list)
               (send_local_configs w primary_addr_list)) ;;
  let '(output, retval) := r in
  print_warnings
    (if (retval =? 0)%Z && String.eqb (pcsd_status output) "ok"
        && negb (bool_decide (pcsd_data output = ∅))
     then pcsd_err_msgs (pcsd_data output) primary_addr_list
     else ["Unable to set pcsd configs"]) ;;
  sync_nodes primary_addr_list config ;;
  cwhen (Py.has_key "--start" pcs_options)
    (say (nl +:+ "Starting cluster on nodes: "
            +:+ PyStr.join ", " primary_addr_list +:+ "...") ;;
     start_cluster_nodes w primary_addr_list) ;;
  cwhen (Py.has_key "--enable" pcs_options) (enable_cluster primary_addr_list) ;;
  say EmptyString ;;
  lift (call (SyncCerts []) tt) ;;
  cwhen wait
    (say EmptyString ;;
     lift (wait_for_nodes_started w primary_addr_list wait_timeout)).

(** Lines 233-426. *)
Definition cluster_setup (argv : list string) : Cmd unit :=
  match argv with
  | cluster_name :: node :: more =>
      r <- wait_option h (Py.has_key "--start" pcs_options
                          && Py.has_key "--wait" pcs_options) ;;
      let '(wait, wait_timeout) := r in
      nodes <- parse_nodes (node :: more) ;;
      let primary_addr_list := map fst nodes in
      let all_addr_list := setup_all_addr_list nodes in
      let '(node_list, udpu_rrp) :=
        setup_node_list (is_rhel6 w) pcs_options nodes in
      cwhen (udpu_rrp && negb (forallb (Py.has_key "ring1_addr") node_list))
        (fail ("if one node is configured for RRP, "
                 +:+ "all nodes must be configured for RRP")) ;;
      nodes_unresolvable <- resolve_addresses all_addr_list false ;;
      let force := Py.has_key "--force" pcs_options in
      cwhen (nodes_unresolvable && negb force)
        (fail "Unable to resolve all hostnames, use --force to override") ;;
      let '(options, messages) :=
        if is_rhel6 w
        then cluster_setup_parse_options_cman pcs_options force
        else cluster_setup_parse_options_corosync pcs_options force in
      let t := parsed_transport options in
      let t :=
        match rrp_mode t with
        | None => if udpu_rrp then set_rrp_mode "passive" t else t
        | Some _ => t
        end in
      lift (process_library_reports w messages) ;;
      r <- (if is_rhel6 w
            then cluster_setup_create_cluster_conf cluster_name node_list t
                   (totem_options options)
            else cret (cluster_setup_create_corosync_conf cluster_name
                         node_list t (totem_options options)
                         (default ∅ (quorum_options options)))) ;;
      let '(config, messages) := r in
      lift (process_library_reports w messages) ;;
      if Py.has_key "--local" pcs_options
      then setup_local config wait wait_timeout
      else setup_remote primary_addr_list config wait wait_timeout
  | _ => usage_exit ["setup"]
  end.

End Setup.

End Setup.

(** ** Vocabulary of [cluster_setup] *)

(** A step that changes nothing on the nodes, and nothing on the machine
    but a temporary file: a message or the usage text, a question about
    the arguments, the addresses or the nodes, [ccs] on the temporary
    file. *)
Definition is_preparation (s : step) : bool :=
  match s with
  | Usage _ | Did (Print _) | Did (Err _) | Did (Reports _) => true
  | Did (Run (head :: _)) => String.eqb head "ccs"
  | Call name _ =>
      existsb (String.eqb name)
        ["validate_wait_get_timeout"; "parse_multiring_node";
         "socket.getaddrinfo"; "canAddNodeToCluster"]
  | _ => false
  end.

(** The reports of the commands that make cluster.conf, and the text of
    the configuration of a plan: the tree as text, or what the temporary
    file holds once every [ccs] command has succeeded. *)
Definition config_messages (w : world) (e : setup_host) (plan : setup_plan)
  : list report_item :=
  match plan_config plan with
  | CorosyncConf _ => []
  | ClusterConf commands =>
      default [] (run_commands (run w) (conf_temp_name e) commands)
  end.

Definition config_text (w : world) (e : setup_host) (plan : setup_plan)
  : string :=
  match plan_config plan with
  | CorosyncConf tree => export tree
  | ClusterConf commands =>
      match run_commands (run w) (conf_temp_name e) commands with
      | None => conf_temp_read e
      | Some _ => EmptyString
      end
  end.

(** Every node can be added to a cluster. *)
Definition all_available (h : host) (nodes : list string) : bool :=
  forallb (fun node => fst (canAddNodeToCluster h node)) nodes.

(** A machine on which every address resolves. *)
Definition calm_setup : setup_host :=
  {| getaddrinfo := fun _ => true;
     corosync_conf_file := "/etc/corosync/corosync.conf";
     conf_temp_name := "/tmp/tmp.pcs";
     conf_temp_read := "<cluster/>";
     enableServices := None |}.

Definition local_option : gmap string string := {[ "--local" := EmptyString ]}.

(** The command begins with steps of preparation and either leaves
    during them or goes on with a command that fulfils [Q]. *)
Definition prepares (m : Cmd unit) (Q : Cmd unit -> Prop) : Prop :=
  exists pre,
    forallb is_preparation pre = true
    /\ (m = (pre, None)
        \/ exists next, Q next /\ m = cbind (pre, Some tt) (fun _ => next)).

(** What holds once the preparation of [cluster_setup] is over: the
    arguments have been parsed, the plan is made and its reports have
    not ended the run, and the set-up goes on with its configuration. *)
Definition prepared (w : world) (h : host) (e : setup_host)
    (pcs_options : gmap string string) (cluster_name : string)
    (nodes : list string) (next : Cmd unit) : Prop :=
  exists wait wait_timeout parsed plan,
    snd (wait_option h (Py.has_key "--start" pcs_options
                        && Py.has_key "--wait" pcs_options))
    = Some (wait, wait_timeout)
    /\ mapM (parse_multiring_node h) nodes = Some parsed
    /\ cluster_setup_prepare (is_rhel6 w) (getaddrinfo e) pcs_options
         cluster_name parsed = inr plan
    /\ reports_exit w (plan_messages plan) = false
    /\ reports_exit w (config_messages w e plan) = false
    /\ next
       = if Py.has_key "--local" pcs_options
         then Setup.setup_local w h e pcs_options (config_text w e plan)
                wait wait_timeout
         else Setup.setup_remote w h e pcs_options (map fst parsed)
                (config_text w e plan) wait wait_timeout.

(** The configuration is written, on the machine or on a node. *)
Definition is_config_write (s : step) : bool :=
  match s with
  | Call name _ => String.eqb name "setCorosyncConf"
  | Did (SetCorosyncConfig _ _) => true
  | _ => false
  end.

(** A step of [cluster_destroy] other than a message: a shell command,
    the stop of pacemaker or the destruction of the configuration on
    nodes, the disabling of the services. *)
Definition is_teardown (s : step) : bool :=
  match s with
  | System _ | Did (StopPacemaker _) | Did (DestroyCluster _) => true
  | Call name _ =>
      existsb (String.eqb name)
        ["disableServices"; "disable_service"; "qdevice_net.client_destroy"]
  | _ => false
  end.

(** A step of starting, enabling and waiting for the cluster, and of
    the synchronisation of the certificates. *)
Definition is_startup (s : step) : bool :=
  match s with
  | Did (Print _) | Did (Err _) | Did (Reports _) | Did (Run _)
  | Did WaitLocal | Did (WaitRemote _) | Did (Uncaught _)
  | Did (SyncCerts _) => true
  | Call name _ =>
      existsb (String.eqb name)
        ["validate_wait_get_timeout"; "startCluster"; "getstatusoutput";
         "append"; "enableCluster"; "enableServices"]
  | _ => false
  end.

(** The command writes the configuration with the steps [target], in
    this order, or not at all, and with them when it comes back. *)
Definition writes (m : Cmd unit) (target : list step) : Prop :=
  let written := List.filter is_config_write (steps m) in
  (written = [] \/ written = target) /\ (quits m = false -> written = target).

(** * Properties *)

(** ** Setup: the two-node marker *)

Lemma existsb_flat_map_false {A B} (p : B -> bool) (f : A -> list B) (l : list A) :
  (forall a, existsb p (f a) = false) -> existsb p (flat_map f l) = false.
Proof.
  intros Hf. induction l as [|a l IH]; simpl; [reflexivity|].
  rewrite existsb_app, Hf, IH. reflexivity.
Qed.

Lemma existsb_map_false {A B} (p : B -> bool) (f : A -> B) (l : list A) :
  (forall a, p (f a) = false) -> existsb p (map f l) = false.
Proof.
  intros Hf. induction l as [|a l IH]; simpl; [reflexivity|].
  rewrite Hf, IH. reflexivity.
Qed.

Lemma named_attrs_two_node names (d : gmap string string) :
  Py.in_tuple "two_node" names = false ->
  existsb (fun a : string * attr_value => String.eqb (fst a) "two_node")
    (named_attrs names d) = false.
Proof.
  unfold named_attrs, Py.in_tuple.
  induction names as [|n names IH]; cbn [flat_map existsb]; [reflexivity|].
  intros H. apply orb_false_elim in H as [Hn Hrest].
  rewrite existsb_app, (IH Hrest), orb_false_r.
  destruct (d !! n); cbn [opt_attr existsb fst]; [|reflexivity].
  rewrite String.eqb_sym, Hn. reflexivity.
Qed.

Lemma corosync_two_node_tree cluster_name node_list t totem quorum :
  corosync_two_node (corosync_conf_tree cluster_name node_list t totem quorum)
  = (length node_list =? 2)%nat && negb (auto_tie_breaker_on quorum).
Proof.
  unfold corosync_two_node, corosync_conf_tree, section_has_attr.
  cbn -[named_attrs].
  rewrite existsb_app, named_attrs_two_node by reflexivity.
  destruct ((length node_list =? 2)%nat && negb (auto_tie_breaker_on quorum));
    reflexivity.
Qed.

Lemma cman_two_node_commands cluster_name node_list t totem :
  cman_two_node (cluster_conf_commands cluster_name node_list t totem)
  = (length node_list =? 2)%nat.
Proof.
  unfold cman_two_node, cluster_conf_commands. simpl.
  destruct (length node_list =? 2)%nat eqn:Hlen.
  - unfold cman_opts. rewrite Hlen.
    unfold Py.in_tuple. rewrite !existsb_app. simpl.
    rewrite !orb_true_r. reflexivity.
  - unfold cman_opts. rewrite Hlen, app_nil_r.
    assert (Hopts : Py.in_tuple "two_node=1"
              (match transport t with
               | Some tr => ["transport=" +:+ tr]
               | None => []
               end ++ ["broadcast=" +:+ (if broadcast_on t then "yes" else "no")])
            = false).
    { unfold Py.in_tuple. rewrite existsb_app.
      destruct (transport t), (broadcast_on t); reflexivity. }
    rewrite Hopts. simpl.
    rewrite !existsb_app.
    rewrite existsb_flat_map_false.
    2:{ intros a. unfold node_commands.
        destruct (a !! "ring0_addr"); [|reflexivity].
        destruct (a !! "ring1_addr"); reflexivity. }
    destruct (negb (broadcast_on t)).
    + rewrite existsb_map_false.
      2:{ intros [n ro]. unfold ring_command. simpl. destruct (n =? 0)%nat; reflexivity. }
      destruct (totem_cmd_options t totem); reflexivity.
    + destruct (totem_cmd_options t totem); reflexivity.
Qed.

Lemma copy_named_lookup names (options : gmap string string) parsed_name opt_name :
  List.NoDup (map snd names) ->
  In (opt_name, parsed_name) names ->
  copy_named names options !! parsed_name = options !! opt_name.
Proof.
  unfold copy_named.
  assert (Hgen : forall acc : gmap string string,
    List.NoDup (map snd names) ->
    In (opt_name, parsed_name) names ->
    fold_left
      (fun acc '(opt_name, parsed_name) =>
         match options !! opt_name with
         | Some v => <[parsed_name := v]> acc
         | None => acc
         end) names acc !! parsed_name
    = match options !! opt_name with
      | Some v => Some v
      | None => acc !! parsed_name
      end).
  { induction names as [|[o p] names IH]; intros acc Hnd Hin.
    { contradiction. }
    cbn [fold_left]. inversion Hnd as [|? ? Hnotin Hnd']; subst.
    destruct Hin as [Heq|Hin].
    - inversion Heq; subst. clear IH.
      assert (Hkeep : forall acc' : gmap string string,
        fold_left
          (fun acc '(opt_name, parsed_name) =>
             match options !! opt_name with
             | Some v => <[parsed_name := v]> acc
             | None => acc
             end) names acc' !! parsed_name = acc' !! parsed_name).
      { clear Hnd Hnd'. induction names as [|[o' p'] names IH]; intros acc';
          [reflexivity|].
        cbn [fold_left]. cbn [map snd] in Hnotin.
        rewrite IH by (intros Hc; apply Hnotin; right; exact Hc).
        destruct (options !! o'); [|reflexivity].
        apply lookup_insert_ne. intros ->. apply Hnotin. now left. }
      rewrite Hkeep. destruct (options !! opt_name); [|reflexivity].
      apply lookup_insert_eq.
    - rewrite (IH _ Hnd' Hin).
      destruct (options !! opt_name); [reflexivity|].
      destruct (options !! o); [|reflexivity].
      apply lookup_insert_ne. intros ->. apply Hnotin.
      apply (in_map snd) in Hin. exact Hin. }
  intros Hnd Hin. rewrite (Hgen ∅ Hnd Hin).
  destruct (options !! opt_name); [reflexivity|apply lookup_empty].
Qed.

Lemma parse_corosync_quorum options force :
  quorum_options (fst (cluster_setup_parse_options_corosync options force))
  = Some (copy_named
            [("--wait_for_all", "wait_for_all");
             ("--auto_tie_breaker", "auto_tie_breaker");
             ("--last_man_standing", "last_man_standing");
             ("--last_man_standing_window", "last_man_standing_window")]
            options).
Proof.
  unfold cluster_setup_parse_options_corosync.
  destruct (options !! "--transport");
    destruct (parse_rrpmode _ _ _); reflexivity.
Qed.

Lemma tie_breaker_parsed options force q :
  quorum_options (fst (cluster_setup_parse_options_corosync options force))
  = Some q ->
  auto_tie_breaker_on q = tie_breaker_enabled options.
Proof.
  rewrite parse_corosync_quorum. intros [= <-].
  unfold auto_tie_breaker_on, tie_breaker_enabled.
  rewrite (copy_named_lookup _ _ "auto_tie_breaker" "--auto_tie_breaker").
  - reflexivity.
  - repeat constructor; cbn; intuition discriminate.
  - cbn. tauto.
Qed.

Lemma setup_node_list_length is_rhel6 pcs_options nodes :
  length (fst (setup_node_list is_rhel6 pcs_options nodes)) = length nodes.
Proof.
  unfold setup_node_list.
  destruct (pcs_options !! "--addr1"); [destruct (is_rhel6 && _)|];
    cbn [fst]; rewrite ?length_map; reflexivity.
Qed.

(** What [cluster_setup_prepare] hands back when it does not stop at an
    [utils.err]. *)
Lemma cluster_setup_prepare_inr is_rhel6 resolves pcs_options cluster_name
    nodes plan :
  cluster_setup_prepare is_rhel6 resolves pcs_options cluster_name nodes
  = inr plan ->
  let force := Py.has_key "--force" pcs_options in
  let parsed :=
    if is_rhel6 then cluster_setup_parse_options_cman pcs_options force
    else cluster_setup_parse_options_corosync pcs_options force in
  let udpu_rrp := existsb ring1_given nodes in
  plan_node_list plan = fst (setup_node_list is_rhel6 pcs_options nodes)
  /\ plan_messages plan = snd parsed
  /\ parsed_transport (plan_options plan)
     = match rrp_mode (parsed_transport (fst parsed)) with
       | None => if udpu_rrp
                 then set_rrp_mode "passive" (parsed_transport (fst parsed))
                 else parsed_transport (fst parsed)
       | Some _ => parsed_transport (fst parsed)
       end
  /\ totem_options (plan_options plan) = totem_options (fst parsed)
  /\ quorum_options (plan_options plan) = quorum_options (fst parsed)
  /\ plan_config plan
     = if is_rhel6
       then ClusterConf
              (cluster_conf_commands cluster_name (plan_node_list plan)
                 (parsed_transport (plan_options plan))
                 (totem_options (plan_options plan)))
       else CorosyncConf
              (corosync_conf_tree cluster_name (plan_node_list plan)
                 (parsed_transport (plan_options plan))
                 (totem_options (plan_options plan))
                 (default ∅ (quorum_options (plan_options plan)))).
Proof.
  unfold cluster_setup_prepare.
  assert (Hrrp : snd (setup_node_list is_rhel6 pcs_options nodes)
                 = existsb ring1_given nodes).
  { unfold setup_node_list.
    destruct (pcs_options !! "--addr1"); [destruct (is_rhel6 && _)|];
      reflexivity. }
  destruct (setup_node_list is_rhel6 pcs_options nodes) as [nl rrp].
  cbn [fst snd] in *. subst rrp.
  destruct (existsb ring1_given nodes && negb (forallb (Py.has_key "ring1_addr") nl));
    [discriminate|].
  destruct (negb (forallb resolves (setup_all_addr_list nodes))
            && negb (Py.has_key "--force" pcs_options)); [discriminate|].
  destruct is_rhel6.
  - destruct (cluster_setup_parse_options_cman pcs_options
                (Py.has_key "--force" pcs_options)) as [options messages].
    intros [= <-]. cbn. repeat split; reflexivity.
  - destruct (cluster_setup_parse_options_corosync pcs_options
                (Py.has_key "--force" pcs_options)) as [options messages].
    intros [= <-]. cbn. repeat split; reflexivity.
Qed.

(** C1 (as amended): whenever [cluster_setup] gets as far as the
    configuration, the corosync.conf tree has the attribute [two_node] in
    its [quorum] section exactly when there are two nodes and
    [--auto_tie_breaker] is not ["1"]; the cman command sequence has
    [two_node=1] among the [--setcman] options exactly when there are two
    nodes, whatever [--auto_tie_breaker] says. *)
Theorem two_node_marker is_rhel6 resolves pcs_options cluster_name nodes plan :
  cluster_setup_prepare is_rhel6 resolves pcs_options cluster_name nodes
  = inr plan ->
  plan_two_node plan
  = (length nodes =? 2)%nat
    && (is_rhel6 || negb (tie_breaker_enabled pcs_options)).
Proof.
  intros Hplan.
  destruct (cluster_setup_prepare_inr _ _ _ _ _ _ Hplan)
    as (Hnl & _ & _ & _ & Hq & Hconf).
  unfold plan_two_node. rewrite Hconf, Hnl.
  destruct is_rhel6.
  - rewrite cman_two_node_commands, setup_node_list_length.
    rewrite orb_true_l, andb_true_r. reflexivity.
  - rewrite corosync_two_node_tree, setup_node_list_length, orb_false_l.
    pose proof (parse_corosync_quorum pcs_options
                  (Py.has_key "--force" pcs_options)) as Hparsed.
    rewrite Hq, Hparsed. cbn [from_option id].
    rewrite (tie_breaker_parsed _ _ _ Hparsed). reflexivity.
Qed.

Lemma two_node_marker_witness :
  exists plan,
    cluster_setup_prepare false (fun _ => true) ∅ "cluster" two_nodes = inr plan
    /\ plan_two_node plan = true.
Proof.
  eexists. split; [reflexivity|].
  etransitivity.
  - apply (two_node_marker false (fun _ => true) ∅ "cluster" two_nodes).
    reflexivity.
  - reflexivity.
Defined.

(** C1 (as stated) fails on the cman path: two nodes set up with
    [--auto_tie_breaker=1] get [two_node=1]; the parser only reports the
    option as ignored. *)
Lemma two_node_marker_cman_counterexample :
  exists plan,
    cluster_setup_prepare true (fun _ => true)
      {["--auto_tie_breaker" := "1"]} "cluster" two_nodes = inr plan
    /\ plan_messages plan = [cman_ignored_option "--auto_tie_breaker"]
    /\ length two_nodes = 2%nat
    /\ tie_breaker_enabled {["--auto_tie_breaker" := "1"]} = true
    /\ plan_two_node plan = true.
Proof.
  eexists. split; [reflexivity|]. vm_compute. repeat split; reflexivity.
Qed.

(** ** Setup: layout of corosync.conf *)

Lemma enumerate_lookup {A} (l : list A) (start i : nat) :
  Py.enumerate start l !! i = (fun x => ((start + i)%nat, x)) <$> l !! i.
Proof.
  revert start i. induction l as [|x l IH]; intros start i.
  - reflexivity.
  - destruct i as [|i]; cbn.
    + rewrite Nat.add_0_r. reflexivity.
    + rewrite IH. replace (S start + i)%nat with (start + S i)%nat by lia.
      reflexivity.
Qed.

Lemma enumerate_length {A} (l : list A) (start : nat) :
  length (Py.enumerate start l) = length l.
Proof.
  revert start. induction l as [|x l IH]; intros start; cbn; [|rewrite IH];
    reflexivity.
Qed.

Lemma node_section_lines node_id node_options :
  export_block (node_section node_id node_options)
  = node_lines node_id node_options.
Proof.
  unfold node_section, node_lines, named_attrs.
  cbn [export_block sec_name sec_attrs sec_sections flat_map].
  destruct (node_options !! "ring0_addr"), (node_options !! "ring1_addr");
    reflexivity.
Qed.

Lemma nodelist_lines start (node_list : list (gmap string string)) :
  flat_map export_block
    (map (fun '(node_id, node_options) => node_section node_id node_options)
       (Py.enumerate start node_list))
  = flat_map (fun '(node_id, node_options) => node_lines node_id node_options)
      (Py.enumerate start node_list).
Proof.
  revert start. induction node_list as [|n l IH]; intros start.
  - reflexivity.
  - cbn [Py.enumerate map flat_map]. rewrite IH, node_section_lines.
    reflexivity.
Qed.

Lemma export_unlines (root : Section) :
  export root = unlines (export_lines root).
Proof. reflexivity. Qed.

Lemma corosync_conf_lines cluster_name (node_list : list (gmap string string))
    t totem quorum :
  export_lines (corosync_conf_tree cluster_name node_list t totem quorum)
  = ["totem {"]
      ++ (map attr_line (sec_attrs (totem_section cluster_name t totem))
            ++ flat_map export_block
                 (sec_sections (totem_section cluster_name t totem)))
      ++ ["}"; "nodelist {"]
      ++ flat_map
           (fun '(node_id, node_options) => node_lines node_id node_options)
           (Py.enumerate 1 node_list)
      ++ ["}"; "quorum {"]
      ++ map attr_line (sec_attrs (quorum_section node_list quorum))
      ++ ["}"; "logging {";
          "to_logfile: yes";
          "logfile: /var/log/cluster/corosync.log";
          "to_syslog: yes";
          "}"].
Proof.
  unfold export_lines, corosync_conf_tree.
  cbn [sec_attrs sec_sections map flat_map app].
  rewrite app_nil_r.
  unfold nodelist_section at 1.
  cbn [export_block sec_name sec_attrs sec_sections map app].
  rewrite nodelist_lines.
  change (export_block logging_section)
    with ["logging {"; "to_logfile: yes";
          "logfile: /var/log/cluster/corosync.log"; "to_syslog: yes"; "}"].
  change (export_block (quorum_section node_list quorum))
    with (["quorum {"]
            ++ map attr_line (sec_attrs (quorum_section node_list quorum))
            ++ ["}"]).
  change (export_block (totem_section cluster_name t totem))
    with (["totem {"]
            ++ map attr_line (sec_attrs (totem_section cluster_name t totem))
            ++ flat_map export_block
                 (sec_sections (totem_section cluster_name t totem))
            ++ ["}"]).
  repeat rewrite <- app_assoc. reflexivity.
Qed.

(** C7: the text that [cluster_setup_create_corosync_conf] returns is,
    line by line, the block of [totem], the block of [nodelist], the
    block of [quorum] and the block of [logging], in that order and
    nothing else.  The block of [nodelist] holds one [node] block per
    input node and nothing else, in input order, and the block of the
    node at position [i] (from 0) ends with [nodeid: i + 1]. *)
Theorem corosync_conf_layout cluster_name (node_list : list (gmap string string))
    t totem quorum :
  let text :=
    fst (cluster_setup_create_corosync_conf cluster_name node_list t totem
           quorum) in
  let totem_s := totem_section cluster_name t totem in
  let quorum_s := quorum_section node_list quorum in
  text
  = unlines
      (["totem {"]
         ++ (map attr_line (sec_attrs totem_s)
               ++ flat_map export_block (sec_sections totem_s))
         ++ ["}"; "nodelist {"]
         ++ flat_map
              (fun '(node_id, node_options) => node_lines node_id node_options)
              (Py.enumerate 1 node_list)
         ++ ["}"; "quorum {"]
         ++ map attr_line (sec_attrs quorum_s)
         ++ ["}"; "logging {";
             "to_logfile: yes";
             "logfile: /var/log/cluster/corosync.log";
             "to_syslog: yes";
             "}"])
  /\ length (Py.enumerate 1 node_list) = length node_list
  /\ (forall (i : nat) node_options,
        node_list !! i = Some node_options ->
        Py.enumerate 1 node_list !! i = Some (S i, node_options))
  /\ (forall node_id node_options,
        exists addresses,
          node_lines node_id node_options
          = ["node {"] ++ addresses
              ++ ["nodeid: " +:+ Py.str_of_nat node_id; "}"]).
Proof.
  cbv zeta. split; [|split; [|split]].
  - unfold cluster_setup_create_corosync_conf. cbn [fst].
    rewrite export_unlines, corosync_conf_lines. reflexivity.
  - apply enumerate_length.
  - intros i node_options Hi. rewrite enumerate_lookup, Hi. reflexivity.
  - intros node_id node_options. unfold node_lines.
    eexists (_ ++ _). rewrite <- app_assoc. reflexivity.
Qed.

(** The scenario of the specification: three nodes, [udpu], no RRP. *)
Example corosync_conf_three_nodes :
  PyStr.split "010"
    (fst (cluster_setup_create_corosync_conf "cluster"
            [ {["ring0_addr" := "A"]}; {["ring0_addr" := "B"]};
              {["ring0_addr" := "C"]} ]
            {| rings_options := []; transport := Some "udpu"; rrp_mode := None;
               ip_version := None; broadcast := None |}
            ∅ ∅))
  = ["totem {"; "version: 2"; "secauth: off"; "cluster_name: cluster";
     "transport: udpu"; "}";
     "nodelist {";
     "node {"; "ring0_addr: A"; "nodeid: 1"; "}";
     "node {"; "ring0_addr: B"; "nodeid: 2"; "}";
     "node {"; "ring0_addr: C"; "nodeid: 3"; "}";
     "}";
     "quorum {"; "provider: corosync_votequorum"; "}";
     "logging {"; "to_logfile: yes";
     "logfile: /var/log/cluster/corosync.log"; "to_syslog: yes"; "}";
     EmptyString].
Proof. vm_compute. reflexivity. Qed.

(** ** Setup: the RRP mode *)

Lemma fold_left_grows {A B} (f : list A -> B -> list A) (l : list B)
    (init : list A) :
  (forall acc b, incl acc (f acc b)) -> incl init (fold_left f l init).
Proof.
  intros Hf. revert init. induction l as [|b l IH]; intros init.
  - apply incl_refl.
  - cbn [fold_left]. eapply incl_tran; [apply Hf|apply IH].
Qed.

Lemma parse_rrpmode_mode options force messages :
  fst (parse_rrpmode options force messages)
  = if Py.has_key "--rrpmode" options || Py.has_key "--addr0" options
    then Some (default "passive" (options !! "--rrpmode"))
    else None.
Proof.
  unfold parse_rrpmode.
  destruct (Py.has_key "--rrpmode" options || Py.has_key "--addr0" options);
    reflexivity.
Qed.

Lemma parse_rrpmode_grows options force messages :
  incl messages (snd (parse_rrpmode options force messages)).
Proof.
  unfold parse_rrpmode.
  destruct (Py.has_key "--rrpmode" options || Py.has_key "--addr0" options);
    cbn [snd]; [|apply incl_refl].
  destruct (negb _), (String.eqb _ "active");
    repeat first [apply incl_refl | apply incl_appl].
Qed.

Lemma parse_rrpmode_active options force messages :
  rrp_mode_entry (fst (parse_rrpmode options force messages)) = Some "active" ->
  In (rrp_active_not_supported force)
    (snd (parse_rrpmode options force messages)).
Proof.
  unfold parse_rrpmode.
  destruct (Py.has_key "--rrpmode" options || Py.has_key "--addr0" options);
    cbn [fst snd rrp_mode_entry]; [|discriminate].
  destruct (Py.truthy_str (default "passive" (options !! "--rrpmode")));
    [|discriminate].
  intros [= ->]. cbn. apply in_or_app. right. left. reflexivity.
Qed.

(** Both parsers store what [parse_rrpmode] found and keep its reports. *)
Lemma parse_corosync_rrp options force :
  exists messages,
    rrp_mode (parsed_transport
                (fst (cluster_setup_parse_options_corosync options force)))
    = rrp_mode_entry (fst (parse_rrpmode options force messages))
    /\ incl (snd (parse_rrpmode options force messages))
            (snd (cluster_setup_parse_options_corosync options force)).
Proof.
  unfold cluster_setup_parse_options_corosync.
  destruct (options !! "--transport") as [tr|].
  - match goal with
    | |- context [parse_rrpmode options force ?m] =>
        exists m; destruct (parse_rrpmode options force m) as [mode msgs]
    end.
    cbn [fst snd parsed_transport rrp_mode]. split; [reflexivity|].
    apply fold_left_grows. intros acc b.
    destruct (options !! b); [destruct (negb _)|];
      first [apply incl_refl | apply incl_appl, incl_refl].
  - match goal with
    | |- context [parse_rrpmode options force ?m] =>
        exists m; destruct (parse_rrpmode options force m) as [mode msgs]
    end.
    cbn [fst snd parsed_transport rrp_mode]. split; [reflexivity|].
    apply fold_left_grows. intros acc b.
    destruct (options !! b); [destruct (negb _)|];
      first [apply incl_refl | apply incl_appl, incl_refl].
Qed.

Lemma parse_cman_rrp options force :
  exists messages,
    rrp_mode (parsed_transport
                (fst (cluster_setup_parse_options_cman options force)))
    = rrp_mode_entry (fst (parse_rrpmode options force messages))
    /\ incl (snd (parse_rrpmode options force messages))
            (snd (cluster_setup_parse_options_cman options force)).
Proof.
  unfold cluster_setup_parse_options_cman.
  destruct (Py.has_key "--broadcast0" options || Py.has_key "--broadcast1" options);
    [|destruct (options !! "--transport") as [tr|]];
    match goal with
    | |- context [parse_rrpmode options force ?m] =>
        exists m; destruct (parse_rrpmode options force m) as [mode msgs]
    end;
    cbn [fst snd parsed_transport rrp_mode]; (split; [reflexivity|]);
    apply fold_left_grows; intros acc b;
    destruct (Py.has_key b options);
    first [apply incl_refl | apply incl_appl, incl_refl].
Qed.

Lemma parse_rrp is_rhel6 options force :
  exists messages,
    rrp_mode (parsed_transport
                (fst (if is_rhel6 : bool
                      then cluster_setup_parse_options_cman options force
                      else cluster_setup_parse_options_corosync options force)))
    = rrp_mode_entry (fst (parse_rrpmode options force messages))
    /\ incl (snd (parse_rrpmode options force messages))
            (snd (if is_rhel6
                  then cluster_setup_parse_options_cman options force
                  else cluster_setup_parse_options_corosync options force)).
Proof.
  destruct is_rhel6; [apply parse_cman_rrp|apply parse_corosync_rrp].
Qed.

(** C8 (as amended): in a setup that gets as far as the configuration,
    on either path, when a node argument carries a ring 1 address or the
    option [--addr0] is given, and [--rrpmode] is not, the transport
    options have [rrp_mode] ["passive"]; and when they have [rrp_mode]
    ["active"], the reports contain [rrp_active_not_supported], with or
    without [--force]. *)
Theorem rrp_mode_default is_rhel6 resolves pcs_options cluster_name nodes plan :
  cluster_setup_prepare is_rhel6 resolves pcs_options cluster_name nodes
  = inr plan ->
  (existsb ring1_given nodes || Py.has_key "--addr0" pcs_options = true ->
   Py.has_key "--rrpmode" pcs_options = false ->
   rrp_mode (parsed_transport (plan_options plan)) = Some "passive")
  /\ (rrp_mode (parsed_transport (plan_options plan)) = Some "active" ->
      In (rrp_active_not_supported (Py.has_key "--force" pcs_options))
        (plan_messages plan)).
Proof.
  intros Hplan.
  destruct (cluster_setup_prepare_inr _ _ _ _ _ _ Hplan)
    as (_ & Hmsgs & Ht & _).
  destruct (parse_rrp is_rhel6 pcs_options (Py.has_key "--force" pcs_options))
    as (messages & Hmode & Hincl).
  rewrite Ht, Hmsgs. clear Ht Hmsgs.
  set (found := rrp_mode_entry
                  (fst (parse_rrpmode pcs_options
                          (Py.has_key "--force" pcs_options) messages))) in *.
  split.
  - intros Hgiven Hno.
    assert (Hfound : found = if Py.has_key "--addr0" pcs_options
                             then Some "passive" else None).
    { subst found. rewrite parse_rrpmode_mode, Hno. cbn [orb].
      unfold Py.has_key in Hno.
      destruct (pcs_options !! "--rrpmode"); [discriminate|].
      destruct (Py.has_key "--addr0" pcs_options); reflexivity. }
    rewrite Hmode, Hfound.
    destruct (Py.has_key "--addr0" pcs_options).
    + rewrite Hmode, Hfound. reflexivity.
    + rewrite orb_false_r in Hgiven. rewrite Hgiven. reflexivity.
  - intros Hactive. apply Hincl, parse_rrpmode_active. fold found.
    rewrite Hmode in Hactive.
    destruct found.
    + rewrite Hmode in Hactive. exact Hactive.
    + destruct (existsb ring1_given nodes); [discriminate|].
      rewrite Hmode in Hactive. exact Hactive.
Qed.


Lemma rrp_mode_default_witness :
  (exists plan,
     cluster_setup_prepare false (fun _ => true) ∅ "cluster" rrp_nodes
     = inr plan
     /\ rrp_mode (parsed_transport (plan_options plan)) = Some "passive")
  /\ (exists plan,
        cluster_setup_prepare true (fun _ => true)
          {["--rrpmode" := "active"]} "cluster" two_nodes = inr plan
        /\ In (rrp_active_not_supported false) (plan_messages plan)).
Proof.
  split; eexists; (split; [reflexivity|]).
  - pose proof (rrp_mode_default false (fun _ => true) ∅ "cluster"
                  rrp_nodes _ eq_refl) as [Hpassive _].
    apply Hpassive; reflexivity.
  - pose proof (rrp_mode_default true (fun _ => true)
                  {["--rrpmode" := "active"]} "cluster" two_nodes _ eq_refl)
      as [_ Hactive].
    apply Hactive; reflexivity.
Defined.

(** C8 (as stated) fails when the ring 1 address comes as [--addr1]
    alone: on the cman path every node then gets it as its [ring1_addr],
    nothing is reported, and the transport options have no [rrp_mode]. *)
Lemma rrp_mode_addr1_counterexample :
  exists plan,
    cluster_setup_prepare true (fun _ => true)
      {["--addr1" := "192.168.2.0"]} "cluster" two_nodes = inr plan
    /\ ring1_address_given {["--addr1" := "192.168.2.0"]} two_nodes = true
    /\ Py.has_key "--rrpmode"
         ({["--addr1" := "192.168.2.0"]} : gmap string string) = false
    /\ plan_messages plan = []
    /\ map (fun node : gmap string string => node !! "ring1_addr")
         (plan_node_list plan)
       = [Some "192.168.2.0"; Some "192.168.2.0"]
    /\ rrp_mode (parsed_transport (plan_options plan)) = None.
Proof.
  eexists. split; [reflexivity|]. vm_compute. repeat split; reflexivity.
Qed.

(** ** Setup: multicast defaults of a ring *)

Example default_mcastaddr_ring0 : default_mcastaddr 0 = "239.255.1.1".
Proof. reflexivity. Qed.

Example default_mcastaddr_ring1 : default_mcastaddr 1 = "239.255.2.1".
Proof. reflexivity. Qed.

Lemma parse_corosync_rings options force :
  rings_options (parsed_transport
                   (fst (cluster_setup_parse_options_corosync options force)))
  = if String.eqb (default "udpu" (options !! "--transport")) "udp"
    then map (corosync_ring_options options) (corosync_interface_ids options)
    else [].
Proof.
  unfold cluster_setup_parse_options_corosync.
  destruct (options !! "--transport");
    destruct (parse_rrpmode _ _ _); reflexivity.
Qed.

Lemma parse_cman_rings options force :
  rings_options (parsed_transport
                   (fst (cluster_setup_parse_options_cman options force)))
  = if Py.has_key "--broadcast0" options || Py.has_key "--broadcast1" options
    then []
    else map (cman_ring_options options) (cman_interface_ids options).
Proof.
  unfold cluster_setup_parse_options_cman.
  destruct (Py.has_key "--broadcast0" options || Py.has_key "--broadcast1" options);
    [|destruct (options !! "--transport")];
    destruct (parse_rrpmode _ _ _); reflexivity.
Qed.

Lemma default_none {A} (d : A) (k : string) (m : gmap string A) :
  Py.has_key k m = false -> default d (m !! k) = d.
Proof. unfold Py.has_key. destruct (m !! k); [discriminate|reflexivity]. Qed.

Lemma lookup_none {A} (k : string) (m : gmap string A) :
  Py.has_key k m = false -> m !! k = None.
Proof. unfold Py.has_key. destruct (m !! k); [discriminate|reflexivity]. Qed.

(** C9 (as amended): on either path, the entry of ["rings_options"] built
    for interface [i] with none of [--broadcast<i>], [--mcast<i>] and
    [--mcastport<i>] given has the multicast address [239.255.(i+1).1];
    its multicast port is ["5405"] on the corosync path and is left out
    on the cman path. *)
Theorem ring_multicast_defaults (is_rhel6 : bool) options force
    (k i : nat) ro :
  interface_ids is_rhel6 options !! k = Some i ->
  rings_options
    (parsed_transport (fst (cluster_setup_parse_options is_rhel6 options force)))
    !! k = Some ro ->
  Py.has_key (ring_opt "--broadcast" i) options = false ->
  Py.has_key (ring_opt "--mcast" i) options = false ->
  Py.has_key (ring_opt "--mcastport" i) options = false ->
  ring_mcastaddr ro = Some (default_mcastaddr i)
  /\ ring_mcastport ro = if is_rhel6 then None else Some "5405".
Proof.
  unfold interface_ids, cluster_setup_parse_options.
  intros Hid Hring Hb Hm Hp. destruct is_rhel6.
  - rewrite parse_cman_rings in Hring.
    destruct (Py.has_key "--broadcast0" options || Py.has_key "--broadcast1" options);
      [discriminate|].
    rewrite list_lookup_fmap, Hid in Hring. injection Hring as <-.
    unfold cman_ring_options. cbn [ring_mcastaddr ring_mcastport].
    rewrite (default_none _ _ _ Hm).
    rewrite (lookup_none _ _ Hp). split; reflexivity.
  - rewrite parse_corosync_rings in Hring.
    destruct (String.eqb _ "udp"); [|discriminate].
    rewrite list_lookup_fmap, Hid in Hring. injection Hring as <-.
    unfold corosync_ring_options. rewrite Hb.
    cbn [ring_mcastaddr ring_mcastport].
    rewrite (default_none _ _ _ Hm).
    rewrite (default_none _ _ _ Hp).
    split; reflexivity.
Qed.


Lemma ring_multicast_defaults_witness :
  exists ro,
    rings_options
      (parsed_transport
         (fst (cluster_setup_parse_options false udp_two_rings false)))
      !! 1%nat = Some ro
    /\ ring_mcastaddr ro = Some "239.255.2.1"
    /\ ring_mcastport ro = Some "5405".
Proof.
  eexists. split; [reflexivity|].
  apply (ring_multicast_defaults false udp_two_rings false 1 1); reflexivity.
Defined.

(** C9 (as stated) fails on the cman path: the ring built for [--addr0]
    alone gets the default multicast address and no multicast port. *)
Lemma ring_multicast_cman_counterexample :
  cluster_setup_parse_options_cman {["--addr0" := "10.0.0.0"]} false
  = ({| parsed_transport :=
          {| rings_options :=
               [{| ring_addr := None; ring_broadcast := None;
                   ring_mcastaddr := Some "239.255.1.1";
                   ring_mcastport := None; ring_ttl := None |}];
             transport := Some "udp";
             rrp_mode := Some "passive";
             ip_version := None;
             broadcast := None |};
        totem_options := ∅;
        quorum_options := None |},
     []).
Proof. vm_compute. reflexivity. Qed.

(** ** Waiting: the start-up test *)

Lemma started_on_dict (node_status : gmap string json) :
  exists v,
    is_node_fully_started (JDict node_status) = inr v
    /\ PyValue.truthy v = reports_started node_status
    /\ (reports_started node_status = true -> v = JBool true)
    /\ (node_status !! "online" = None \/ node_status !! "pending" = None ->
        v = JBool false).
Proof.
  unfold is_node_fully_started, reports_started.
  cbn [PyValue.py_in PyValue.getitem]. unfold Py.has_key.
  destruct (node_status !! "online") as [online|] eqn:Ho;
    destruct (node_status !! "pending") as [pending|] eqn:Hp.
  - destruct (PyValue.truthy online) eqn:Hto; cbn [negb andb].
    + eexists. split; [reflexivity|]. cbn [PyValue.truthy].
      split; [reflexivity|]. split.
      * intros ->. reflexivity.
      * intros [H|H]; discriminate.
    + exists online. split; [reflexivity|]. split; [exact Hto|]. split.
      * discriminate.
      * intros [H|H]; discriminate.
  - exists (JBool false). repeat split; try reflexivity; discriminate.
  - exists (JBool false). repeat split; try reflexivity; discriminate.
  - exists (JBool false). repeat split; try reflexivity; discriminate.
Qed.

Lemma remote_poll_dict body (node_status : gmap string json) :
  remote_poll (0%Z, {| text := body; json_loads := Some (JDict node_status) |})
  = if reports_started node_status then Done (Returned 0 "Started")
    else NotYet.
Proof.
  unfold remote_poll. cbn [existsb Z.eqb orb json_loads].
  destruct (started_on_dict node_status) as (v & -> & <- & _). reflexivity.
Qed.

Lemma local_poll_dict (node_status : gmap string json) :
  local_poll (inr (JDict node_status))
  = if reports_started node_status then Done (Returned 0 "Started")
    else NotYet.
Proof.
  unfold local_poll.
  destruct (started_on_dict node_status) as (v & -> & <- & _). reflexivity.
Qed.

(** C10: on a status that is a dictionary, [is_node_fully_started] never
    raises; what it returns is true exactly when both keys are there with
    ["online"] true and ["pending"] false, and then it is [True]; when a
    key is missing it is [False], and both waiters poll again. *)
Theorem is_node_fully_started_total (node_status : gmap string json) :
  exists v,
    is_node_fully_started (JDict node_status) = inr v
    /\ PyValue.truthy v = reports_started node_status
    /\ (reports_started node_status = true <-> v = JBool true)
    /\ (node_status !! "online" = None \/ node_status !! "pending" = None ->
        v = JBool false
        /\ (forall body,
              remote_poll (0%Z, {| text := body;
                                   json_loads := Some (JDict node_status) |})
              = NotYet)
        /\ local_poll (inr (JDict node_status)) = NotYet).
Proof.
  destruct (started_on_dict node_status) as (v & Hv & Htruthy & Hyes & Hno).
  exists v. split; [exact Hv|]. split; [exact Htruthy|]. split.
  - split; [exact Hyes|]. intros ->. rewrite <- Htruthy. reflexivity.
  - intros Hmissing. split; [exact (Hno Hmissing)|].
    assert (Hnot : reports_started node_status = false).
    { rewrite <- Htruthy, (Hno Hmissing). reflexivity. }
    split.
    + intros body. rewrite remote_poll_dict, Hnot. reflexivity.
    + rewrite local_poll_dict, Hnot. reflexivity.
Qed.

Lemma is_node_fully_started_total_witness :
  exists v,
    is_node_fully_started (JDict {["online" := JBool true]}) = inr v
    /\ v = JBool false
    /\ remote_poll (0%Z, {| text := "{'online': true}";
                            json_loads := Some (JDict {["online" := JBool true]}) |})
       = NotYet.
Proof.
  destruct (is_node_fully_started_total {["online" := JBool true]})
    as (v & Hv & _ & _ & Hmissing).
  exists v. split; [exact Hv|].
  destruct Hmissing as (Hfalse & Hremote & _); [right; reflexivity|].
  split; [exact Hfalse|apply Hremote].
Defined.
(** ** Waiting: the polling loop *)

(** Whenever the loop returns, it returns at the first pass that settles
    the wait or reads the clock after the deadline, with the result of
    that pass or a timeout. *)
Lemma wait_loop_sound probe now stop_at :
  forall (fuel start : nat) r k,
    wait_loop fuel probe now stop_at start = Some (r, k) ->
    (start <= k)%nat
    /\ (forall j, (start <= j < k)%nat ->
                  probe j = NotYet /\ (now j <= stop_at)%Z)
    /\ r = outcome (probe k)
    /\ (probe k = NotYet -> (stop_at < now k)%Z).
Proof.
  induction fuel as [|fuel IH]; intros start r k; [discriminate|].
  cbn [wait_loop]. destruct (probe start) as [r'|] eqn:Hprobe.
  - intros [= <- <-]. split; [lia|]. split; [intros j Hj; lia|].
    rewrite Hprobe. split; [reflexivity|discriminate].
  - destruct (now start >? stop_at)%Z eqn:Hlate.
    + intros [= <- <-]. split; [lia|]. split; [intros j Hj; lia|].
      rewrite Hprobe. split; [reflexivity|]. intros _.
      apply Z.gtb_lt in Hlate. exact Hlate.
    + intros Hrest. destruct (IH _ _ _ Hrest) as (Hle & Hbefore & Hr & Hk).
      split; [lia|]. split; [|split; assumption].
      intros j Hj. destruct (Nat.eq_dec j start) as [->|Hne].
      * split; [exact Hprobe|]. rewrite Z.gtb_ltb in Hlate.
        apply Z.ltb_ge in Hlate. exact Hlate.
      * apply Hbefore. lia.
Qed.







(** ** Commands: traces *)

Lemma trace_bind {A B} (m : M A) (k : A -> M B) :
  trace (bind m k)
  = trace m ++ match snd m with Some a => trace (k a) | None => [] end.
Proof.
  destruct m as [tr [a|]]; cbn; [destruct (k a)|rewrite app_nil_r];
    reflexivity.
Qed.

Lemma without_app p (l1 l2 : list event) :
  without p (l1 ++ l2) = without p l1 && without p l2.
Proof. apply forallb_app. Qed.

(** ** Removing a node: the order of the steps *)

Lemma destroy_cluster_trace w node keep_going :
  exists rest,
    trace (destroy_cluster w [node] keep_going)
    = StopPacemaker [node] :: DestroyCluster [node] :: rest.
Proof.
  unfold destroy_cluster, when, nonempty, parallel_for_nodes, call.
  rewrite trace_bind. cbn [trace fst snd app].
  rewrite trace_bind. cbn [trace fst snd app].
  eexists. reflexivity.
Qed.

Lemma remove_node_checks_trace w (pcs_options : gmap string string) node0 :
  let found :=
    when (negb (bool_decide (node0 ∈ getNodesFromCorosyncConf w)))
      (utils_err ("node '" +:+ node0
                    +:+ "' does not appear to exist in configuration")) in
  let quorum_check :=
    when (negb (Py.has_key "--force" pcs_options))
      (r <- call (QuorumtoolOutput node0) (get_remote_quorumtool_output w node0) ;;
       let '(retval, data) := r in
       when (negb (retval =? 0)%Z)
         (utils_err (unable_to_determine_removal data)) ;;
       match parse_quorum w data with
       | Some quorum_info =>
           when (is_node_stop_cause_quorum_loss w quorum_info false [node0])
             (utils_err ("Removing the node will cause a loss of the quorum"
                           +:+ ", use --force to override"))
       | None =>
           when (negb (is_node_offline_by_quorumtool_output w data))
             (utils_err (unable_to_determine_removal data))
       end) in
  without is_removal (trace found) = true
  /\ without is_removal (trace quorum_check) = true
  /\ without is_stop (trace found) = true
  /\ without is_stop (trace quorum_check) = true.
Proof.
  cbv zeta.
  destruct (negb (bool_decide (node0 ∈ getNodesFromCorosyncConf w)));
    destruct (negb (Py.has_key "--force" pcs_options)); cbn [when];
    try (repeat split; reflexivity);
    destruct (get_remote_quorumtool_output w node0) as [retval data];
    cbn [bind call];
    destruct (negb (retval =? 0)%Z); cbn [when utils_err ret bind];
    try (repeat split; reflexivity);
    (destruct (parse_quorum w data) as [qi|];
     [destruct (is_node_stop_cause_quorum_loss w qi false [node0])
     |destruct (negb (is_node_offline_by_quorumtool_output w data))]);
    repeat split; reflexivity.
Qed.

Lemma remove_node_shape w (pcs_options : gmap string string) node0 :
  let tr := trace (cluster_node_remove w pcs_options node0) in
  (without is_removal tr = true /\ without is_stop tr = true)
  \/ exists pre rest,
       tr = pre ++ StopPacemaker [node0] :: DestroyCluster [node0] :: rest
       /\ without is_removal pre = true.
Proof.
  cbv zeta. unfold cluster_node_remove.
  destruct (remove_node_checks_trace w pcs_options node0)
    as (Hfound & Hcheck & Hfound' & Hcheck').
  cbv zeta in Hfound, Hcheck, Hfound', Hcheck'.
  rewrite trace_bind.
  match goal with |- context [snd ?m] => destruct (snd m) end.
  2:{ left. rewrite app_nil_r. split; assumption. }
  rewrite trace_bind.
  match goal with
  | |- context [match snd ?m with Some _ => _ | None => _ end] =>
      destruct (snd m)
  end.
  2:{ left. rewrite app_nil_r, !without_app, Hfound, Hcheck, Hfound', Hcheck'.
      split; reflexivity. }
  right. rewrite trace_bind.
  destruct (destroy_cluster_trace w node0 (Py.has_key "--force" pcs_options))
    as [rest Hrest].
  rewrite Hrest.
  eexists (_ ++ _), _. split.
  - rewrite <- app_assoc. cbn [app]. reflexivity.
  - rewrite without_app, Hfound, Hcheck. reflexivity.
Qed.

Lemma without_lookup p (tr : list event) i e :
  without p tr = true -> tr !! i = Some e -> p e = false.
Proof.
  unfold without. rewrite forallb_forall. intros Hall Hi.
  apply negb_true_iff, Hall, list_elem_of_In, list_elem_of_lookup.
  exists i. exact Hi.
Qed.

(** C4: in every run of the removal, a request to a remaining member to
    drop the node comes after the stop of pacemaker on the node and after
    the destruction of its cluster configuration, in that order. *)
Theorem remove_node_order w (pcs_options : gmap string string) node0
    (i : nat) my_node target :
  trace (cluster_node_remove w pcs_options node0) !! i
  = Some (RemoveLocalNode my_node target) ->
  exists j k : nat,
    (j < k < i)%nat
    /\ trace (cluster_node_remove w pcs_options node0) !! j
       = Some (StopPacemaker [node0])
    /\ trace (cluster_node_remove w pcs_options node0) !! k
       = Some (DestroyCluster [node0]).
Proof.
  intros Hi.
  destruct (remove_node_shape w pcs_options node0)
    as [[Hnone _]|(pre & rest & Htr & Hpre)].
  - pose proof (without_lookup _ _ _ _ Hnone Hi) as H. discriminate.
  - rewrite Htr in Hi |- *.
    exists (length pre), (S (length pre)).
    assert (Hlen : (S (length pre) < i)%nat).
    { destruct (Nat.lt_ge_cases i (length pre)) as [Hlt|Hge].
      - rewrite lookup_app_l in Hi by exact Hlt.
        pose proof (without_lookup _ _ _ _ Hpre Hi) as H. discriminate.
      - rewrite lookup_app_r in Hi by exact Hge.
        destruct (i - length pre)%nat as [|[|n]] eqn:Hd;
          [discriminate|discriminate|lia]. }
    split; [lia|]. split.
    + rewrite lookup_app_r by lia. rewrite Nat.sub_diag. reflexivity.
    + rewrite lookup_app_r by lia.
      replace (S (length pre) - length pre)%nat with 1%nat by lia.
      reflexivity.
Qed.

Lemma remove_node_order_witness :
  trace (cluster_node_remove calm_world ∅ "node3") !! 3%nat
  = Some (RemoveLocalNode "node1" "node3")
  /\ exists j k : nat,
       (j < k < 3)%nat
       /\ trace (cluster_node_remove calm_world ∅ "node3") !! j
          = Some (StopPacemaker ["node3"])
       /\ trace (cluster_node_remove calm_world ∅ "node3") !! k
          = Some (DestroyCluster ["node3"]).
Proof.
  split; [vm_compute; reflexivity|].
  apply (remove_node_order calm_world ∅ "node3" 3 "node1" "node3").
  vm_compute. reflexivity.
Defined.

Example remove_node_trace :
  cluster_node_remove calm_world ∅ "node3"
  = ([QuorumtoolOutput "node3";
      StopPacemaker ["node3"]; DestroyCluster ["node3"];
      RemoveLocalNode "node1" "node3"; Print "node1: Corosync updated";
      RemoveLocalNode "node2" "node3"; Print "node2: Corosync updated";
      ReloadCorosync; Run ["crm_node"; "--force"; "-R"; "node3"]],
     Some tt).
Proof. vm_compute. reflexivity. Qed.

(** ** Adding a node: the push to the members *)

Lemma without_bind {A B} p (m : M A) (k : A -> M B) :
  without p (trace m) = true ->
  (forall a, without p (trace (k a)) = true) ->
  without p (trace (bind m k)) = true.
Proof.
  intros Hm Hk. rewrite trace_bind, without_app, Hm.
  destruct (snd m); [apply Hk|reflexivity].
Qed.

Lemma without_when p (b : bool) (m : M unit) :
  without p (trace m) = true -> without p (trace (when b m)) = true.
Proof. intros Hm. destruct b; [exact Hm|reflexivity]. Qed.

Lemma without_filter p (tr : list event) :
  without p tr = true -> List.filter p tr = [].
Proof.
  induction tr as [|e tr IH]; [reflexivity|].
  cbn [without forallb List.filter]. intros H.
  apply andb_prop in H as [He Htr]. apply negb_true_iff in He.
  rewrite He. apply IH, Htr.
Qed.

Ltac quiet_step :=
  first
    [ apply without_bind; [|intros]
    | apply without_when
    | reflexivity ].

(** The loop over the members: every member is asked, in order; the loop
    always comes back, with a configuration exactly when it began with one
    or a member accepted. *)
Lemma add_node_push_spec w node0 node1 (my_nodes : list string) :
  forall corosync_conf,
    let m := add_node_push w node0 node1 my_nodes corosync_conf in
    (exists conf,
       snd m = Some conf
       /\ (conf = None <->
           corosync_conf = None
           /\ existsb (accepts w node0 node1) my_nodes = false))
    /\ List.filter is_add (trace m)
       = map (fun my_node => AddLocalNode my_node node0 node1) my_nodes
    /\ without is_no_update_error (trace m) = true.
Proof.
  induction my_nodes as [|my_node rest IH]; intros corosync_conf; cbv zeta.
  - cbn. split; [|split; reflexivity].
    eexists. split; [reflexivity|]. tauto.
  - cbn [add_node_push existsb]. unfold accepts at 1.
    destruct (addLocalNode w my_node node0 node1) as [retval output].
    cbn [fst bind call].
    destruct (retval =? 0)%Z; cbn [negb].
    + destruct (IH (Some output)) as ((conf & Hconf & Hnone) & Hfilter & Hquiet).
      cbv zeta in Hconf, Hfilter, Hquiet.
      unfold print, call. cbn [bind].
      destruct (add_node_push w node0 node1 rest (Some output)) as [tr r].
      cbn [trace fst snd app List.filter is_add map] in *.
      split; [|split].
      * exists conf. split; [exact Hconf|]. split.
        -- intros Hc. apply Hnone in Hc as [Hc _]. discriminate.
        -- intros [_ Hc]. discriminate.
      * rewrite Hfilter. reflexivity.
      * exact Hquiet.
    + destruct (IH corosync_conf) as ((conf & Hconf & Hnone) & Hfilter & Hquiet).
      cbv zeta in Hconf, Hfilter, Hquiet.
      unfold utils_err_continue, call. cbn [bind].
      destruct (add_node_push w node0 node1 rest corosync_conf) as [tr r].
      cbn [trace fst snd app List.filter is_add map] in *.
      split; [|split].
      * exists conf. split; [exact Hconf|]. rewrite orb_false_l. exact Hnone.
      * rewrite Hfilter. reflexivity.
      * exact Hquiet.
Qed.

Lemma send_local_configs_quiet w node0 p :
  p (SendLocalConfigs [node0]) = false ->
  (forall message, p (Err message)
                   = is_no_update_error (Err message)) ->
  without p (trace (add_node_send_local_configs w node0)) = true.
Proof.
  intros Hsend Herr. unfold add_node_send_local_configs.
  destruct (send_local_configs w [node0]) as [output retval].
  assert (Hcall : without p [SendLocalConfigs [node0]] = true).
  { cbn. rewrite Hsend. reflexivity. }
  apply without_bind; [exact Hcall|intros [output' retval']].
  apply without_bind; [apply without_when; cbn; rewrite Herr; reflexivity|].
  intros _.
  apply without_bind.
  { apply without_when. cbn. rewrite Herr. reflexivity. }
  intros _. apply without_when.
  destruct (pcsd_data output' !! node0); [apply without_when|];
    cbn; rewrite ?Herr; reflexivity.
Qed.

Lemma without_weaken (p q : event -> bool) (tr : list event) :
  (forall e, q e = false -> p e = false) ->
  without q tr = true -> without p tr = true.
Proof.
  intros Hpq. unfold without. rewrite !forallb_forall. intros H e He.
  apply negb_true_iff, Hpq, negb_true_iff, H, He.
Qed.

Lemma add_node_new_node_quiet w (pcs_options : gmap string string) node0 conf :
  without add_or_no_update
    (trace (add_node_new_node w pcs_options node0 conf)) = true.
Proof.
  unfold add_node_new_node.
  apply without_bind; [apply send_local_configs_quiet; reflexivity|intros _].
  apply without_bind.
  { apply without_when. apply without_bind; [reflexivity|intros [items|]];
      [|reflexivity].
    unfold process_library_reports. reflexivity. }
  intros _. repeat quiet_step.
Qed.

Lemma add_node_end_quiet w node0 (wait : bool) wait_timeout :
  without add_or_no_update
    (trace
       (when (is_cman_with_udpu_transport w)
          (print ("Warning: Using udpu transport on a CMAN cluster, "
                    +:+ "cluster restart is required to apply node addition")) ;;
        when wait
          (print EmptyString ;; wait_for_nodes_started w [node0] wait_timeout)))
  = true.
Proof.
  apply without_bind; [apply without_when; reflexivity|intros _].
  apply without_when. apply without_bind; [reflexivity|intros _].
  unfold wait_for_nodes_started. cbn [nonempty negb].
  repeat quiet_step.
Qed.

Lemma snd_bind_some {A B} (m : M A) (k : A -> M B) a :
  snd m = Some a -> snd (bind m k) = snd (k a).
Proof.
  destruct m as [tr r]. cbn [snd]. intros ->. cbn. destruct (k a); reflexivity.
Qed.

Lemma exited_snd {A} (m : M A) a : snd m = Some a -> exited m = false.
Proof. unfold exited. intros ->. reflexivity. Qed.

(** When the new node's pcsd configuration goes through and the qdevice
    step raises nothing, the steps for the new node come back. *)
Lemma add_node_new_node_returns w (pcs_options : gmap string string)
    node0 conf :
  pcsd_configs_sent w node0 = true ->
  qdevice_net_setup w conf node0 = None ->
  snd (add_node_new_node w pcs_options node0 conf) = Some tt.
Proof.
  unfold pcsd_configs_sent, add_node_new_node, add_node_send_local_configs.
  destruct (send_local_configs w [node0]) as [output retval].
  intros Hsent Hq. apply andb_prop in Hsent as [Hsent Hnode].
  apply andb_prop in Hsent as [Hret Hok].
  cbn [bind call]. rewrite Hret. cbn [negb when ret bind app].
  apply String.eqb_eq in Hok. rewrite Hok.
  cbn [String.eqb Ascii.eqb Bool.eqb when ret bind app andb].
  destruct (pcsd_data output !! node0) as [node_status|]; [|discriminate].
  rewrite Hnode. rewrite Hq.
  destruct (negb (bool_decide (pcsd_data output = ∅)));
    destruct (negb (is_rhel6 w));
    destruct (Py.has_key "--enable" pcs_options);
    destruct (Py.has_key "--start" pcs_options || is_rhel6 w);
    cbn [negb when ret bind app call print snd fst];
    repeat match goal with
           | |- context [enableCluster w node0] =>
               destruct (enableCluster w node0) as [? ?]
           | |- context [startCluster w node0] =>
               destruct (startCluster w node0) as [? ?]
           | |- context [negb (?z =? 0)%Z] => destruct (negb (z =? 0)%Z)
           | _ => progress cbn [negb when ret bind app call print snd fst]
           end;
    reflexivity.
Qed.

Lemma add_node_new_node_begins w (pcs_options : gmap string string) node0 conf :
  exists rest,
    trace (add_node_new_node w pcs_options node0 conf)
    = SendLocalConfigs [node0] :: rest.
Proof.
  unfold add_node_new_node, add_node_send_local_configs.
  rewrite !trace_bind. cbn [call trace fst app]. eexists. reflexivity.
Qed.

(** C3 (as amended): adding a node asks every node of the cluster, in
    order, to take the new node in.  With no acceptance the run ends in
    the fatal error ["Unable to update any nodes"].  With at least one
    acceptance the refusals of the others are not fatal, that error is not
    raised and the run goes on with the steps for the new node, beginning
    with its pcsd configuration; it runs to the end when that
    configuration goes through, the qdevice step raises nothing and no
    wait was asked for. *)
Theorem add_node_acceptance w (pcs_options : gmap string string) node0 node1
    (wait : bool) wait_timeout :
  let m := cluster_node_add w pcs_options node0 node1 wait wait_timeout in
  let members := getNodesFromCorosyncConf w in
  List.filter is_add (trace m)
  = map (fun my_node => AddLocalNode my_node node0 node1) members
  /\ (existsb (accepts w node0 node1) members = false ->
      fatal_error m = Some "Unable to update any nodes")
  /\ (existsb (accepts w node0 node1) members = true ->
      In (SendLocalConfigs [node0]) (trace m)
      /\ without is_no_update_error (trace m) = true)
  /\ (existsb (accepts w node0 node1) members = true ->
      pcsd_configs_sent w node0 = true ->
      (forall conf, qdevice_net_setup w conf node0 = None) ->
      wait = false ->
      exited m = false).
Proof.
  cbv zeta. unfold cluster_node_add.
  destruct (add_node_push_spec w node0 node1 (getNodesFromCorosyncConf w) None)
    as ((conf & Hconf & Hnone) & Hfilter & Hquiet).
  cbv zeta in Hconf, Hfilter, Hquiet.
  set (push := add_node_push w node0 node1 (getNodesFromCorosyncConf w) None)
    in *.
  destruct conf as [conf|].
  - assert (Haccepted :
      existsb (accepts w node0 node1) (getNodesFromCorosyncConf w) = true).
    { destruct (existsb _ _) eqn:E; [reflexivity|].
      assert (Hc : Some conf = None) by (apply Hnone; split; reflexivity).
      discriminate. }
    pose proof (add_node_new_node_quiet w pcs_options node0 conf) as Hnew.
    pose proof (add_node_end_quiet w node0 wait wait_timeout) as Hend.
    destruct (add_node_new_node_begins w pcs_options node0 conf)
      as [rest Hbegins].
    assert (Htail : forall p,
      (forall e, add_or_no_update e = false -> p e = false) ->
      without p
        (trace
           (_ <- call ReloadCorosync (reloadCorosync w) ;;
            add_node_new_node w pcs_options node0 conf ;;
            when (is_cman_with_udpu_transport w)
              (print ("Warning: Using udpu transport on a CMAN cluster, "
                        +:+ "cluster restart is required to apply node addition")) ;;
            when wait
              (print EmptyString ;;
               wait_for_nodes_started w [node0] wait_timeout))) = true).
    { intros p Hp.
      apply without_bind; [cbn; rewrite Hp; reflexivity|intros _].
      apply without_bind; [apply (without_weaken _ _ _ Hp), Hnew|intros _].
      apply (without_weaken _ _ _ Hp), Hend. }
    rewrite trace_bind, Hconf. split; [|split; [|split]].
    + rewrite List.filter_app, Hfilter, without_filter, app_nil_r;
        [reflexivity|].
      apply Htail. intros e He. apply orb_false_elim in He as [He _]. exact He.
    + rewrite Haccepted. discriminate.
    + intros _. split.
      * apply in_or_app. right. rewrite trace_bind. cbn [call trace fst snd app].
        right. rewrite trace_bind, Hbegins. left. reflexivity.
      * rewrite without_app, Hquiet. apply Htail.
        intros e He. apply orb_false_elim in He as [_ He]. exact He.
    + intros _ Hsent Hq ->.
      apply (exited_snd _ tt).
      rewrite (snd_bind_some _ _ _ Hconf).
      rewrite (snd_bind_some _ _ (reloadCorosync w)) by reflexivity.
      rewrite (snd_bind_some _ _ tt)
        by (apply add_node_new_node_returns; [exact Hsent|apply Hq]).
      destruct (is_cman_with_udpu_transport w); reflexivity.
  - assert (Hrefused :
      existsb (accepts w node0 node1) (getNodesFromCorosyncConf w) = false).
    { apply Hnone. reflexivity. }
    assert (Hm :
      (corosync_conf <- push ;;
       _ <- call ReloadCorosync (reloadCorosync w) ;;
       match corosync_conf with
       | Some conf => add_node_new_node w pcs_options node0 conf
       | None => utils_err "Unable to update any nodes"
       end ;;
       when (is_cman_with_udpu_transport w)
         (print ("Warning: Using udpu transport on a CMAN cluster, "
                   +:+ "cluster restart is required to apply node addition")) ;;
       when wait
         (print EmptyString ;; wait_for_nodes_started w [node0] wait_timeout))
      = (trace push
           ++ [ReloadCorosync; Err "Unable to update any nodes"], None)).
    { destruct push as [tr r]. cbn [snd] in Hconf. subst r. reflexivity. }
    rewrite Hm. cbn [trace fst]. split; [|split; [|split]].
    + rewrite List.filter_app, Hfilter. cbn. apply app_nil_r.
    + intros _. unfold fatal_error. cbn [exited snd trace fst].
      rewrite last_app. reflexivity.
    + rewrite Hrefused. discriminate.
    + rewrite Hrefused. discriminate.
Qed.

Lemma add_node_acceptance_witness :
  fatal_error (cluster_node_add deaf_world ∅ "node4" None false None)
  = Some "Unable to update any nodes"
  /\ In (SendLocalConfigs ["node4"])
       (trace (cluster_node_add calm_world ∅ "node4" None false None))
  /\ exited (cluster_node_add calm_world ∅ "node4" None false None) = false.
Proof.
  destruct (add_node_acceptance deaf_world ∅ "node4" None false None)
    as (_ & Hrefused & _).
  destruct (add_node_acceptance calm_world ∅ "node4" None false None)
    as (_ & _ & Hgoes_on & Hends).
  split; [apply Hrefused; reflexivity|].
  split; [apply Hgoes_on; reflexivity|].
  apply Hends; reflexivity.
Defined.

(** C3 (as stated) fails when every member accepts and the pcsd
    configuration of the new node cannot be sent: the run is a fatal
    failure all the same. *)
Lemma add_node_pcsd_counterexample :
  forallb (accepts no_pcsd_world "node4" None)
    (getNodesFromCorosyncConf no_pcsd_world) = true
  /\ cluster_node_add no_pcsd_world ∅ "node4" None false None
     = ([AddLocalNode "node1" "node4" None; Print "node1: Corosync updated";
         AddLocalNode "node2" "node4" None; Print "node2: Corosync updated";
         AddLocalNode "node3" "node4" None; Print "node3: Corosync updated";
         ReloadCorosync; SendLocalConfigs ["node4"];
         Err "Unable to set pcsd configs"],
        None)
  /\ fatal_error (cluster_node_add no_pcsd_world ∅ "node4" None false None)
     = Some "Unable to set pcsd configs".
Proof. vm_compute. repeat split; reflexivity. Qed.

Example add_node_trace :
  cluster_node_add calm_world {["--start" := "1"]} "node4" None true None
  = ([AddLocalNode "node1" "node4" None; Print "node1: Corosync updated";
      AddLocalNode "node2" "node4" None; Print "node2: Corosync updated";
      AddLocalNode "node3" "node4" None; Print "node3: Corosync updated";
      ReloadCorosync; SendLocalConfigs ["node4"]; QdeviceNetSetup "node4";
      Print "Setting up corosync...";
      SetCorosyncConfig "node4" "totem { }"; StartCluster "node4";
      SyncCerts ["node4"]; Print EmptyString;
      Print "Waiting for node(s) to start..."; WaitRemote ["node4"]],
     Some tt).
Proof. vm_compute. reflexivity. Qed.

(** ** Stopping nodes: the quorum check *)

Lemma stop_nodes_quorum_loop_spec w nodes (todo : list string) :
  forall error_list,
    let m := stop_nodes_quorum_loop w nodes todo error_list in
    without is_stop (trace m) = true
    /\ without is_undetermined_error (trace m) = true
    /\ (todo <> [] -> without is_quorum_query (trace m) = false)
    /\ match first_quorate_snapshot w todo with
       | Some quorum_info =>
           if is_node_stop_cause_quorum_loss w quorum_info false nodes
           then snd m = None /\ last (trace m) = Some (Err loss_error)
           else snd m = Some []
       | None =>
           exists errors,
             snd m = Some (error_list ++ errors)
             /\ (existsb (fun n => undeterminable w n || unreachable w n) todo
                 = true -> errors <> [])
       end.
Proof.
  induction todo as [|node rest IH]; intros error_list; cbv zeta.
  - cbn. repeat split; try congruence.
    exists []. rewrite app_nil_r. split; [reflexivity|discriminate].
  - cbn [stop_nodes_quorum_loop first_quorate_snapshot existsb].
    unfold quorate_snapshot, undeterminable, unreachable.
    destruct (get_remote_quorumtool_output w node) as [retval data].
    cbn [fst bind call].
    destruct (retval =? 0)%Z; cbn [negb andb orb].
    + destruct (parse_quorum w data) as [qi|].
      * destruct (quorate qi); cbn [negb].
        -- destruct (is_node_stop_cause_quorum_loss w qi false nodes).
           ++ cbn. repeat split; congruence.
           ++ cbn. repeat split; congruence.
        -- destruct (IH error_list) as (Hs & Hu & _ & Hr). cbv zeta in *.
           destruct (stop_nodes_quorum_loop w nodes rest error_list) as [tr r].
           cbn [trace fst snd app] in *.
           split; [exact Hs|]. split; [exact Hu|]. split; [reflexivity|].
           destruct (first_quorate_snapshot w rest) as [qi'|].
           ++ destruct (is_node_stop_cause_quorum_loss w qi' false nodes);
                [|exact Hr].
              destruct Hr as [Hr Hl]. split; [exact Hr|].
              destruct tr; [discriminate|exact Hl].
           ++ exact Hr.
      * set (errs := if negb (is_node_offline_by_quorumtool_output w data)
                     then error_list ++ ["Unable to get quorum status"]
                     else error_list).
        destruct (IH errs) as (Hs & Hu & _ & Hr). cbv zeta in *.
        destruct (stop_nodes_quorum_loop w nodes rest errs) as [tr r].
        cbn [trace fst snd app] in *.
        split; [exact Hs|]. split; [exact Hu|]. split; [reflexivity|].
        destruct (first_quorate_snapshot w rest) as [qi'|].
        -- destruct (is_node_stop_cause_quorum_loss w qi' false nodes);
             [|exact Hr].
           destruct Hr as [Hr Hl]. split; [exact Hr|].
           destruct tr; [discriminate|exact Hl].
        -- destruct Hr as (errors & Hr & Hne). subst errs.
           destruct (is_node_offline_by_quorumtool_output w data);
             cbn [negb] in *.
           ++ exists errors. split; [exact Hr|exact Hne].
           ++ exists ("Unable to get quorum status" :: errors).
              rewrite <- app_assoc in Hr. split; [exact Hr|discriminate].
    + destruct (IH (error_list ++ [node +:+ ": " +:+ data]))
        as (Hs & Hu & _ & Hr). cbv zeta in *.
      destruct (stop_nodes_quorum_loop w nodes rest
                  (error_list ++ [node +:+ ": " +:+ data])) as [tr r].
      cbn [trace fst snd app] in *.
      split; [exact Hs|]. split; [exact Hu|]. split; [reflexivity|].
      destruct (first_quorate_snapshot w rest) as [qi'|].
      * destruct (is_node_stop_cause_quorum_loss w qi' false nodes);
          [|exact Hr].
        destruct Hr as [Hr Hl]. split; [exact Hr|].
        destruct tr; [discriminate|exact Hl].
      * destruct Hr as (errors & Hr & Hne).
        exists ((node +:+ ": " +:+ data) :: errors).
        rewrite <- app_assoc in Hr. split; [exact Hr|discriminate].
Qed.

Lemma bind_ret {A B} (a : A) (k : A -> M B) : bind (ret a) k = k a.
Proof. unfold bind, ret. destruct (k a). reflexivity. Qed.

Lemma known_nodes (nodes all_nodes : list string) :
  (forall n, n ∈ nodes -> n ∈ all_nodes) ->
  bool_decide ((list_to_set nodes ∖ list_to_set all_nodes : gset string) = ∅)
  = true.
Proof.
  intros Hsub. apply bool_decide_eq_true. apply set_eq. intros n.
  rewrite elem_of_difference, !elem_of_list_to_set, elem_of_empty.
  split; [intros [Hn Hnot]; exact (Hnot (Hsub n Hn))|intros []].
Qed.

Lemma stopping_all_iff (nodes all_nodes : list string) :
  bool_decide ((list_to_set all_nodes : gset string) ⊆ list_to_set nodes)
  = true
  <-> forall n, n ∈ all_nodes -> n ∈ nodes.
Proof.
  rewrite bool_decide_eq_true. split.
  - intros Hsub n Hn.
    apply (elem_of_list_to_set (C := gset string)), Hsub.
    apply elem_of_list_to_set, Hn.
  - intros Hsub n Hn. apply elem_of_list_to_set, Hsub.
    apply (elem_of_list_to_set (C := gset string)), Hn.
Qed.

Lemma stop_steps_quiet w (nodes : list string) p :
  (forall message, p (Err message) = false \/
                   p (Err message) = is_undetermined_error (Err message)) ->
  p (StopPacemaker nodes) = false -> p (StopCorosync nodes) = false ->
  without p
    (trace
       (error_list <- parallel_for_nodes StopPacemaker (stopPacemaker w) nodes ;;
        when (nonempty error_list)
          (utils_err ("unable to stop all nodes" +:+ nl
                        +:+ String.concat nl error_list)) ;;
        error_list <- parallel_for_nodes StopCorosync (stopCorosync w) nodes ;;
        when (nonempty error_list)
          (utils_err ("unable to stop all nodes" +:+ nl
                        +:+ String.concat nl error_list)))) = true.
Proof.
  intros Herr Hp Hc.
  assert (Hmsg : forall errors,
    p (Err ("unable to stop all nodes" +:+ nl +:+ String.concat nl errors))
    = false).
  { intros errors. destruct (Herr ("unable to stop all nodes" +:+ nl
                                     +:+ String.concat nl errors)) as [H|H];
      [exact H|rewrite H; reflexivity]. }
  apply without_bind; [cbn; rewrite Hp; reflexivity|intros errors].
  apply without_bind; [apply without_when; cbn; rewrite Hmsg; reflexivity|].
  intros _.
  apply without_bind; [cbn; rewrite Hc; reflexivity|intros errors'].
  apply without_when; cbn; rewrite Hmsg; reflexivity.
Qed.

(** C5: for a non-empty set of nodes of the cluster, [stop_cluster_nodes]
    asks no node for its quorum status exactly when [--force] is given or
    the set covers the whole cluster; otherwise, when the first quorate
    snapshot it gets says that stopping the nodes loses the quorum, it
    ends in a fatal error before any node is stopped. *)
Theorem stop_nodes_quorum_check w (pcs_options : gmap string string)
    (nodes : list string) :
  nodes <> [] ->
  (forall n, n ∈ nodes -> n ∈ getNodesFromCorosyncConf w) ->
  let m := stop_cluster_nodes w pcs_options nodes in
  (without is_quorum_query (trace m) = true
   <-> Py.has_key "--force" pcs_options = true
       \/ forall n, n ∈ getNodesFromCorosyncConf w -> n ∈ nodes)
  /\ (Py.has_key "--force" pcs_options = false ->
      ~ (forall n, n ∈ getNodesFromCorosyncConf w -> n ∈ nodes) ->
      forall quorum_info,
        first_quorate_snapshot w nodes = Some quorum_info ->
        is_node_stop_cause_quorum_loss w quorum_info false nodes = true ->
        fatal_error m = Some loss_error
        /\ without is_stop (trace m) = true).
Proof.
  intros Hne Hknown. cbv zeta. unfold stop_cluster_nodes.
  rewrite (known_nodes _ _ Hknown). cbn [negb when]. rewrite bind_ret.
  pose proof (stopping_all_iff nodes (getNodesFromCorosyncConf w)) as Hall.
  destruct (stop_nodes_quorum_loop_spec w nodes nodes [])
    as (Hstop & _ & Hquery & Hres). cbv zeta in Hstop, Hquery, Hres.
  specialize (Hquery Hne).
  destruct (bool_decide
              ((list_to_set (getNodesFromCorosyncConf w) : gset string)
               ⊆ list_to_set nodes)) eqn:Hcover.
  - (* the whole cluster is stopped *)
    rewrite andb_false_r. cbn [when]. rewrite bind_ret. split.
    + split; [intros _; right; apply Hall; reflexivity|intros _].
      apply stop_steps_quiet; try reflexivity.
      intros message. left. reflexivity.
    + intros _ Hnot. exfalso. apply Hnot, Hall. reflexivity.
  - destruct (Py.has_key "--force" pcs_options) eqn:Hforce; cbn [negb andb when].
    + rewrite bind_ret. split.
      * split; [intros _; left; reflexivity|intros _].
        apply stop_steps_quiet; try reflexivity.
        intros message. left. reflexivity.
      * discriminate.
    + split.
      * split.
        -- intros Hquiet. exfalso.
           rewrite trace_bind, trace_bind, !without_app, Hquery in Hquiet.
           discriminate.
        -- intros [H|H]; [discriminate|].
           apply Hall in H. rewrite H in Hcover. discriminate.
      * intros _ _ quorum_info Hfirst Hloss.
        rewrite Hfirst, Hloss in Hres. destruct Hres as [Hexit Hlast].
        destruct (stop_nodes_quorum_loop w nodes nodes []) as [tr r].
        cbn [snd trace fst] in *. subst r. cbn [bind trace fst].
        unfold fatal_error. cbn [exited snd trace fst]. rewrite Hlast.
        split; [reflexivity|exact Hstop].
Qed.

Lemma stop_nodes_quorum_check_witness :
  first_quorate_snapshot calm_world ["node1"; "node2"]
  = Some {| quorate := true; quorum := 2;
            node_list := [("node1", 1%Z); ("node2", 1%Z); ("node3", 1%Z)] |}
  /\ fatal_error (stop_cluster_nodes calm_world ∅ ["node1"; "node2"])
     = Some loss_error
  /\ without is_stop (trace (stop_cluster_nodes calm_world ∅ ["node1"; "node2"]))
     = true.
Proof.
  split; [reflexivity|].
  refine (proj2 (stop_nodes_quorum_check calm_world ∅ ["node1"; "node2"] _ _)
            _ _ _ eq_refl eq_refl).
  - discriminate.
  - intros n Hn. apply list_elem_of_In in Hn. apply list_elem_of_In.
    cbn in *. tauto.
  - reflexivity.
  - intros Hall. specialize (Hall "node3").
    assert (Hin : "node3" ∈ ["node1"; "node2"]).
    { apply Hall. apply list_elem_of_In. cbn. tauto. }
    apply list_elem_of_In in Hin. cbn in Hin.
    destruct Hin as [H|[H|[]]]; discriminate.
Defined.

(** ** Stopping and removing: a quorum status that cannot be determined *)


Lemma local_quorum_status_spec w :
  exists output,
    snd (local_quorum_status w) = Some (output, parse_quorum w output)
    /\ without is_stop (trace (local_quorum_status w)) = true.
Proof.
  unfold local_quorum_status, parse_quorum, run_cmd, call.
  destruct (is_rhel6 w); cbn [bind]; eexists; split; reflexivity.
Qed.

Lemma existsb_weaken {A} (p q : A -> bool) (l : list A) :
  (forall a, p a = true -> q a = true) ->
  existsb p l = true -> existsb q l = true.
Proof.
  intros Hpq. rewrite !existsb_exists. intros (a & Ha & Hp).
  exists a. split; [exact Ha|apply Hpq, Hp].
Qed.

Lemma stop_local_undetermined w (pcs_options : gmap string string) output :
  Py.has_key "--force" pcs_options = false ->
  snd (local_quorum_status w) = Some (output, None) ->
  is_node_offline_by_quorumtool_output w output = false ->
  fatal_error (stop_cluster w pcs_options []) = Some undetermined_stop_error
  /\ without is_stop (trace (stop_cluster w pcs_options [])) = true.
Proof.
  intros Hforce Hstatus Hoffline.
  destruct (local_quorum_status_spec w) as (output' & _ & Hquiet).
  unfold stop_cluster. cbn [nonempty]. rewrite Hforce. cbn [negb when].
  destruct (local_quorum_status w) as [tr r]. cbn [snd trace fst] in *.
  subst r. cbn [bind]. rewrite Hoffline. cbn [negb when utils_err app bind].
  unfold fatal_error. cbn [exited snd trace fst].
  rewrite ?app_nil_r, last_snoc, without_app, Hquiet.
  split; reflexivity.
Qed.

Lemma remove_undetermined w (pcs_options : gmap string string) node0 :
  Py.has_key "--force" pcs_options = false ->
  node0 ∈ getNodesFromCorosyncConf w ->
  undeterminable w node0 = true ->
  cluster_node_remove w pcs_options node0
  = ([QuorumtoolOutput node0;
      Err (unable_to_determine_removal
             (snd (get_remote_quorumtool_output w node0)))],
     None).
Proof.
  intros Hforce Hknown Hundet. unfold cluster_node_remove.
  rewrite (bool_decide_eq_true_2 _ Hknown), Hforce. cbn [negb when].
  rewrite bind_ret. unfold undeterminable in Hundet.
  destruct (get_remote_quorumtool_output w node0) as [retval data].
  apply andb_prop in Hundet as [Hundet Hoffline].
  apply andb_prop in Hundet as [Hret Hparse].
  cbn [call bind snd]. rewrite Hret. cbn [negb when ret bind app].
  destruct (parse_quorum w data); [discriminate|].
  rewrite Hoffline. reflexivity.
Qed.

Lemma stop_nodes_undetermined w (pcs_options : gmap string string)
    (nodes : list string) :
  Py.has_key "--force" pcs_options = false ->
  (forall n, n ∈ nodes -> n ∈ getNodesFromCorosyncConf w) ->
  ~ (forall n, n ∈ getNodesFromCorosyncConf w -> n ∈ nodes) ->
  let m := stop_cluster_nodes w pcs_options nodes in
  (first_quorate_snapshot w nodes = None ->
   existsb (undeterminable w) nodes = true ->
   (exists message,
      fatal_error m = Some message
      /\ is_undetermined_error (Err message) = true)
   /\ without is_stop (trace m) = true)
  /\ (forall quorum_info,
        first_quorate_snapshot w nodes = Some quorum_info ->
        without is_undetermined_error (trace m) = true
        /\ (is_node_stop_cause_quorum_loss w quorum_info false nodes = false ->
            In (StopPacemaker nodes) (trace m))).
Proof.
  intros Hforce Hknown Hnotall. cbv zeta. unfold stop_cluster_nodes.
  rewrite (known_nodes _ _ Hknown). cbn [negb when]. rewrite bind_ret.
  destruct (bool_decide
              ((list_to_set (getNodesFromCorosyncConf w) : gset string)
               ⊆ list_to_set nodes)) eqn:Hcover.
  { exfalso. apply Hnotall, stopping_all_iff, Hcover. }
  rewrite Hforce. cbn [negb andb when].
  destruct (stop_nodes_quorum_loop_spec w nodes nodes [])
    as (Hstop & Hundet & _ & Hres). cbv zeta in Hstop, Hundet, Hres.
  destruct (stop_nodes_quorum_loop w nodes nodes []) as [tr r].
  cbn [trace fst snd] in *. split.
  - intros Hfirst Hsome. rewrite Hfirst in Hres.
    destruct Hres as (errors & -> & Hne).
    assert (Herrors : errors <> []).
    { apply Hne. revert Hsome. apply existsb_weaken.
      intros n ->. reflexivity. }
    destruct errors as [|e errors]; [congruence|].
    cbn [app bind nonempty when utils_err].
    unfold fatal_error. cbn [exited snd trace fst].
    rewrite ?app_nil_r, last_snoc, without_app, Hstop.
    split; [|reflexivity]. eexists. split; reflexivity.
  - intros quorum_info Hfirst. rewrite Hfirst in Hres.
    destruct (is_node_stop_cause_quorum_loss w quorum_info false nodes).
    + destruct Hres as [-> _]. cbn [bind trace fst].
      split; [exact Hundet|discriminate].
    + subst r. cbn [bind nonempty when ret app].
      match goal with
      | |- context [let '(tr', r) := ?rest in _] => set (steps := rest)
      end.
      assert (Hsteps : without is_undetermined_error (trace steps) = true
                       /\ In (StopPacemaker nodes) (trace steps)).
      { subst steps. split.
        - apply stop_steps_quiet; try reflexivity. intros message. right.
          reflexivity.
        - rewrite trace_bind. cbn. left. reflexivity. }
      destruct steps as [tr' r']. cbn [trace fst] in *.
      rewrite ?app_nil_r, without_app, Hundet.
      split; [apply Hsteps|]. intros _. apply in_or_app. right. apply Hsteps.
Qed.

(** C2 (as amended): without [--force], a quorum tool output that cannot
    be parsed and does not show the node offline ends the stop of the
    local node and the removal of a node in the fatal error "Unable to
    determine ...", before anything is stopped or removed.  The stop of a
    set of nodes that is not the whole cluster ends in that error when
    such an output comes from one of the nodes and no node gives a quorate
    snapshot; when a node does, its snapshot settles the check, the error
    is not raised, and the nodes are stopped if the snapshot says the
    quorum is kept. *)
Theorem undetermined_quorum_aborts w (pcs_options : gmap string string) :
  Py.has_key "--force" pcs_options = false ->
  (forall output,
     snd (local_quorum_status w) = Some (output, None) ->
     is_node_offline_by_quorumtool_output w output = false ->
     fatal_error (stop_cluster w pcs_options []) = Some undetermined_stop_error
     /\ without is_stop (trace (stop_cluster w pcs_options [])) = true)
  /\ (forall node0,
        node0 ∈ getNodesFromCorosyncConf w ->
        undeterminable w node0 = true ->
        fatal_error (cluster_node_remove w pcs_options node0)
        = Some (unable_to_determine_removal
                  (snd (get_remote_quorumtool_output w node0)))
        /\ without is_stop (trace (cluster_node_remove w pcs_options node0))
           = true
        /\ without is_removal (trace (cluster_node_remove w pcs_options node0))
           = true)
  /\ (forall nodes : list string,
        (forall n, n ∈ nodes -> n ∈ getNodesFromCorosyncConf w) ->
        ~ (forall n, n ∈ getNodesFromCorosyncConf w -> n ∈ nodes) ->
        let m := stop_cluster_nodes w pcs_options nodes in
        (first_quorate_snapshot w nodes = None ->
         existsb (undeterminable w) nodes = true ->
         (exists message,
            fatal_error m = Some message
            /\ is_undetermined_error (Err message) = true)
         /\ without is_stop (trace m) = true)
        /\ (forall quorum_info,
              first_quorate_snapshot w nodes = Some quorum_info ->
              without is_undetermined_error (trace m) = true
              /\ (is_node_stop_cause_quorum_loss w quorum_info false nodes
                  = false ->
                  In (StopPacemaker nodes) (trace m)))).
Proof.
  intros Hforce. split; [|split].
  - intros output. apply stop_local_undetermined. exact Hforce.
  - intros node0 Hknown Hundet.
    rewrite (remove_undetermined w pcs_options node0 Hforce Hknown Hundet).
    repeat split; reflexivity.
  - intros nodes. apply stop_nodes_undetermined. exact Hforce.
Qed.

Lemma undetermined_quorum_aborts_witness :
  fatal_error (stop_cluster garbled_local_world ∅ [])
  = Some undetermined_stop_error
  /\ fatal_error (cluster_node_remove garbled_world ∅ "node1")
     = Some (unable_to_determine_removal "garbage")
  /\ exists message,
       fatal_error (stop_cluster_nodes garbled_world ∅ ["node1"])
       = Some message
       /\ is_undetermined_error (Err message) = true.
Proof.
  assert (Hforce : Py.has_key "--force" (∅ : gmap string string) = false)
    by reflexivity.
  destruct (undetermined_quorum_aborts garbled_local_world ∅ Hforce)
    as (Hlocal & _ & _).
  destruct (undetermined_quorum_aborts garbled_world ∅ Hforce)
    as (_ & Hremove & Hnodes).
  split; [apply (Hlocal "garbage"); reflexivity|].
  split.
  - apply (Hremove "node1"); [|reflexivity].
    apply list_elem_of_In. cbn. tauto.
  - apply (Hnodes ["node1"]); try reflexivity.
    + intros n Hn. apply list_elem_of_In in Hn. apply list_elem_of_In.
      cbn in *. tauto.
    + intros Hall.
      assert (Hin : "node2" ∈ ["node1"]).
      { apply Hall. apply list_elem_of_In. cbn. tauto. }
      apply list_elem_of_In in Hin. cbn in Hin.
      destruct Hin as [H|[]]; discriminate.
Defined.

(** C2 (as stated) fails for the stop of a set of nodes: the output of
    [node1] cannot be parsed and does not show it offline, the snapshot of
    [node2] says the quorum is kept, and both nodes are stopped without
    [--force]. *)
Lemma stop_nodes_undetermined_counterexample :
  Py.has_key "--force" (∅ : gmap string string) = false
  /\ undeterminable garbled_world "node1" = true
  /\ stop_cluster_nodes garbled_world ∅ ["node1"; "node2"]
     = ([QuorumtoolOutput "node1"; QuorumtoolOutput "node2";
         StopPacemaker ["node1"; "node2"]; StopCorosync ["node1"; "node2"]],
        Some tt).
Proof. vm_compute. repeat split; reflexivity. Qed.

(** * Further properties *)

(** ** Setup options: what [--force] changes *)

Lemma fold_left_map_append {A B} (g : A -> A) (c : B -> bool) (h : B -> A)
    (l : list B) (init : list A) :
  (forall b, g (h b) = h b) ->
  map g (fold_left (fun msgs b => if c b then msgs ++ [h b] else msgs) l init)
  = fold_left (fun msgs b => if c b then msgs ++ [h b] else msgs) l
      (map g init).
Proof.
  intros Hg. revert init. induction l as [|b l IH]; intros init;
    cbn [fold_left]; [reflexivity|].
  rewrite IH. destruct (c b); [|reflexivity].
  rewrite map_app. cbn [map]. rewrite Hg. reflexivity.
Qed.

Lemma quorum_values_forced (options : gmap string string) names init :
  map forced
    (fold_left
       (fun msgs opt_name =>
          match options !! opt_name with
          | Some v =>
              if negb (Py.in_tuple v ["0"; "1"])
              then msgs ++ [invalid_option_value opt_name v ["0"; "1"]
                              None None]
              else msgs
          | None => msgs
          end) names init)
  = fold_left
      (fun msgs opt_name =>
         match options !! opt_name with
         | Some v =>
             if negb (Py.in_tuple v ["0"; "1"])
             then msgs ++ [invalid_option_value opt_name v ["0"; "1"]
                             None None]
             else msgs
         | None => msgs
         end) names (map forced init).
Proof.
  revert init. induction names as [|n names IH]; intros init;
    cbn [fold_left]; [reflexivity|].
  rewrite IH. destruct (options !! n) as [v|]; [|reflexivity].
  destruct (negb (Py.in_tuple v ["0"; "1"])); [|reflexivity].
  rewrite map_app. reflexivity.
Qed.

Lemma parse_rrpmode_forced options messages :
  parse_rrpmode options true (map forced messages)
  = (fst (parse_rrpmode options false messages),
     map forced (snd (parse_rrpmode options false messages))).
Proof.
  unfold parse_rrpmode.
  destruct (Py.has_key "--rrpmode" options || Py.has_key "--addr0" options);
    [|reflexivity].
  cbn [fst snd].
  destruct (negb (Py.in_tuple (default "passive" (options !! "--rrpmode"))
                    ["passive"; "active"]));
    destruct (String.eqb (default "passive" (options !! "--rrpmode")) "active");
    rewrite ?map_app; reflexivity.
Qed.

(** The reports made before the RRP mode is looked at differ by [forced]
    only. *)
Ltac forced_messages options :=
  match goal with
  | |- context [parse_rrpmode options true ?m1] =>
      match goal with
      | |- context [parse_rrpmode options false ?m2] =>
          let H := fresh "H" in
          assert (H : m1 = map forced m2)
            by (repeat match goal with
                       | |- context [if ?c then _ else _] => destruct c
                       | |- context [match ?o with Some _ => _ | None => _ end] =>
                           destruct o
                       end;
                rewrite ?map_app; reflexivity);
          replace (parse_rrpmode options true m1)
            with (parse_rrpmode options true (map forced m2))
            by (f_equal; symmetry; exact H);
          clear H
      end
  end.

(** X1: [--force] changes nothing in the parsed options of either parser
    and keeps every report, in order; it only turns the forceable errors
    (bad transport, bad RRP mode, active RRP) into warnings. *)
Theorem force_only_downgrades (is_rhel6 : bool) options :
  cluster_setup_parse_options is_rhel6 options true
  = (fst (cluster_setup_parse_options is_rhel6 options false),
     map forced (snd (cluster_setup_parse_options is_rhel6 options false))).
Proof.
  unfold cluster_setup_parse_options. destruct is_rhel6.
  - unfold cluster_setup_parse_options_cman.
    destruct (Py.has_key "--broadcast0" options || Py.has_key "--broadcast1" options);
      [|destruct (options !! "--transport") as [t|]];
      forced_messages options;
      rewrite parse_rrpmode_forced;
      match goal with
      | |- context [parse_rrpmode options false ?m] =>
          destruct (parse_rrpmode options false m) as [mode msgs]
      end;
      cbn [fst snd]; f_equal; symmetry;
      apply (fold_left_map_append forced (fun b => Py.has_key b options)
               cman_ignored_option);
      reflexivity.
  - unfold cluster_setup_parse_options_corosync.
    destruct (options !! "--transport") as [t|];
      forced_messages options;
      rewrite parse_rrpmode_forced;
      match goal with
      | |- context [parse_rrpmode options false ?m] =>
          destruct (parse_rrpmode options false m) as [mode msgs]
      end;
      cbn [fst snd]; f_equal; symmetry; apply quorum_values_forced.
Qed.

(** ** Setup on corosync: the interface sections *)

Lemma parse_corosync_transport options force :
  transport (parsed_transport
               (fst (cluster_setup_parse_options_corosync options force)))
  = Some (default "udpu" (options !! "--transport")).
Proof.
  unfold cluster_setup_parse_options_corosync.
  destruct (options !! "--transport");
    destruct (parse_rrpmode _ _ _); reflexivity.
Qed.

Lemma interface_ids_lookup options (k i : nat) :
  corosync_interface_ids options !! k = Some i ->
  i = k /\ is_Some (options !! ring_opt "--addr" k).
Proof.
  unfold corosync_interface_ids, Py.has_key.
  destruct (options !! "--addr0") as [a0|] eqn:H0; [|discriminate].
  destruct k as [|[|k]].
  - intros [= <-]. split; [reflexivity|]. exists a0. exact H0.
  - destruct (options !! "--addr1") as [a1|] eqn:H1; [|discriminate].
    intros [= <-]. split; [reflexivity|]. exists a1. exact H1.
  - destruct (options !! "--addr1"); discriminate.
Qed.

(** X2: in a corosync setup that gets as far as the configuration, the
    [totem] section has [interface] sub-sections only for the [udp]
    transport with [--addr0] given: one for ring 0 and, if [--addr1] is
    given too, one for ring 1; [--addr1] without [--addr0] gives none.
    The sub-section at position [k] has [ringnumber] [k] and binds to the
    value of [--addr<k>]. *)
Theorem interface_sections resolves pcs_options cluster_name nodes plan :
  cluster_setup_prepare false resolves pcs_options cluster_name nodes
  = inr plan ->
  exists tree totem_s,
    plan_config plan = CorosyncConf tree
    /\ sec_sections tree !! 0%nat = Some totem_s
    /\ sec_name totem_s = "totem"
    /\ length (sec_sections totem_s)
       = (if String.eqb (default "udpu" (pcs_options !! "--transport")) "udp"
          then if Py.has_key "--addr0" pcs_options
               then if Py.has_key "--addr1" pcs_options then 2 else 1
               else 0
          else 0)%nat
    /\ forall (k : nat) s,
         sec_sections totem_s !! k = Some s ->
         exists addr rest,
           pcs_options !! ring_opt "--addr" k = Some addr
           /\ sec_name s = "interface"
           /\ sec_sections s = []
           /\ sec_attrs s
              = ("ringnumber", AInt k) :: ("bindnetaddr", AStr addr) :: rest.
Proof.
  intros Hplan.
  destruct (cluster_setup_prepare_inr _ _ _ _ _ _ Hplan)
    as (_ & _ & Ht & _ & _ & Hconf).
  cbv zeta in Ht. cbn [negb] in Hconf, Ht.
  set (force := Py.has_key "--force" pcs_options) in *.
  pose proof (parse_corosync_rings pcs_options force) as Hrings.
  pose proof (parse_corosync_transport pcs_options force) as Htr.
  set (t0 := parsed_transport
               (fst (cluster_setup_parse_options_corosync pcs_options force)))
    in *.
  assert (Hsame : transport (parsed_transport (plan_options plan))
                  = transport t0
                  /\ rings_options (parsed_transport (plan_options plan))
                     = rings_options t0).
  { rewrite Ht. destruct (rrp_mode t0); [split; reflexivity|].
    destruct (existsb ring1_given nodes); split; reflexivity. }
  destruct Hsame as [Htr' Hrings'].
  eexists _, _. split; [exact Hconf|]. split; [reflexivity|].
  split; [reflexivity|].
  unfold totem_section. cbn [sec_sections].
  rewrite Htr', Htr, Hrings', Hrings.
  destruct (String.eqb (default "udpu" (pcs_options !! "--transport")) "udp").
  - split.
    + rewrite length_map, enumerate_length, length_map.
      unfold corosync_interface_ids.
      destruct (Py.has_key "--addr0" pcs_options);
        [destruct (Py.has_key "--addr1" pcs_options)|]; reflexivity.
    + intros k s.
      rewrite list_lookup_fmap, enumerate_lookup, list_lookup_fmap.
      destruct (corosync_interface_ids pcs_options !! k) as [i|] eqn:Hi;
        [|discriminate].
      destruct (interface_ids_lookup _ _ _ Hi) as [-> [addr Haddr]].
      cbn. intros [= <-]. exists addr.
      unfold interface_section, corosync_ring_options.
      destruct (Py.has_key (ring_opt "--broadcast" k) pcs_options);
        cbn [ring_addr ring_broadcast sec_name sec_sections sec_attrs];
        rewrite Haddr; eexists; repeat split; reflexivity.
  - split; [reflexivity|]. intros k s. discriminate.
Qed.

Lemma interface_sections_witness :
  exists plan tree totem_s,
    cluster_setup_prepare false (fun _ => true) udp_two_rings "cluster"
      two_nodes = inr plan
    /\ plan_config plan = CorosyncConf tree
    /\ sec_sections tree !! 0%nat = Some totem_s
    /\ length (sec_sections totem_s) = 2%nat.
Proof.
  destruct (interface_sections (fun _ => true) udp_two_rings "cluster"
              two_nodes _ eq_refl)
    as (tree & totem_s & Hconf & Htotem & _ & Hlen & _).
  eexists _, tree, totem_s. split; [reflexivity|].
  split; [exact Hconf|]. split; [exact Htotem|exact Hlen].
Defined.

(** ** Setup on cman: multicast and broadcast *)

Lemma filter_flat_map_nil {A B} (p : B -> bool) (f : A -> list B) (l : list A) :
  (forall a, List.filter p (f a) = []) -> List.filter p (flat_map f l) = [].
Proof.
  intros Hf. induction l as [|a l IH]; [reflexivity|].
  cbn [flat_map]. rewrite List.filter_app, Hf, IH. reflexivity.
Qed.

Lemma node_commands_no_multicast node_options :
  List.filter is_multicast_command (node_commands node_options) = [].
Proof.
  unfold node_commands.
  destruct (node_options !! "ring0_addr"); [|reflexivity].
  destruct (node_options !! "ring1_addr"); reflexivity.
Qed.

Lemma totem_command_no_multicast t totem :
  List.filter is_multicast_command
    (match totem_cmd_options t totem with
     | [] => []
     | opts => [{| cmd := "--settotem" :: opts;
                   err := "error setting totem options" |}]
     end) = [].
Proof. destruct (totem_cmd_options t totem); reflexivity. Qed.

Lemma ring_commands_multicast start (rings : list ring_options) :
  List.filter is_multicast_command
    (map (fun '(ring_number, ro) => ring_command ring_number ro)
       (Py.enumerate start rings))
  = map (fun '(ring_number, ro) => ring_command ring_number ro)
      (Py.enumerate start rings).
Proof.
  revert start. induction rings as [|ro rings IH]; intros start;
    [reflexivity|].
  cbn [Py.enumerate map List.filter]. rewrite IH.
  unfold is_multicast_command, ring_command at 1. cbn [cmd].
  destruct (start =? 0)%nat; reflexivity.
Qed.

(** The multicast commands of the command sequence are the commands of
    the rings, and there are none under broadcast. *)
Lemma cluster_conf_multicast cluster_name node_list t totem :
  List.filter is_multicast_command
    (cluster_conf_commands cluster_name node_list t totem)
  = if broadcast_on t then []
    else map (fun '(ring_number, ro) => ring_command ring_number ro)
           (Py.enumerate 0 (rings_options t)).
Proof.
  unfold cluster_conf_commands.
  rewrite !List.filter_app.
  rewrite (filter_flat_map_nil _ _ _ node_commands_no_multicast).
  rewrite totem_command_no_multicast, app_nil_r.
  cbn [List.filter is_multicast_command cmd String.eqb Ascii.eqb Bool.eqb orb
       app].
  destruct (broadcast_on t); cbn [negb]; [reflexivity|].
  apply ring_commands_multicast.
Qed.

Lemma parse_cman_transport options force :
  let t := parsed_transport
             (fst (cluster_setup_parse_options_cman options force)) in
  transport t
  = Some (if Py.has_key "--broadcast0" options || Py.has_key "--broadcast1" options
          then "udpb" else default "udp" (options !! "--transport"))
  /\ broadcast_on t
     = (Py.has_key "--broadcast0" options || Py.has_key "--broadcast1" options).
Proof.
  unfold cluster_setup_parse_options_cman.
  destruct (Py.has_key "--broadcast0" options || Py.has_key "--broadcast1" options);
    [|destruct (options !! "--transport")];
    destruct (parse_rrpmode _ _ _); split; reflexivity.
Qed.

(** The transport, the broadcast flag and the rings pass unchanged from
    the parser to the plan; only [rrp_mode] may be completed. *)
Lemma plan_transport_options is_rhel6 resolves pcs_options cluster_name
    nodes plan :
  cluster_setup_prepare is_rhel6 resolves pcs_options cluster_name nodes
  = inr plan ->
  let t0 := parsed_transport
              (fst (cluster_setup_parse_options is_rhel6 pcs_options
                      (Py.has_key "--force" pcs_options))) in
  let t := parsed_transport (plan_options plan) in
  transport t = transport t0
  /\ rings_options t = rings_options t0
  /\ broadcast t = broadcast t0
  /\ ip_version t = ip_version t0.
Proof.
  intros Hplan.
  destruct (cluster_setup_prepare_inr _ _ _ _ _ _ Hplan)
    as (_ & _ & Ht & _).
  cbv zeta in *. unfold cluster_setup_parse_options. rewrite Ht.
  destruct (rrp_mode _); [repeat split; reflexivity|].
  destruct (existsb ring1_given nodes); repeat split; reflexivity.
Qed.

(** X3: on the cman path, with [--addr1] given, [--addr0] not, and no
    broadcast, the one multicast command of the sequence is
    [--setmulticast] (the command of the first ring) and it carries the
    multicast address of ring 1: the value of [--mcast1], or
    239.255.2.1. *)
Theorem cman_ring1_alone resolves (pcs_options : gmap string string)
    cluster_name nodes plan :
  Py.has_key "--addr0" pcs_options = false ->
  Py.has_key "--addr1" pcs_options = true ->
  Py.has_key "--broadcast0" pcs_options = false ->
  Py.has_key "--broadcast1" pcs_options = false ->
  cluster_setup_prepare true resolves pcs_options cluster_name nodes
  = inr plan ->
  exists commands rest,
    plan_config plan = ClusterConf commands
    /\ List.filter is_multicast_command commands
       = [{| cmd := "--setmulticast"
                      :: default "239.255.2.1" (pcs_options !! "--mcast1")
                      :: rest;
             err := "error adding ring0 settings" |}].
Proof.
  intros H0 H1 Hb0 Hb1 Hplan.
  destruct (cluster_setup_prepare_inr _ _ _ _ _ _ Hplan)
    as (_ & _ & _ & _ & _ & Hconf).
  destruct (plan_transport_options _ _ _ _ _ _ Hplan)
    as (_ & Hrings & Hbroadcast & _).
  cbv zeta in Hrings, Hbroadcast. unfold cluster_setup_parse_options in *.
  destruct (parse_cman_transport pcs_options (Py.has_key "--force" pcs_options))
    as [_ Hbc].
  cbv zeta in Hbc. rewrite Hb0, Hb1 in Hbc.
  rewrite parse_cman_rings, Hb0, Hb1 in Hrings. cbn [orb] in Hrings, Hbc.
  eexists _, _. split; [exact Hconf|].
  rewrite cluster_conf_multicast. unfold broadcast_on at 1.
  rewrite Hbroadcast. fold (broadcast_on (parsed_transport
    (fst (cluster_setup_parse_options_cman pcs_options
            (Py.has_key "--force" pcs_options))))).
  rewrite Hbc, Hrings.
  unfold cman_interface_ids. cbn [List.filter].
  change (ring_opt "--addr" 0) with "--addr0".
  change (ring_opt "--addr" 1) with "--addr1".
  rewrite H0, H1. cbn [map Py.enumerate].
  unfold ring_command, cman_ring_options. cbn [ring_mcastaddr Nat.eqb app].
  reflexivity.
Qed.

Lemma cman_ring1_alone_witness :
  exists plan commands rest,
    cluster_setup_prepare true (fun _ => true) ring1_alone "cluster" two_nodes
    = inr plan
    /\ plan_config plan = ClusterConf commands
    /\ List.filter is_multicast_command commands
       = [{| cmd := "--setmulticast" :: "239.255.2.1" :: rest;
             err := "error adding ring0 settings" |}].
Proof.
  assert (H0 : Py.has_key "--addr0" ring1_alone = false) by reflexivity.
  assert (H1 : Py.has_key "--addr1" ring1_alone = true) by reflexivity.
  assert (Hb0 : Py.has_key "--broadcast0" ring1_alone = false) by reflexivity.
  assert (Hb1 : Py.has_key "--broadcast1" ring1_alone = false) by reflexivity.
  destruct (cman_ring1_alone (fun _ => true) ring1_alone "cluster" two_nodes
              _ H0 H1 Hb0 Hb1 eq_refl)
    as (commands & rest & Hconf & Hfilter).
  eexists _, commands, rest. split; [reflexivity|].
  split; [exact Hconf|exact Hfilter].
Defined.

Lemma fold_left_append_in {A B} (c : B -> bool) (h : B -> A) (l : list B)
    (init : list A) (x : A) :
  In x (fold_left (fun msgs b => if c b then msgs ++ [h b] else msgs) l init)
  <-> In x init \/ exists b, In b l /\ c b = true /\ x = h b.
Proof.
  revert init. induction l as [|b l IH]; intros init; cbn [fold_left].
  - split; [auto|]. intros [H|(b & [] & _)]. exact H.
  - rewrite IH. split.
    + intros [H|(b' & Hb' & Hc & ->)].
      * destruct (c b) eqn:Hc; [|left; exact H].
        apply in_app_or in H as [H|[<-|[]]]; [left; exact H|].
        right. exists b. repeat split; [left; reflexivity|exact Hc].
      * right. exists b'. repeat split; [right; exact Hb'|exact Hc].
    + intros [H|(b' & [<-|Hb'] & Hc & ->)].
      * left. destruct (c b); [apply in_or_app; left|]; exact H.
      * left. rewrite Hc. apply in_or_app. right. left. reflexivity.
      * right. exists b'. repeat split; assumption.
Qed.

Lemma parse_rrpmode_in options force messages x :
  In x (snd (parse_rrpmode options force messages)) ->
  In x messages
  \/ (exists value severity forceable,
        x = invalid_option_value "RRP mode" value ["passive"; "active"]
              severity forceable)
  \/ x = rrp_active_not_supported force.
Proof.
  unfold parse_rrpmode.
  destruct (Py.has_key "--rrpmode" options || Py.has_key "--addr0" options);
    cbn [snd]; [|auto].
  destruct (negb _), (String.eqb _ "active"); intros H;
    repeat (apply in_app_or in H as [H|[<-|[]]]); eauto 10.
Qed.

(** X4: on the cman path, with [--broadcast0] or [--broadcast1] given, the
    transport is ["udpb"] whatever [--transport] says, no ring options are
    built, the [--setcman] command says [broadcast=yes] and no multicast
    command is issued; the report that broadcast must be set on all rings
    is made exactly when one of the two options is missing. *)
Theorem cman_broadcast resolves (pcs_options : gmap string string)
    cluster_name nodes plan :
  Py.has_key "--broadcast0" pcs_options || Py.has_key "--broadcast1" pcs_options
  = true ->
  cluster_setup_prepare true resolves pcs_options cluster_name nodes
  = inr plan ->
  transport (parsed_transport (plan_options plan)) = Some "udpb"
  /\ rings_options (parsed_transport (plan_options plan)) = []
  /\ (In cman_broadcast_all_rings (plan_messages plan)
      <-> Py.has_key "--broadcast0" pcs_options
          && Py.has_key "--broadcast1" pcs_options = false)
  /\ exists commands rest,
       plan_config plan = ClusterConf commands
       /\ commands !! 2%nat
          = Some {| cmd := "--setcman" :: "transport=udpb" :: "broadcast=yes"
                             :: rest;
                    err := "error setting cman options" |}
       /\ List.filter is_multicast_command commands = [].
Proof.
  intros Hb Hplan.
  destruct (cluster_setup_prepare_inr _ _ _ _ _ _ Hplan)
    as (_ & Hmsgs & _ & _ & _ & Hconf).
  destruct (plan_transport_options _ _ _ _ _ _ Hplan)
    as (Htr & Hrings & Hbroadcast & _).
  cbv zeta in Htr, Hrings, Hbroadcast, Hmsgs.
  unfold cluster_setup_parse_options in *.
  set (force := Py.has_key "--force" pcs_options) in *.
  destruct (parse_cman_transport pcs_options force) as [Htr0 Hbc].
  cbv zeta in Htr0, Hbc. rewrite Hb in Htr0, Hbc.
  rewrite parse_cman_rings, Hb in Hrings. rewrite Htr0 in Htr.
  assert (Hon : broadcast_on (parsed_transport (plan_options plan)) = true).
  { unfold broadcast_on in *. rewrite Hbroadcast. exact Hbc. }
  split; [exact Htr|]. split; [exact Hrings|]. split.
  - rewrite Hmsgs. unfold cluster_setup_parse_options_cman. rewrite Hb.
    cbn [String.eqb Ascii.eqb Bool.eqb andb].
    match goal with
    | |- context [parse_rrpmode pcs_options force ?m] =>
        pose proof (parse_rrpmode_grows pcs_options force m) as Hgrows;
        pose proof (parse_rrpmode_in pcs_options force m
                      cman_broadcast_all_rings) as Hin;
        destruct (parse_rrpmode pcs_options force m) as [mode msgs]
    end.
    cbn [snd] in *.
    rewrite (fold_left_append_in (fun b => Py.has_key b pcs_options)
               cman_ignored_option).
    split.
    + intros [H|(b & _ & _ & H)]; [|discriminate].
      apply Hin in H as [H|[(v & s & f & H)|H]]; try discriminate.
      destruct (Py.has_key "--broadcast0" pcs_options),
        (Py.has_key "--broadcast1" pcs_options); try reflexivity.
      destruct H.
    + intros Hmissing. left. apply Hgrows.
      destruct (Py.has_key "--broadcast0" pcs_options),
        (Py.has_key "--broadcast1" pcs_options); try discriminate;
        left; reflexivity.
  - eexists _, _. split; [exact Hconf|]. split.
    + unfold cluster_conf_commands, cman_opts. rewrite Htr, Hon.
      cbn [app lookup list_lookup]. reflexivity.
    + rewrite cluster_conf_multicast, Hon. reflexivity.
Qed.

Lemma cman_broadcast_witness :
  exists plan,
    cluster_setup_prepare true (fun _ => true) broadcast_rings "cluster"
      two_nodes = inr plan
    /\ transport (parsed_transport (plan_options plan)) = Some "udpb"
    /\ ~ In cman_broadcast_all_rings (plan_messages plan).
Proof.
  assert (Hb : Py.has_key "--broadcast0" broadcast_rings
               || Py.has_key "--broadcast1" broadcast_rings = true)
    by reflexivity.
  destruct (cman_broadcast (fun _ => true) broadcast_rings "cluster" two_nodes
              _ Hb eq_refl) as (Htr & _ & Hreport & _).
  eexists. split; [reflexivity|]. split; [exact Htr|].
  intros Hin. apply Hreport in Hin. discriminate.
Defined.

(** ** Setup on corosync: the timing and quorum options *)

Lemma named_attrs_in names (d : gmap string string) name v :
  In (name, AStr v) (named_attrs names d)
  <-> In name names /\ d !! name = Some v.
Proof.
  unfold named_attrs. rewrite in_flat_map. split.
  - intros (n & Hn & Hin). destruct (d !! n) as [v'|] eqn:Hd; [|destruct Hin].
    destruct Hin as [[= <- <-]|[]]. split; assumption.
  - intros [Hn Hd]. exists name. split; [exact Hn|].
    rewrite Hd. left. reflexivity.
Qed.

Lemma opt_attr_in name' o name v :
  In (name, AStr v) (opt_attr name' o) -> name = name'.
Proof.
  destruct o; [|intros []]. intros [[= <- _]|[]]. reflexivity.
Qed.

Lemma parse_corosync_totem options force :
  totem_options (fst (cluster_setup_parse_options_corosync options force))
  = copy_named [("--token", "token");
                ("--token_coefficient", "token_coefficient");
                ("--join", "join"); ("--consensus", "consensus");
                ("--miss_count_const", "miss_count_const");
                ("--fail_recv_const", "fail_recv_const")] options.
Proof.
  unfold cluster_setup_parse_options_corosync.
  destruct (options !! "--transport");
    destruct (parse_rrpmode _ _ _); reflexivity.
Qed.

(** X5: in a corosync setup that gets as far as the configuration, each
    of the six timing options and each of the four quorum options is
    written to its section ([totem], [quorum]) under its own name with
    the value given on the command line, and is absent when it was not
    given. *)
Theorem options_reach_sections resolves (pcs_options : gmap string string)
    cluster_name nodes plan :
  cluster_setup_prepare false resolves pcs_options cluster_name nodes
  = inr plan ->
  exists tree totem_s quorum_s,
    plan_config plan = CorosyncConf tree
    /\ sec_sections tree !! 0%nat = Some totem_s
    /\ sec_sections tree !! 2%nat = Some quorum_s
    /\ (forall name v,
          In name ["token"; "token_coefficient"; "join"; "consensus";
                   "miss_count_const"; "fail_recv_const"] ->
          In (name, AStr v) (sec_attrs totem_s)
          <-> pcs_options !! ("--" +:+ name) = Some v)
    /\ (forall name v,
          In name ["wait_for_all"; "auto_tie_breaker"; "last_man_standing";
                   "last_man_standing_window"] ->
          In (name, AStr v) (sec_attrs quorum_s)
          <-> pcs_options !! ("--" +:+ name) = Some v).
Proof.
  intros Hplan.
  destruct (cluster_setup_prepare_inr _ _ _ _ _ _ Hplan)
    as (_ & _ & _ & Htotem & Hquorum & Hconf).
  cbv zeta in Htotem, Hquorum.
  rewrite parse_corosync_totem in Htotem.
  rewrite parse_corosync_quorum in Hquorum.
  eexists _, _, _. split; [exact Hconf|]. split; [reflexivity|].
  split; [reflexivity|]. split.
  - intros name v Hname. unfold totem_section. cbn [sec_attrs].
    rewrite Htotem.
    assert (Hlookup :
      copy_named [("--token", "token");
                  ("--token_coefficient", "token_coefficient");
                  ("--join", "join"); ("--consensus", "consensus");
                  ("--miss_count_const", "miss_count_const");
                  ("--fail_recv_const", "fail_recv_const")] pcs_options
        !! name = pcs_options !! ("--" +:+ name)).
    { apply copy_named_lookup.
      - repeat constructor; cbn; intuition discriminate.
      - cbn in Hname |- *.
        repeat (destruct Hname as [<-|Hname]; [tauto|]). destruct Hname. }
    split.
    + intros Hin.
      apply in_app_or in Hin as [Hin|Hin].
      { exfalso. cbn in Hin, Hname.
        repeat (destruct Hname as [<-|Hname];
                [intuition discriminate|]). destruct Hname. }
      apply in_app_or in Hin as [Hin|Hin].
      { exfalso.
        repeat (apply in_app_or in Hin as [Hin|Hin]);
          apply opt_attr_in in Hin; subst name; cbn in Hname;
          intuition discriminate. }
      apply named_attrs_in in Hin as [_ Hin]. rewrite <- Hlookup. exact Hin.
    + intros Hopt. apply in_or_app. right. apply in_or_app. right.
      apply named_attrs_in. split; [exact Hname|]. rewrite Hlookup. exact Hopt.
  - intros name v Hname. unfold quorum_section. cbn [sec_attrs].
    rewrite Hquorum. cbn [from_option id].
    assert (Hlookup :
      copy_named [("--wait_for_all", "wait_for_all");
                  ("--auto_tie_breaker", "auto_tie_breaker");
                  ("--last_man_standing", "last_man_standing");
                  ("--last_man_standing_window", "last_man_standing_window")]
        pcs_options
        !! name = pcs_options !! ("--" +:+ name)).
    { apply copy_named_lookup.
      - repeat constructor; cbn; intuition discriminate.
      - cbn in Hname |- *.
        repeat (destruct Hname as [<-|Hname]; [tauto|]). destruct Hname. }
    split.
    + intros Hin.
      apply in_app_or in Hin as [Hin|Hin].
      { exfalso. cbn in Hin, Hname.
        repeat (destruct Hname as [<-|Hname];
                [intuition discriminate|]). destruct Hname. }
      apply in_app_or in Hin as [Hin|Hin].
      { apply named_attrs_in in Hin as [_ Hin]. rewrite <- Hlookup. exact Hin. }
      exfalso.
      destruct (_ && _) in Hin; [|destruct Hin].
      destruct Hin as [[= <- _]|[]]. cbn in Hname. intuition discriminate.
    + intros Hopt. apply in_or_app. right. apply in_or_app. left.
      apply named_attrs_in. split; [exact Hname|]. rewrite Hlookup. exact Hopt.
Qed.

Lemma options_reach_sections_witness :
  exists plan tree totem_s,
    cluster_setup_prepare false (fun _ => true) token_option
      "cluster" two_nodes = inr plan
    /\ plan_config plan = CorosyncConf tree
    /\ sec_sections tree !! 0%nat = Some totem_s
    /\ In ("token", AStr "5000") (sec_attrs totem_s).
Proof.
  destruct (options_reach_sections (fun _ => true) token_option
              "cluster" two_nodes _ eq_refl)
    as (tree & totem_s & quorum_s & Hconf & Htotem & _ & Hin & _).
  eexists _, tree, totem_s. split; [reflexivity|].
  split; [exact Hconf|]. split; [exact Htotem|].
  apply Hin; [cbn; tauto|reflexivity].
Defined.

(** ** Setup on cman: the commands of the nodes and their execution *)

Lemma filter_head_node_commands node_options :
  map cmd (List.filter (has_head "--addnode") (node_commands node_options))
  = match node_options !! "ring0_addr" with
    | Some ring0_addr => [["--addnode"; ring0_addr]]
    | None => []
    end
  /\ map cmd (List.filter (has_head "--addalt") (node_commands node_options))
     = match node_options !! "ring0_addr", node_options !! "ring1_addr" with
       | Some ring0_addr, Some ring1_addr =>
           [["--addalt"; ring0_addr; ring1_addr]]
       | _, _ => []
       end.
Proof.
  unfold node_commands.
  destruct (node_options !! "ring0_addr"); [|split; reflexivity].
  destruct (node_options !! "ring1_addr"); split; reflexivity.
Qed.

Lemma filter_map_flat_map {A} (p : command -> bool)
    (f : A -> list command) (l : list A) :
  map cmd (List.filter p (flat_map f l))
  = flat_map (fun a => map cmd (List.filter p (f a))) l.
Proof.
  induction l as [|a l IH]; [reflexivity|].
  cbn [flat_map]. rewrite List.filter_app, map_app, IH. reflexivity.
Qed.

Lemma filter_ring_commands head start (rings : list ring_options) :
  head <> "--setmulticast" -> head <> "--setaltmulticast" ->
  List.filter (has_head head)
    (map (fun '(ring_number, ro) => ring_command ring_number ro)
       (Py.enumerate start rings)) = [].
Proof.
  intros H1 H2. revert start.
  induction rings as [|ro rings IH]; intros start; [reflexivity|].
  cbn [Py.enumerate map List.filter]. rewrite IH.
  unfold has_head, ring_command. cbn [cmd].
  destruct (start =? 0)%nat;
    match goal with
    | |- context [String.eqb ?a ?b] =>
        destruct (String.eqb_spec a b); [congruence|reflexivity]
    end.
Qed.

(** X6: the command sequence for cluster.conf has one [--addnode] per
    node that has a ring 0 address, in the order of the nodes, and one
    [--addalt] per node that has both addresses; a node without a ring 0
    address gets neither, whether it has a ring 1 address or not. *)
Theorem cman_node_commands cluster_name (node_list : list (gmap string string))
    t totem :
  let commands := cluster_conf_commands cluster_name node_list t totem in
  map cmd (List.filter (has_head "--addnode") commands)
  = flat_map
      (fun node_options : gmap string string =>
         match node_options !! "ring0_addr" with
         | Some ring0_addr => [["--addnode"; ring0_addr]]
         | None => []
         end) node_list
  /\ map cmd (List.filter (has_head "--addalt") commands)
     = flat_map
         (fun node_options : gmap string string =>
            match node_options !! "ring0_addr", node_options !! "ring1_addr" with
            | Some ring0_addr, Some ring1_addr =>
                [["--addalt"; ring0_addr; ring1_addr]]
            | _, _ => []
            end) node_list.
Proof.
  cbv zeta. unfold cluster_conf_commands.
  rewrite !List.filter_app, !map_app, !filter_map_flat_map.
  assert (Htotem : forall head,
    head <> "--settotem" ->
    List.filter (has_head head)
      (match totem_cmd_options t totem with
       | [] => []
       | opts => [{| cmd := "--settotem" :: opts;
                     err := "error setting totem options" |}]
       end) = []).
  { intros head Hhead. destruct (totem_cmd_options t totem); [reflexivity|].
    cbn [List.filter has_head cmd].
    destruct (String.eqb_spec "--settotem" head); [congruence|reflexivity]. }
  assert (Hrings : forall head,
    head <> "--setmulticast" -> head <> "--setaltmulticast" ->
    List.filter (has_head head)
      (if negb (broadcast_on t)
       then map (fun '(ring_number, ro) => ring_command ring_number ro)
              (Py.enumerate 0 (rings_options t))
       else []) = []).
  { intros head H1 H2. destruct (negb (broadcast_on t)); [|reflexivity].
    apply filter_ring_commands; assumption. }
  rewrite !Htotem, !Hrings by discriminate.
  cbn [List.filter has_head cmd String.eqb Ascii.eqb Bool.eqb map app].
  rewrite !app_nil_r. split.
  - apply flat_map_ext. intros a. apply filter_head_node_commands.
  - apply flat_map_ext. intros a. apply filter_head_node_commands.
Qed.

Lemma run_commands_first_failure run conf_path (pre : list command) c post :
  forallb (ccs_succeeds run conf_path) pre = true ->
  ccs_succeeds run conf_path c = false ->
  run_commands run conf_path (pre ++ c :: post)
  = Some ((if Py.truthy_str (fst (run (["ccs"; "-f"; conf_path] ++ cmd c)))
           then [common_info (fst (run (["ccs"; "-f"; conf_path] ++ cmd c)))]
           else [])
            ++ [common_error (err c)]).
Proof.
  unfold ccs_succeeds. intros Hpre Hc.
  induction pre as [|p pre IH].
  - change ([] ++ c :: post) with (c :: post). cbn [run_commands].
    destruct (run (["ccs"; "-f"; conf_path] ++ cmd c)) as [output retval].
    cbn [fst snd] in *. rewrite Hc. reflexivity.
  - change ((p :: pre) ++ c :: post) with (p :: (pre ++ c :: post)).
    cbn [run_commands].
    cbn [forallb] in Hpre. apply andb_prop in Hpre as [Hp Hpre].
    destruct (run (["ccs"; "-f"; conf_path] ++ cmd p)) as [output retval].
    cbn [snd] in Hp. rewrite Hp. cbn [negb]. apply IH, Hpre.
Qed.

Lemma run_commands_all_succeed run conf_path (commands : list command) :
  forallb (ccs_succeeds run conf_path) commands = true ->
  run_commands run conf_path commands = None.
Proof.
  unfold ccs_succeeds. induction commands as [|p commands IH];
    [reflexivity|].
  cbn [forallb run_commands]. intros H. apply andb_prop in H as [Hp H].
  destruct (run (["ccs"; "-f"; conf_path] ++ cmd p)) as [output retval].
  cbn [snd] in Hp. rewrite Hp. apply IH, H.
Qed.

(** X7: making cluster.conf hands back the content of the temporary
    file and no report when every [ccs] command succeeds; when one fails,
    it hands back an empty configuration and the reports of the first
    failing command only: its output, if it has one, and its error
    text. *)
Theorem cluster_conf_first_failure run conf_path conf_content cluster_name
    node_list t totem :
  let commands := cluster_conf_commands cluster_name node_list t totem in
  (forallb (ccs_succeeds run conf_path) commands = true ->
   cluster_setup_create_cluster_conf run conf_path conf_content cluster_name
     node_list t totem = (conf_content, []))
  /\ (forall pre c post,
        commands = pre ++ c :: post ->
        forallb (ccs_succeeds run conf_path) pre = true ->
        ccs_succeeds run conf_path c = false ->
        cluster_setup_create_cluster_conf run conf_path conf_content
          cluster_name node_list t totem
        = (EmptyString,
           (if Py.truthy_str (fst (run (["ccs"; "-f"; conf_path] ++ cmd c)))
            then [common_info (fst (run (["ccs"; "-f"; conf_path] ++ cmd c)))]
            else [])
             ++ [common_error (err c)])).
Proof.
  cbv zeta. unfold cluster_setup_create_cluster_conf. split.
  - intros Hall. rewrite (run_commands_all_succeed _ _ _ Hall). reflexivity.
  - intros pre c post -> Hpre Hc.
    rewrite (run_commands_first_failure _ _ _ _ _ Hpre Hc). reflexivity.
Qed.

Lemma cluster_conf_first_failure_witness :
  cluster_setup_create_cluster_conf ccs_fine "/tmp/conf.pcs" "<cluster/>"
    "cluster" [{["ring0_addr" := "node1"]}]
    {| rings_options := []; transport := Some "udp"; rrp_mode := None;
       ip_version := None; broadcast := None |} ∅
  = ("<cluster/>", [])
  /\ cluster_setup_create_cluster_conf ccs_without_fencing "/tmp/conf.pcs"
       "<cluster/>" "cluster" [{["ring0_addr" := "node1"]}]
       {| rings_options := []; transport := Some "udp"; rrp_mode := None;
          ip_version := None; broadcast := None |} ∅
     = (EmptyString,
        [common_info "method refused";
         common_error "error adding fence method: node1"]).
Proof.
  split.
  - apply (cluster_conf_first_failure ccs_fine). reflexivity.
  - etransitivity.
    + refine (proj2 (cluster_conf_first_failure ccs_without_fencing
                       "/tmp/conf.pcs" "<cluster/>" "cluster"
                       [{["ring0_addr" := "node1"]}] _ ∅)
                [_; _; _; _] _ _ _ _ _); reflexivity.
    + reflexivity.
Defined.

(** ** Statuses that are no dictionary, and what a success means *)

Lemma started_non_mapping status :
  (forall d, status <> JDict d) ->
  (is_node_fully_started status = inl TypeError
   \/ is_node_fully_started status = inr (JBool false))
  /\ (is_scalar status = true -> is_node_fully_started status = inl TypeError).
Proof.
  intros Hnot. unfold is_node_fully_started.
  destruct status as [| b | z | s | l | d]; cbn [PyValue.py_in is_scalar].
  - split; [left|]; reflexivity.
  - split; [left|]; reflexivity.
  - split; [left|]; reflexivity.
  - split; [|discriminate].
    destruct (PyValue.contains "online" s); [|right; reflexivity].
    destruct (PyValue.contains "pending" s); [|right; reflexivity].
    left. reflexivity.
  - split; [|discriminate].
    destruct (existsb _ l); [|right; reflexivity].
    destruct (existsb _ l); [|right; reflexivity].
    left. reflexivity.
  - exfalso. exact (Hnot d eq_refl).
Qed.

(** X8: a status that is no dictionary never counts as started:
    [is_node_fully_started] answers [False] or raises [TypeError], which
    no handler of the waiters catches, so a poll on such a status either
    lets the exception through or polls again; on [null], a number or a
    boolean it always raises. *)
Theorem status_not_a_mapping (status : json) :
  (forall d, status <> JDict d) ->
  (is_node_fully_started status = inl TypeError
   \/ is_node_fully_started status = inr (JBool false))
  /\ (is_scalar status = true ->
      is_node_fully_started status = inl TypeError
      /\ (forall body,
            remote_poll (0%Z, {| text := body; json_loads := Some status |})
            = Done (Raised TypeError))
      /\ local_poll (inr status) = Done (Raised TypeError))
  /\ (forall body,
        remote_poll (0%Z, {| text := body; json_loads := Some status |})
        = Done (Raised TypeError)
        \/ remote_poll (0%Z, {| text := body; json_loads := Some status |})
           = NotYet)
  /\ (local_poll (inr status) = Done (Raised TypeError)
      \/ local_poll (inr status) = NotYet).
Proof.
  intros Hnot. destruct (started_non_mapping status Hnot) as [Hcases Hscalar].
  split; [exact Hcases|]. split; [|split].
  - intros Hs. specialize (Hscalar Hs). split; [exact Hscalar|].
    unfold remote_poll, local_poll. cbn [existsb Z.eqb orb json_loads].
    rewrite Hscalar. split; reflexivity.
  - intros body. unfold remote_poll. cbn [existsb Z.eqb orb json_loads].
    destruct Hcases as [-> | ->]; [left|right]; reflexivity.
  - unfold local_poll. destruct Hcases as [-> | ->]; [left|right]; reflexivity.
Qed.

Lemma status_not_a_mapping_witness :
  is_node_fully_started (JList [JStr "online"; JStr "pending"])
  = inl TypeError
  /\ wait_for_remote_node_started list_status steady_now 10000000 2000000
     = Some (Raised TypeError, 0%nat)
  /\ is_node_fully_started (JStr "offline") = inr (JBool false).
Proof.
  assert (Hlist : forall d, JList [JStr "online"; JStr "pending"] <> JDict d)
    by discriminate.
  assert (Hstr : forall d, JStr "offline" <> JDict d) by discriminate.
  destruct (status_not_a_mapping _ Hlist) as ([H|H] & _); [|discriminate H].
  destruct (status_not_a_mapping _ Hstr) as ([H'|H'] & _); [discriminate H'|].
  split; [exact H|]. split; [reflexivity|exact H'].
Defined.

Lemma wait_loop_success fuel probe now stop_at message k :
  wait_loop fuel probe now stop_at 0 = Some (Returned 0 message, k) ->
  probe k = Done (Returned 0 message)
  /\ forall j, (j < k)%nat -> probe j = NotYet /\ (now j <= stop_at)%Z.
Proof.
  intros Hreturn.
  apply wait_loop_sound in Hreturn as (_ & Hbefore & Hr & _).
  split; [|intros j Hj; apply Hbefore; lia].
  destruct (probe k) as [r|]; [|discriminate Hr].
  cbn [outcome] in Hr. rewrite Hr. reflexivity.
Qed.

Lemma remote_poll_success reply message :
  remote_poll reply = Done (Returned 0 message) ->
  message = "Started"
  /\ exists body node_status,
       reply = (0%Z, {| text := body; json_loads := Some (JDict node_status) |})
       /\ reports_started node_status = true.
Proof.
  destruct reply as [code [body loads]]. unfold remote_poll.
  cbn [text json_loads].
  destruct (existsb (Z.eqb code) [1; 3; 4]%Z); [discriminate|].
  destruct (Z.eqb_spec code 0) as [->|]; [|discriminate].
  destruct loads as [status|]; [|discriminate].
  destruct status as [| b | z | s | l | d].
  - assert (Hnot : forall d', (JNull : json) <> JDict d') by discriminate.
    destruct (started_non_mapping _ Hnot) as [[-> | ->] _]; discriminate.
  - assert (Hnot : forall d', JBool b <> JDict d') by discriminate.
    destruct (started_non_mapping _ Hnot) as [[-> | ->] _]; discriminate.
  - assert (Hnot : forall d', JNum z <> JDict d') by discriminate.
    destruct (started_non_mapping _ Hnot) as [[-> | ->] _]; discriminate.
  - assert (Hnot : forall d', JStr s <> JDict d') by discriminate.
    destruct (started_non_mapping _ Hnot) as [[-> | ->] _]; discriminate.
  - assert (Hnot : forall d', JList l <> JDict d') by discriminate.
    destruct (started_non_mapping _ Hnot) as [[-> | ->] _]; discriminate.
  - destruct (started_on_dict d) as (v & -> & Hv & _).
    destruct (PyValue.truthy v) eqn:Hd; [|discriminate].
    intros [= <-]. split; [reflexivity|]. exists body, d.
    split; [reflexivity|]. rewrite <- Hv. reflexivity.
Qed.

Lemma local_poll_success reply message :
  local_poll reply = Done (Returned 0 message) ->
  message = "Started"
  /\ exists node_status,
       reply = inr (JDict node_status) /\ reports_started node_status = true.
Proof.
  destruct reply as [messages|status]; [discriminate|].
  destruct status as [| b | z | s | l | d].
  - assert (Hnot : forall d', (JNull : json) <> JDict d') by discriminate.
    unfold local_poll.
    destruct (started_non_mapping _ Hnot) as [[-> | ->] _]; discriminate.
  - assert (Hnot : forall d', JBool b <> JDict d') by discriminate.
    unfold local_poll.
    destruct (started_non_mapping _ Hnot) as [[-> | ->] _]; discriminate.
  - assert (Hnot : forall d', JNum z <> JDict d') by discriminate.
    unfold local_poll.
    destruct (started_non_mapping _ Hnot) as [[-> | ->] _]; discriminate.
  - assert (Hnot : forall d', JStr s <> JDict d') by discriminate.
    unfold local_poll.
    destruct (started_non_mapping _ Hnot) as [[-> | ->] _]; discriminate.
  - assert (Hnot : forall d', JList l <> JDict d') by discriminate.
    unfold local_poll.
    destruct (started_non_mapping _ Hnot) as [[-> | ->] _]; discriminate.
  - rewrite local_poll_dict.
    destruct (reports_started d) eqn:Hd; [|discriminate].
    intros [= <-]. split; [reflexivity|]. exists d.
    split; [reflexivity|exact Hd].
Qed.

(** X9: a waiter hands back code 0 only for a node that said it has
    started: the message is then ["Started"], and the status answered
    in the pass that returns was a dictionary with ["online"] true and
    ["pending"] false (for the remote waiter in a reply with code 0).
    Every pass before it was left open and read the clock, after its
    query, within the deadline. *)
Theorem waiter_success_is_started (status : nat -> Z * http_output)
    (local_status : nat -> list string + json) (now : nat -> Z)
    (stop_at interval : Z) message k :
  (wait_for_remote_node_started status now stop_at interval
   = Some (Returned 0 message, k) ->
   message = "Started"
   /\ (exists body node_status,
         status k
         = (0%Z, {| text := body; json_loads := Some (JDict node_status) |})
         /\ reports_started node_status = true)
   /\ forall j, (j < k)%nat ->
                remote_poll (status j) = NotYet /\ (now j <= stop_at)%Z)
  /\ (wait_for_local_node_started local_status now stop_at interval
      = Some (Returned 0 message, k) ->
      message = "Started"
      /\ (exists node_status,
            local_status k = inr (JDict node_status)
            /\ reports_started node_status = true)
      /\ forall j, (j < k)%nat ->
                   local_poll (local_status j) = NotYet
                   /\ (now j <= stop_at)%Z).
Proof.
  split; intros H; apply wait_loop_success in H as [Hpoll Hbefore].
  - apply remote_poll_success in Hpoll as [Hm Hstatus]. auto.
  - apply local_poll_success in Hpoll as [Hm Hstatus]. auto.
Qed.

Lemma waiter_success_is_started_witness :
  wait_for_remote_node_started late_status steady_now 10000000 2000000
  = Some (Returned 0 "Started", 1%nat)
  /\ (exists body node_status,
        late_status 1
        = (0%Z, {| text := body; json_loads := Some (JDict node_status) |})
        /\ reports_started node_status = true)
  /\ remote_poll (late_status 0) = NotYet.
Proof.
  assert (H : wait_for_remote_node_started late_status steady_now 10000000
                2000000
              = Some (Returned 0 "Started", 1%nat)) by reflexivity.
  split; [exact H|].
  destruct (proj1 (waiter_success_is_started late_status failing_local_status
                     steady_now 10000000 2000000 "Started" 1) H)
    as (_ & Hstatus & Hbefore).
  split; [exact Hstatus|]. exact (proj1 (Hbefore 0%nat ltac:(lia))).
Defined.

(** ** Destroying and stopping: what is done in spite of failures *)

Lemma error_list_of_nil action (nodes : list string) :
  error_list_of action nodes = []
  <-> existsb (fails action) nodes = false.
Proof.
  unfold error_list_of, fails. induction nodes as [|node rest IH];
    [split; reflexivity|].
  cbn [flat_map existsb]. destruct (action node) as [retval output].
  cbn [fst]. destruct (retval =? 0)%Z; cbn [negb app orb].
  - exact IH.
  - split; discriminate.
Qed.

Lemma nonempty_error_list action (nodes : list string) :
  nonempty (error_list_of action nodes) = existsb (fails action) nodes.
Proof.
  destruct (error_list_of action nodes) eqn:E.
  - symmetry. apply error_list_of_nil, E.
  - cbn [nonempty]. symmetry. apply not_false_iff_true.
    intros Hnone. apply error_list_of_nil in Hnone. congruence.
Qed.

(** X10: for a non-empty list of nodes, [destroy_cluster] asks the nodes
    to stop pacemaker and then to destroy their configuration whatever
    the stop answered; nothing else is stopped afterwards; the command
    ends in a fatal error exactly when a node failed to destroy its
    configuration and [keep_going] is off. *)
Theorem destroy_cluster_outcome w (nodes : list string) (keep_going : bool) :
  nodes <> [] ->
  let m := destroy_cluster w nodes keep_going in
  (exists rest,
     trace m = StopPacemaker nodes :: DestroyCluster nodes :: rest
     /\ without is_stop rest = true)
  /\ exited m = negb keep_going && existsb (fails (destroyCluster w)) nodes.
Proof.
  intros Hne. cbv zeta. unfold destroy_cluster.
  destruct nodes as [|node rest]; [congruence|]. cbn [nonempty when].
  unfold parallel_for_nodes, call. cbn [bind].
  rewrite nonempty_error_list.
  destruct (existsb (fails (destroyCluster w)) (node :: rest)); cbn [when].
  - destruct keep_going; cbn.
    + split; [|reflexivity]. eexists. split; reflexivity.
    + split; [|reflexivity]. eexists. split; reflexivity.
  - cbn. split; [|rewrite andb_false_r; reflexivity].
    eexists. split; reflexivity.
Qed.

Lemma destroy_cluster_outcome_witness :
  (exists rest,
     trace (destroy_cluster stubborn_world ["node1"; "node2"] false)
     = StopPacemaker ["node1"; "node2"] :: DestroyCluster ["node1"; "node2"]
         :: rest
     /\ without is_stop rest = true)
  /\ exited (destroy_cluster stubborn_world ["node1"; "node2"] false) = true.
Proof.
  assert (Hne : ["node1"; "node2"] <> ([] : list string)) by discriminate.
  destruct (destroy_cluster_outcome stubborn_world ["node1"; "node2"] false Hne)
    as [Htrace Hexit].
  split; [exact Htrace|]. rewrite Hexit. reflexivity.
Defined.

Lemma unknown_nodes (nodes all_nodes : list string) n :
  n ∈ nodes -> n ∉ all_nodes ->
  bool_decide ((list_to_set nodes ∖ list_to_set all_nodes : gset string) = ∅)
  = false.
Proof.
  intros Hin Hnot. apply bool_decide_eq_false. intros Hempty.
  assert (H : n ∈ (list_to_set nodes ∖ list_to_set all_nodes : gset string)).
  { apply elem_of_difference. split.
    - apply elem_of_list_to_set, Hin.
    - intros H. apply Hnot. apply (elem_of_list_to_set (C := gset string)), H. }
  rewrite Hempty in H. exact (not_elem_of_empty (C := gset string) n H).
Qed.

Lemma lookup_without p (tr : list event) :
  (forall i e, tr !! i = Some e -> p e = false) -> without p tr = true.
Proof.
  intros H. unfold without. apply forallb_forall. intros e He.
  apply list_elem_of_In, list_elem_of_lookup in He as [i Hi].
  rewrite (H i e Hi). reflexivity.
Qed.

(** X11: [stop_cluster_nodes] stops nothing and asks nothing when one of
    the nodes is not in the configuration: it ends at once in a fatal
    error.  Corosync is asked to stop only on the very nodes named, after
    pacemaker was asked to stop on them and every one of them did; when
    pacemaker fails to stop on a node, the command ends in a fatal error
    and corosync is left running everywhere. *)
Theorem stop_nodes_guards w (pcs_options : gmap string string)
    (nodes : list string) :
  let m := stop_cluster_nodes w pcs_options nodes in
  ((exists n, n ∈ nodes /\ n ∉ getNodesFromCorosyncConf w) ->
   exists message, m = ([Err message], None))
  /\ (forall i stopped,
        trace m !! i = Some (StopCorosync stopped) ->
        stopped = nodes
        /\ existsb (fails (stopPacemaker w)) nodes = false
        /\ exists j, (j < i)%nat /\ trace m !! j = Some (StopPacemaker nodes))
  /\ (existsb (fails (stopPacemaker w)) nodes = true ->
      exited m = true /\ without is_corosync_stop (trace m) = true).
Proof.
  cbv zeta.
  assert (Hshape :
    let m := stop_cluster_nodes w pcs_options nodes in
    (exited m = true /\ without is_stop (trace m) = true)
    \/ exists pre,
         without is_stop pre = true
         /\ m = bind (pre, Some tt)
                  (fun _ =>
                     error_list <- parallel_for_nodes StopPacemaker
                                     (stopPacemaker w) nodes ;;
                     when (nonempty error_list)
                       (utils_err ("unable to stop all nodes" +:+ nl
                                     +:+ String.concat nl error_list)) ;;
                     error_list <- parallel_for_nodes StopCorosync
                                     (stopCorosync w) nodes ;;
                     when (nonempty error_list)
                       (utils_err ("unable to stop all nodes" +:+ nl
                                     +:+ String.concat nl error_list)))).
  { cbv zeta. unfold stop_cluster_nodes.
    destruct (bool_decide
                ((list_to_set nodes ∖ list_to_set (getNodesFromCorosyncConf w)
                  : gset string) = ∅)); cbn [negb when].
    2:{ left. split; reflexivity. }
    rewrite bind_ret.
    destruct (negb (Py.has_key "--force" pcs_options)
              && negb (bool_decide
                         ((list_to_set (getNodesFromCorosyncConf w)
                           : gset string) ⊆ list_to_set nodes))); cbn [when].
    2:{ right. exists []. split; [reflexivity|]. rewrite bind_ret.
        symmetry. exact (bind_ret tt _). }
    destruct (stop_nodes_quorum_loop_spec w nodes nodes []) as (Hquiet & _).
    cbv zeta in Hquiet.
    destruct (stop_nodes_quorum_loop w nodes nodes []) as [tr [errors|]];
      cbn [trace fst] in Hquiet.
    2:{ left. cbn. split; [reflexivity|exact Hquiet]. }
    destruct errors as [|e errors].
    - right. exists tr. split; [exact Hquiet|].
      cbn [bind nonempty when ret]. rewrite app_nil_r. reflexivity.
    - left. cbn [bind nonempty when utils_err]. cbn [exited snd trace fst].
      split; [reflexivity|]. rewrite without_app, Hquiet. reflexivity. }
  cbv zeta in Hshape. split; [|split].
  - intros (n & Hin & Hnot). unfold stop_cluster_nodes.
    rewrite (unknown_nodes _ _ _ Hin Hnot). cbn [negb when].
    eexists. reflexivity.
  - intros i stopped Hi.
    destruct Hshape as [[_ Hquiet]|(pre & Hpre & Hm)].
    { pose proof (without_lookup _ _ _ _ Hquiet Hi) as H. discriminate. }
    rewrite Hm in Hi |- *. clear Hm.
    unfold parallel_for_nodes, call in Hi |- *. cbn [bind] in Hi |- *.
    rewrite nonempty_error_list in Hi |- *.
    destruct (existsb (fails (stopPacemaker w)) nodes);
      cbn [when utils_err ret bind app trace fst] in Hi |- *.
    + exfalso.
      assert (Hq : without is_corosync_stop (pre ++ [StopPacemaker nodes;
                     Err ("unable to stop all nodes" +:+ nl
                          +:+ String.concat nl
                                (error_list_of (stopPacemaker w) nodes))])
                   = true).
      { rewrite without_app.
        rewrite (without_weaken is_corosync_stop is_stop pre); [reflexivity| |exact Hpre].
        intros e. destruct e; try reflexivity; discriminate. }
      pose proof (without_lookup _ _ _ _ Hq Hi) as H. discriminate.
    + destruct (nonempty (error_list_of (stopCorosync w) nodes));
        cbn [when utils_err ret bind app trace fst] in Hi |- *.
      * destruct (Nat.lt_ge_cases i (length pre)) as [Hlt|Hge].
        { rewrite lookup_app_l in Hi by exact Hlt.
          pose proof (without_lookup _ _ _ _ Hpre Hi) as H. discriminate. }
        rewrite lookup_app_r in Hi by exact Hge.
        destruct (i - length pre)%nat as [|[|[|k]]] eqn:Hk; try discriminate.
        injection Hi as <-. split; [reflexivity|]. split; [reflexivity|].
        exists (length pre). split; [lia|].
        rewrite lookup_app_r by lia. rewrite Nat.sub_diag. reflexivity.
      * destruct (Nat.lt_ge_cases i (length pre)) as [Hlt|Hge].
        { rewrite lookup_app_l in Hi by exact Hlt.
          pose proof (without_lookup _ _ _ _ Hpre Hi) as H. discriminate. }
        rewrite lookup_app_r in Hi by exact Hge.
        destruct (i - length pre)%nat as [|[|k]] eqn:Hk; try discriminate.
        injection Hi as <-. split; [reflexivity|]. split; [reflexivity|].
        exists (length pre). split; [lia|].
        rewrite lookup_app_r by lia. rewrite Nat.sub_diag. reflexivity.
  - intros Hfail.
    assert (Hweak : forall tr, without is_stop tr = true ->
                               without is_corosync_stop tr = true).
    { intros tr. apply without_weaken.
      intros e. destruct e; try reflexivity; discriminate. }
    destruct Hshape as [[Hexit Hquiet]|(pre & Hpre & Hm)].
    { split; [exact Hexit|apply Hweak, Hquiet]. }
    rewrite Hm. unfold parallel_for_nodes, call. cbn [bind].
    rewrite nonempty_error_list, Hfail.
    cbn [when utils_err ret bind app trace fst exited snd].
    split; [reflexivity|]. rewrite without_app, (Hweak _ Hpre). reflexivity.
Qed.

Lemma stop_nodes_guards_witness :
  (exists message,
     stop_cluster_nodes calm_world ∅ ["node1"; "node9"]
     = ([Err message], None))
  /\ exited (stop_cluster_nodes stubborn_world ∅ ["node1"; "node2"]) = true
  /\ without is_corosync_stop
       (trace (stop_cluster_nodes stubborn_world ∅ ["node1"; "node2"])) = true.
Proof.
  split.
  - apply (proj1 (stop_nodes_guards calm_world ∅ ["node1"; "node9"])).
    exists "node9". split.
    + apply list_elem_of_In. cbn. tauto.
    + intros H. apply list_elem_of_In in H. cbn in H.
      destruct H as [H|[H|[H|[]]]]; discriminate.
  - apply (proj2 (proj2 (stop_nodes_guards stubborn_world ∅
                           ["node1"; "node2"]))).
    reflexivity.
Defined.

(** ** Stopping the local node: the services *)

Lemma service_commands_app (tr1 tr2 : list event) :
  service_commands (tr1 ++ tr2)
  = service_commands tr1 ++ service_commands tr2.
Proof. apply flat_map_app. Qed.

Lemma follows_bind w (m1 m2 : M unit) plan1 plan2 :
  follows w m1 plan1 -> follows w m2 plan2 ->
  follows w (m1 ;; m2) (plan1 ++ plan2).
Proof.
  intros (Hpre1 & Hall1 & Hlast1) (Hpre2 & Hall2 & Hlast2). unfold follows.
  destruct m1 as [tr1 [[]|]]; destruct m2 as [tr2 r2];
    cbn [bind trace fst exited snd] in *.
  - destruct (Hall1 eq_refl) as [Hran1 Hfine1].
    rewrite service_commands_app, Hran1. split; [|split].
    + destruct Hpre2 as [rest ->]. exists rest. rewrite app_assoc. reflexivity.
    + intros Hr2. destruct (Hall2 Hr2) as [-> Hfine2].
      split; [reflexivity|]. rewrite forallb_app, Hfine1, Hfine2. reflexivity.
    + intros done last Hran.
      destruct (service_commands tr2) as [|c ran2] eqn:Hran2
        using rev_ind.
      * rewrite app_nil_r in Hran. rewrite Hran, forallb_app in Hfine1.
        apply andb_prop in Hfine1 as [Hdone _]. exact Hdone.
      * rewrite app_assoc in Hran. apply app_inj_tail in Hran as [<- <-].
        rewrite forallb_app, Hfine1. cbn [andb]. apply (Hlast2 _ c eq_refl).
  - split; [|split].
    + destruct Hpre1 as [rest ->]. exists (rest ++ plan2).
      rewrite app_assoc. reflexivity.
    + discriminate.
    + exact Hlast1.
Qed.

Lemma follows_when w (b : bool) (m : M unit) plan :
  follows w m plan -> follows w (when b m) (if b then plan else []).
Proof.
  intros H. destruct b; [exact H|]. unfold follows. cbn. split; [|split].
  - exists []. reflexivity.
  - intros _. split; reflexivity.
  - intros done last Hran. destruct done; discriminate.
Qed.

Lemma follows_quiet w (m : M unit) :
  service_commands (trace m) = [] -> follows w m [].
Proof.
  intros Hnone. unfold follows. rewrite Hnone. split; [|split].
  - exists []. reflexivity.
  - intros _. split; reflexivity.
  - intros done last Hran. destruct done; discriminate.
Qed.

Lemma follows_service w (command_line : list string) name :
  follows w
    (r <- run_cmd w ("service" :: command_line) ;;
     let '(output, retval) := r in
     when (negb (retval =? 0)%Z)
       (print output ;; utils_err ("unable to stop " +:+ name)))
    ["service" :: command_line].
Proof.
  unfold run_cmd, call, follows, runs_fine. cbn [bind forallb].
  destruct (run w ("service" :: command_line)) as [output retval].
  cbn [snd]. destruct (retval =? 0)%Z; cbn.
  - split; [exists []; reflexivity|]. split; [intros _; split; reflexivity|].
    intros done last Hran.
    destruct done as [|c [|c' done]]; [reflexivity|discriminate|discriminate].
  - split; [exists []; reflexivity|]. split; [discriminate|].
    intros done last Hran.
    destruct done as [|c [|c' done]]; [reflexivity|discriminate|discriminate].
Qed.

Lemma follows_print w line (m : M unit) plan :
  follows w m plan -> follows w (print line ;; m) plan.
Proof.
  intros H. apply (follows_bind w (print line) m [] plan); [|exact H].
  apply follows_quiet. reflexivity.
Qed.

Lemma follows_pacemaker w :
  follows w (stop_cluster_pacemaker w)
    [["service"; "pacemaker"; "stop"]
       ++ (if negb (is_systemctl w) && is_cman_cluster w
           then ["--skip-cman"] else [])].
Proof.
  unfold stop_cluster_pacemaker. apply follows_print.
  exact (follows_service w _ "pacemaker").
Qed.

Lemma follows_services w (service_list : list string) :
  follows w (stop_services w service_list)
    (map (fun service => ["service"; service; "stop"]) service_list).
Proof.
  induction service_list as [|service rest IH]; cbn [stop_services map].
  - apply follows_quiet. reflexivity.
  - assert (Hstep :
      stop_services w (service :: rest)
      = ((r <- run_cmd w ["service"; service; "stop"] ;;
          let '(output, retval) := r in
          when (negb (retval =? 0)%Z)
            (print output ;; utils_err ("unable to stop " +:+ service))) ;;
         stop_services w rest)).
    { cbn [stop_services]. unfold run_cmd, call. cbn [bind].
      destruct (run w ["service"; service; "stop"]) as [output retval].
      destruct (negb (retval =? 0)%Z); cbn [when]; [reflexivity|].
      cbn [ret bind]. destruct (stop_services w rest). reflexivity. }
    cbn [stop_services] in Hstep. rewrite Hstep.
    apply (follows_bind w _ _ [["service"; service; "stop"]]); [|exact IH].
    apply follows_service.
Qed.

Lemma follows_corosync w :
  follows w (stop_cluster_corosync w)
    (if is_rhel6 w then [["service"; "cman"; "stop"]]
     else
       map (fun service => ["service"; service; "stop"])
         ((if need_to_handle_qdevice_service w
           then ["corosync-qdevice"] else [])
            ++ ["corosync"])).
Proof.
  unfold stop_cluster_corosync. destruct (is_rhel6 w).
  - apply follows_print. exact (follows_service w _ "cman").
  - apply follows_print. apply follows_services.
Qed.

Lemma quorum_check_quiet w (pcs_options : gmap string string) :
  service_commands
    (trace
       (when (negb (Py.has_key "--force" pcs_options))
          (r <- local_quorum_status w ;;
           let '(output, quorum_info) := r in
           match quorum_info with
           | Some qi =>
               when (is_node_stop_cause_quorum_loss w qi true [])
                 (utils_err ("Stopping the node will cause a loss of the quorum"
                               +:+ ", use --force to override"))
           | None =>
               when (negb (is_node_offline_by_quorumtool_output w output))
                 (utils_err ("Unable to determine whether stopping the node will cause "
                               +:+ "a loss of the quorum, use --force to override"))
           end))) = []
  /\ (Py.has_key "--force" pcs_options = true ->
      when (negb (Py.has_key "--force" pcs_options))
        (r <- local_quorum_status w ;;
         let '(output, quorum_info) := r in
         match quorum_info with
         | Some qi =>
             when (is_node_stop_cause_quorum_loss w qi true [])
               (utils_err ("Stopping the node will cause a loss of the quorum"
                             +:+ ", use --force to override"))
         | None =>
             when (negb (is_node_offline_by_quorumtool_output w output))
               (utils_err ("Unable to determine whether stopping the node will cause "
                             +:+ "a loss of the quorum, use --force to override"))
         end) = ret tt).
Proof.
  split; [|intros ->; reflexivity].
  destruct (negb (Py.has_key "--force" pcs_options)); [|reflexivity].
  cbn [when]. unfold local_quorum_status, run_cmd, call.
  destruct (is_rhel6 w); cbn [bind ret fst app];
    match goal with
    | |- context [match ?q with Some _ => _ | None => _ end] => destruct q
    end;
    match goal with
    | |- context [when ?b _] => destruct b
    end; reflexivity.
Qed.


Lemma only_bind {A B} (q : event -> bool) (m : M A) (k : A -> M B) :
  forallb q (trace m) = true ->
  (forall a, forallb q (trace (k a)) = true) ->
  forallb q (trace (bind m k)) = true.
Proof.
  intros Hm Hk. rewrite trace_bind, forallb_app, Hm.
  destruct (snd m); [apply Hk|reflexivity].
Qed.

Lemma only_when (q : event -> bool) (b : bool) (m : M unit) :
  forallb q (trace m) = true -> forallb q (trace (when b m)) = true.
Proof. intros Hm. destruct b; [exact Hm|reflexivity]. Qed.

Lemma only_service w (command_line : list string) name :
  forallb is_service_step
    (trace
       (r <- run_cmd w ("service" :: command_line) ;;
        let '(output, retval) := r in
        when (negb (retval =? 0)%Z)
          (print output ;; utils_err ("unable to stop " +:+ name)))) = true.
Proof.
  apply only_bind; [reflexivity|intros [output retval]].
  apply only_when. reflexivity.
Qed.

Lemma only_pacemaker w :
  forallb is_service_step (trace (stop_cluster_pacemaker w)) = true.
Proof.
  unfold stop_cluster_pacemaker.
  apply only_bind; [reflexivity|intros _].
  exact (only_service w _ "pacemaker").
Qed.

Lemma only_services w (service_list : list string) :
  forallb is_service_step (trace (stop_services w service_list)) = true.
Proof.
  induction service_list as [|service rest IH]; [reflexivity|].
  cbn [stop_services].
  apply only_bind; [reflexivity|intros [output retval]].
  apply only_bind; [apply only_when; reflexivity|intros _]. exact IH.
Qed.

Lemma only_corosync w :
  forallb is_service_step (trace (stop_cluster_corosync w)) = true.
Proof.
  unfold stop_cluster_corosync. destruct (is_rhel6 w).
  - apply only_bind; [reflexivity|intros _].
    exact (only_service w _ "cman").
  - apply only_bind; [reflexivity|intros _]. apply only_services.
Qed.

Lemma service_steps_ran (tr : list event) :
  forallb is_service_step tr = true ->
  forall command_line,
    In (Run command_line) tr -> In command_line (service_commands tr).
Proof.
  intros Hall command_line Hrun. unfold service_commands. apply in_flat_map.
  exists (Run command_line). split; [exact Hrun|].
  rewrite forallb_forall in Hall. specialize (Hall _ Hrun).
  destruct command_line as [|head arguments]; [discriminate|].
  cbn [is_service_step] in Hall. rewrite Hall. left. reflexivity.
Qed.

(** X12: stopping the local node runs the [service ... stop] commands in
    a fixed order: pacemaker (unless only [--corosync] is given), then
    cman or corosync-qdevice and corosync (unless only [--pacemaker] is
    given).  What is run is always a beginning of that list, all of it
    when the command comes back; every command before the last one run
    succeeded, so a service that fails to stop leaves the later ones
    running.  With [--force] nothing else is run. *)
Theorem local_stop_services w (pcs_options : gmap string string) :
  let m := stop_cluster w pcs_options [] in
  let ran := service_commands (trace m) in
  (exists rest, local_stop_commands w pcs_options = ran ++ rest)
  /\ (exited m = false ->
      ran = local_stop_commands w pcs_options
      /\ forallb (runs_fine w) ran = true)
  /\ (forall done last,
        ran = done ++ [last] -> forallb (runs_fine w) done = true)
  /\ (Py.has_key "--force" pcs_options = true ->
      forall command_line,
        In (Run command_line) (trace m) -> In command_line ran).
Proof.
  cbv zeta.
  assert (Hfollows :
    follows w (stop_cluster w pcs_options [])
      (local_stop_commands w pcs_options)).
  { unfold stop_cluster, local_stop_commands. cbn [nonempty].
    apply (follows_bind w _ _ []).
    { apply follows_quiet, quorum_check_quiet. }
    apply follows_bind.
    - apply follows_when, follows_pacemaker.
    - apply follows_when, follows_corosync. }
  destruct Hfollows as (Hpre & Hall & Hlast).
  split; [exact Hpre|]. split; [|split; [exact Hlast|]].
  - intros Hexit. destruct (Hall Hexit) as [Hran Hfine].
    split; [exact Hran|]. rewrite Hran. exact Hfine.
  - intros Hforce command_line. unfold stop_cluster. cbn [nonempty].
    rewrite (proj2 (quorum_check_quiet w pcs_options) Hforce), bind_ret.
    apply service_steps_ran.
    apply only_bind; [apply only_when, only_pacemaker|intros _].
    apply only_when, only_corosync.
Qed.

Lemma local_stop_services_witness :
  service_commands (trace (stop_cluster busy_world {["--force" := "1"]} []))
  = [["service"; "pacemaker"; "stop"]; ["service"; "corosync"; "stop"]]
  /\ forall command_line,
       In (Run command_line)
         (trace (stop_cluster busy_world {["--force" := "1"]} [])) ->
       In command_line
         (service_commands
            (trace (stop_cluster busy_world {["--force" := "1"]} []))).
Proof.
  split; [reflexivity|].
  apply (local_stop_services busy_world {["--force" := "1"]}).
  reflexivity.
Defined.

(** ** Removing and adding a node: the members *)

Lemma filter_bind {A B} (p : event -> bool) (m : M A) (k : A -> M B) :
  List.filter p (trace (bind m k))
  = List.filter p (trace m)
      ++ match snd m with
         | Some a => List.filter p (trace (k a))
         | None => []
         end.
Proof.
  rewrite trace_bind, List.filter_app. destruct (snd m); reflexivity.
Qed.

Lemma without_cons p (e : event) (tr : list event) :
  without p (e :: tr) = negb (p e) && without p tr.
Proof. reflexivity. Qed.

Lemma remove_node_push_spec w node0 (c_nodes : list string) :
  forall nodesRemoved,
    let m := remove_node_push w node0 c_nodes nodesRemoved in
    snd m = Some (nodesRemoved || existsb (drops w node0) (others node0 c_nodes))
    /\ List.filter is_removal (trace m)
       = map (fun my_node => RemoveLocalNode my_node node0) (others node0 c_nodes)
    /\ without is_quorum_query (trace m) = true.
Proof.
  induction c_nodes as [|my_node rest IH]; intros nodesRemoved; cbv zeta.
  - cbn. rewrite orb_false_r. repeat split; reflexivity.
  - cbn [remove_node_push others List.filter].
    fold (others node0 rest).
    destruct (String.eqb my_node node0); cbn [negb]; [apply IH|].
    cbn [existsb map]. unfold drops at 1.
    destruct (removeLocalNode w my_node node0) as [output|output];
      cbn [bind call].
    + destruct (IH nodesRemoved) as (Hres & Hfilter & Hquiet).
      cbv zeta in Hres, Hfilter, Hquiet.
      unfold utils_err_continue, call. cbn [bind].
      destruct (remove_node_push w node0 rest nodesRemoved) as [tr r].
      cbn [trace fst snd app List.filter is_removal without forallb
             is_quorum_query negb andb orb] in *.
      rewrite Hfilter. repeat split; assumption.
    + destruct (remove_code output =? 0)%Z.
      * destruct (IH true) as (Hres & Hfilter & Hquiet).
        cbv zeta in Hres, Hfilter, Hquiet.
        unfold print, call. cbn [bind].
        destruct (remove_node_push w node0 rest true) as [tr r].
        cbn [trace fst snd app List.filter is_removal without forallb
               is_quorum_query negb andb orb] in *.
        rewrite Hfilter, orb_true_r. repeat split; assumption.
      * destruct (IH nodesRemoved) as (Hres & Hfilter & Hquiet).
        cbv zeta in Hres, Hfilter, Hquiet.
        unfold utils_err_continue, call. cbn [bind].
        destruct (remove_node_push w node0 rest nodesRemoved) as [tr r].
        cbn [trace fst snd app List.filter is_removal without forallb
               is_quorum_query negb andb orb] in *.
        rewrite Hfilter. repeat split; assumption.
Qed.

Lemma destroy_cluster_quiet w (nodes : list string) keep_going :
  List.filter is_removal (trace (destroy_cluster w nodes keep_going)) = [].
Proof.
  unfold destroy_cluster, parallel_for_nodes, call.
  destruct (nonempty nodes); [|reflexivity]. cbn [when bind].
  destruct (nonempty (error_list_of (destroyCluster w) nodes));
    [destruct keep_going|]; reflexivity.
Qed.

Lemma remove_node_requests w (pcs_options : gmap string string) node0 :
  let m := cluster_node_remove w pcs_options node0 in
  List.filter is_removal (trace m) = []
  \/ List.filter is_removal (trace m)
     = map (fun my_node => RemoveLocalNode my_node node0)
         (others node0 (getNodesFromCorosyncConf w)).
Proof.
  cbv zeta. unfold cluster_node_remove.
  destruct (remove_node_checks_trace w pcs_options node0)
    as (Hfound & Hcheck & _). cbv zeta in Hfound, Hcheck.
  rewrite filter_bind, (without_filter _ _ Hfound). cbn [app].
  match goal with |- context [snd ?m] => destruct (snd m) end; [|left; reflexivity].
  rewrite filter_bind, (without_filter _ _ Hcheck). cbn [app].
  match goal with
  | |- context [match snd ?m with Some _ => _ | None => _ end] =>
      destruct (snd m)
  end; [|left; reflexivity].
  rewrite filter_bind, destroy_cluster_quiet. cbn [app].
  match goal with
  | |- context [match snd ?m with Some _ => _ | None => _ end] =>
      destruct (snd m)
  end; [|left; reflexivity].
  right. rewrite filter_bind.
  destruct (remove_node_push_spec w node0 (getNodesFromCorosyncConf w) false)
    as (Hres & Hfilter & _). cbv zeta in Hres, Hfilter.
  rewrite Hfilter, Hres.
  match goal with
  | |- ?l ++ ?r = ?l => assert (Hr : r = []); [|rewrite Hr; apply app_nil_r]
  end.
  apply without_filter.
  apply without_bind; [apply without_when; reflexivity|intros _].
  apply without_bind; [reflexivity|intros ?].
  apply without_bind; [reflexivity|intros ?].
  apply without_when. reflexivity.
Qed.

(** X13: the removal asks only other members of the cluster to drop the
    node, never someone else and never the node itself.  With [--force]
    and a node of the cluster no quorum status is asked for, the node is
    stopped and destroyed first, whether it can be reached or not, and
    then every other member is asked in order; when none of them drops
    the node the run ends in the fatal error ["Unable to update any
    nodes"], the node being destroyed already; when one does, the run
    comes back after it told pacemaker to forget the node. *)
Theorem remove_node_members w (pcs_options : gmap string string) node0 :
  let m := cluster_node_remove w pcs_options node0 in
  let asked := others node0 (getNodesFromCorosyncConf w) in
  (forall my_node target,
     In (RemoveLocalNode my_node target) (trace m) ->
     target = node0 /\ my_node <> node0
     /\ In my_node (getNodesFromCorosyncConf w))
  /\ (Py.has_key "--force" pcs_options = true ->
      node0 ∈ getNodesFromCorosyncConf w ->
      (exists rest,
         trace m = StopPacemaker [node0] :: DestroyCluster [node0] :: rest
         /\ List.filter is_removal rest
            = map (fun my_node => RemoveLocalNode my_node node0) asked)
      /\ without is_quorum_query (trace m) = true
      /\ (existsb (drops w node0) asked = false ->
          fatal_error m = Some "Unable to update any nodes")
      /\ (existsb (drops w node0) asked = true ->
          exited m = false
          /\ In (Run ["crm_node"; "--force"; "-R"; node0]) (trace m))).
Proof.
  cbv zeta. split.
  - intros my_node target Hin.
    assert (Hf : In (RemoveLocalNode my_node target)
                   (List.filter is_removal
                      (trace (cluster_node_remove w pcs_options node0)))).
    { apply filter_In. split; [exact Hin|reflexivity]. }
    destruct (remove_node_requests w pcs_options node0) as [Hnone|Hall];
      cbv zeta in *.
    + rewrite Hnone in Hf. destruct Hf.
    + rewrite Hall in Hf. apply in_map_iff in Hf as (n & [= -> ->] & Hn).
      apply filter_In in Hn as [Hn Hne]. split; [reflexivity|].
      split; [|exact Hn]. intros ->. rewrite String.eqb_refl in Hne.
      discriminate.
  - intros Hforce Hknown. unfold cluster_node_remove.
    rewrite (bool_decide_eq_true_2 _ Hknown), Hforce. cbn [negb when].
    rewrite !bind_ret.
    destruct (remove_node_push_spec w node0 (getNodesFromCorosyncConf w) false)
      as (Hres & Hfilter & Hquiet). cbv zeta in Hres, Hfilter, Hquiet.
    cbn [orb] in Hres.
    unfold destroy_cluster, parallel_for_nodes, run_cmd, call.
    cbn [nonempty when bind].
    destruct (remove_node_push w node0 (getNodesFromCorosyncConf w) false)
      as [tr r]. cbn [trace fst snd] in Hres, Hfilter, Hquiet. subst r.
    unfold fatal_error.
    destruct (nonempty (error_list_of (destroyCluster w) [node0]));
      destruct (existsb (drops w node0)
                  (others node0 (getNodesFromCorosyncConf w)));
      destruct (is_cman_with_udpu_transport w);
      cbn [when print call utils_err ret bind negb app trace fst snd exited];
      rewrite ?app_nil_r;
      (split; [eexists; split; [reflexivity|];
               cbn [List.filter is_removal];
               rewrite ?List.filter_app, Hfilter; cbn [List.filter is_removal];
               rewrite ?app_nil_r; reflexivity|]);
      (split; [rewrite !without_cons, ?without_app, Hquiet; reflexivity|]);
      (split; intros H; try discriminate H).
    all: try (rewrite !app_comm_cons, last_snoc; reflexivity).
    all: split; [reflexivity|].
    all: repeat first [apply in_or_app; right; cbn [In]; tauto | right].
Qed.

Lemma remove_node_members_witness :
  fatal_error (cluster_node_remove stubborn_world force_option "node2")
  = Some "Unable to update any nodes"
  /\ exists rest,
       trace (cluster_node_remove stubborn_world force_option "node2")
       = StopPacemaker ["node2"] :: DestroyCluster ["node2"] :: rest
       /\ List.filter is_removal rest
          = [RemoveLocalNode "node1" "node2"; RemoveLocalNode "node3" "node2"].
Proof.
  assert (Hknown : "node2" ∈ getNodesFromCorosyncConf stubborn_world).
  { apply list_elem_of_In. cbn. tauto. }
  assert (Hforce : Py.has_key "--force" force_option = true) by reflexivity.
  destruct (proj2 (remove_node_members stubborn_world force_option "node2")
              Hforce Hknown)
    as (Htrace & _ & Hfatal & _).
  split; [apply Hfatal; reflexivity|exact Htrace].
Defined.

(** ** Adding a node: the steps on the new node *)

Lemma add_node_push_conf w node0 node1 (my_nodes : list string) :
  forall corosync_conf,
    let m := add_node_push w node0 node1 my_nodes corosync_conf in
    snd m = Some (match last_accepted w node0 node1 my_nodes with
                  | Some conf => Some conf
                  | None => corosync_conf
                  end)
    /\ without is_new_node_step (trace m) = true.
Proof.
  unfold last_accepted.
  induction my_nodes as [|my_node rest IH]; intros corosync_conf; cbv zeta.
  - split; reflexivity.
  - cbn [add_node_push List.filter]. unfold accepts at 1.
    destruct (addLocalNode w my_node node0 node1) as [retval output] eqn:Hadd.
    cbn [fst bind call]. destruct (retval =? 0)%Z; cbn [negb].
    + destruct (IH (Some output)) as [Hres Hquiet]. cbv zeta in Hres, Hquiet.
      unfold print, call. cbn [bind].
      destruct (add_node_push w node0 node1 rest (Some output)) as [tr r].
      cbn [trace fst snd app] in *. subst r. split.
      * cbn [map]. rewrite last_cons, Hadd. cbn [snd].
        destruct (last _); reflexivity.
      * exact Hquiet.
    + destruct (IH corosync_conf) as [Hres Hquiet]. cbv zeta in Hres, Hquiet.
      unfold utils_err_continue, call. cbn [bind].
      destruct (add_node_push w node0 node1 rest corosync_conf) as [tr r].
      cbn [trace fst snd app] in *. subst r. split; [reflexivity|exact Hquiet].
Qed.

Lemma send_local_configs_early w node0 :
  without is_new_node_step (trace (add_node_send_local_configs w node0)) = true.
Proof.
  unfold add_node_send_local_configs.
  apply without_bind; [reflexivity|intros [output retval]].
  apply without_bind; [apply without_when; reflexivity|intros _].
  apply without_bind; [apply without_when; reflexivity|intros _].
  apply without_when.
  destruct (pcsd_data output !! node0); [apply without_when|]; reflexivity.
Qed.

Lemma add_node_new_node_steps w (pcs_options : gmap string string)
    node0 conf :
  let m := add_node_new_node w pcs_options node0 conf in
  (exited m = true /\ List.filter is_new_node_step (trace m) = [])
  \/ (exited m = false
      /\ List.filter is_new_node_step (trace m)
         = [SetCorosyncConfig node0 conf]
             ++ (if Py.has_key "--enable" pcs_options
                 then [EnableCluster node0] else [])
             ++ (if Py.has_key "--start" pcs_options || is_rhel6 w
                 then [StartCluster node0] else [])
             ++ [SyncCerts [node0]]).
Proof.
  cbv zeta. unfold add_node_new_node.
  pose proof (send_local_configs_early w node0) as Hsend.
  destruct (add_node_send_local_configs w node0) as [tr1 [[]|]].
  2:{ left. cbn [bind exited snd trace fst]. split; [reflexivity|].
      apply without_filter, Hsend. }
  cbn [trace fst] in Hsend.
  assert (Hq : without is_new_node_step
                 (trace
                    (when (negb (is_rhel6 w))
                       (r <- call (QdeviceNetSetup node0)
                               (qdevice_net_setup w conf node0) ;;
                        match r with
                        | Some items => process_library_reports w items
                        | None => ret tt
                        end))) = true).
  { apply without_when. apply without_bind; [reflexivity|intros [items|]];
      reflexivity. }
  match type of Hq with
  | without _ (trace ?q) = true => destruct q as [tr2 [[]|]]
  end.
  2:{ left. cbn [trace fst] in Hq.
      cbn [bind exited snd trace fst app]. split; [reflexivity|].
      rewrite List.filter_app.
      rewrite (without_filter _ _ Hsend), (without_filter _ _ Hq).
      reflexivity. }
  cbn [trace fst] in Hq. right.
  unfold print, call. cbn [bind].
  destruct (Py.has_key "--enable" pcs_options);
    destruct (Py.has_key "--start" pcs_options || is_rhel6 w);
    cbn [when bind ret app];
    repeat match goal with
           | |- context [negb (fst ?r =? 0)%Z] =>
               destruct (negb (fst r =? 0)%Z); cbn [when bind ret app]
           end;
    cbn [exited snd trace fst]; (split; [reflexivity|]);
    rewrite !List.filter_app, (without_filter _ _ Hsend),
      (without_filter _ _ Hq); reflexivity.
Qed.

Lemma wait_after_add_quiet w node0 (wait : bool) wait_timeout :
  without is_new_node_step
    (trace
       (when (is_cman_with_udpu_transport w)
          (print ("Warning: Using udpu transport on a CMAN cluster, "
                    +:+ "cluster restart is required to apply node addition")) ;;
        when wait
          (print EmptyString ;; wait_for_nodes_started w [node0] wait_timeout)))
  = true.
Proof.
  apply without_bind; [apply without_when; reflexivity|intros _].
  apply without_when. apply without_bind; [reflexivity|intros _].
  unfold wait_for_nodes_started. cbn [nonempty negb].
  repeat quiet_step.
Qed.

(** X14: what adding a node does on the new node is, in this order: it
    sets the corosync configuration handed back by the last member that
    accepted the node, enables the cluster if [--enable] is given, starts
    it if [--start] is given or the cluster runs on cman, and
    synchronises the pcsd certificates.  Either all of these steps are
    taken or none; they are all taken in a run that comes back, and a
    node that cannot be enabled or started does not stop them. *)
Theorem add_node_steps w (pcs_options : gmap string string) node0 node1
    (wait : bool) wait_timeout :
  let m := cluster_node_add w pcs_options node0 node1 wait wait_timeout in
  let steps := List.filter is_new_node_step (trace m) in
  (steps = []
   \/ exists conf,
        last_accepted w node0 node1 (getNodesFromCorosyncConf w) = Some conf
        /\ steps
           = [SetCorosyncConfig node0 conf]
               ++ (if Py.has_key "--enable" pcs_options
                   then [EnableCluster node0] else [])
               ++ (if Py.has_key "--start" pcs_options || is_rhel6 w
                   then [StartCluster node0] else [])
               ++ [SyncCerts [node0]])
  /\ (exited m = false -> steps <> []).
Proof.
  cbv zeta. unfold cluster_node_add.
  destruct (add_node_push_conf w node0 node1 (getNodesFromCorosyncConf w) None)
    as [Hres Hpush]. cbv zeta in Hres, Hpush.
  pose proof (wait_after_add_quiet w node0 wait wait_timeout) as Hend.
  destruct (add_node_push w node0 node1 (getNodesFromCorosyncConf w) None)
    as [tr r]. cbn [snd trace fst] in Hres, Hpush. subst r.
  unfold call. cbn [bind].
  destruct (last_accepted w node0 node1 (getNodesFromCorosyncConf w))
    as [conf|].
  - destruct (add_node_new_node_steps w pcs_options node0 conf)
      as [[Hexit Hnone]|[Hexit Hall]]; cbv zeta in *.
    + destruct (add_node_new_node w pcs_options node0 conf) as [tr' r'].
      unfold exited in Hexit. cbn [snd trace fst] in *.
      destruct r'; [discriminate|]. cbn [bind trace fst exited snd].
      rewrite List.filter_app, (without_filter _ _ Hpush). cbn [app List.filter
        is_new_node_step]. rewrite Hnone.
      split; [left; reflexivity|discriminate].
    + destruct (add_node_new_node w pcs_options node0 conf) as [tr' r'].
      unfold exited in Hexit. cbn [snd trace fst] in *.
      destruct r' as [[]|]; [|discriminate]. cbn [bind].
      match goal with
      | H : without _ (trace ?e) = true |- _ =>
          destruct e as [tr'' r'']; cbn [trace fst] in H
      end.
      cbn [trace fst exited snd].
      rewrite !List.filter_app, (without_filter _ _ Hpush), Hall,
        (without_filter _ _ Hend), app_nil_r.
      cbn [app List.filter is_new_node_step].
      split; [right; exists conf; split; reflexivity|discriminate].
  - cbn [bind utils_err trace fst exited snd].
    rewrite List.filter_app, (without_filter _ _ Hpush).
    split; [left; reflexivity|discriminate].
Qed.

Lemma add_node_steps_witness :
  List.filter is_new_node_step
    (trace (cluster_node_add cman_world ∅ "node4" None false None))
  = [SetCorosyncConfig "node4" "configuration of node3"; StartCluster "node4";
     SyncCerts ["node4"]]
  /\ exited (cluster_node_add cman_world ∅ "node4" None false None) = false.
Proof.
  assert (Hexit : exited (cluster_node_add cman_world ∅ "node4" None false None)
                  = false) by reflexivity.
  split; [|exact Hexit].
  destruct (add_node_steps cman_world ∅ "node4" None false None)
    as [[Hnone|(conf & Hconf & Hsteps)] Hsome].
  - destruct (Hsome Hexit Hnone).
  - injection Hconf as <-. exact Hsteps.
Defined.

(** * Further commands *)

(** ** Commands: steps *)

Lemma steps_cbind {A B} (m : Cmd A) (k : A -> Cmd B) :
  steps (cbind m k)
  = steps m ++ match snd m with Some a => steps (k a) | None => [] end.
Proof.
  destruct m as [tr [a|]]; cbn; [destruct (k a)|rewrite app_nil_r];
    reflexivity.
Qed.

Lemma cbind_cret {A B} (a : A) (k : A -> Cmd B) : cbind (cret a) k = k a.
Proof. unfold cbind, cret. destruct (k a). reflexivity. Qed.

Lemma in_steps_cbind {A B} (m : Cmd A) (k : A -> Cmd B) s :
  In s (steps (cbind m k))
  <-> In s (steps m) \/ exists a, snd m = Some a /\ In s (steps (k a)).
Proof.
  rewrite steps_cbind, in_app_iff. destruct (snd m) as [a|].
  - split; intros [H|H]; auto.
    + right. exists a. auto.
    + destruct H as (a' & [= <-] & H). auto.
  - split; intros [H|H]; auto; [destruct H|].
    destruct H as (a' & [=] & _).
Qed.

Lemma quits_cbind {A B} (m : Cmd A) (k : A -> Cmd B) :
  quits (cbind m k)
  = match snd m with Some a => quits (k a) | None => true end.
Proof.
  destruct m as [tr [a|]]; cbn; [destruct (k a)|]; reflexivity.
Qed.

(** ** [cluster_report] *)

(** X15: [cluster_report] runs [crm_report] at most once, and only when
    the archive does not exist yet or [--force] is given and the old
    archive could be removed; without [--force] an existing archive is a
    fatal error and nothing is run or removed.  The command gets
    [-f <from>], then [-t <to>] if [--to] is given, and the name of the
    report; without [--from] it gets [-f] with the day before, and
    [--to] is not passed on. *)
Theorem report_runs_crm_report w h (pcs_options : gmap string string)
    outfile :
  let m := cluster_report w h pcs_options [outfile] in
  let dest_outfile := outfile +:+ ".tar.bz2" in
  (path_exists h dest_outfile = true ->
   Py.has_key "--force" pcs_options = false ->
   m = ([Did (Err (dest_outfile
                     +:+ " already exists, use --force to overwrite"))],
        None))
  /\ (forall command_line,
        In (Did (Run command_line)) (steps m) ->
        (path_exists h dest_outfile = false
         \/ (Py.has_key "--force" pcs_options = true
             /\ os_remove h dest_outfile = None))
        /\ List.filter
             (fun s => match s with Did (Run _) => true | _ => false end)
             (steps m) = [Did (Run command_line)]
        /\ exists period,
             command_line = [crm_report h; "-f"] ++ period ++ [outfile]
             /\ period
                = match pcs_options !! "--from", pcs_options !! "--to" with
                  | Some from, Some to => [from; "-t"; to]
                  | Some from, None => [from]
                  | None, _ => [yesterday h]
                  end)
  /\ (In (Call "os.remove" [dest_outfile]) (steps m)
      <-> path_exists h dest_outfile = true
          /\ Py.has_key "--force" pcs_options = true).
Proof.
  cbv zeta. unfold cluster_report, crm_report_opts, exec, run_cmd, call, lift,
    say, fail, print, utils_err, call.
  destruct (path_exists h (outfile +:+ ".tar.bz2"));
    destruct (Py.has_key "--force" pcs_options); cbn [cwhen negb].
  - unfold ask. cbn [cbind].
    destruct (os_remove h (outfile +:+ ".tar.bz2")) as [strerror|];
      cbn [cbind cret fst snd map app].
    + split; [discriminate|]. split.
      * intros command_line [H|[H|[]]]; discriminate.
      * split; [auto|]. intros _. left. reflexivity.
    + destruct (run w _) as [output retval].
      destruct (retval =? 0)%Z; cbn [negb cwhen cbind cret fst snd map app steps];
        (split; [discriminate|]); (split; [|split; [auto|intros _; left; reflexivity]]);
        intros command_line Hin;
        (assert (Hcl : Did (Run command_line)
                       = Did (Run (crm_report h
                                     :: ["-f"]
                                          ++ match pcs_options !! "--from" with
                                             | Some from =>
                                                 [from]
                                                   ++ match pcs_options !! "--to" with
                                                      | Some to => ["-t"; to]
                                                      | None => []
                                                      end
                                             | None => [yesterday h]
                                             end ++ [outfile])));
         [cbn [In] in Hin; destruct Hin as [H|[H|[H|H]]];
          try discriminate; try (destruct H; fail); try (symmetry; exact H);
          destruct H as [H|H]; try discriminate; destruct H|]);
        injection Hcl as ->;
        (split; [right; split; reflexivity|]);
        (split; [reflexivity|]);
        eexists; (split; [reflexivity|]);
        destruct (pcs_options !! "--from"); destruct (pcs_options !! "--to");
        reflexivity.
  - cbn [cbind fst snd map app steps]. split; [reflexivity|]. split.
    + intros command_line [H|[]]. discriminate.
    + split; [intros [H|[]]; discriminate|intros [_ H]; discriminate].
  - rewrite cbind_cret.
    cbn [cbind fst snd map app steps].
    destruct (run w _) as [output retval].
    destruct (retval =? 0)%Z; cbn [negb cwhen cbind cret fst snd map app steps];
      (split; [discriminate|]);
      (split; [|split; [cbn [In]; intros [H|[H|[]]]; discriminate
                       |intros [H _]; discriminate]]);
      intros command_line Hin;
      (assert (Hcl : Did (Run command_line)
                     = Did (Run (crm_report h
                                   :: ["-f"]
                                        ++ match pcs_options !! "--from" with
                                           | Some from =>
                                               [from]
                                                 ++ match pcs_options !! "--to" with
                                                    | Some to => ["-t"; to]
                                                    | None => []
                                                    end
                                           | None => [yesterday h]
                                           end ++ [outfile])));
       [cbn [In] in Hin; destruct Hin as [H|[H|H]];
        try discriminate; try (destruct H; fail); try (symmetry; exact H)|]);
      injection Hcl as ->;
      (split; [left; reflexivity|]);
      (split; [reflexivity|]);
      eexists; (split; [reflexivity|]);
      destruct (pcs_options !! "--from"); destruct (pcs_options !! "--to");
      reflexivity.
  - rewrite cbind_cret.
    cbn [cbind fst snd map app steps].
    destruct (run w _) as [output retval].
    destruct (retval =? 0)%Z; cbn [negb cwhen cbind cret fst snd map app steps];
      (split; [discriminate|]);
      (split; [|split; [cbn [In]; intros [H|[H|[]]]; discriminate
                       |intros [H _]; discriminate]]);
      intros command_line Hin;
      (assert (Hcl : Did (Run command_line)
                     = Did (Run (crm_report h
                                   :: ["-f"]
                                        ++ match pcs_options !! "--from" with
                                           | Some from =>
                                               [from]
                                                 ++ match pcs_options !! "--to" with
                                                    | Some to => ["-t"; to]
                                                    | None => []
                                                    end
                                           | None => [yesterday h]
                                           end ++ [outfile])));
       [cbn [In] in Hin; destruct Hin as [H|[H|H]];
        try discriminate; try (destruct H; fail); try (symmetry; exact H)|]);
      injection Hcl as ->;
      (split; [left; reflexivity|]);
      (split; [reflexivity|]);
      eexists; (split; [reflexivity|]);
      destruct (pcs_options !! "--from"); destruct (pcs_options !! "--to");
      reflexivity.
Qed.

Lemma report_runs_crm_report_witness :
  cluster_report calm_world archive_host no_option ["report"]
  = ([Did (Err "report.tar.bz2 already exists, use --force to overwrite")],
     None).
Proof.
  destruct (report_runs_crm_report calm_world archive_host no_option "report")
    as [H _].
  exact (H eq_refl eq_refl).
Defined.

(** ** The output of [cluster_report] *)

Lemma append_cons (x : ascii) (a b : string) :
  String x a +:+ b = String x (a +:+ b).
Proof. reflexivity. Qed.

Lemma append_nil (b : string) : EmptyString +:+ b = b.
Proof. reflexivity. Qed.

Lemma append_assoc (a b c : string) : (a +:+ b) +:+ c = a +:+ (b +:+ c).
Proof.
  induction a as [|x a IH]; [reflexivity|].
  rewrite !append_cons, IH. reflexivity.
Qed.

Lemma append_empty_r (a : string) : a +:+ EmptyString = a.
Proof.
  induction a as [|x a IH]; [reflexivity|]. rewrite append_cons, IH.
  reflexivity.
Qed.

Lemma split_nonempty sep s : PyStr.split sep s <> [].
Proof.
  destruct s as [|c s]; cbn [PyStr.split]; [discriminate|].
  destruct (Ascii.eqb c sep); [discriminate|].
  destruct (PyStr.split sep s); discriminate.
Qed.

Lemma split_no_sep sep s :
  forallb (fun line => negb (has_char sep line)) (PyStr.split sep s) = true.
Proof.
  induction s as [|c s IH]; [reflexivity|]. cbn [PyStr.split].
  destruct (Ascii.eqb c sep) eqn:Hc.
  - cbn [forallb has_char negb andb]. exact IH.
  - destruct (PyStr.split sep s) as [|head tail]; cbn [forallb has_char] in *.
    + rewrite Hc. reflexivity.
    + rewrite Hc. exact IH.
Qed.

Lemma split_line sep line rest :
  has_char sep line = false ->
  PyStr.split sep (line +:+ String sep rest) = line :: PyStr.split sep rest.
Proof.
  induction line as [|c line IH].
  - intros _. rewrite append_nil. cbn [PyStr.split].
    rewrite Ascii.eqb_refl. reflexivity.
  - cbn [has_char]. intros H. apply orb_false_iff in H as [Hc Hline].
    rewrite append_cons. cbn [PyStr.split]. rewrite Hc, (IH Hline).
    reflexivity.
Qed.

Lemma unlines_cons line (lines : list string) :
  unlines (line :: lines) = line +:+ String "010" (unlines lines).
Proof. reflexivity. Qed.

Lemma split_unlines (lines : list string) :
  forallb (fun line => negb (has_char "010" line)) lines = true ->
  PyStr.split "010" (unlines lines) = lines ++ [EmptyString].
Proof.
  induction lines as [|line lines IH]; [reflexivity|].
  cbn [forallb]. intros H.
  apply andb_prop in H as [Hline Hlines]. apply negb_true_iff in Hline.
  rewrite unlines_cons, (split_line _ _ _ Hline), (IH Hlines). reflexivity.
Qed.

Lemma report_output_unlines (lines : list string) (newoutput : string) :
  fold_left
    (fun newoutput line =>
       if report_noise line then newoutput else newoutput +:+ line +:+ nl)
    lines newoutput
  = newoutput
      +:+ unlines (List.filter (fun line => negb (report_noise line)) lines).
Proof.
  revert newoutput. induction lines as [|line lines IH]; intros newoutput.
  - cbn. rewrite append_empty_r. reflexivity.
  - cbn [fold_left List.filter]. rewrite IH.
    destruct (report_noise line); cbn [negb]; [reflexivity|].
    rewrite unlines_cons, !append_assoc. reflexivity.
Qed.

Lemma forallb_filter {A} (p q : A -> bool) (l : list A) :
  forallb p l = true -> forallb p (List.filter q l) = true.
Proof.
  rewrite !forallb_forall. intros H a Ha. apply filter_In in Ha as [Ha _].
  apply H, Ha.
Qed.

(** X16: the text that [cluster_report] shows is the output of
    [crm_report] without its noise: its lines are the lines of the
    output that neither begin with [cat:], [grep] or [tail] nor hold one
    of the four phrases, unchanged and in their order, and the text ends
    with a newline. *)
Theorem report_output_lines (output : string) :
  PyStr.split "010" (report_output output)
  = List.filter (fun line => negb (report_noise line))
      (PyStr.split "010" output)
      ++ [EmptyString].
Proof.
  unfold report_output. rewrite report_output_unlines, append_nil.
  apply split_unlines, forallb_filter, split_no_sep.
Qed.

(** ** [cluster_uidgid] *)

Lemma split1_some sep s k v :
  PyStr.split1 sep s = Some (k, v) ->
  s = k +:+ String sep v /\ has_char sep k = false.
Proof.
  revert k. induction s as [|c s IH]; intros k; [discriminate|].
  cbn [PyStr.split1]. destruct (Ascii.eqb_spec c sep) as [->|Hc].
  - intros [= <- <-]. split; reflexivity.
  - destruct (PyStr.split1 sep s) as [[before after]|]; [|discriminate].
    intros [= <- <-]. destruct (IH before eq_refl) as [-> Hk].
    split; [reflexivity|]. cbn [has_char]. rewrite Hk.
    destruct (Ascii.eqb_spec c sep); [contradiction|reflexivity].
Qed.

Lemma last_value_snoc_same key (argv : list string) arg v :
  value_of key arg = Some v -> last_value key (argv ++ [arg]) = v.
Proof.
  intros H. unfold last_value. rewrite omap_app.
  change (omap (value_of key) [arg])
    with (match value_of key arg with Some y => [y] | None => [] end).
  rewrite H, last_snoc. reflexivity.
Qed.

Lemma last_value_snoc_other key (argv : list string) arg :
  value_of key arg = None ->
  last_value key (argv ++ [arg]) = last_value key argv.
Proof.
  intros H. unfold last_value. rewrite omap_app.
  change (omap (value_of key) [arg])
    with (match value_of key arg with Some y => [y] | None => [] end).
  rewrite H, app_nil_r. reflexivity.
Qed.

(** The loop over the arguments, begun after [seen] with the values of
    the last [uid=] and [gid=] among them. *)
Lemma uidgid_args_spec (argv seen : list string) :
  forallb is_uidgid_arg argv = true ->
  uidgid_args argv (last_value "uid" seen) (last_value "gid" seen)
  = if String.eqb (last_value "uid" (seen ++ argv)) EmptyString
       && String.eqb (last_value "gid" (seen ++ argv)) EmptyString
    then fail "you must set either uid or gid"
    else cret (last_value "uid" (seen ++ argv), last_value "gid" (seen ++ argv)).
Proof.
  revert seen. induction argv as [|arg rest IH]; intros seen.
  - intros _. rewrite app_nil_r. cbn [uidgid_args].
    destruct (String.eqb (last_value "uid" seen) EmptyString
              && String.eqb (last_value "gid" seen) EmptyString);
      reflexivity.
  - cbn [forallb uidgid_args]. intros H. apply andb_prop in H as [Harg Hrest].
    unfold is_uidgid_arg in Harg.
    destruct (PyStr.split1 "=" arg) as [[k v]|] eqn:Hsplit; [|discriminate].
    replace (seen ++ arg :: rest) with ((seen ++ [arg]) ++ rest)
      by (rewrite <- app_assoc; reflexivity).
    rewrite <- (IH (seen ++ [arg]) Hrest).
    destruct (String.eqb_spec k "uid") as [->|Huid].
    + cbn [negb andb cwhen]. rewrite cbind_cret.
      rewrite (last_value_snoc_same "uid" seen arg v)
        by (unfold value_of; rewrite Hsplit; reflexivity).
      rewrite (last_value_snoc_other "gid" seen arg)
        by (unfold value_of; rewrite Hsplit; reflexivity).
      reflexivity.
    + destruct (String.eqb_spec k "gid") as [->|Hgid]; [|discriminate].
      cbn [negb andb cwhen]. rewrite cbind_cret.
      rewrite (last_value_snoc_same "gid" seen arg v)
        by (unfold value_of; rewrite Hsplit; reflexivity).
      rewrite (last_value_snoc_other "uid" seen arg)
        by (unfold value_of; rewrite Hsplit; reflexivity).
      reflexivity.
Qed.

Lemma uidgid_args_good (argv : list string) :
  forallb is_uidgid_arg argv = true ->
  uidgid_args argv EmptyString EmptyString
  = if String.eqb (last_value "uid" argv) EmptyString
       && String.eqb (last_value "gid" argv) EmptyString
    then fail "you must set either uid or gid"
    else cret (last_value "uid" argv, last_value "gid" argv).
Proof. intros H. exact (uidgid_args_spec argv [] H). Qed.

Lemma uidgid_args_bad (argv : list string) uid gid :
  forallb is_uidgid_arg argv = false ->
  exists message, uidgid_args argv uid gid = ([Did (Err message)], None).
Proof.
  revert uid gid. induction argv as [|arg rest IH]; intros uid gid;
    [discriminate|].
  cbn [forallb uidgid_args]. unfold is_uidgid_arg at 1.
  destruct (PyStr.split1 "=" arg) as [[k v]|]; [|eexists; reflexivity].
  destruct (String.eqb k "uid") eqn:Hu; cbn [orb negb andb cwhen].
  - rewrite cbind_cret. apply IH.
  - destruct (String.eqb k "gid"); cbn [negb cwhen].
    + rewrite cbind_cret. apply IH.
    + intros _. eexists. reflexivity.
Qed.

Lemma uidgid_arg_shape arg :
  is_uidgid_arg arg = true ->
  exists v, arg = "uid=" +:+ v \/ arg = "gid=" +:+ v.
Proof.
  unfold is_uidgid_arg.
  destruct (PyStr.split1 "=" arg) as [[k v]|] eqn:Hsplit; [|discriminate].
  apply split1_some in Hsplit as [-> _]. intros H. exists v.
  apply orb_prop in H as [H|H]; apply String.eqb_eq in H; subst k;
    [left|right]; reflexivity.
Qed.

(** X17: with corosync, [pcs cluster uidgid add] writes a uidgid file
    exactly when it has at least one argument, every argument is
    [uid=...] or [gid=...] and the last [uid=] and the last [gid=] are not
    both empty; the file is written for the values of the last [uid=]
    and the last [gid=] argument, earlier ones being overridden.  In
    every other case nothing is written and the command ends in an error
    or the usage text. *)
Theorem uidgid_add_writes w h (argv : list string) (silent_list : bool) :
  is_rhel6 w = false ->
  let m := cluster_uidgid w h ("add" :: argv) silent_list in
  let uid := last_value "uid" argv in
  let gid := last_value "gid" argv in
  let valid :=
    nonempty argv && forallb is_uidgid_arg argv
    && negb (String.eqb uid EmptyString && String.eqb gid EmptyString) in
  (valid = true -> m = ([Call "write_uid_gid_file" [uid; gid]], Some tt))
  /\ (valid = false ->
      quits m = true
      /\ forall s, In s (steps m) ->
                   match s with Did (Err _) | Usage _ => True | _ => False end)
  /\ (forall arg, is_uidgid_arg arg = true
                  <-> exists v, arg = "uid=" +:+ v \/ arg = "gid=" +:+ v).
Proof.
  intros Hrhel. cbv zeta. unfold cluster_uidgid. rewrite Hrhel.
  cbn [String.eqb Ascii.eqb Bool.eqb orb andb].
  split; [|split].
  - intros Hvalid. apply andb_prop in Hvalid as [Hvalid Hset].
    apply andb_prop in Hvalid as [Hne Hargs]. rewrite Hne.
    rewrite (uidgid_args_good argv Hargs).
    apply negb_true_iff in Hset. rewrite Hset. rewrite cbind_cret.
    reflexivity.
  - intros Hvalid. destruct (nonempty argv); cbn [andb] in Hvalid |- *.
    2:{ split; [reflexivity|]. intros s [<-|[]]. exact I. }
    destruct (forallb is_uidgid_arg argv) eqn:Hargs; cbn [andb] in Hvalid.
    + rewrite (uidgid_args_good argv Hargs).
      apply negb_false_iff in Hvalid. rewrite Hvalid.
      split; [reflexivity|]. intros s [<-|[]]. exact I.
    + destruct (uidgid_args_bad argv EmptyString EmptyString Hargs)
        as [message ->].
      split; [reflexivity|]. intros s [<-|[]]. exact I.
  - intros arg. split; [apply uidgid_arg_shape|].
    intros (v & [-> | ->]); reflexivity.
Qed.

Lemma uidgid_add_writes_witness :
  cluster_uidgid calm_world calm_host
    ["add"; "uid=root"; "uid=hacluster"; "gid=haclient"] false
  = ([Call "write_uid_gid_file" ["hacluster"; "haclient"]], Some tt).
Proof.
  destruct (uidgid_add_writes calm_world calm_host
              ["uid=root"; "uid=hacluster"; "gid=haclient"] false eq_refl)
    as [H _].
  exact (H eq_refl).
Defined.

Lemma sync_nodes_steps (nodes : list string) config :
  sync_nodes nodes config
  = (map (fun node => Did (SetCorosyncConfig node config)) nodes, Some tt).
Proof.
  induction nodes as [|node rest IH]; [reflexivity|].
  cbn [sync_nodes map]. rewrite IH. reflexivity.
Qed.

(** X18: on a cman cluster [pcs cluster uidgid] ends in a [TypeError]
    before it does anything when cluster.conf is not there, whatever its
    arguments: the error message it means to show cannot be formatted.
    When the file is there, a valid [add] runs [ccs --setuidgid] with the
    last [uid=] and [gid=] values and, when that succeeds, sends the
    configuration to every node of the cluster in order, unless a file
    is used instead of the live cluster. *)
Theorem uidgid_rhel6 w h (argv : list string) (silent_list : bool) :
  is_rhel6 w = true ->
  (path_isfile h (cluster_conf_file h) = false ->
   cluster_uidgid w h argv silent_list = ([Raise "TypeError"], None))
  /\ (path_isfile h (cluster_conf_file h) = true ->
      nonempty argv = true ->
      forallb is_uidgid_arg argv = true ->
      String.eqb (last_value "uid" argv) EmptyString
      && String.eqb (last_value "gid" argv) EmptyString = false ->
      let command_line :=
        ["ccs"; "-f"; cluster_conf_file h; "--setuidgid";
         "uid=" +:+ last_value "uid" argv; "gid=" +:+ last_value "gid" argv] in
      snd (run w command_line) = 0%Z ->
      cluster_uidgid w h ("add" :: argv) silent_list
      = (Did (Run command_line)
           :: (if usefile h then []
               else map (fun node =>
                           Did (SetCorosyncConfig node (getCorosyncConf h)))
                      (getNodesFromCorosyncConf w)),
         Some tt)).
Proof.
  intros Hrhel. unfold cluster_uidgid, cluster_uidgid_rhel6. rewrite Hrhel.
  split.
  - intros ->. reflexivity.
  - intros -> Hne Hargs Hset. cbv zeta. intros Hrun.
    cbn [negb cwhen]. rewrite cbind_cret.
    cbn [String.eqb Ascii.eqb Bool.eqb orb andb]. rewrite Hne.
    rewrite (uidgid_args_good argv Hargs), Hset, cbind_cret.
    unfold exec, run_cmd, call, lift. cbn [cbind fst snd map].
    destruct (run w _) as [output retval]. cbn [snd] in Hrun. subst retval.
    cbn [Z.eqb negb cwhen cbind cret app].
    rewrite sync_nodes_steps. destruct (usefile h); reflexivity.
Qed.

Lemma uidgid_rhel6_witness :
  cluster_uidgid cman_world bare_host ["add"; "uid=root"] false
  = ([Raise "TypeError"], None)
  /\ cluster_uidgid cman_world calm_host ["add"; "uid=root"] false
     = ([Did (Run ["ccs"; "-f"; "/etc/cluster/cluster.conf"; "--setuidgid";
                   "uid=root"; "gid="]);
         Did (SetCorosyncConfig "node1" "totem { }");
         Did (SetCorosyncConfig "node2" "totem { }");
         Did (SetCorosyncConfig "node3" "totem { }")],
        Some tt).
Proof.
  split.
  - destruct (uidgid_rhel6 cman_world bare_host ["add"; "uid=root"] false
                eq_refl) as [H _].
    exact (H eq_refl).
  - destruct (uidgid_rhel6 cman_world calm_host ["uid=root"] false eq_refl)
      as [_ H].
    exact (H eq_refl eq_refl eq_refl eq_refl eq_refl).
Defined.

(** ** [cluster_push], [get_cib] and [cluster_edit] *)

Lemma split1_none sep s :
  PyStr.split1 sep s = None <-> has_char sep s = false.
Proof.
  induction s as [|c s IH]; [split; reflexivity|].
  cbn [PyStr.split1 has_char]. destruct (Ascii.eqb c sep); cbn [orb].
  - split; discriminate.
  - rewrite <- IH. destruct (PyStr.split1 sep s) as [[before after]|];
      split; congruence.
Qed.

Lemma last_plain_snoc_plain (argv : list string) arg :
  PyStr.split1 "=" arg = None -> last_plain (argv ++ [arg]) = Some arg.
Proof.
  intros H. apply split1_none in H. unfold last_plain.
  rewrite List.filter_app. cbn [List.filter]. rewrite H. cbn [negb].
  apply last_snoc.
Qed.

Lemma last_plain_snoc_other (argv : list string) arg k v :
  PyStr.split1 "=" arg = Some (k, v) ->
  last_plain (argv ++ [arg]) = last_plain argv.
Proof.
  intros H. unfold last_plain. rewrite List.filter_app. cbn [List.filter].
  destruct (has_char "=" arg) eqn:Hc.
  - cbn [negb]. rewrite app_nil_r. reflexivity.
  - apply split1_none in Hc. congruence.
Qed.

Lemma last_omap_snoc {A B} (f : A -> option B) (l : list A) a :
  last (omap f (l ++ [a]))
  = match f a with Some b => Some b | None => last (omap f l) end.
Proof.
  rewrite omap_app.
  change (omap f [a]) with (match f a with Some y => [y] | None => [] end).
  destruct (f a); [apply last_snoc|rewrite app_nil_r; reflexivity].
Qed.

(** The loop over the arguments, begun after [seen]. *)
Lemma cib_args_spec h (pcs_options : gmap string string) topic
    (argv seen : list string) :
  forallb (cib_arg_ok h pcs_options) argv = true ->
  cib_args h pcs_options topic argv (last_plain seen)
    (last (omap (value_of "scope") seen))
  = cret (last_plain (seen ++ argv), chosen_scope pcs_options (seen ++ argv)).
Proof.
  revert seen. induction argv as [|arg rest IH]; intros seen.
  - intros _. rewrite app_nil_r. reflexivity.
  - cbn [forallb cib_args]. intros H. apply andb_prop in H as [Harg Hrest].
    replace (seen ++ arg :: rest) with ((seen ++ [arg]) ++ rest)
      by (rewrite <- app_assoc; reflexivity).
    rewrite <- (IH (seen ++ [arg]) Hrest). unfold cib_arg_ok in Harg.
    destruct (PyStr.split1 "=" arg) as [[k v]|] eqn:Hsplit.
    + apply andb_prop in Harg as [Harg Hvalid].
      apply andb_prop in Harg as [Hk Hconfig]. rewrite Hk, Hconfig, Hvalid.
      cbn [andb negb].
      assert (Hv : value_of "scope" arg = Some v)
        by (unfold value_of; rewrite Hsplit, Hk; reflexivity).
      rewrite (last_plain_snoc_other seen arg k v Hsplit), last_omap_snoc, Hv.
      reflexivity.
    + assert (Hv : value_of "scope" arg = None)
        by (unfold value_of; rewrite Hsplit; reflexivity).
      rewrite (last_plain_snoc_plain seen arg Hsplit), last_omap_snoc, Hv.
      reflexivity.
Qed.

Lemma cib_args_good h (pcs_options : gmap string string) topic
    (argv : list string) :
  forallb (cib_arg_ok h pcs_options) argv = true ->
  cib_args h pcs_options topic argv None None
  = cret (last_plain argv, chosen_scope pcs_options argv).
Proof. intros H. exact (cib_args_spec h pcs_options topic argv [] H). Qed.

Lemma cib_args_bad h (pcs_options : gmap string string) topic
    (argv : list string) filename scope :
  forallb (cib_arg_ok h pcs_options) argv = false ->
  (exists message,
     cib_args h pcs_options topic argv filename scope
     = ([Did (Err message)], None))
  \/ cib_args h pcs_options topic argv filename scope = ([Usage [topic]], None).
Proof.
  revert filename scope. induction argv as [|arg rest IH];
    intros filename scope; [discriminate|].
  cbn [forallb cib_args]. unfold cib_arg_ok at 1.
  destruct (PyStr.split1 "=" arg) as [[k v]|]; [|apply IH].
  destruct (String.eqb k "scope" && negb (Py.has_key "--config" pcs_options));
    cbn [andb]; [|intros _; right; reflexivity].
  destruct (is_valid_cib_scope h v); cbn [negb]; [apply IH|].
  intros _. left. eexists. reflexivity.
Qed.

Lemma config_arguments h (pcs_options : gmap string string)
    (argv : list string) :
  Py.has_key "--config" pcs_options = true ->
  forallb (cib_arg_ok h pcs_options) argv = true ->
  forallb (fun arg => negb (has_char "=" arg)) argv = true.
Proof.
  intros Hconfig. rewrite !forallb_forall. intros H arg Harg.
  specialize (H arg Harg). unfold cib_arg_ok in H. rewrite Hconfig in H.
  destruct (PyStr.split1 "=" arg) as [[k v]|] eqn:Hsplit.
  - rewrite andb_false_r in H. discriminate.
  - apply split1_none in Hsplit. rewrite Hsplit. reflexivity.
Qed.

Ltac run_steps :=
  cbn [cbind cret cwhen lift ask ask_or_exit say fail warn usage_exit raise
         exec run_cmd call print utils_err utils_err_continue steps quits
         fst snd map app negb].

Tactic Notation "run_steps" "in" hyp(H) :=
  cbn [cbind cret cwhen lift ask ask_or_exit say fail warn usage_exit raise
         exec run_cmd call print utils_err utils_err_continue steps quits
         fst snd map app negb] in H.

Ltac step_cases H :=
  cbn [In app] in H;
  repeat match type of H with
         | _ \/ _ => destruct H as [H|H]
         | False => destruct H
         | _ = _ => discriminate H
         end.

Lemma push_shape w h (pcs_options : gmap string string)
    (argv : list string) :
  let m := cluster_push w h pcs_options argv in
  forall command_line,
    In (Did (Run ("cibadmin" :: command_line))) (steps m) ->
    (length argv <= 2)%nat
    /\ forallb (cib_arg_ok h pcs_options) argv = true
    /\ (Py.has_key "--config" pcs_options = true ->
        forallb (fun arg => negb (has_char "=" arg)) argv = true)
    /\ List.filter is_cib_replace (steps m)
       = [Did (Run ("cibadmin" :: command_line))]
    /\ exists filename,
         last_plain argv = Some filename
         /\ filename <> EmptyString
         /\ command_line
            = ["--replace"; "--xml-file"; filename]
                ++ match chosen_scope pcs_options argv with
                   | Some (String c scope) => ["--scope=" +:+ String c scope]
                   | _ => []
                   end.
Proof.
  cbv zeta. intros command_line. unfold cluster_push.
  destruct (Nat.ltb_spec 2 (length argv)) as [Hlen|Hlen]; cbn [cwhen].
  { intros H. run_steps in H. step_cases H. }
  rewrite cbind_cret.
  assert (Htimeout : forall t,
    (if Py.has_key "--wait" pcs_options
     then ask_or_exit (Call "validate_wait_get_timeout" [])
            (validate_wait_get_timeout h true)
     else cret None) = t ->
    (exists tr, t = (tr, None)
                /\ List.filter is_cib_replace tr = []
                /\ forall s, In s tr -> is_cib_replace s = false)
    \/ exists tr timeout, t = (tr, Some timeout)
                          /\ List.filter is_cib_replace tr = []
                          /\ forall s, In s tr -> is_cib_replace s = false).
  { intros t <-. destruct (Py.has_key "--wait" pcs_options).
    - unfold ask_or_exit. destruct (validate_wait_get_timeout h true).
      + right. eexists _, _. split; [reflexivity|]. split; [reflexivity|].
        intros s [<-|[]]. reflexivity.
      + left. eexists. split; [reflexivity|]. split; [reflexivity|].
        intros s [<-|[]]. reflexivity.
    - right. eexists _, _. split; [reflexivity|]. split; [reflexivity|].
      intros s []. }
  destruct (Htimeout _ eq_refl)
    as [(tr0 & -> & Hf0 & Hq0)|(tr0 & timeout & -> & Hf0 & Hq0)].
  { run_steps. intros H. specialize (Hq0 _ H). discriminate. }
  clear Htimeout. cbn [cbind].
  destruct (forallb (cib_arg_ok h pcs_options) argv) eqn:Hargs.
  2:{ destruct (cib_args_bad h pcs_options "cib-push" argv None None Hargs)
        as [[message ->]| ->]; run_steps;
        intros H; apply in_app_iff in H as [H|H];
        try (specialize (Hq0 _ H); discriminate); step_cases H. }
  rewrite (cib_args_good h pcs_options "cib-push" argv Hargs).
  rewrite cbind_cret.
  destruct (last_plain argv) as [[|c filename]|] eqn:Hfile;
    cbn [truthy_opt Py.truthy_str]; run_steps.
  1,3: intros H; apply in_app_iff in H as [H|H];
       try (specialize (Hq0 _ H); discriminate); step_cases H.
  cbn [from_option id]. unfold push_command.
  assert (Hscope :
    (if truthy_opt (chosen_scope pcs_options argv)
     then ["--scope=" +:+ default EmptyString (chosen_scope pcs_options argv)]
     else [])
    = match chosen_scope pcs_options argv with
      | Some (String c scope) => ["--scope=" +:+ String c scope]
      | _ => []
      end).
  { destruct (chosen_scope pcs_options argv) as [[|x scope]|]; reflexivity. }
  rewrite Hscope. clear Hscope.
  set (scope_part := match chosen_scope pcs_options argv with
                     | Some (String c scope) => ["--scope=" +:+ String c scope]
                     | _ => []
                     end).
  assert (Hgoal : forall tail,
    List.filter is_cib_replace tail = [] ->
    (forall s, In s tail -> is_cib_replace s = false) ->
    In (Did (Run ("cibadmin" :: command_line)))
      (tr0 ++ Call "xml.dom.minidom.parse" [String c filename]
           :: Did (Run ("cibadmin" :: "--replace" :: "--xml-file"
                          :: String c filename :: scope_part)) :: tail) ->
    (length argv <= 2)%nat
    /\ true = true
    /\ (Py.has_key "--config" pcs_options = true ->
        forallb (fun arg => negb (has_char "=" arg)) argv = true)
    /\ List.filter is_cib_replace
         (tr0 ++ Call "xml.dom.minidom.parse" [String c filename]
              :: Did (Run ("cibadmin" :: "--replace" :: "--xml-file"
                             :: String c filename :: scope_part)) :: tail)
       = [Did (Run ("cibadmin" :: command_line))]
    /\ exists filename0,
         Some (String c filename) = Some filename0
         /\ filename0 <> EmptyString
         /\ command_line = ["--replace"; "--xml-file"; filename0] ++ scope_part).
  { intros tail Hft Hqt Hin. apply in_app_iff in Hin as [H|H];
      [specialize (Hq0 _ H); discriminate|].
    destruct H as [H|[H|H]]; [discriminate| |specialize (Hqt _ H); discriminate].
    injection H as <-. split; [exact Hlen|]. split; [reflexivity|]. split.
    { intros Hconfig.
      exact (config_arguments h pcs_options argv Hconfig Hargs). }
    split.
    { rewrite List.filter_app, Hf0. cbn [app List.filter is_cib_replace].
      cbn [String.eqb Ascii.eqb Bool.eqb]. rewrite Hft. reflexivity. }
    eexists. split; [reflexivity|]. split; [discriminate|reflexivity]. }
  destruct (parse_cib h (String c filename)) as [e|getElementsByTagName].
  { intros Hin. exfalso. run_steps in Hin.
    apply in_app_iff in Hin as [H|H];
      [specialize (Hq0 _ H); discriminate|step_cases H]. }
  destruct (truthy_opt (chosen_scope pcs_options argv)
            && negb (getElementsByTagName
                       (default EmptyString (chosen_scope pcs_options argv)))).
  { intros Hin. exfalso. run_steps in Hin.
    apply in_app_iff in Hin as [H|H];
      [specialize (Hq0 _ H); discriminate|step_cases H]. }
  run_steps.
  destruct (run w ("cibadmin" :: _)) as [output retval].
  destruct (retval =? 0)%Z; run_steps.
  - destruct (Py.has_key "--wait" pcs_options); run_steps.
    + destruct (run w _) as [output' retval'].
      destruct (retval' =? 0)%Z; run_steps; apply Hgoal;
        try reflexivity; intros s Hs; step_cases Hs; subst s; reflexivity.
    + apply Hgoal; try reflexivity.
      intros s Hs; step_cases Hs; subst s; reflexivity.
  - apply Hgoal; try reflexivity.
    intros s Hs; step_cases Hs; subst s; reflexivity.
Qed.

(** X19: [cluster_push] replaces the CIB at most once, and only when it
    has at most two arguments, each of them a file name (no [=] in it)
    or [scope=] with a valid scope, the latter only without [--config].
    The file pushed is the last file name given, which is not empty; the
    scope is [configuration] with [--config] and the value of the last
    [scope=] argument otherwise, and [cibadmin] gets [--scope=] exactly
    when that scope is there and not empty. *)
Theorem push_replaces_cib w h (pcs_options : gmap string string)
    (argv : list string) :
  let m := cluster_push w h pcs_options argv in
  forall command_line,
    In (Did (Run ("cibadmin" :: command_line))) (steps m) ->
    (length argv <= 2)%nat
    /\ forallb (cib_arg_ok h pcs_options) argv = true
    /\ (Py.has_key "--config" pcs_options = true ->
        forallb (fun arg => negb (has_char "=" arg)) argv = true)
    /\ List.filter is_cib_replace (steps m)
       = [Did (Run ("cibadmin" :: command_line))]
    /\ exists filename,
         last_plain argv = Some filename
         /\ filename <> EmptyString
         /\ command_line
            = ["--replace"; "--xml-file"; filename]
                ++ match chosen_scope pcs_options argv with
                   | Some (String c scope) => ["--scope=" +:+ String c scope]
                   | _ => []
                   end.
Proof.
  cbv zeta. intros command_line Hin.
  destruct (push_shape w h pcs_options argv command_line Hin)
    as (Hlen & Hargs & Hconfig & Honce & filename & Hfile & Hne & Hcl).
  split; [exact Hlen|]. split; [exact Hargs|]. split; [exact Hconfig|].
  split; [exact Honce|]. exists filename. auto.
Qed.

Lemma push_replaces_cib_witness :
  List.filter is_cib_replace
    (steps (cluster_push calm_world calm_host no_option
              ["cib.xml"; "scope=nodes"]))
  = [Did (Run ["cibadmin"; "--replace"; "--xml-file"; "cib.xml";
               "--scope=nodes"])]
  /\ last_plain ["cib.xml"; "scope=nodes"] = Some "cib.xml".
Proof.
  destruct (push_replaces_cib calm_world calm_host no_option
              ["cib.xml"; "scope=nodes"]
              ["--replace"; "--xml-file"; "cib.xml"; "--scope=nodes"])
    as (_ & _ & _ & H & _).
  - right. left. reflexivity.
  - split; [exact H|reflexivity].
Defined.

(** ** [cluster_edit] and [get_cib] *)

Lemma edit_args_one h (pcs_options : gmap string string) (argv : list string) :
  (length argv <= 1)%nat ->
  (exists scope_arg,
     edit_args h pcs_options argv None EmptyString
     = cret (chosen_scope pcs_options argv, scope_arg)
     /\ (scope_arg = EmptyString
         /\ (argv = [] \/ Py.has_key "--config" pcs_options = true)
         \/ Py.has_key "--config" pcs_options = false
            /\ argv = [scope_arg]
            /\ exists v, PyStr.split1 "=" scope_arg = Some ("scope", v)))
  \/ (exists s, edit_args h pcs_options argv None EmptyString = ([s], None)
                /\ is_cib_replace s = false).
Proof.
  destruct argv as [|arg [|arg' rest]]; cbn [length]; [| |lia]; intros _.
  - left. exists EmptyString. cbn [edit_args]. unfold chosen_scope.
    destruct (Py.has_key "--config" pcs_options); split; auto.
  - cbn [edit_args].
    destruct (PyStr.split1 "=" arg) as [[k v]|] eqn:Hsplit.
    2:{ right. eexists. split; reflexivity. }
    destruct (String.eqb_spec k "scope") as [->|Hk]; cbn [andb].
    2:{ right. eexists. split; reflexivity. }
    destruct (Py.has_key "--config" pcs_options) eqn:Hconfig; cbn [negb].
    { right. eexists. split; reflexivity. }
    destruct (is_valid_cib_scope h v); cbn [negb].
    2:{ right. eexists. split; reflexivity. }
    left. exists arg. unfold chosen_scope. rewrite Hconfig.
    change (omap (value_of "scope") [arg])
      with (match value_of "scope" arg with Some y => [y] | None => [] end).
    unfold value_of. rewrite Hsplit. cbn [String.eqb Ascii.eqb Bool.eqb last].
    split; [reflexivity|]. right. split; [reflexivity|].
    split; [reflexivity|]. exists v. reflexivity.
Qed.

(** X20: when [cluster_edit] replaces the CIB, it pushes the temporary
    file with the scope the CIB was fetched with: [configuration] with
    [--config], the scope of its [scope=] argument otherwise, none when
    there is neither.  It does so only when [$EDITOR] is set, the editor
    could be run and the text has been changed. *)
Theorem edit_pushes_fetched_scope w h (pcs_options : gmap string string)
    (argv : list string) :
  let m := cluster_edit w h pcs_options argv in
  forall command_line,
    In (Did (Run ("cibadmin" :: command_line))) (steps m) ->
    exists editor cib newcib,
      let scope := chosen_scope pcs_options argv in
      EDITOR h = Some editor
      /\ In (Call "get_cib" (option_list scope)) (steps m)
      /\ get_cib_text h scope = Some cib
      /\ edit h editor cib = Some newcib
      /\ newcib <> cib
      /\ command_line
         = ["--replace"; "--xml-file"; temp_name h]
             ++ match scope with
                | Some (String c scope) => ["--scope=" +:+ String c scope]
                | _ => []
                end.
Proof.
  cbv zeta. intros command_line. unfold cluster_edit.
  destruct (EDITOR h) as [editor|];
    [|intros H; run_steps in H; step_cases H].
  destruct (Nat.ltb_spec 1 (length argv)) as [Hlen|Hlen]; cbn [cwhen];
    [intros H; run_steps in H; step_cases H|].
  rewrite cbind_cret.
  destruct (edit_args_one h pcs_options argv Hlen)
    as [(scope_arg & -> & Hshape)|(s & -> & Hs)].
  2:{ intros H. run_steps in H. destruct H as [H|[]]. subst s.
      cbn in Hs. discriminate Hs. }
  rewrite cbind_cret. unfold ask_or_exit.
  destruct (get_cib_text h (chosen_scope pcs_options argv)) as [cib|] eqn:Hcib;
    [|intros H; run_steps in H; step_cases H].
  unfold ask. cbn [cbind].
  destruct (edit h editor cib) as [newcib|] eqn:Hedit.
  2:{ intros H. run_steps in H. step_cases H. }
  destruct (String.eqb_spec newcib cib) as [->|Hnew].
  { intros H. run_steps in H. step_cases H. }
  intros Hin.
  remember (cluster_push w h pcs_options
              (List.filter Py.truthy_str [temp_name h; scope_arg]))
    as push eqn:Hp.
  destruct push as [tr r]. run_steps in Hin.
  assert (Hpush : In (Did (Run ("cibadmin" :: command_line)))
                    (steps (cluster_push w h pcs_options
                              (List.filter Py.truthy_str
                                 [temp_name h; scope_arg])))).
  { rewrite <- Hp. step_cases Hin. exact Hin. }
  exists editor, cib, newcib. split; [reflexivity|].
  split; [run_steps; left; reflexivity|].
  split; [first [reflexivity|exact Hcib]|].
  split; [first [reflexivity|exact Hedit]|].
  split; [exact Hnew|]. clear Hin Hp.
  destruct (push_shape w h pcs_options _ command_line Hpush)
    as (_ & _ & _ & _ & filename & Hfile & Hne & ->). clear Hpush.
  destruct Hshape as [[-> Hargv]|(Hconfig & -> & v & Hsplit)].
  - cbn [List.filter Py.truthy_str] in Hfile |- *.
    destruct (temp_name h) as [|c name] eqn:Hname;
      cbn [List.filter Py.truthy_str] in Hfile |- *; [discriminate|].
    unfold last_plain in Hfile. cbn [List.filter] in Hfile.
    destruct (has_char "=" (String c name)) eqn:Hplain;
      cbn [negb last] in Hfile; [discriminate|].
    injection Hfile as <-. f_equal.
    assert (Hscope : chosen_scope pcs_options [String c name]
                     = chosen_scope pcs_options argv).
    { unfold chosen_scope.
      destruct (Py.has_key "--config" pcs_options) eqn:Hconfig;
        [reflexivity|].
      destruct Hargv as [->|Hc]; [|discriminate].
      change (omap (value_of "scope") [String c name])
        with (match value_of "scope" (String c name) with
              | Some y => [y]
              | None => []
              end).
      unfold value_of. apply split1_none in Hplain. rewrite Hplain.
      reflexivity. }
    rewrite Hscope. reflexivity.
  - assert (Harg : Py.truthy_str scope_arg = true).
    { destruct scope_arg; [discriminate Hsplit|reflexivity]. }
    assert (Hnot : has_char "=" scope_arg = true).
    { destruct (has_char "=" scope_arg) eqn:E; [reflexivity|].
      apply split1_none in E. congruence. }
    cbn [List.filter] in Hfile |- *. rewrite Harg in Hfile |- *.
    destruct (temp_name h) as [|c name] eqn:Hname;
      cbn [List.filter Py.truthy_str] in Hfile |- *.
    { unfold last_plain in Hfile. cbn [List.filter] in Hfile.
      rewrite Hnot in Hfile. discriminate. }
    unfold last_plain in Hfile. cbn [List.filter] in Hfile.
    rewrite Hnot in Hfile. cbn [negb] in Hfile.
    destruct (has_char "=" (String c name)) eqn:Hplain;
      cbn [negb last] in Hfile; [discriminate|].
    injection Hfile as <-. f_equal.
    assert (Hscope : chosen_scope pcs_options [String c name; scope_arg]
                     = chosen_scope pcs_options [scope_arg]).
    { unfold chosen_scope. rewrite Hconfig.
      change (omap (value_of "scope") [String c name; scope_arg])
        with (match value_of "scope" (String c name) with
              | Some y => y :: omap (value_of "scope") [scope_arg]
              | None => omap (value_of "scope") [scope_arg]
              end).
      unfold value_of at 1. apply split1_none in Hplain. rewrite Hplain.
      reflexivity. }
    rewrite Hscope. reflexivity.
Qed.

Lemma edit_pushes_fetched_scope_witness :
  exists editor cib newcib,
    get_cib_text calm_host (Some "nodes") = Some cib
    /\ edit calm_host editor cib = Some newcib
    /\ newcib <> cib
    /\ In (Call "get_cib" ["nodes"])
         (steps (cluster_edit calm_world calm_host no_option ["scope=nodes"])).
Proof.
  destruct (edit_pushes_fetched_scope calm_world calm_host no_option
              ["scope=nodes"]
              ["--replace"; "--xml-file"; "/tmp/tmpcib"; "--scope=nodes"])
    as (editor & cib & newcib & _ & Hin & Hcib & Hedit & Hnew & _).
  - do 3 right. left. reflexivity.
  - exists editor, cib, newcib. repeat split; assumption.
Defined.

(** X21: [get_cib] with a file name opens the file for writing before it
    reads the CIB, so that an empty CIB ends in the error ["No data in
    the CIB"] with the file emptied and nothing written; what it writes
    is the text of the CIB, which is then not empty.  Without a file
    name it shows the text whatever it is, an empty one too. *)
Theorem get_cib_outcome h (pcs_options : gmap string string)
    (argv : list string) :
  (length argv <= 2)%nat ->
  forallb (cib_arg_ok h pcs_options) argv = true ->
  let m := get_cib h pcs_options argv in
  let scope := chosen_scope pcs_options argv in
  match last_plain argv with
  | Some (String c name) =>
      let filename := String c name in
      (exists rest, steps m = Call "open" [filename; "w"] :: rest)
      /\ (open_for_writing h filename = None ->
          get_cib_text h scope = Some EmptyString ->
          m = ([Call "open" [filename; "w"];
                Call "get_cib" (option_list scope);
                Did (Err "No data in the CIB")], None))
      /\ (forall text,
            In (Call "write" [filename; text]) (steps m) ->
            text <> EmptyString
            /\ get_cib_text h scope = Some text
            /\ open_for_writing h filename = None)
  | _ =>
      forall text,
        get_cib_text h scope = Some text ->
        m = ([Call "get_cib" (option_list scope); Output text], Some tt)
  end.
Proof.
  intros Hlen Hargs. cbv zeta. unfold get_cib.
  destruct (Nat.ltb_spec 2 (length argv)) as [Hlt|_]; [lia|].
  cbn [cwhen]. rewrite cbind_cret.
  rewrite (cib_args_good h pcs_options "cib" argv Hargs), cbind_cret.
  destruct (last_plain argv) as [[|c name]|]; cbn [truthy_opt Py.truthy_str negb].
  - intros text ->. reflexivity.
  - cbn [from_option id]. unfold ask, ask_or_exit. cbn [cbind].
    destruct (open_for_writing h (String c name)) as [strerror|].
    + run_steps. split; [eexists; reflexivity|]. split; [discriminate|].
      intros text H. step_cases H.
    + destruct (get_cib_text h (chosen_scope pcs_options argv)) as [output|].
      2:{ run_steps. split; [eexists; reflexivity|]. split; [discriminate|].
          intros text H. step_cases H. }
      destruct (String.eqb_spec output EmptyString) as [->|Hne]; cbn [negb].
      * run_steps. split; [eexists; reflexivity|]. split; [reflexivity|].
        intros text H. step_cases H.
      * destruct (file_write h (String c name) output); run_steps;
          (split; [eexists; reflexivity|]);
          (split; [intros _ [= ->]; contradiction|]);
          intros text H; cbn [In] in H;
          destruct H as [H|[H|[H|H]]]; try discriminate;
          try (injection H as <-; auto);
          step_cases H.
  - intros text ->. reflexivity.
Qed.

Lemma get_cib_outcome_witness :
  get_cib empty_cib_host no_option ["out.xml"]
  = ([Call "open" ["out.xml"; "w"]; Call "get_cib" [];
      Did (Err "No data in the CIB")], None).
Proof.
  pose proof (get_cib_outcome empty_cib_host no_option ["out.xml"]) as H.
  cbv zeta in H.
  specialize (H ltac:(cbn; lia) eq_refl).
  change (last_plain ["out.xml"]) with (Some "out.xml") in H.
  destruct H as (_ & H & _). exact (H eq_refl eq_refl).
Defined.

(** ** [cluster_node]: the checks before a node is added or removed *)

Ltac harmless Hin Hs :=
  run_steps in Hin; cbn [In] in Hin;
  repeat (destruct Hin as [Hin|Hin]; [subst; discriminate Hs|]);
  destruct Hin.

(** X22: [cluster_node] changes nothing in the cluster (no member is
    asked to take a node in or to drop one, nothing is stopped or
    destroyed) unless it has exactly two arguments, the node has a ring 0
    address and, to add it, pcsd on the node answers as authorized, a
    ring 1 address is given exactly when the cluster uses RRP, and the
    node can be added; to remove it, the node is authorized or [--force]
    is given. *)
Theorem node_command_guards w h (pcs_options : gmap string string)
    (argv : list string) s :
  In s (steps (cluster_node w h pcs_options argv)) ->
  changes_cluster s = true ->
  exists command node node0 node1,
    argv = [command; node]
    /\ parse_multiring_node h node = Some (node0, node1)
    /\ node0 <> EmptyString
    /\ (command = "add"
        /\ fst (checkAuthorization h node0) = 0%Z
        /\ truthy_opt node1 = need_ring1_address h (getCorosyncConf h)
        /\ fst (canAddNodeToCluster h node0) = true
        \/ Py.in_tuple command ["remove"; "delete"] = true
           /\ (Py.has_key "--force" pcs_options = true
               \/ fst (checkAuthorization h node0) = 0%Z)).
Proof.
  unfold cluster_node, wait_option. intros Hin Hs.
  destruct argv as [|command [|node [|x rest]]];
    [harmless Hin Hs|harmless Hin Hs| |harmless Hin Hs].
  exists command, node.
  destruct (String.eqb_spec command "add") as [->|Hadd].
  - run_steps in Hin.
    destruct (parse_multiring_node h node) as [[node0 node1]|];
      [|harmless Hin Hs].
    exists node0, node1.
    destruct node0 as [|c node0]; [harmless Hin Hs|].
    cbn [Py.truthy_str orb] in Hin. run_steps in Hin.
    destruct (checkAuthorization h (String c node0)) as [status output].
    destruct (Z.eqb_spec status 0) as [->|Hstatus]; [|harmless Hin Hs].
    run_steps in Hin.
    destruct (Py.has_key "--start" pcs_options
              && Py.has_key "--wait" pcs_options).
    + destruct (validate_wait_get_timeout h false) as [wait_timeout|];
        [|harmless Hin Hs].
      run_steps in Hin.
      destruct (truthy_opt node1) eqn:Hnode1;
        destruct (need_ring1_address h (getCorosyncConf h)) eqn:Hneed;
        cbn [negb andb] in Hin; try (harmless Hin Hs);
        run_steps in Hin;
        (destruct (canAddNodeToCluster h (String c node0)) as [canAdd error];
         destruct canAdd; [|harmless Hin Hs]);
        (split; [reflexivity|]); (split; [reflexivity|]);
        (split; [discriminate|]); left; repeat split; reflexivity.
    + run_steps in Hin.
      destruct (truthy_opt node1) eqn:Hnode1;
        destruct (need_ring1_address h (getCorosyncConf h)) eqn:Hneed;
        cbn [negb andb] in Hin; try (harmless Hin Hs);
        run_steps in Hin;
        (destruct (canAddNodeToCluster h (String c node0)) as [canAdd error];
         destruct canAdd; [|harmless Hin Hs]);
        (split; [reflexivity|]); (split; [reflexivity|]);
        (split; [discriminate|]); left; repeat split; reflexivity.
  - destruct (Py.in_tuple command ["remove"; "delete"]) eqn:Hremove;
      [|harmless Hin Hs].
    run_steps in Hin.
    destruct (parse_multiring_node h node) as [[node0 node1]|];
      [|harmless Hin Hs].
    exists node0, node1.
    destruct node0 as [|c node0]; [harmless Hin Hs|].
    split; [reflexivity|]. split; [reflexivity|]. split; [discriminate|].
    right. split; [reflexivity|].
    destruct (Py.has_key "--force" pcs_options); [left; reflexivity|].
    right. cbn [Py.truthy_str orb] in Hin. run_steps in Hin.
    destruct (checkAuthorization h (String c node0)) as [status output].
    destruct (Z.eqb_spec status 0) as [->|Hstatus]; [reflexivity|].
    harmless Hin Hs.
Qed.

Lemma node_command_guards_witness :
  exists command node node0 node1,
    ["add"; "node4"] = [command; node]
    /\ parse_multiring_node calm_host node = Some (node0, node1)
    /\ node0 <> EmptyString.
Proof.
  destruct (node_command_guards calm_world calm_host no_option
              ["add"; "node4"] (Did (AddLocalNode "node1" "node4" None)))
    as (command & node & node0 & node1 & Hargv & Hparse & Hnode & _).
  - do 4 right. left. reflexivity.
  - reflexivity.
  - exists command, node, node0, node1. repeat split; assumption.
Defined.

(** ** [cluster_localnode] *)

Lemma path_join_nonempty a b :
  Py.truthy_str b = true -> Py.truthy_str (PyStr.path_join a b) = true.
Proof.
  intros Hb. unfold PyStr.path_join. destruct a as [|c a]; [exact Hb|].
  destruct (String.eqb _ "/"); reflexivity.
Qed.

(** X23: [pcs cluster localnode remove] (or [delete]) leaves
    [utils.usefile] and [utils.filename] as it found them.  It runs one
    command at most, [cibadmin --delete-all] for the node, and runs it
    on a file: the file in use, or the CIB on disk when no file is in
    use and pacemaker is not running.  It does so whether the node
    could be removed from the configuration or not, and it ends in a
    fatal error exactly when the node could not be removed. *)
Theorem localnode_remove w h (command node : string) :
  Py.in_tuple command ["remove"; "delete"] = true ->
  let m := cluster_localnode w h [command; node] in
  let globals := (usefile h, filename h) in
  globals_after globals (steps m) = globals
  /\ runs_under globals (steps m)
     = match cib_file_target h with
       | Some file =>
           [((true, file),
             ["cibadmin"; "--delete-all"; "--force";
              "--xpath=/cib/configuration/nodes/node[@uname='" +:+ node
                +:+ "']"])]
       | None => []
       end
  /\ quits m = negb (removed_locally w h node).
Proof.
  intros Hcommand. cbv zeta. unfold cluster_localnode.
  assert (Hadd : String.eqb command "add" = false).
  { destruct (String.eqb_spec command "add") as [->|]; [discriminate|].
    reflexivity. }
  rewrite Hadd, Hcommand. unfold removed_locally, cib_file_target,
    remove_from_cib_file.
  assert (Hjoin := path_join_nonempty (cib_dir h) "cib.xml" eq_refl).
  destruct (PyStr.path_join (cib_dir h) "cib.xml") as [|c file];
    [discriminate|]. clear Hjoin.
  destruct (negb (is_rhel6 w));
    [destruct (removeNodeFromCorosync h node)
    |destruct (removeNodeFromClusterConf h node)];
    (destruct (usefile h);
     [destruct (filename h) as [|c' name]
     |destruct (is_service_running h "pacemaker")]);
    run_steps; cbn [Py.truthy_str];
    try (destruct (run w _) as [output retval]);
    repeat split; reflexivity.
Qed.

Lemma localnode_remove_witness :
  let m := cluster_localnode calm_world calm_host ["remove"; "node3"] in
  runs_under (false, EmptyString) (steps m)
  = [((true, "/var/lib/pacemaker/cib/cib.xml"),
      ["cibadmin"; "--delete-all"; "--force";
       "--xpath=/cib/configuration/nodes/node[@uname='node3']"])]
  /\ quits m = false.
Proof.
  destruct (localnode_remove calm_world calm_host "remove" "node3" eq_refl)
    as (_ & Hruns & Hquits).
  split; [exact Hruns|exact Hquits].
Defined.

(** ** [auth_nodes] *)

Lemma check_nodes_spec h (set_nodes todo : list string) :
  existsb (node_crashes h set_nodes) todo = false ->
  exists pre,
    check_nodes h set_nodes todo
    = (pre, Some (negb (forallb (node_authorized h set_nodes) todo)))
    /\ forallb is_authorization_check pre = true
    /\ (forallb (node_authorized h set_nodes) todo = true ->
        pre = map (fun node => Call "checkAuthorization" [node]) todo).
Proof.
  induction todo as [|node rest IH]; cbn [existsb forallb check_nodes].
  - intros _. exists []. repeat split; reflexivity.
  - intros H. apply orb_false_iff in H as [Hnode Hrest].
    destruct (IH Hrest) as (pre & Hpre & Hcalls & Hall).
    unfold node_crashes in Hnode. unfold node_authorized at 1 3.
    unfold ask. cbn [cbind].
    assert (H3 : (fst (checkAuthorization h node) =? 3)%Z = true ->
                 mutually_authorized h set_nodes (checkAuthorization h node)
                 = inr false).
    { intros H. apply Z.eqb_eq in H. unfold mutually_authorized.
      rewrite H. reflexivity. }
    destruct (fst (checkAuthorization h node) =? 3)%Z.
    + rewrite (H3 eq_refl). cbn [andb negb cret app].
      eexists. split; [reflexivity|]. split; [reflexivity|discriminate].
    + destruct (mutually_authorized h set_nodes (checkAuthorization h node))
        as [e|[|]]; [discriminate| |].
      * rewrite Hpre. cbn [andb app map].
        eexists. split; [reflexivity|]. split; [exact Hcalls|].
        intros Hr. rewrite (Hall Hr). reflexivity.
      * cbn [andb negb cret app].
        eexists. split; [reflexivity|]. split; [reflexivity|discriminate].
Qed.

Lemma already_authorized_steps (nodes : list string) :
  already_authorized nodes
  = (map (fun node => Did (Print (node +:+ ": Already authorized"))) nodes,
     Some tt).
Proof.
  induction nodes as [|node rest IH]; [reflexivity|].
  cbn [already_authorized map]. rewrite IH. reflexivity.
Qed.

Lemma authorized_answer h (set_nodes : list string) node text
    (d : gmap string json) success (l : list string) :
  checkAuthorization h node = (0%Z, text) ->
  loads h text = Some (JDict d) ->
  d !! "success" = Some success ->
  d !! "node_list" = Some (JList (map JStr l)) ->
  node_crashes h set_nodes node = false
  /\ node_authorized h set_nodes node
     = PyValue.truthy success
       && forallb (fun n => existsb (fun s => String.eqb s n) l) set_nodes.
Proof.
  intros Hstatus Hloads Hsuccess Hlist.
  unfold node_crashes, node_authorized, mutually_authorized.
  rewrite Hstatus. cbn [fst snd Z.eqb]. rewrite Hloads.
  cbn [PyValue.getitem]. rewrite Hsuccess, Hlist.
  destruct (PyValue.truthy success); [|split; reflexivity].
  cbn [py_set andb].
  assert (Hhash : forallb hashable (map JStr l) = true).
  { clear. induction l as [|x l IH]; [reflexivity|exact IH]. }
  rewrite Hhash. split; [reflexivity|]. unfold issubset.
  assert (Hin : forall n,
    existsb (fun x => match x with
                      | JStr s => String.eqb s n
                      | _ => false
                      end) (map JStr l)
    = existsb (fun s => String.eqb s n) l).
  { intros n. clear. induction l as [|x l IH]; [reflexivity|].
    cbn [map existsb]. rewrite IH. reflexivity. }
  clear -Hin. induction set_nodes as [|n rest IH]; [reflexivity|].
  cbn [forallb]. rewrite Hin, IH. reflexivity.
Qed.

(** X24: [auth_nodes] works on the set of the nodes, in the order in
    which the set is gone through.  With [--force], a user name or a
    password on the command line it asks no node whether it is
    authorized and authenticates at once.  Otherwise, provided no answer
    makes the check raise an exception: when every node answers that it
    is authorized against all the nodes, each node of the set is asked
    in that order and then reported as already authorized in that
    order, and nobody is authenticated; when a node does not, the run
    ends with the authentication against all the nodes.  The user name
    and the password are those of the command line, each asked for at
    the terminal only when it is not given, an empty one being taken as
    it is.  A node counts as authorized when pcsd answers with status 0
    and a JSON dictionary whose ["success"] is true and whose
    ["node_list"] holds every node. *)
Theorem auth_nodes_decision h (pcs_options : gmap string string)
    (nodes : list string) :
  let m := auth_nodes h pcs_options nodes in
  let set_nodes := iter_set h nodes in
  (credentials_given pcs_options = true ->
   m = (terminal_prompts pcs_options
          ++ [auth_nodes_do_call h pcs_options set_nodes],
        Some tt))
  /\ (credentials_given pcs_options = false ->
      existsb (node_crashes h set_nodes) set_nodes = false ->
      if forallb (node_authorized h set_nodes) set_nodes then
        m = (map (fun node => Call "checkAuthorization" [node]) set_nodes
               ++ map (fun node => Did (Print (node +:+ ": Already authorized")))
                    set_nodes,
             Some tt)
      else
        exists checks,
          m = (checks ++ terminal_prompts pcs_options
                 ++ [auth_nodes_do_call h pcs_options set_nodes],
               Some tt)
          /\ forallb is_authorization_check checks = true)
  /\ (forall node text (d : gmap string json) success (l : list string),
        checkAuthorization h node = (0%Z, text) ->
        loads h text = Some (JDict d) ->
        d !! "success" = Some success ->
        d !! "node_list" = Some (JList (map JStr l)) ->
        node_crashes h set_nodes node = false
        /\ node_authorized h set_nodes node
           = PyValue.truthy success
             && forallb (fun n => existsb (fun s => String.eqb s n) l)
                  set_nodes).
Proof.
  cbv zeta. split; [|split].
  - unfold credentials_given, auth_nodes, auth_nodes_do_call, terminal_prompts.
    intros ->. rewrite cbind_cret.
    destruct (pcs_options !! "-u") as [username|];
      destruct (pcs_options !! "-p") as [password|];
      run_steps; cbn [from_option id]; reflexivity.
  - unfold credentials_given, auth_nodes, auth_nodes_do_call, terminal_prompts.
    intros Hcreds Hcrash. rewrite Hcreds.
    destruct (check_nodes_spec h _ _ Hcrash) as (pre & -> & Hcalls & Hall).
    destruct (forallb (node_authorized h _) _).
    + rewrite (Hall eq_refl). cbn [negb cbind].
      rewrite already_authorized_steps. reflexivity.
    + cbn [negb cbind]. exists pre. split; [|exact Hcalls].
      destruct (pcs_options !! "-u") as [username|];
        destruct (pcs_options !! "-p") as [password|];
        run_steps; cbn [from_option id]; reflexivity.
  - intros node text d success l. apply authorized_answer.
Qed.

Lemma auth_nodes_decision_witness :
  iter_set calm_host ["node1"; "node1"] = ["node1"]
  /\ auth_nodes calm_host login_options ["node1"; "node1"]
     = ([Call "auth_nodes_do"
           ["node1"; "hacluster"; "secret"; "False"; "False"]],
        Some tt)
  /\ auth_nodes calm_host no_option ["node1"; "node1"]
     = ([Call "checkAuthorization" ["node1"];
         Did (Print "node1: Already authorized")],
        Some tt).
Proof.
  split; [vm_compute; reflexivity|]. split.
  - destruct (auth_nodes_decision calm_host login_options
                ["node1"; "node1"]) as (H & _).
    specialize (H eq_refl). vm_compute in H. vm_compute. exact H.
  - destruct (auth_nodes_decision calm_host no_option
                ["node1"; "node1"]) as (_ & H & _).
    specialize (H eq_refl eq_refl). vm_compute in H. vm_compute. exact H.
Defined.

(** ** [start_cluster] *)

Lemma service_runs_app (tr1 tr2 : list step) :
  service_runs (tr1 ++ tr2) = service_runs tr1 ++ service_runs tr2.
Proof. apply flat_map_app. Qed.

Lemma starts_bind w (m1 m2 : Cmd unit) plan1 plan2 :
  starts w m1 plan1 -> starts w m2 plan2 ->
  starts w (cbind m1 (fun _ => m2)) (plan1 ++ plan2).
Proof.
  intros (Hpre1 & Hall1 & Hlast1) (Hpre2 & Hall2 & Hlast2). unfold starts.
  destruct m1 as [tr1 [[]|]]; destruct m2 as [tr2 r2];
    cbn [cbind steps fst quits snd] in *.
  - destruct (Hall1 eq_refl) as [Hran1 Hfine1].
    rewrite service_runs_app, Hran1. split; [|split].
    + destruct Hpre2 as [rest ->]. exists rest. rewrite app_assoc. reflexivity.
    + intros Hr2. destruct (Hall2 Hr2) as [-> Hfine2].
      split; [reflexivity|]. rewrite forallb_app, Hfine1, Hfine2. reflexivity.
    + intros done last Hran.
      destruct (service_runs tr2) as [|c ran2] eqn:Hran2 using rev_ind.
      * rewrite app_nil_r in Hran. rewrite Hran, forallb_app in Hfine1.
        apply andb_prop in Hfine1 as [Hdone _]. exact Hdone.
      * rewrite app_assoc in Hran. apply app_inj_tail in Hran as [<- <-].
        rewrite forallb_app, Hfine1. cbn [andb]. apply (Hlast2 _ c eq_refl).
  - split; [|split].
    + destruct Hpre1 as [rest ->]. exists (rest ++ plan2).
      rewrite app_assoc. reflexivity.
    + discriminate.
    + exact Hlast1.
Qed.

Lemma starts_quiet w (m : Cmd unit) :
  service_runs (steps m) = [] -> starts w m [].
Proof.
  intros Hnone. unfold starts. rewrite Hnone. split; [|split].
  - exists []. reflexivity.
  - intros _. split; reflexivity.
  - intros done last Hran. destruct done; discriminate.
Qed.

Lemma starts_nothing w (m : Cmd unit) plan :
  service_runs (steps m) = [] -> quits m = true -> starts w m plan.
Proof.
  intros Hnone Hquits. unfold starts. rewrite Hnone, Hquits. split; [|split].
  - exists plan. reflexivity.
  - discriminate.
  - intros done last Hran. destruct done; discriminate.
Qed.

Lemma starts_service w service :
  starts w
    (cbind (exec w ["service"; service; "start"])
       (fun r =>
          let '(output, retval) := r in
          cwhen (negb (retval =? 0)%Z)
            (cbind (say output)
               (fun _ => fail ("unable to start " +:+ service)))))
    [["service"; service; "start"]].
Proof.
  unfold starts, runs_fine. run_steps. cbn [forallb].
  destruct (run w ["service"; service; "start"]) as [output retval].
  cbn [snd]. destruct (retval =? 0)%Z; run_steps; cbn.
  - split; [exists []; reflexivity|]. split; [intros _; split; reflexivity|].
    intros done last Hran.
    destruct done as [|c [|c' done]]; [reflexivity|discriminate|discriminate].
  - split; [exists []; reflexivity|]. split; [discriminate|].
    intros done last Hran.
    destruct done as [|c [|c' done]]; [reflexivity|discriminate|discriminate].
Qed.

Lemma starts_services w (service_list : list string) :
  starts w (start_services w service_list)
    (map (fun service => ["service"; service; "start"]) service_list).
Proof.
  induction service_list as [|service rest IH]; cbn [start_services map].
  - apply starts_quiet. reflexivity.
  - assert (Hstep :
      start_services w (service :: rest)
      = cbind
          (cbind (exec w ["service"; service; "start"])
             (fun r =>
                let '(output, retval) := r in
                cwhen (negb (retval =? 0)%Z)
                  (cbind (say output)
                     (fun _ => fail ("unable to start " +:+ service)))))
          (fun _ => start_services w rest)).
    { cbn [start_services]. run_steps.
      destruct (run w ["service"; service; "start"]) as [output retval].
      destruct (negb (retval =? 0)%Z); run_steps; [reflexivity|].
      destruct (start_services w rest). reflexivity. }
    cbn [start_services] in Hstep. rewrite Hstep.
    apply (starts_bind w _ _ [["service"; service; "start"]]); [|exact IH].
    apply starts_service.
Qed.

Lemma wait_runs_nothing w (nodes : list string) timeout :
  service_runs (map Did (trace (wait_for_nodes_started w nodes timeout))) = [].
Proof.
  unfold wait_for_nodes_started, print, call, parallel_for_nodes, call.
  cbn [bind]. destruct (negb (nonempty nodes)).
  - cbn [bind].
    destruct (wait_for_local_node_started _ _ _ _) as [[[code output|e] t]|];
      [destruct (negb (code =? 0)%Z)| |]; reflexivity.
  - cbn [bind]. destruct (nonempty (error_list_of _ nodes)); reflexivity.
Qed.

Lemma cbind_assoc {A B C} (m : Cmd A) (f : A -> Cmd B) (g : B -> Cmd C) :
  cbind (cbind m f) g = cbind m (fun a => cbind (f a) g).
Proof.
  destruct m as [tr [a|]]; [|reflexivity]. cbn [cbind].
  destruct (f a) as [tr1 [b|]]; [|reflexivity]. cbn [cbind].
  destruct (g b) as [tr2 c]. rewrite app_assoc. reflexivity.
Qed.

Lemma starts_ask {A} w (s : step) (a : A) (k : A -> Cmd unit) plan :
  service_runs [s] = [] -> starts w (k a) plan ->
  starts w (cbind (ask s a) k) plan.
Proof.
  intros Hs (Hpre & Hall & Hlast). unfold starts, ask. cbn [cbind].
  destruct (k a) as [tr r]. cbn [steps fst quits snd] in *.
  change (s :: tr) with ([s] ++ tr). rewrite service_runs_app, Hs.
  auto.
Qed.

Lemma starts_local w h (wait : bool) wait_timeout :
  starts w
    (say "Starting Cluster..." ;;
     (if is_rhel6 w then
        retval <- ask (Call "getstatusoutput"
                         ["source /etc/sysconfig/cman ; [ -z " +:+ dquote
                            +:+ "$CMAN_QUORUM_TIMEOUT" +:+ dquote +:+ " ]"])
                    (cman_quorum_timeout_test h) ;;
        cwhen (retval =? 0)%Z
          (ask (Call "append"
                  ["/etc/sysconfig/cman";
                   nl +:+ "CMAN_QUORUM_TIMEOUT=0" +:+ nl]) tt) ;;
        r <- exec w ["service"; "cman"; "start"] ;;
        let '(output, retval) := r in
        cwhen (negb (retval =? 0)%Z) (say output ;; fail "unable to start cman")
      else cret tt) ;;
     start_services w
       ((if is_rhel6 w then []
         else ["corosync"]
                ++ (if need_to_handle_qdevice_service w
                    then ["corosync-qdevice"] else []))
          ++ ["pacemaker"]) ;;
     cwhen wait (lift (wait_for_nodes_started w [] wait_timeout)))%cmd
    (map (fun service => ["service"; service; "start"]) (start_order w)).
Proof.
  assert (Hwait :
    starts w (cwhen wait (lift (wait_for_nodes_started w [] wait_timeout))) []).
  { apply starts_quiet. destruct wait; [|reflexivity]. apply wait_runs_nothing. }
  unfold start_order.
  apply (starts_bind w _ _ []); [apply starts_quiet; reflexivity|].
  destruct (is_rhel6 w).
  - apply (starts_bind w _ _ [["service"; "cman"; "start"]]).
    + apply starts_ask; [reflexivity|].
      apply (starts_bind w _ _ []).
      * apply starts_quiet. destruct (cman_quorum_timeout_test h =? 0)%Z;
          reflexivity.
      * exact (starts_service w "cman").
    + apply (starts_bind w _ _ [["service"; "pacemaker"; "start"]] []);
        [apply (starts_services w ["pacemaker"])|exact Hwait].
  - apply (starts_bind w _ _ []); [apply starts_quiet; reflexivity|].
    destruct (need_to_handle_qdevice_service w).
    + apply (starts_bind w _ _
               (map (fun service => ["service"; service; "start"])
                  ["corosync"; "corosync-qdevice"; "pacemaker"]) []);
        [apply starts_services|exact Hwait].
    + apply (starts_bind w _ _
               (map (fun service => ["service"; service; "start"])
                  ["corosync"; "pacemaker"]) []);
        [apply starts_services|exact Hwait].
Qed.

(** X25: a local [pcs cluster start] starts the services in a fixed
    order, cman or corosync and corosync-qdevice first and pacemaker
    last, which is the order of a local stop reversed.  What it runs is
    always a beginning of that list, all of it when the command comes
    back, and every command before the last one run succeeded.  With
    nodes as arguments no service is started on the local node. *)
Theorem start_order_reverses_stop w h (pcs_options : gmap string string) :
  let m := start_cluster w h pcs_options [] in
  let plan :=
    map (fun service => ["service"; service; "start"]) (start_order w) in
  (exists rest, plan = service_runs (steps m) ++ rest)
  /\ (quits m = false ->
      service_runs (steps m) = plan /\ forallb (runs_fine w) plan = true)
  /\ (forall done last,
        service_runs (steps m) = done ++ [last] ->
        forallb (runs_fine w) done = true)
  /\ map service_name (local_stop_commands w ∅) = rev (start_order w)
  /\ (forall argv,
        nonempty argv = true ->
        service_runs (steps (start_cluster w h pcs_options argv)) = []).
Proof.
  cbv zeta.
  assert (Hstarts :
    starts w (start_cluster w h pcs_options [])
      (map (fun service => ["service"; service; "start"]) (start_order w))).
  { unfold start_cluster, wait_option. cbn [nonempty].
    destruct (Py.has_key "--wait" pcs_options).
    - unfold ask_or_exit.
      destruct (validate_wait_get_timeout h false) as [timeout|].
      + change (ask_or_exit (Call "validate_wait_get_timeout" ["False"])
                  (Some timeout))
          with (ask (Call "validate_wait_get_timeout" ["False"]) timeout).
        rewrite cbind_assoc. apply starts_ask; [reflexivity|].
        rewrite cbind_cret. apply starts_local.
      + apply starts_nothing; reflexivity.
    - rewrite cbind_cret. apply starts_local. }
  destruct Hstarts as (Hpre & Hall & Hlast).
  split; [exact Hpre|]. split; [exact Hall|]. split; [exact Hlast|]. split.
  - unfold local_stop_commands, start_order.
    destruct (is_rhel6 w); destruct (need_to_handle_qdevice_service w);
      destruct (negb (is_systemctl w) && is_cman_cluster w); reflexivity.
  - intros argv Hargv. unfold start_cluster, wait_option, start_cluster_nodes.
    rewrite Hargv.
    destruct (Py.has_key "--wait" pcs_options).
    + unfold ask_or_exit.
      destruct (validate_wait_get_timeout h false) as [timeout|];
        [|reflexivity].
      run_steps. destruct (nonempty (error_list_of (startCluster w) argv));
        run_steps; [reflexivity|].
      cbn [service_runs flat_map app]. apply wait_runs_nothing.
    + run_steps. destruct (nonempty (error_list_of (startCluster w) argv));
        reflexivity.
Qed.

Lemma start_order_reverses_stop_witness :
  service_runs (steps (start_cluster calm_world calm_host no_option []))
  = [["service"; "corosync"; "start"]; ["service"; "pacemaker"; "start"]]
  /\ service_runs
       (steps (start_cluster calm_world calm_host no_option ["node1"]))
     = [].
Proof.
  destruct (start_order_reverses_stop calm_world calm_host no_option)
    as (_ & Hall & _ & _ & Hnodes).
  split.
  - exact (proj1 (Hall eq_refl)).
  - exact (Hnodes ["node1"] eq_refl).
Defined.

(** ** [cluster_destroy], [cluster_verify] and the dispatch of [stop] *)

Lemma remove_state_files_steps (names : list string) :
  remove_state_files names
  = (map (fun name => System ("find /var/lib -name '" +:+ name
                                +:+ "' -exec rm -f \{\} \;")) names,
     Some tt).
Proof.
  induction names as [|name rest IH]; [reflexivity|].
  cbn [remove_state_files map]. rewrite IH. reflexivity.
Qed.

(** X26: without [--all], [cluster_destroy] works on the local node
    only and cannot fail: whatever the commands it runs answer, it comes
    back, having shown messages, run shell commands and made calls and
    nothing else, among them the removal of cluster.conf on cman and of
    corosync.conf otherwise.  With [--all] it does nothing on the local
    node itself: it asks the nodes of the configuration to stop
    pacemaker and to destroy their configuration, ending in an error
    exactly when one of them fails to destroy it, and when the
    configuration names no node it does nothing at all. *)
Theorem destroy_command w (pcs_options : gmap string string)
    (argv : list string) :
  let m := cluster_destroy w pcs_options argv in
  let nodes := getNodesFromCorosyncConf w in
  (Py.has_key "--all" pcs_options = false ->
   quits m = false
   /\ forallb is_local_cleanup (steps m) = true
   /\ In (remove_configuration w) (steps m)
   /\ (forall name, In name state_files ->
                    In (System ("find /var/lib -name '" +:+ name
                                  +:+ "' -exec rm -f \{\} \;")) (steps m)))
  /\ (Py.has_key "--all" pcs_options = true ->
      if nonempty nodes then
        (exists rest,
           steps m = Did (StopPacemaker nodes) :: Did (DestroyCluster nodes)
                       :: rest
           /\ forallb (fun s => negb (is_local_cleanup s)) rest = true)
        /\ quits m = existsb (fails (destroyCluster w)) nodes
      else m = ([], Some tt)).
Proof.
  cbv zeta. unfold cluster_destroy, remove_configuration. split.
  - intros ->. rewrite remove_state_files_steps.
    destruct (is_rhel6 w); run_steps; cbn [state_files map app];
      (split; [reflexivity|]); (split; [reflexivity|]);
      (split; [cbn [In]; tauto|]);
      intros name Hname; cbn [In] in Hname |- *;
      repeat (destruct Hname as [<-|Hname]; [tauto|]); destruct Hname.
  - intros ->. unfold destroy_cluster, parallel_for_nodes, call, lift.
    destruct (getNodesFromCorosyncConf w) as [|node rest] eqn:Hnodes;
      [reflexivity|].
    cbn [nonempty when bind]. rewrite nonempty_error_list.
    destruct (existsb (fails (destroyCluster w)) (node :: rest));
      cbn [when utils_err ret bind app fst snd map steps quits];
      (split; [eexists; split; reflexivity|reflexivity]).
Qed.

Lemma destroy_command_witness :
  quits (cluster_destroy calm_world no_option []) = false
  /\ In (System "rm -f /etc/corosync/corosync.conf")
       (steps (cluster_destroy calm_world no_option []))
  /\ quits (cluster_destroy calm_world all_option []) = false.
Proof.
  destruct (destroy_command calm_world no_option []) as [Hlocal _].
  destruct (Hlocal eq_refl) as (Hquits & _ & Hin & _).
  destruct (destroy_command calm_world all_option []) as [_ Hall].
  specialize (Hall eq_refl).
  split; [exact Hquits|]. split; [exact Hin|].
  exact (proj2 Hall).
Defined.

(** X27: [pcs cluster stop --all] takes no notice of its arguments nor
    of [--force]: it asks no node and no local tool for the quorum
    status, and goes straight to stopping pacemaker on every node of
    the configuration, then corosync if pacemaker stopped everywhere. *)
Theorem stop_all_asks_nothing w h (pcs_options : gmap string string)
    (argv : list string) :
  Py.has_key "--all" pcs_options = true ->
  let nodes := getNodesFromCorosyncConf w in
  cluster_cmd w h pcs_options ("stop" :: argv)
  = (Did (StopPacemaker nodes)
       :: (if existsb (fails (stopPacemaker w)) nodes then
             [Did (Err ("unable to stop all nodes" +:+ nl
                          +:+ String.concat nl
                                (error_list_of (stopPacemaker w) nodes)))]
           else
             Did (StopCorosync nodes)
               :: (if existsb (fails (stopCorosync w)) nodes then
                     [Did (Err ("unable to stop all nodes" +:+ nl
                                  +:+ String.concat nl
                                        (error_list_of (stopCorosync w) nodes)))]
                   else [])),
     if existsb (fails (stopPacemaker w)) nodes
        || existsb (fails (stopCorosync w)) nodes
     then None else Some tt).
Proof.
  intros Hall. cbv zeta. unfold cluster_cmd.
  cbn [String.eqb Ascii.eqb Bool.eqb]. rewrite Hall.
  unfold stop_cluster_all, stop_cluster_nodes.
  assert (Hknown :
    bool_decide
      ((list_to_set (getNodesFromCorosyncConf w)
          ∖ list_to_set (getNodesFromCorosyncConf w) : gset string) = ∅)
    = true).
  { apply known_nodes. auto. }
  assert (Hcover :
    bool_decide
      ((list_to_set (getNodesFromCorosyncConf w) : gset string)
         ⊆ list_to_set (getNodesFromCorosyncConf w)) = true).
  { apply stopping_all_iff. auto. }
  rewrite Hknown, Hcover, andb_false_r. cbn [negb when]. rewrite !bind_ret.
  unfold parallel_for_nodes, call, lift. cbn [bind].
  rewrite !nonempty_error_list.
  destruct (existsb (fails (stopPacemaker w)) (getNodesFromCorosyncConf w));
    [reflexivity|].
  cbn [when ret bind app].
  destruct (existsb (fails (stopCorosync w)) (getNodesFromCorosyncConf w));
    reflexivity.
Qed.

Lemma stop_all_asks_nothing_witness :
  cluster_cmd calm_world calm_host all_option ["stop"; "node1"]
  = ([Did (StopPacemaker ["node1"; "node2"; "node3"]);
      Did (StopCorosync ["node1"; "node2"; "node3"])], Some tt).
Proof.
  exact (stop_all_asks_nothing calm_world calm_host all_option ["node1"]
           eq_refl).
Defined.

(** X28: [cluster_verify] always runs [crm_verify], once: on the file
    when it has exactly one argument, on the live cluster otherwise,
    with [-V] passed on.  With two arguments or more it shows the usage
    text but does not stop there: it verifies the live cluster all the
    same.  It shows the output unless it is empty, and it hands back
    the return value of [crm_verify] provided the check of the fencing
    levels comes back. *)
Theorem verify_always_runs w h (pcs_options : gmap string string)
    (argv : list string) :
  let m := cluster_verify w h pcs_options argv in
  let command_line :=
    crm_verify h
      :: (if Py.has_key "-V" pcs_options then ["-V"] else [])
      ++ match argv with
         | [filename] => ["--xml-file"; filename]
         | _ => ["--live-check"]
         end in
  (In (UsageOf "verify") (steps m) <-> (2 <= length argv)%nat)
  /\ List.filter
       (fun s => match s with Did (Run _) => true | _ => false end)
       (steps m)
     = [Did (Run command_line)]
  /\ (In (Did (Print (fst (run w command_line)))) (steps m)
      <-> fst (run w command_line) <> EmptyString)
  /\ snd m = match stonith_level_verify h with
             | Some _ => Some (snd (run w command_line))
             | None => None
             end.
Proof.
  cbv zeta.
  set (command_line :=
         crm_verify h
           :: (if Py.has_key "-V" pcs_options then ["-V"] else [])
           ++ match argv with
              | [filename] => ["--xml-file"; filename]
              | _ => ["--live-check"]
              end).
  assert (Hm :
    cluster_verify w h pcs_options argv
    = ((if (1 <? length argv)%nat then [UsageOf "verify"] else [])
         ++ Did (Run command_line)
         :: (if String.eqb (fst (run w command_line)) EmptyString then []
             else [Did (Print (fst (run w command_line)))])
         ++ [Call "stonith.stonith_level_verify" []],
       match stonith_level_verify h with
       | Some _ => Some (snd (run w command_line))
       | None => None
       end)).
  { unfold cluster_verify. fold command_line.
    destruct (1 <? length argv)%nat; run_steps;
      destruct (run w command_line) as [output retval]; cbn [fst snd];
      destruct (String.eqb output EmptyString); run_steps;
      destruct (stonith_level_verify h) as [[]|]; reflexivity. }
  rewrite Hm. cbn [steps fst snd]. clear Hm.
  split; [|split; [|split; [|reflexivity]]].
  - destruct (Nat.ltb_spec 1 (length argv)) as [Hlt|Hge].
    + split; [intros _; lia|intros _; left; reflexivity].
    + split; [|intros H; lia].
      intros H. cbn [app In] in H. destruct H as [H|H]; [discriminate|].
      apply in_app_iff in H as [H|H].
      * destruct (String.eqb _ EmptyString); step_cases H.
      * step_cases H.
  - rewrite List.filter_app.
    destruct (1 <? length argv)%nat; cbn [List.filter app];
      rewrite List.filter_app;
      destruct (String.eqb _ EmptyString); reflexivity.
  - destruct (String.eqb_spec (fst (run w command_line)) EmptyString)
      as [Hout|Hout].
    + split; [|contradiction]. intros H. exfalso.
      apply in_app_iff in H as [H|H].
      * destruct (1 <? length argv)%nat; step_cases H.
      * step_cases H.
    + split; [intros _; exact Hout|intros _].
      apply in_app_iff. right. cbn [In app]. tauto.
Qed.

(** ** [cluster_setup]: what is checked before anything is changed *)

Lemma parse_nodes_spec h (nodes : list string) :
  (forall s, In s (steps (Setup.parse_nodes h nodes)) ->
             is_preparation s = true)
  /\ snd (Setup.parse_nodes h nodes) = mapM (parse_multiring_node h) nodes.
Proof.
  induction nodes as [|node rest [IHsteps IHresult]]; [split; [intros s []|reflexivity]|].
  cbn [Setup.parse_nodes mapM]. unfold ask_or_exit.
  destruct (parse_multiring_node h node) as [addr_list|]; cbn [cbind].
  - destruct (Setup.parse_nodes h rest) as [tr [parsed|]];
      cbn [cbind cret steps fst snd app] in *.
    + split.
      * intros s [<-|Hin]; [reflexivity|]. rewrite app_nil_r in Hin. auto.
      * rewrite <- IHresult. reflexivity.
    + split.
      * intros s [<-|Hin]; [reflexivity|]. auto.
      * rewrite <- IHresult. reflexivity.
  - split; [|reflexivity]. intros s [<-|[]]. reflexivity.
Qed.

Lemma resolve_addresses_spec e (all_addr_list : list string) :
  forall nodes_unresolvable,
    (forall s,
        In s (steps (Setup.resolve_addresses e all_addr_list nodes_unresolvable)) ->
        is_preparation s = true)
    /\ snd (Setup.resolve_addresses e all_addr_list nodes_unresolvable)
       = Some (nodes_unresolvable
               || negb (forallb (getaddrinfo e) all_addr_list)).
Proof.
  induction all_addr_list as [|node_addr rest IH]; intros acc.
  - split; [intros s []|]. cbn. rewrite orb_false_r. reflexivity.
  - cbn [Setup.resolve_addresses forallb].
    destruct (getaddrinfo e node_addr); cbn [andb negb].
    + destruct (IH acc) as [IHsteps IHresult].
      destruct (Setup.resolve_addresses e rest acc) as [tr r].
      cbn [ask cbind steps fst snd app] in *. split; [|exact IHresult].
      intros s [<-|Hin]; [reflexivity|auto].
    + destruct (IH true) as [IHsteps IHresult].
      destruct (Setup.resolve_addresses e rest true) as [tr r].
      cbn [ask say lift print call cbind steps fst snd app map] in *.
      split.
      * intros s [<-|[<-|Hin]]; [reflexivity|reflexivity|auto].
      * rewrite IHresult. rewrite orb_true_r. reflexivity.
Qed.

Lemma run_commands_spec w e (commands : list command) :
  forallb is_preparation (steps (Setup.run_commands w e commands)) = true
  /\ snd (Setup.run_commands w e commands)
     = Some (run_commands (run w) (conf_temp_name e) commands).
Proof.
  induction commands as [|cmd_item rest [IHsteps IHresult]];
    [split; reflexivity|].
  cbn [Setup.run_commands run_commands]. unfold exec, run_cmd, call, lift.
  cbn [map fst snd cbind].
  destruct (run w _) as [output retval].
  destruct (negb (retval =? 0)%Z).
  - split; reflexivity.
  - destruct (Setup.run_commands w e rest) as [tr r].
    cbn [steps fst snd app forallb] in *. split; [|exact IHresult].
    cbn [app is_preparation]. exact IHsteps.
Qed.

Lemma nodes_available_spec h (nodes : list string) :
  forall all_nodes_available,
    forallb is_preparation
      (steps (Setup.nodes_available h nodes all_nodes_available)) = true
    /\ snd (Setup.nodes_available h nodes all_nodes_available)
       = Some (all_nodes_available && all_available h nodes).
Proof.
  unfold all_available.
  induction nodes as [|node rest IH]; intros acc.
  - split; [reflexivity|]. cbn. rewrite andb_true_r. reflexivity.
  - cbn [Setup.nodes_available forallb]. unfold ask. cbn [cbind].
    destruct (canAddNodeToCluster h node) as [available message].
    destruct available; cbn [negb fst andb].
    + destruct (IH acc) as [IHsteps IHresult].
      destruct (Setup.nodes_available h rest acc) as [tr r].
      cbn [steps fst snd app forallb is_preparation] in *.
      split; [exact IHsteps|exact IHresult].
    + destruct (IH false) as [IHsteps IHresult].
      destruct (Setup.nodes_available h rest false) as [tr r].
      cbn [warn lift utils_err_continue call cbind steps fst snd app map
             forallb is_preparation andb] in *.
      split; [exact IHsteps|]. rewrite IHresult, andb_false_r. reflexivity.
Qed.

Lemma parse_nodes_steps h (nodes : list string) :
  forallb is_preparation (steps (Setup.parse_nodes h nodes)) = true.
Proof. apply forallb_forall, parse_nodes_spec. Qed.

Lemma resolve_addresses_steps e (all_addr_list : list string) acc :
  forallb is_preparation
    (steps (Setup.resolve_addresses e all_addr_list acc)) = true.
Proof. apply forallb_forall, resolve_addresses_spec. Qed.

Lemma prepares_bind {A} (stage : Cmd A) (k : A -> Cmd unit)
    (Q : Cmd unit -> Prop) :
  forallb is_preparation (steps stage) = true ->
  (forall a, snd stage = Some a -> prepares (k a) Q) ->
  prepares (cbind stage k) Q.
Proof.
  destruct stage as [tr [a|]]; cbn [steps fst snd]; intros Htr Hk.
  - destruct (Hk a eq_refl) as (pre & Hpre & [Hleave|(next & Hnext & Hgo)]).
    + exists (tr ++ pre). split; [rewrite forallb_app, Htr, Hpre; reflexivity|].
      left. cbn [cbind]. rewrite Hleave. reflexivity.
    + exists (tr ++ pre). split; [rewrite forallb_app, Htr, Hpre; reflexivity|].
      right. exists next. split; [exact Hnext|].
      cbn [cbind]. rewrite Hgo. cbn [cbind]. destruct next as [tr' r'].
      rewrite app_assoc. reflexivity.
  - exists tr. split; [exact Htr|]. left. reflexivity.
Qed.

Lemma prepares_done (m : Cmd unit) (Q : Cmd unit -> Prop) :
  Q m -> prepares m Q.
Proof.
  intros Hm. exists []. split; [reflexivity|]. right. exists m.
  split; [exact Hm|]. destruct m as [tr r]. reflexivity.
Qed.

Lemma prepares_leave (message : string) (Q : Cmd unit -> Prop) :
  prepares (fail message) Q.
Proof. exists [Did (Err message)]. split; [reflexivity|]. left. reflexivity. Qed.

Lemma setup_prepared w h e (pcs_options : gmap string string)
    cluster_name node more :
  prepares
    (Setup.cluster_setup w h e pcs_options (cluster_name :: node :: more))
    (prepared w h e pcs_options cluster_name (node :: more)).
Proof.
  unfold Setup.cluster_setup.
  apply prepares_bind.
  { unfold wait_option.
    destruct (_ && _); [|reflexivity].
    destruct (validate_wait_get_timeout h false); reflexivity. }
  intros [wait wait_timeout] Hwait.
  apply prepares_bind; [apply parse_nodes_steps|].
  intros parsed Hparsed.
  rewrite (proj2 (parse_nodes_spec h (node :: more))) in Hparsed.
  destruct (setup_node_list (is_rhel6 w) pcs_options parsed)
    as [node_list udpu_rrp] eqn:Hlist.
  apply prepares_bind.
  { destruct (udpu_rrp && _); reflexivity. }
  intros [] Hrrp.
  apply prepares_bind; [apply resolve_addresses_steps|].
  intros nodes_unresolvable Hresolve.
  rewrite (proj2 (resolve_addresses_spec e _ false)) in Hresolve.
  cbn [orb] in Hresolve. injection Hresolve as <-.
  apply prepares_bind.
  { destruct (negb _ && _); reflexivity. }
  intros [] Hforce.
  assert (Hrrp' : udpu_rrp
                   && negb (forallb (Py.has_key "ring1_addr") node_list)
                   = false)
    by (destruct (udpu_rrp && _); [discriminate Hrrp|reflexivity]).
  assert (Hforce' : negb (forallb (getaddrinfo e) (setup_all_addr_list parsed))
                    && negb (Py.has_key "--force" pcs_options) = false)
    by (destruct (negb _ && _); [discriminate Hforce|reflexivity]).
  clear Hrrp Hforce.
  destruct (if is_rhel6 w
            then cluster_setup_parse_options_cman pcs_options
                   (Py.has_key "--force" pcs_options)
            else cluster_setup_parse_options_corosync pcs_options
                   (Py.has_key "--force" pcs_options))
    as [options messages] eqn:Hoptions.
  apply prepares_bind; [reflexivity|].
  intros [] Hreports. cbn in Hreports.
  assert (Hreports' : reports_exit w messages = false)
    by (destruct (reports_exit w messages); [discriminate Hreports|reflexivity]).
  clear Hreports.
  apply prepares_bind.
  { destruct (is_rhel6 w); [|reflexivity].
    unfold Setup.cluster_setup_create_cluster_conf. rewrite steps_cbind.
    rewrite forallb_app.
    destruct (run_commands_spec w e
                (cluster_conf_commands cluster_name node_list
                   match rrp_mode (parsed_transport options) with
                   | Some _ => parsed_transport options
                   | None =>
                       if udpu_rrp
                       then set_rrp_mode "passive" (parsed_transport options)
                       else parsed_transport options
                   end (totem_options options))) as [-> ->].
    destruct (run_commands _ _ _); reflexivity. }
  intros [config messages0] Hconfig.
  apply prepares_bind; [reflexivity|].
  intros [] Hreports. cbn in Hreports.
  assert (Hreports0 : reports_exit w messages0 = false)
    by (destruct (reports_exit w messages0); [discriminate Hreports|reflexivity]).
  clear Hreports.
  apply prepares_done.
  exists wait, wait_timeout, parsed. eexists.
  split; [exact Hwait|]. split; [exact Hparsed|].
  split.
  { unfold cluster_setup_prepare. rewrite Hlist, Hrrp', Hforce', Hoptions.
    reflexivity. }
  cbn [plan_messages]. split; [exact Hreports'|].
  unfold config_messages, config_text. cbn [plan_config].
  destruct (is_rhel6 w).
  - unfold Setup.cluster_setup_create_cluster_conf in Hconfig.
    match type of Hconfig with
    | context [Setup.run_commands w e ?c] =>
        destruct (run_commands_spec w e c) as [_ Hrun];
        destruct (Setup.run_commands w e c) as [tr r]
    end.
    cbn [snd] in Hrun. subst r. cbn [cbind] in Hconfig.
    destruct (run_commands _ _ _) as [failed|];
      cbn [cret snd app default from_option id] in Hconfig |- *;
      injection Hconfig as <- <-; split; [exact Hreports0| |exact Hreports0|];
      reflexivity.
  - cbn [cret snd] in Hconfig. unfold cluster_setup_create_corosync_conf in Hconfig.
    injection Hconfig as <- <-. split; [exact Hreports0|reflexivity].
Qed.

Lemma availability_check h (nodes : list string) message :
  let check :=
    cbind (Setup.nodes_available h nodes true)
      (fun all_nodes_available =>
         cwhen (negb all_nodes_available) (fail message)) in
  forallb is_preparation (steps check) = true
  /\ (snd check = Some tt -> all_available h nodes = true).
Proof.
  cbv zeta. destruct (nodes_available_spec h nodes true) as [Hsteps Hresult].
  destruct (Setup.nodes_available h nodes true) as [tr r].
  cbn [steps fst snd andb] in *. subst r. cbn [cbind].
  destruct (all_available h nodes).
  - cbn. rewrite app_nil_r. split; [exact Hsteps|reflexivity].
  - cbn. rewrite forallb_app, Hsteps. split; [reflexivity|discriminate].
Qed.

(** X29: [cluster_setup] changes nothing before its checks are over.
    Until then it shows messages and the usage text, asks about the
    arguments, the addresses and the nodes and runs [ccs] on a temporary
    file; anything else is done only when there are a cluster name and
    at least one node, every node argument can be parsed, the addresses
    and the options give a plan (with RRP for all nodes or for none,
    every address resolved or [--force]), neither the reports of the
    options nor those of the configuration end the run, the timeout of
    [--wait] is valid and, unless [--force] is given, the
    configuration file is not there yet (with [--local]) or every node
    can be added to a cluster (without). *)
Theorem setup_checks_first w h e (pcs_options : gmap string string)
    (argv : list string) s :
  In s (steps (Setup.cluster_setup w h e pcs_options argv)) ->
  is_preparation s = false ->
  exists cluster_name nodes parsed plan,
    argv = cluster_name :: nodes
    /\ nodes <> []
    /\ mapM (parse_multiring_node h) nodes = Some parsed
    /\ cluster_setup_prepare (is_rhel6 w) (getaddrinfo e) pcs_options
         cluster_name parsed = inr plan
    /\ reports_exit w (plan_messages plan) = false
    /\ reports_exit w (config_messages w e plan) = false
    /\ (Py.has_key "--start" pcs_options && Py.has_key "--wait" pcs_options
        = true -> validate_wait_get_timeout h false <> None)
    /\ (Py.has_key "--force" pcs_options = true
        \/ if Py.has_key "--local" pcs_options
           then path_exists h (Setup.config_path w h e) = false
           else all_available h (map fst parsed) = true).
Proof.
  intros Hin Hs.
  destruct argv as [|cluster_name [|node more]];
    [destruct Hin as [<-|[]]; discriminate Hs
    |destruct Hin as [<-|[]]; discriminate Hs|].
  destruct (setup_prepared w h e pcs_options cluster_name node more)
    as (pre & Hpre & [Hleave|(next & Hnext & Hgo)]).
  { rewrite Hleave in Hin. cbn [steps fst] in Hin.
    rewrite (proj1 (forallb_forall _ _) Hpre s Hin) in Hs. discriminate Hs. }
  rewrite Hgo, steps_cbind in Hin. cbn [steps fst snd] in Hin.
  apply in_app_or in Hin as [Hin|Hin].
  { rewrite (proj1 (forallb_forall _ _) Hpre s Hin) in Hs. discriminate Hs. }
  destruct Hnext
    as (wait & wait_timeout & parsed & plan & Hwait & Hparsed & Hplan
        & Hreports & Hreports0 & ->).
  exists cluster_name, (node :: more), parsed, plan.
  split; [reflexivity|]. split; [discriminate|].
  split; [exact Hparsed|]. split; [exact Hplan|].
  split; [exact Hreports|]. split; [exact Hreports0|]. split.
  { intros Hwanted. rewrite Hwanted in Hwait. unfold wait_option in Hwait.
    destruct (validate_wait_get_timeout h false); [discriminate|].
    discriminate Hwait. }
  destruct (Py.has_key "--force" pcs_options) eqn:Hforce;
    [left; reflexivity|right].
  destruct (Py.has_key "--local" pcs_options).
  - unfold Setup.setup_local in Hin. rewrite Hforce in Hin.
    destruct (path_exists h (Setup.config_path w h e)); [|reflexivity].
    destruct Hin as [<-|[]]. discriminate Hs.
  - unfold Setup.setup_remote in Hin. rewrite Hforce in Hin.
    cbn [negb cwhen] in Hin.
    match type of Hin with
    | context [fail ?message] =>
        destruct (availability_check h (map fst parsed) message)
          as [Hsteps Hresult]
    end.
    apply in_steps_cbind in Hin as [Hin|(a & Ha & Hin)].
    + rewrite (proj1 (forallb_forall _ _) Hsteps s Hin) in Hs. discriminate Hs.
    + destruct a. exact (Hresult Ha).
Qed.

Lemma setup_checks_first_witness :
  exists parsed,
    mapM (parse_multiring_node calm_host) ["node1"; "node2"] = Some parsed
    /\ all_available calm_host (map fst parsed) = true.
Proof.
  destruct (setup_checks_first calm_world calm_host calm_setup no_option
              ["cluster"; "node1"; "node2"]
              (Did (DestroyCluster ["node1"; "node2"])))
    as (cluster_name & nodes & parsed & plan & Hargv & _ & Hparsed & _ & _
        & _ & _ & Hguard).
  - do 10 right. left. reflexivity.
  - reflexivity.
  - injection Hargv as <- <-. exists parsed. split; [exact Hparsed|].
    destruct Hguard as [Hforce|Havailable]; [discriminate Hforce|].
    exact Havailable.
Defined.

(** ** [cluster_setup]: what is written and what is torn down *)

Lemma all_bind {A B} (p : step -> bool) (m : Cmd A) (k : A -> Cmd B) :
  forallb p (steps m) = true ->
  (forall a, forallb p (steps (k a)) = true) ->
  forallb p (steps (cbind m k)) = true.
Proof.
  intros Hm Hk. rewrite steps_cbind, forallb_app, Hm.
  destruct (snd m); [apply Hk|reflexivity].
Qed.

Lemma all_when (p : step -> bool) (b : bool) (m : Cmd unit) :
  forallb p (steps m) = true -> forallb p (steps (cwhen b m)) = true.
Proof. intros Hm. destruct b; [exact Hm|reflexivity]. Qed.

Lemma all_lift {A} (p : step -> bool) (m : M A) :
  forallb (fun e => p (Did e)) (trace m) = true ->
  forallb p (steps (lift m)) = true.
Proof.
  unfold lift, steps, trace. cbn [fst]. intros Hm.
  induction (fst m) as [|ev tr IH]; [reflexivity|].
  cbn [map forallb] in *. apply andb_prop in Hm as [-> Htr]. exact (IH Htr).
Qed.

Lemma all_weaken (p q : step -> bool) (l : list step) :
  (forall s, p s = true -> q s = true) ->
  forallb p l = true -> forallb q l = true.
Proof.
  intros Hpq Hl. apply forallb_forall. intros s Hs.
  apply Hpq. exact (proj1 (forallb_forall _ _) Hl s Hs).
Qed.

Lemma filter_none (p : step -> bool) (l : list step) :
  forallb (fun s => negb (p s)) l = true -> List.filter p l = [].
Proof.
  induction l as [|s l IH]; [reflexivity|]. cbn [forallb List.filter].
  intros [Hs Hl]%andb_prop. apply negb_true_iff in Hs. rewrite Hs.
  exact (IH Hl).
Qed.

Lemma filter_steps_cbind {A B} (p : step -> bool) (m : Cmd A)
    (k : A -> Cmd B) :
  List.filter p (steps (cbind m k))
  = List.filter p (steps m)
      ++ match snd m with
         | Some a => List.filter p (steps (k a))
         | None => []
         end.
Proof.
  rewrite steps_cbind, List.filter_app. destruct (snd m); reflexivity.
Qed.

Ltac all_steps :=
  repeat first
    [ reflexivity
    | apply all_when
    | apply all_bind; [|intros] ].

Lemma wait_startup w (node_list : list string) timeout :
  forallb is_startup
    (steps (lift (wait_for_nodes_started w node_list timeout))) = true.
Proof.
  apply all_lift. unfold wait_for_nodes_started.
  apply only_bind; [reflexivity|intros _].
  destruct (negb (nonempty node_list)).
  - apply only_bind; [reflexivity|intros r].
    destruct r as [[[code output|exception] now]|]; [|reflexivity|reflexivity].
    destruct (negb (code =? 0)%Z); reflexivity.
  - apply only_bind; [reflexivity|intros error_list].
    apply only_when. reflexivity.
Qed.

Lemma start_services_startup w (service_list : list string) :
  forallb is_startup (steps (start_services w service_list)) = true.
Proof.
  induction service_list as [|service rest IH]; [reflexivity|].
  cbn [start_services].
  apply all_bind; [reflexivity|intros [output retval]].
  apply all_bind; [|intros _; exact IH]. all_steps.
Qed.

Lemma start_cluster_nodes_startup w (nodes : list string) :
  forallb is_startup (steps (start_cluster_nodes w nodes)) = true.
Proof. unfold start_cluster_nodes. all_steps. Qed.

Lemma wait_option_startup h (wanted : bool) :
  forallb is_startup (steps (wait_option h wanted)) = true.
Proof.
  unfold wait_option. destruct wanted; [|reflexivity].
  destruct (validate_wait_get_timeout h false); reflexivity.
Qed.

Lemma start_cluster_startup w h (pcs_options : gmap string string)
    (argv : list string) :
  forallb is_startup (steps (start_cluster w h pcs_options argv)) = true.
Proof.
  unfold start_cluster.
  apply all_bind; [apply wait_option_startup|intros [wait wait_timeout]].
  destruct (nonempty argv).
  - apply all_bind; [apply start_cluster_nodes_startup|intros _].
    apply all_when, wait_startup.
  - apply all_bind; [reflexivity|intros _].
    apply all_bind.
    { destruct (is_rhel6 w); [|reflexivity].
      apply all_bind; [reflexivity|intros retval].
      apply all_bind; [apply all_when; reflexivity|intros _].
      apply all_bind; [reflexivity|intros [output retval']].
      all_steps. }
    intros _.
    apply all_bind; [apply start_services_startup|intros _].
    apply all_when, wait_startup.
Qed.

Lemma enable_cluster_startup w e (argv : list string) :
  forallb is_startup (steps (Setup.enable_cluster w e argv)) = true.
Proof.
  unfold Setup.enable_cluster, Setup.enable_cluster_nodes.
  destruct (nonempty argv); [all_steps|].
  apply all_bind; [reflexivity|intros [items|]]; reflexivity.
Qed.

Lemma startup_no_write s : is_startup s = true -> is_config_write s = false.
Proof.
  destruct s as [ev| | | | |name arguments| |]; try discriminate.
  - destruct ev; try discriminate; reflexivity.
  - cbn [is_startup is_config_write]. intros Hname.
    destruct (String.eqb_spec name "setCorosyncConf") as [->|]; [|reflexivity].
    discriminate Hname.
Qed.

Lemma startup_no_teardown s : is_startup s = true -> is_teardown s = false.
Proof.
  destruct s as [ev| | | | |name arguments| |]; try discriminate.
  - destruct ev; try discriminate; reflexivity.
  - cbn [is_startup is_teardown existsb]. intros Hname.
    destruct (String.eqb_spec name "disableServices") as [->|];
      [discriminate Hname|].
    destruct (String.eqb_spec name "disable_service") as [->|];
      [discriminate Hname|].
    destruct (String.eqb_spec name "qdevice_net.client_destroy") as [->|];
      [discriminate Hname|].
    reflexivity.
Qed.

Lemma preparation_no_write s :
  is_preparation s = true -> is_config_write s = false.
Proof.
  destruct s as [ev| | | | |name arguments| |]; try discriminate;
    try reflexivity.
  - destruct ev; try discriminate; reflexivity.
  - cbn [is_preparation is_config_write]. intros Hname.
    destruct (String.eqb_spec name "setCorosyncConf") as [->|]; [|reflexivity].
    discriminate Hname.
Qed.

Lemma preparation_no_teardown s :
  is_preparation s = true -> is_teardown s = false.
Proof.
  destruct s as [ev| | | | |name arguments| |]; try discriminate;
    try reflexivity.
  - destruct ev; try discriminate; reflexivity.
  - cbn [is_preparation is_teardown existsb]. intros Hname.
    destruct (String.eqb_spec name "disableServices") as [->|];
      [discriminate Hname|].
    destruct (String.eqb_spec name "disable_service") as [->|];
      [discriminate Hname|].
    destruct (String.eqb_spec name "qdevice_net.client_destroy") as [->|];
      [discriminate Hname|].
    reflexivity.
Qed.

Lemma writes_later {A} (m : Cmd A) (k : A -> Cmd unit) target :
  forallb (fun s => negb (is_config_write s)) (steps m) = true ->
  (forall a, snd m = Some a -> writes (k a) target) ->
  writes (cbind m k) target.
Proof.
  unfold writes. cbv zeta. intros Hm Hk.
  rewrite filter_steps_cbind, quits_cbind, (filter_none _ _ Hm).
  cbn [app]. destruct (snd m) as [a|]; [exact (Hk a eq_refl)|].
  split; [left; reflexivity|discriminate].
Qed.

Lemma writes_now {A} (m : Cmd A) (k : A -> Cmd unit) target :
  List.filter is_config_write (steps m) = target ->
  (forall a, forallb is_startup (steps (k a)) = true) ->
  writes (cbind m k) target.
Proof.
  unfold writes. cbv zeta. intros Hm Hk.
  rewrite filter_steps_cbind, Hm.
  assert (Hrest : match snd m with
                  | Some a => List.filter is_config_write (steps (k a))
                  | None => []
                  end = []).
  { destruct (snd m) as [a|]; [|reflexivity].
    apply filter_none.
    apply (all_weaken is_startup); [|exact (Hk a)].
    intros s Hs. rewrite (startup_no_write s Hs). reflexivity. }
  rewrite Hrest, app_nil_r. split; [right; reflexivity|reflexivity].
Qed.

Lemma writes_never (m : Cmd unit) target :
  forallb (fun s => negb (is_config_write s)) (steps m) = true ->
  quits m = true ->
  writes m target.
Proof.
  unfold writes. cbv zeta. intros Hm Hquits.
  rewrite (filter_none _ _ Hm), Hquits. split; [left; reflexivity|discriminate].
Qed.

Lemma destroy_cluster_no_write w (nodes : list string) keep_going :
  forallb (fun s => negb (is_config_write s))
    (steps (lift (destroy_cluster w nodes keep_going))) = true.
Proof.
  apply all_lift. unfold destroy_cluster, parallel_for_nodes, call.
  destruct (nonempty nodes); [|reflexivity]. cbn [when bind].
  destruct (nonempty (error_list_of (destroyCluster w) nodes));
    [destruct keep_going|]; reflexivity.
Qed.

Lemma cluster_destroy_no_write w (pcs_options : gmap string string)
    (argv : list string) :
  forallb (fun s => negb (is_config_write s))
    (steps (cluster_destroy w pcs_options argv)) = true.
Proof.
  unfold cluster_destroy.
  destruct (Py.has_key "--all" pcs_options);
    [apply destroy_cluster_no_write|].
  rewrite remove_state_files_steps. destruct (is_rhel6 w); reflexivity.
Qed.

Lemma local_start_startup w h e (pcs_options : gmap string string)
    (wait : bool) wait_timeout :
  forallb is_startup
    (steps
       (cbind
          (cwhen (Py.has_key "--start" pcs_options)
             (start_cluster w h pcs_options []))
          (fun _ =>
             cbind
               (cwhen (Py.has_key "--enable" pcs_options)
                  (Setup.enable_cluster w e []))
               (fun _ =>
                  cwhen wait
                    (lift (wait_for_nodes_started w [] wait_timeout))))))
  = true.
Proof.
  apply all_bind; [apply all_when, start_cluster_startup|intros _].
  apply all_bind; [apply all_when, enable_cluster_startup|intros _].
  apply all_when, wait_startup.
Qed.

Lemma setup_local_writes w h e (pcs_options : gmap string string)
    config (wait : bool) wait_timeout :
  writes (Setup.setup_local w h e pcs_options config wait wait_timeout)
    [Call "setCorosyncConf" [config]].
Proof.
  unfold Setup.setup_local. cbv zeta.
  apply writes_later.
  { destruct (negb _ && _); reflexivity. }
  intros _ _.
  apply writes_later.
  { apply all_when. apply all_bind; [|intros _; apply cluster_destroy_no_write].
    destruct (negb _ && _); reflexivity. }
  intros _ _.
  apply writes_now; [reflexivity|].
  intros _. apply local_start_startup.
Qed.

Lemma print_warnings_steps (err_msgs : list string) :
  Setup.print_warnings err_msgs
  = (map (fun err_msg => Did (Print ("Warning: " +:+ err_msg))) err_msgs,
     Some tt).
Proof.
  induction err_msgs as [|err_msg rest IH]; [reflexivity|].
  cbn [Setup.print_warnings map]. rewrite IH. reflexivity.
Qed.

Lemma print_warnings_no_write (err_msgs : list string) :
  forallb (fun s => negb (is_config_write s))
    (steps (Setup.print_warnings err_msgs)) = true.
Proof.
  rewrite print_warnings_steps. cbn [steps fst].
  induction err_msgs as [|err_msg rest IH]; [reflexivity|exact IH].
Qed.

Lemma setup_remote_writes w h e (pcs_options : gmap string string)
    (primary_addr_list : list string) config (wait : bool) wait_timeout :
  writes
    (Setup.setup_remote w h e pcs_options primary_addr_list config wait
       wait_timeout)
    (map (fun node => Did (SetCorosyncConfig node config)) primary_addr_list).
Proof.
  unfold Setup.setup_remote.
  apply writes_later.
  { apply all_when.
    match goal with
    | |- context [fail ?message] =>
        destruct (availability_check h primary_addr_list message) as [Hsteps _]
    end.
    cbv zeta in Hsteps.
    apply (all_weaken is_preparation); [|exact Hsteps].
    intros s Hs. rewrite (preparation_no_write s Hs). reflexivity. }
  intros _ _.
  apply writes_later; [reflexivity|intros _ _].
  apply writes_later; [apply destroy_cluster_no_write|intros _ _].
  apply writes_later; [reflexivity|intros _ _].
  apply writes_later; [reflexivity|intros _ _].
  apply writes_later; [reflexivity|intros [output retval] _].
  apply writes_later; [apply print_warnings_no_write|intros _ _].
  apply writes_now.
  { rewrite sync_nodes_steps. cbn [steps fst].
    induction primary_addr_list as [|node rest IH]; [reflexivity|].
    cbn [map List.filter is_config_write]. rewrite IH. reflexivity. }
  intros _.
  apply all_bind.
  { apply all_when. apply all_bind; [reflexivity|intros _].
    apply start_cluster_nodes_startup. }
  intros _.
  apply all_bind; [apply all_when, enable_cluster_startup|intros _].
  apply all_bind; [reflexivity|intros _].
  apply all_bind; [reflexivity|intros _].
  apply all_when. apply all_bind; [reflexivity|intros _]. apply wait_startup.
Qed.

Lemma setup_local_teardown w h e (pcs_options : gmap string string)
    config (wait : bool) wait_timeout s :
  In s (steps (Setup.setup_local w h e pcs_options config wait wait_timeout)) ->
  is_teardown s = true ->
  Setup.config_path_overriden w pcs_options = false
  /\ (Py.has_key "--force" pcs_options = true
      \/ path_exists h (Setup.config_path w h e) = false
         /\ path_exists h (PyStr.path_join (cib_dir h) "cib.xml") = false).
Proof.
  unfold Setup.setup_local. cbv zeta. intros Hin Hs.
  apply in_steps_cbind in Hin as [Hin|([] & Hconfig & Hin)].
  { destruct (negb _ && _); [|destruct Hin].
    destruct Hin as [<-|[]]. discriminate Hs. }
  apply in_steps_cbind in Hin as [Hin|([] & _ & Hin)].
  - destruct (Setup.config_path_overriden w pcs_options); [destruct Hin|].
    split; [reflexivity|]. cbn [negb cwhen] in Hin.
    destruct (Py.has_key "--force" pcs_options); [left; reflexivity|right].
    cbn [negb andb] in Hconfig, Hin.
    destruct (path_exists h (Setup.config_path w h e));
      [discriminate Hconfig|].
    split; [reflexivity|].
    destruct (path_exists h (PyStr.path_join (cib_dir h) "cib.xml"));
      [|reflexivity].
    destruct Hin as [<-|[]]. discriminate Hs.
  - apply in_steps_cbind in Hin as [Hin|([] & _ & Hin)].
    + destruct Hin as [<-|[]]. discriminate Hs.
    + pose proof (local_start_startup w h e pcs_options wait wait_timeout)
        as Hstartup.
      rewrite (startup_no_teardown s
                 (proj1 (forallb_forall _ _) Hstartup s Hin)) in Hs.
      discriminate Hs.
Qed.

Lemma mapM_cons_nonempty {A B} (f : A -> option B) x (l : list A) parsed :
  mapM f (x :: l) = Some parsed -> parsed <> [].
Proof.
  cbn. destruct (f x); [|discriminate]. cbn.
  destruct (mapM f l); [|discriminate]. cbn. intros [= <-]. discriminate.
Qed.

(** X30: [cluster_setup] writes the configuration of its plan and no
    other: with [--local] it hands it to [setCorosyncConf] once, without
    it sends it to the ring 0 address of every node, in the order of
    the arguments.  A run that comes back has written it; a run that
    leaves has written it as said or not at all.  The text is the tree
    of the plan on corosync, and what the temporary file holds after
    the [ccs] commands on cman, empty when one of them failed.  With
    [--local] the cluster on the machine is torn down (shell commands,
    services disabled, nodes stopped and destroyed) only when the path
    of the configuration is not overridden on the command line, and
    then, without [--force], only when neither the configuration file
    nor the CIB is there. *)
Theorem setup_writes_plan w h e (pcs_options : gmap string string)
    (argv : list string) :
  let m := Setup.cluster_setup w h e pcs_options argv in
  let written := List.filter is_config_write (steps m) in
  (quits m = false -> written <> [])
  /\ (written = []
      \/ exists cluster_name nodes parsed plan,
           argv = cluster_name :: nodes
           /\ mapM (parse_multiring_node h) nodes = Some parsed
           /\ cluster_setup_prepare (is_rhel6 w) (getaddrinfo e) pcs_options
                cluster_name parsed = inr plan
           /\ written
              = if Py.has_key "--local" pcs_options
                then [Call "setCorosyncConf" [config_text w e plan]]
                else map (fun node =>
                            Did (SetCorosyncConfig node (config_text w e plan)))
                       (map fst parsed))
  /\ (Py.has_key "--local" pcs_options = true ->
      forall s,
        In s (steps m) ->
        is_teardown s = true ->
        Setup.config_path_overriden w pcs_options = false
        /\ (Py.has_key "--force" pcs_options = true
            \/ path_exists h (Setup.config_path w h e) = false
               /\ path_exists h (PyStr.path_join (cib_dir h) "cib.xml")
                  = false)).
Proof.
  cbv zeta.
  destruct argv as [|cluster_name [|node more]].
  1,2: split; [discriminate|]; split; [left; reflexivity|];
    intros _ s [<-|[]] Hs; discriminate Hs.
  destruct (setup_prepared w h e pcs_options cluster_name node more)
    as (pre & Hpre & [Hleave|(next & Hnext & Hgo)]).
  { rewrite Hleave. cbn [steps quits fst snd].
    assert (Hquiet : List.filter is_config_write pre = []).
    { apply filter_none. apply (all_weaken is_preparation); [|exact Hpre].
      intros s Hs. rewrite (preparation_no_write s Hs). reflexivity. }
    split; [discriminate|]. split; [left; exact Hquiet|].
    intros _ s Hin Hs.
    rewrite (preparation_no_teardown s
               (proj1 (forallb_forall _ _) Hpre s Hin)) in Hs.
    discriminate Hs. }
  rewrite Hgo, filter_steps_cbind, quits_cbind. cbn [steps fst snd].
  assert (Hquiet : List.filter is_config_write pre = []).
  { apply filter_none. apply (all_weaken is_preparation); [|exact Hpre].
    intros s Hs. rewrite (preparation_no_write s Hs). reflexivity. }
  rewrite Hquiet. cbn [app].
  destruct Hnext
    as (wait & wait_timeout & parsed & plan & Hwait & Hparsed & Hplan
        & Hreports & Hreports0 & Hnext).
  assert (Hwrites :
            writes next
              (if Py.has_key "--local" pcs_options
               then [Call "setCorosyncConf" [config_text w e plan]]
               else map (fun node =>
                           Did (SetCorosyncConfig node (config_text w e plan)))
                      (map fst parsed))).
  { rewrite Hnext. destruct (Py.has_key "--local" pcs_options);
      [apply setup_local_writes|apply setup_remote_writes]. }
  destruct Hwrites as [Hwritten Hback]. cbv zeta in Hwritten, Hback.
  split; [|split].
  - intros Hquits. rewrite (Hback Hquits).
    destruct (Py.has_key "--local" pcs_options); [discriminate|].
    pose proof (mapM_cons_nonempty _ _ _ _ Hparsed) as Hnonempty.
    destruct parsed; [contradiction|discriminate].
  - destruct Hwritten as [Hnone|Hsome]; [left; exact Hnone|right].
    exists cluster_name, (node :: more), parsed, plan.
    split; [reflexivity|]. split; [exact Hparsed|]. split; [exact Hplan|].
    exact Hsome.
  - intros Hlocal s Hin Hs. rewrite steps_cbind in Hin.
    cbn [steps fst snd] in Hin. apply in_app_or in Hin as [Hin|Hin].
    + rewrite (preparation_no_teardown s
                 (proj1 (forallb_forall _ _) Hpre s Hin)) in Hs.
      discriminate Hs.
    + rewrite Hnext, Hlocal in Hin.
      exact (setup_local_teardown w h e pcs_options _ _ _ s Hin Hs).
Qed.

Lemma setup_writes_plan_witness :
  Setup.config_path_overriden calm_world local_option = false
  /\ path_exists calm_host
       (PyStr.path_join (cib_dir calm_host) "cib.xml") = false.
Proof.
  destruct (setup_writes_plan calm_world calm_host calm_setup local_option
              ["cluster"; "node1"; "node2"]) as (_ & _ & Hteardown).
  destruct (Hteardown eq_refl (System "service pacemaker stop"))
    as [Hpath [Hforce|[_ Hcib]]].
  - do 7 right. left. reflexivity.
  - reflexivity.
  - discriminate Hforce.
  - split; [exact Hpath|exact Hcib].
Defined.
